(** * Catalog generation (calibre/library/catalog.py): a shallow embedding

    The development follows the Python module: the CSV writer of
    [CSV_XML.run], the option validation of [EPUB_MOBI.run], and the
    [CatalogBuilder] helpers and section generators.

    Conventions of the embedding
    - Python text is [string]; a character is an 8-bit [ascii], the code
      points below U+0100 of a unicode text.  The regular expression
      classes used by the module ([a-zA-Z], [0-9], \D) only ever
      distinguish ASCII letters and digits, so every other character is a
      symbol to them, as every other code point is in the source; white
      space and letter case are those of unicode on these code points.
    - A Python exception is the [None] of an [option] result.
    - A dictionary is a [gmap] where it is only looked up, a list of pairs
      where the order of its keys is read.
    - A float is its exact rational value, or an infinity or a NaN.
    - The builder is a record of the fields the generators read and
      assign; what comes from the database, the device and the clock is a
      record of inputs. *)

From Stdlib Require Import ZArith QArith Qabs Ascii String List Lia Bool.
From stdpp Require Import base option list gmap strings sorting.

Local Open Scope Z_scope.

(** ** Text helpers (Python built-ins used by the module) *)

Module Text.

(** The double quote character, code 34. *)
Definition dquote : ascii := Ascii.ascii_of_nat 34.
Definition newline : ascii := Ascii.ascii_of_nat 10.
Definition cr : ascii := Ascii.ascii_of_nat 13.

Definition str1 (c : ascii) : string := String c EmptyString.

(** [sep.join(l)] *)
Fixpoint join (sep : string) (l : list string) : string :=
  match l with
  | [] => ""
  | [x] => x
  | x :: rest => x +:+ sep +:+ join sep rest
  end.

(** [ord(c)] *)
Definition code (c : ascii) : Z := Z.of_N (Ascii.N_of_ascii c).

Definition is_digit (c : ascii) : bool := (48 <=? code c) && (code c <=? 57).
Definition is_upper (c : ascii) : bool := (65 <=? code c) && (code c <=? 90).
Definition is_lower (c : ascii) : bool := (97 <=? code c) && (code c <=? 122).
(** [re.search('[a-zA-Z]', c)] on a single character *)
Definition is_alpha (c : ascii) : bool := is_upper c || is_lower c.
(** [c.isspace()] of a unicode character below U+0100: the space, U+0009
    to U+000D, the separators U+001C to U+001F, U+0085 and U+00A0. *)
Definition is_space (c : ascii) : bool :=
  (code c =? 32) || ((9 <=? code c) && (code c <=? 13))
  || ((28 <=? code c) && (code c <=? 31)) || (code c =? 133) || (code c =? 160).

(** The other cased letters below U+0100: the capitals U+00C0 to U+00DE
    (U+00D7 is the multiplication sign) and the small letters U+00E0 to
    U+00FE (U+00F7 is the division sign), 32 apart as the ASCII ones. *)
Definition is_upper_latin (c : ascii) : bool :=
  (192 <=? code c) && (code c <=? 222) && negb (code c =? 215).
Definition is_lower_latin (c : ascii) : bool :=
  (224 <=? code c) && (code c <=? 254) && negb (code c =? 247).

(** [c.upper()] and [c.lower()] of a unicode character.  The capitals of
    U+00B5 and U+00FF lie beyond U+00FF, where a text of this embedding has
    no character; the two are left as they are. *)
Definition upper_char (c : ascii) : ascii :=
  if is_lower c || is_lower_latin c then Ascii.ascii_of_N (Ascii.N_of_ascii c - 32)
  else c.
Definition lower_char (c : ascii) : ascii :=
  if is_upper c || is_upper_latin c then Ascii.ascii_of_N (Ascii.N_of_ascii c + 32)
  else c.

Fixpoint map_string (f : ascii -> ascii) (s : string) : string :=
  match s with
  | EmptyString => EmptyString
  | String c s' => String (f c) (map_string f s')
  end.

Definition upper := map_string upper_char.
Definition lower := map_string lower_char.

Fixpoint filter_string (p : ascii -> bool) (s : string) : string :=
  match s with
  | EmptyString => EmptyString
  | String c s' => if p c then String c (filter_string p s') else filter_string p s'
  end.

(** [s.replace(old, new)] for a non-empty [old]: occurrences are replaced
    from the left and do not overlap.  [skip] counts the characters of a
    replaced occurrence that are still to be dropped. *)
Fixpoint replace_from (old new : string) (skip : nat) (s : string) : string :=
  match s with
  | EmptyString => EmptyString
  | String c s' =>
      match skip with
      | S k => replace_from old new k s'
      | O => if String.prefix old s
             then new +:+ replace_from old new (Nat.pred (String.length old)) s'
             else String c (replace_from old new O s')
      end
  end.

Definition replace (old new s : string) : string :=
  match old with
  | EmptyString => s
  | _ => replace_from old new O s
  end.

(** [s.rpartition(sep)[2]] for a one-character separator: the text after
    the last separator, the whole text when there is none. *)
Fixpoint after_last (sep : ascii) (s : string) : string :=
  match s with
  | EmptyString => EmptyString
  | String c s' =>
      if existsb (Ascii.eqb sep) (list_ascii_of_string s')
      then after_last sep s'
      else if Ascii.eqb c sep then s' else s
  end.

(** Decimal digits of a natural number, most significant first. *)
Definition digit_char (d : N) : ascii :=
  Ascii.ascii_of_N (48 + d).

Fixpoint dec_digits (fuel : nat) (n : N) (acc : string) : string :=
  match fuel with
  | O => acc
  | S f =>
      let acc' := String (digit_char (n mod 10)) acc in
      if (n <? 10)%N then acc' else dec_digits f (n / 10) acc'
  end.

(** ['%d' % n] for [n >= 0] *)
Definition str_of_N (n : N) : string :=
  dec_digits (S (N.to_nat (N.log2 n))) n "".

(** ['%d' % z] *)
Definition str_of_Z (z : Z) : string :=
  if z <? 0 then "-" +:+ str_of_N (Z.to_N (- z)) else str_of_N (Z.to_N z).

Fixpoint spaces (n : nat) : string :=
  match n with O => "" | S k => String " " (spaces k) end.

(** Right alignment in a field of [w] characters, as ['%10s'] pads. *)
Definition pad_left (w : nat) (s : string) : string :=
  spaces (w - String.length s) +:+ s.
Global Arguments pad_left : simpl never.
Global Arguments str_of_N : simpl never.
Global Arguments str_of_Z : simpl never.

(** Python compares text by code point, position by position. *)
Fixpoint str_ltb (a b : string) : bool :=
  match a, b with
  | EmptyString, EmptyString => false
  | EmptyString, String _ _ => true
  | String _ _, EmptyString => false
  | String x a', String y b' =>
      if (code x <? code y) then true
      else if (code y <? code x) then false
      else str_ltb a' b'
  end.

Definition str_leb (a b : string) : bool := negb (str_ltb b a).

Fixpoint take_while (p : ascii -> bool) (s : string) : string :=
  match s with
  | EmptyString => EmptyString
  | String c s' => if p c then String c (take_while p s') else EmptyString
  end.

Fixpoint drop_while (p : ascii -> bool) (s : string) : string :=
  match s with
  | EmptyString => EmptyString
  | String c s' => if p c then drop_while p s' else s
  end.

(** The number a text of decimal digits reads as. *)
Definition digits_value (s : string) : N :=
  fold_left (fun acc c => (acc * 10 + Z.to_N (code c - 48))%N)
            (list_ascii_of_string s) 0%N.

(** Modelled from the spec: [capitalize] of calibre.utils.icu is not under
    src/; the first word of a sort title ``is capitalized'': the first
    character in upper case, the rest in lower case (Python's
    [str.capitalize] does the same). *)
Definition capitalize (s : string) : string :=
  match s with
  | EmptyString => EmptyString
  | String c s' => String (upper_char c) (lower s')
  end.

(** [s.lstrip(c)] for one character. *)
Definition lstrip_char (c : ascii) (s : string) : string :=
  drop_while (Ascii.eqb c) s.

(** The [k] low decimal digits of [n], most significant first. *)
Fixpoint digs (k : nat) (n : N) : string :=
  match k with
  | O => EmptyString
  | S k' => digs k' (n / 10) +:+ str1 (digit_char (n mod 10))
  end.

(** A text of characters below ['A']: it has no letter. *)
Definition plain (s : string) : Prop :=
  forallb (fun c => code c <? 65) (list_ascii_of_string s) = true.

Definition all_digits (s : string) : bool :=
  forallb is_digit (list_ascii_of_string s).

(** The loop of [s.split()]: [word] is the word being read, its
    characters last first. *)
Fixpoint split_ws_from (word : string) (s : string) : list string :=
  match s with
  | EmptyString =>
      match word with
      | EmptyString => []
      | _ => [String.rev word]
      end
  | String c s' =>
      if is_space c then
        match word with
        | EmptyString => split_ws_from EmptyString s'
        | _ => String.rev word :: split_ws_from EmptyString s'
        end
      else split_ws_from (String c word) s'
  end.

(** [s.split()] of a unicode text: the words between runs of white space. *)
Definition split_ws (s : string) : list string := split_ws_from EmptyString s.

End Text.

(** ** CSV_XML.run, the branch [self.fmt == 'csv'] *)

Module Csv.
Import Text.

(** A value of a book record.  The database layer is external; a value
    that is not text carries the text [unicode()] gives for it, and an
    object carries the text calibre's [isoformat] gives when it is a date. *)
Inductive pyval :=
| PNone
| PStr (s : string)
| PList (l : list string) (shown : string)
| PObj (shown : string) (iso : option string).

(** [unicode(item)] *)
Definition unicode (v : pyval) : string :=
  match v with
  | PNone => "None"
  | PStr s => s
  | PList _ shown => shown
  | PObj shown _ => shown
  end.

(** Iterating over a value: a list gives its elements, a text its
    characters; anything else raises [TypeError]. *)
Definition iter_items (v : pyval) : option (list string) :=
  match v with
  | PList l _ => Some l
  | PStr s => Some (map str1 (list_ascii_of_string s))
  | _ => None
  end.

(** The UTF-8 byte order mark ['\xef\xbb\xbf']. *)
Definition BOM : string :=
  String (Ascii.ascii_of_nat 239)
    (String (Ascii.ascii_of_nat 187) (String (Ascii.ascii_of_nat 191) EmptyString)).

Definition dq : string := str1 dquote.
Definition nl : string := str1 newline.

Section Run.

(** [db.get_field(id, field, index_is_id=True)] for custom columns. *)
Variable get_field : pyval -> string -> pyval.
(** [opts.connected_device['is_device_connected']] and
    [db.catalog_plugin_on_device_temp_mapping[id]['ondevice']]. *)
Variable is_device_connected : bool.
Variable on_device : pyval -> option pyval.

Definition entry := gmap string pyval.

(** Lines 123-126: the item of a field. *)
Definition field_item (e : entry) (field : string) : option pyval :=
  if String.prefix "#" field
  then id ← e !! "id"; Some (get_field id field)
  else e !! field.

(** Lines 130-144: the per-field conversions of an item that is not
    [None].  The result is the item that reaches line 145. *)
Definition convert_item (field : string) (item : pyval) : option pyval :=
  if decide (field = "formats") then
    fmts ← iter_items item;
    Some (PStr (join ", " (map (fun format => lower (after_last "." format)) fmts)))
  else if decide (field = "authors" ∨ field = "tags") then
    l ← iter_items item; Some (PStr (join ", " l))
  else if decide (field = "isbn") then
    match item with
    | PStr s => Some (PStr (filter_string is_digit s))
    | _ => None
    end
  else if decide (field = "pubdate" ∨ field = "timestamp") then
    match item with
    | PObj _ (Some iso) => Some (PStr iso)
    | _ => None
    end
  else if decide (field = "comments") then
    match item with
    | PStr s => Some (PStr (replace nl " " (replace (str1 cr +:+ nl) " " s)))
    | _ => None
    end
  else Some item.

(** Lines 121-145: the loop over the fields of one entry, [outstr] being
    the list built so far. *)
Fixpoint fields_loop (e : entry) (fields : list string) (outstr : list string)
  : option (list string) :=
  match fields with
  | [] => Some outstr
  | field :: rest =>
      item ← field_item e field;
      match item with
      | PNone => fields_loop e rest (outstr ++ [dq +:+ dq])
      | _ =>
          item' ← convert_item field item;
          fields_loop e rest
            (outstr ++ [dq +:+ replace dq (dq +:+ dq) (unicode item') +:+ dq])
      end
  end.

(** Lines 120-147: the loop over the entries; [outfile] is the text
    written so far. *)
Fixpoint entries_loop (fields : list string) (data : list entry) (outfile : string)
  : option string :=
  match data with
  | [] => Some outfile
  | e :: rest =>
      outstr ← fields_loop e fields [];
      entries_loop fields rest (outfile +:+ (join "," outstr +:+ nl))
  end.

(** Lines 106-108: the [ondevice] values are filled in first. *)
Fixpoint add_on_device (data : list entry) : option (list entry) :=
  match data with
  | [] => Some []
  | e :: rest =>
      id ← e !! "id";
      v ← on_device id;
      rest' ← add_on_device rest;
      Some (<["ondevice" := v]> e :: rest')
  end.

(** Lines 105-148.  [fields] is the result of [get_output_fields], [data]
    the result of [search_sort_db]; the result is the text of the output
    file. *)
Definition run_csv (fields : list string) (data : list entry) : option string :=
  data' ← (if is_device_connected && bool_decide ("ondevice" ∈ fields)
           then add_on_device data else Some data);
  entries_loop fields data' (BOM +:+ (join "," fields +:+ nl)).

(** *** The format as the specification words it *)

(** The item of a field after conversion; [Some None] is a [None] value. *)
Definition field_text (e : entry) (field : string) : option (option string) :=
  item ← field_item e field;
  match item with
  | PNone => Some None
  | _ => item' ← convert_item field item; Some (Some (unicode item'))
  end.

(** Every double quote written twice. *)
Fixpoint doubled (s : string) : string :=
  match s with
  | EmptyString => EmptyString
  | String c s' =>
      if Ascii.eqb c dquote then String dquote (String dquote (doubled s'))
      else String c (doubled s')
  end.

Definition csv_cell (t : option string) : string :=
  match t with
  | None => dq +:+ dq
  | Some s => dq +:+ doubled s +:+ dq
  end.

Definition csv_line (cells : list (option string)) : string :=
  join "," (map csv_cell cells) +:+ nl.

Fixpoint concat_lines (ls : list string) : string :=
  match ls with
  | [] => ""
  | l :: rest => l +:+ concat_lines rest
  end.

(** The record a line is written from: the record of the data, with its
    [ondevice] value filled in when a device is connected and the field is
    requested. *)
Definition written_record (fields : list string) (e : entry) : option entry :=
  if is_device_connected && bool_decide ("ondevice" ∈ fields)
  then id ← e !! "id"; v ← on_device id; Some (<["ondevice" := v]> e)
  else Some e.

(** The cells of the line of a record: the texts of the requested fields,
    in their order. *)
Definition record_cells (fields : list string) (e : entry)
    (cells : list (option string)) : Prop :=
  exists e', written_record fields e = Some e'
             /\ Forall2 (fun f t => field_text e' f = Some t) fields cells.

(** The number of line breaks of a text. *)
Definition line_breaks (s : string) : nat :=
  length (List.filter (Ascii.eqb newline) (list_ascii_of_string s)).

(** No text of the cells has a line break. *)
Definition single_line (cells : list (option string)) : Prop :=
  Forall (fun t => forall s, t = Some s -> line_breaks s = 0%nat) cells.

(** C8 as the specification words it: whatever the records, the file is
    the header line and one line per record. *)
Definition one_line_per_record (fields : list string) (data : list entry) : Prop :=
  forall out, run_csv fields data = Some out -> line_breaks out = S (length data).

End Run.
End Csv.

(** ** Python floats, as far as the module uses them

    A finite float is its exact rational value (every double is a
    rational); comparisons are then exact, as they are on doubles.  The
    embedding has no negative zero. *)

Module PyFloat.
Import Text.

Inductive pyfloat :=
| Finite (q : Q)
| PosInf
| NegInf
| NaN.

(** [x < y]; every comparison with a NaN is false. *)
Definition lt (x y : pyfloat) : bool :=
  match x, y with
  | NaN, _ | _, NaN => false
  | Finite a, Finite b => negb (Qle_bool b a)
  | NegInf, NegInf => false
  | NegInf, _ => true
  | Finite _, PosInf => true
  | _, _ => false
  end.

(** Rounding to the nearest integer, ties to the even one. *)
Definition round_half_even (q : Q) : Z :=
  let n := Qnum q in
  let d := Zpos (Qden q) in
  let fl := n / d in
  let r := n mod d in
  if 2 * r <? d then fl
  else if d <? 2 * r then fl + 1
  else if Z.even fl then fl else fl + 1.

Definition pow10 (k : nat) : Z := 10 ^ Z.of_nat k.

Fixpoint zeros (n : nat) : string :=
  match n with O => "" | S k => String "0" (zeros k) end.

Definition zero_pad (w : nat) (s : string) : string :=
  zeros (w - String.length s) +:+ s.

(** ['%.<prec>f' % q] for [0 <= q < 1e50]. *)
Definition fixed_nonneg (prec : nat) (q : Q) : string :=
  let n := round_half_even (q * inject_Z (pow10 prec)) in
  let ip := n / pow10 prec in
  let fp := n mod pow10 prec in
  str_of_Z ip +:+
  match prec with
  | O => ""
  | S _ => "." +:+ zero_pad prec (str_of_Z fp)
  end.

Fixpoint strip_trailing_zeros_rev (r : list ascii) : list ascii :=
  match r with
  | c :: r' => if Ascii.eqb c "0" then strip_trailing_zeros_rev r' else r
  | [] => []
  end.

Definition strip_trailing_zeros (s : string) : string :=
  string_of_list_ascii (rev (strip_trailing_zeros_rev (rev (list_ascii_of_string s)))).

(** ['%.<prec>g' % q] for [q >= 1e50]: [max prec 1] significant digits,
    trailing zeros dropped, exponent of at least two digits.  Python 2
    formats a ['%f'] of such a value this way (formatfloat switches the
    type to ['g'] when [fabs(x) >= 1e50]). *)
Definition exponent_large (prec : nat) (q : Q) : string :=
  let p := Nat.max prec 1 in
  let x0 := (String.length (str_of_Z (Qnum q / Zpos (Qden q))) - 1)%nat in
  let m0 := round_half_even (q / inject_Z (pow10 (x0 - (p - 1)))) in
  let '(m, x) := if pow10 p <=? m0 then (m0 / 10, S x0) else (m0, x0) in
  match str_of_Z m with
  | EmptyString => EmptyString
  | String d rest =>
      let frac := strip_trailing_zeros rest in
      String d (match frac with EmptyString => "" | _ => "." +:+ frac end)
      +:+ "e+" +:+ zero_pad 2 (str_of_N (N.of_nat x))
  end.

Definition ten_to_50 : Q := inject_Z (10 ^ 50).

(** ['%.<prec>f' % x] *)
Definition fmt_f (prec : nat) (x : pyfloat) : string :=
  match x with
  | NaN => "nan"
  | PosInf => "inf"
  | NegInf => "-inf"
  | Finite q =>
      let a := Qabs q in
      let body := if Qle_bool ten_to_50 a then exponent_large prec a
                  else fixed_nonneg prec a in
      if Qle_bool 0 q then body else "-" +:+ body
  end.
Global Arguments fmt_f : simpl never.

(** [float(s)] for a text [s] of decimal digits with value [n]: the
    nearest double, ties to the even significand; infinite from [2^1024 -
    2^970] on. *)
Definition float_of_digits (n : N) : pyfloat :=
  if (n <? 2 ^ 53)%N then Finite (inject_Z (Z.of_N n))
  else
    let e := (N.log2 n - 52)%N in
    let q := (n / 2 ^ e)%N in
    let r := (n mod 2 ^ e)%N in
    let half := (2 ^ (e - 1))%N in
    let q' := if (r <? half)%N then q
              else if (half <? r)%N then (q + 1)%N
              else if N.even q then q else (q + 1)%N in
    let v := (q' * 2 ^ e)%N in
    if (2 ^ 1024 <=? v)%N then PosInf else Finite (inject_Z (Z.of_N v)).

End PyFloat.

(** ** EPUB_MOBI.run, lines 4973-4984: the limits of [thumb_width] *)

Module ThumbWidth.
Import Text PyFloat.

(** An option value, with what [float()] makes of it: [None] when
    [float()] raises. *)
Record optval := { shown : string; as_float : option pyfloat }.

Definition text_value (s : string) (f : pyfloat) : optval :=
  {| shown := s; as_float := Some f |}.

Definition THUMB_SMALLEST : optval := text_value "1.0" (Finite 1).
Definition THUMB_LARGEST : optval := text_value "2.0" (Finite 2).

(** The [try] block; [None] is an exception raised in it. *)
Definition limit_thumb_width (thumb_width : optval) : option string :=
  f ← as_float thumb_width;
  small ← as_float THUMB_SMALLEST;
  let thumb_width1 := if lt f small then THUMB_SMALLEST else thumb_width in
  f1 ← as_float thumb_width1;
  large ← as_float THUMB_LARGEST;
  let thumb_width2 := if lt large f1 then THUMB_LARGEST else thumb_width1 in
  f2 ← as_float thumb_width2;
  Some (fmt_f 2 f2).

(** The statement with its [except] clause: the value of
    [opts.thumb_width] afterwards. *)
Definition validate_thumb_width (thumb_width : optval) : string :=
  match limit_thumb_width thumb_width with
  | Some s => s
  | None => "1.0"
  end.

(** *** The specification's wording *)

(** A text of one digit, a point and two digits that reads as a value
    between 1.00 and 2.00. *)
Definition two_decimal_in_range (s : string) : bool :=
  match s with
  | String a (String p (String b (String c EmptyString))) =>
      Ascii.eqb p "." && is_digit a && is_digit b && is_digit c &&
      let v := (code a - 48) * 100 + (code b - 48) * 10 + (code c - 48) in
      (100 <=? v) && (v <=? 200)
  | _ => false
  end.

(** The float limited to the interval from 1.0 to 2.0. *)
Definition clamp (f : pyfloat) : Q :=
  match f with
  | Finite q =>
      if negb (Qle_bool 1 q) then 1%Q else if negb (Qle_bool q 2) then 2%Q else q
  | NegInf => 1%Q
  | _ => 2%Q
  end.

(** What [fixed_nonneg 2] writes for the hundredths [n]. *)
Definition render_hundredths (n : Z) : string :=
  str_of_Z (n / pow10 2) +:+ "." +:+ zero_pad 2 (str_of_Z (n mod pow10 2)).

(** C10 as the specification words it: every input ends as a two-decimal
    text between 1.00 and 2.00. *)
Definition always_two_decimal : Prop :=
  forall tw : optval, two_decimal_in_range (validate_thumb_width tw) = true.

End ThumbWidth.

(** ** CatalogBuilder.generateThumbnail: the thumbnail cache *)

Module Thumbs.
Import Text.

(** The content of a file. *)
Definition bytes := string.

(** [zlib.crc32]: CRC-32 with the reflected polynomial [0xEDB88320], as a
    signed 32-bit integer (Python 2). *)
Definition crc_bit (c : Z) : Z :=
  if Z.odd c then Z.lxor (Z.shiftr c 1) 3988292384 else Z.shiftr c 1.

Definition crc_byte (crc : Z) (b : ascii) : Z :=
  let c := Z.lxor crc (code b) in
  crc_bit (crc_bit (crc_bit (crc_bit (crc_bit (crc_bit (crc_bit (crc_bit c))))))).

Definition crc32_unsigned (data : bytes) : Z :=
  Z.lxor (fold_left crc_byte (list_ascii_of_string data) 4294967295) 4294967295.

Definition crc32 (data : bytes) : Z :=
  let u := crc32_unsigned data in
  if 2 ^ 31 <=? u then u - 2 ^ 32 else u.

(** [hex(n)] *)
Definition hex_digit (d : Z) : ascii :=
  if d <? 10 then Ascii.ascii_of_nat (Z.to_nat (48 + d))
  else Ascii.ascii_of_nat (Z.to_nat (87 + d)).

Fixpoint hex_digits (fuel : nat) (n : Z) (acc : string) : string :=
  match fuel with
  | O => acc
  | S f =>
      let acc' := String (hex_digit (n mod 16)) acc in
      if n <? 16 then acc' else hex_digits f (n / 16) acc'
  end.

Definition hex (n : Z) : string :=
  let a := Z.abs n in
  (if n <? 0 then "-0x" else "0x") +:+ hex_digits (S (Z.to_nat (Z.log2 a))) a "".

(** A member of the zip archive: name, comment, data. *)
Record zip_entry := { ze_name : string; ze_comment : string; ze_data : bytes }.

(** The archive [thumbs.zip]: its members in the order written. *)
Definition archive := list zip_entry.

(** [ZipFile.getinfo(name)]: the directory is read in order into a
    dictionary, so the last member of a name is the one found; [None] is
    the [KeyError] for a name that is not there. *)
Fixpoint getinfo (name : string) (zf : archive) : option zip_entry :=
  match zf with
  | [] => None
  | e :: rest =>
      match getinfo name rest with
      | Some e' => Some e'
      | None => if decide (ze_name e = name) then Some e else None
      end
  end.

(** The files on disk and the archive. *)
Record store := { files : gmap string bytes; thumbs_zip : archive }.

(** The fields of a title that the function reads; [cover] is absent for
    a book without one. *)
Record title := { cover : option string; uuid : string }.

(** [os.path.join(dir, name)] *)
Definition path_join (dir name : string) : string := dir +:+ "/" +:+ name.

Section Generate.

(** [thumbnail(data, width, height)[-1]] of calibre.utils.magick.draw at
    the builder's dimensions; [None] when the codec raises. *)
Variable thumbnail : bytes -> option bytes.

(** Lines 4651-4661: a new thumbnail, written to the images directory and
    appended to the archive with the crc as its comment. *)
Definition save_new_thumb (t : title) (image_dir thumb_file : string)
    (data : bytes) (cover_crc : string) (st : store) : option store :=
  thumb_data ← thumbnail data;
  let t_info := {| ze_name := uuid t; ze_comment := cover_crc; ze_data := thumb_data |} in
  Some {| files := <[path_join image_dir thumb_file := thumb_data]> (files st);
          thumbs_zip := thumbs_zip st ++ [t_info] |}.

(** Lines 4632-4661.  [None] is an exception. *)
Definition generateThumbnail (t : title) (image_dir thumb_file : string)
    (st : store) : option store :=
  c ← cover t;
  data ← files st !! c;
  let cover_crc := hex (crc32 data) in
  match getinfo (uuid t) (thumbs_zip st) with
  | Some t_info =>
      if decide (ze_comment t_info = cover_crc) then
        (* zfr.extract, then os.rename *)
        let extracted := <[path_join image_dir (uuid t) := ze_data t_info]> (files st) in
        let renamed :=
          <[path_join image_dir thumb_file := ze_data t_info]>
            (delete (path_join image_dir (uuid t)) extracted) in
        Some {| files := renamed; thumbs_zip := thumbs_zip st |}
      else save_new_thumb t image_dir thumb_file data cover_crc st
  | None => save_new_thumb t image_dir thumb_file data cover_crc st
  end.

End Generate.

(** *** The specification's wording *)

(** The archive holds an entry for the book whose recorded hash is the
    crc of the cover's bytes. *)
Definition cached (t : title) (data : bytes) (zf : archive) : Prop :=
  exists e, getinfo (uuid t) zf = Some e /\ ze_comment e = hex (crc32 data).

(** The archived thumbnail is reused: it is the file written, and the
    archive stays as it was. *)
Definition reuses (t : title) (path : string) (st st' : store) : Prop :=
  thumbs_zip st' = thumbs_zip st /\
  exists e, getinfo (uuid t) (thumbs_zip st) = Some e /\
            files st' !! path = Some (ze_data e).

(** A new thumbnail is written and stored with the crc. *)
Definition stores_new (t : title) (path : string) (data thumb : bytes)
    (st st' : store) : Prop :=
  let t_info := {| ze_name := uuid t; ze_comment := hex (crc32 data);
                   ze_data := thumb |} in
  files st' !! path = Some thumb /\
  thumbs_zip st' = thumbs_zip st ++ [t_info] /\
  getinfo (uuid t) (thumbs_zip st') = Some t_info.

End Thumbs.

(** ** Dates (Python's datetime, as far as the module uses it)

    A [datetime] is its fields; all datetimes of a run are taken in one
    time zone. *)

Module Dates.

Record datetime := {
  year : Z; month : Z; day : Z;
  hour : Z; minute : Z; second : Z; microsecond : Z
}.

Definition is_leap (y : Z) : bool :=
  (y mod 4 =? 0) && (negb (y mod 100 =? 0) || (y mod 400 =? 0)).

Definition days_in_month (y m : Z) : Z :=
  if m =? 2 then (if is_leap y then 29 else 28)
  else if (m =? 4) || (m =? 6) || (m =? 9) || (m =? 11) then 30
  else 31.

(** Days before the first of January of year [y]. *)
Definition days_before_year (y : Z) : Z :=
  let y' := y - 1 in y' * 365 + y' / 4 - y' / 100 + y' / 400.

(** Days of year [y] before the first of month [m]. *)
Definition days_before_month (y m : Z) : Z :=
  nth (Z.to_nat (m - 1)) [0; 31; 59; 90; 120; 151; 181; 212; 243; 273; 304; 334] 0
  + (if (2 <? m) && is_leap y then 1 else 0).

(** [d.toordinal()] *)
Definition toordinal (d : datetime) : Z :=
  days_before_year (year d) + days_before_month (year d) (month d) + day d.

Definition microseconds_per_day : Z := 86400000000.

Definition to_microseconds (d : datetime) : Z :=
  (((toordinal d * 24 + hour d) * 60 + minute d) * 60 + second d) * 1000000
  + microsecond d.

(** [(a - b).days]: a timedelta is normalised with its seconds and
    microseconds not negative, so the days are the floor. *)
Definition delta_days (a b : datetime) : Z :=
  (to_microseconds a - to_microseconds b) / microseconds_per_day.

(** The fields in the order Python compares them. *)
Definition fields (d : datetime) : list Z :=
  [year d; month d; day d; hour d; minute d; second d; microsecond d].

Fixpoint lex_leb (a b : list Z) : bool :=
  match a, b with
  | x :: a', y :: b' => if x <? y then true else if y <? x then false else lex_leb a' b'
  | [], _ => true
  | _ :: _, [] => false
  end.

(** [a <= b] on datetimes. *)
Definition leb (a b : datetime) : bool := lex_leb (fields a) (fields b).

(** What the constructor of datetime checks. *)
Definition valid (d : datetime) : Prop :=
  1 <= year d <= 9999 /\ 1 <= month d <= 12
  /\ 1 <= day d <= days_in_month (year d) (month d)
  /\ 0 <= hour d < 24 /\ 0 <= minute d < 60 /\ 0 <= second d < 60
  /\ 0 <= microsecond d < 1000000.

(** [d.replace(hour=23, minute=59, second=59)] *)
Definition end_of_day (d : datetime) : datetime :=
  {| year := year d; month := month d; day := day d;
     hour := 23; minute := 59; second := 59; microsecond := microsecond d |}.

End Dates.

(** ** CatalogBuilder helpers: letter_or_symbol, generateSortTitle, the
    sort keys *)

Module SortTitle.
Import Text PyFloat.

(** Lines 4675-4679.  [char] is a text, of one character at most calls. *)
Definition letter_or_symbol (char : string) : string :=
  if existsb is_alpha (list_ascii_of_string char) then char else "Symbols".

(** Lines 4598-4603 (and 4614-4619): a word that starts with a digit
    becomes its number right-aligned in ten characters, followed by what
    comes after the leading digits. *)
Definition number_word (word : string) : string :=
  let word := replace "," "" word in
  let digits := take_while is_digit word in
  let suffix := drop_while is_digit word in
  pad_left 10 (fmt_f 0 (float_of_digits (digits_value digits))) +:+ suffix.

(** Lines 4591-4610: the first word.  The result is what is appended to
    [translated]. *)
Definition first_word (word : string) : list string :=
  match word with
  | EmptyString => [capitalize word]   (* split() gives no empty word *)
  | String c0 _ =>
      let word := if is_digit c0 then number_word word else word in
      match word with
      | EmptyString => [capitalize word]
      | String c _ =>
          (if bool_decide (letter_or_symbol (str1 c) <> str1 c)
              && ((code "A" <? code c) || ((code "9" <? code c) && (code c <? code "A")))
           then ["/"] else [])
          ++ [capitalize word]
      end
  end.

(** Lines 4612-4620: every other word. *)
Definition other_word (word : string) : string :=
  match word with
  | EmptyString => word
  | String c0 _ => if is_digit c0 then number_word word else word
  end.

Section WithTitleSort.

(** [title_sort] of calibre.ebooks.metadata, which strips the leading stop
    word of a title; not under src/. *)
Variable title_sort : string -> string.

(** Lines 4576-4621. *)
Definition generateSortTitle (title : string) : string :=
  let title_words := split_ws (title_sort title) in
  let translated :=
    match title_words with
    | [] => []
    | w :: rest => first_word w ++ map other_word rest
    end in
  join " " translated.

End WithTitleSort.

(** *** The specification's wording *)

(** The text does not begin with a digit. *)
Definition no_leading_digit (s : string) : bool :=
  match s with
  | EmptyString => true
  | String c _ => negb (is_digit c)
  end.

(** A word that begins with a digit and reads, commas removed, as the
    digits of [n] followed by [suffix]. *)
Definition number_word_of (word : string) (n : N) (suffix : string) : Prop :=
  exists c0 w digits,
    word = String c0 w
    /\ is_digit c0 = true
    /\ replace "," "" word = digits +:+ suffix
    /\ all_digits digits = true
    /\ no_leading_digit suffix = true
    /\ digits_value digits = n.

(** A title with a leading number: its first word, after [title_sort],
    begins with a digit and reads, commas removed, as the digits of [n]
    followed by [suffix]. *)
Definition leading_number_title (title_sort : string -> string) (title : string)
    (n : N) : Prop :=
  exists c0 w rest digits suffix,
    split_ws (title_sort title) = String c0 w :: rest
    /\ is_digit c0 = true
    /\ replace "," "" (String c0 w) = digits +:+ suffix
    /\ digits <> EmptyString
    /\ all_digits digits = true
    /\ no_leading_digit suffix = true
    /\ digits_value digits = n.

(** A title of which the first word begins with a digit. *)
Definition leading_digit_title (title_sort : string -> string) (title : string)
  : Prop :=
  exists c w rest, split_ws (title_sort title) = String c w :: rest /\ is_digit c = true.

(** A title of which the first word begins with an ASCII letter. *)
Definition leading_letter_title (title_sort : string -> string) (title : string)
  : Prop :=
  exists c w rest, split_ws (title_sort title) = String c w :: rest /\ is_alpha c = true.

(** Python's order on texts. *)
Definition str_lt (a b : string) : Prop := String.ltb a b = true.

(** C4 as the specification words it: the keys of every pair of titles
    with leading numbers compare as the numbers do. *)
Definition keys_compare_numerically (title_sort : string -> string) : Prop :=
  forall (t1 t2 : string) (n1 n2 : N),
    leading_number_title title_sort t1 n1 ->
    leading_number_title title_sort t2 n2 ->
    (n1 < n2)%N ->
    str_lt (generateSortTitle title_sort t1) (generateSortTitle title_sort t2).

(** Modelled from the spec: [title_sort] of calibre.ebooks.metadata is not
    under src/; by the specification it removes the leading stop word of a
    title.  The stop words here are the articles. *)
Definition title_sort_model (title : string) : string :=
  match split_ws title with
  | w :: ((_ :: _) as rest) =>
      if bool_decide (lower w ∈ ["a"; "an"; "the"]) then join " " rest else title
  | _ => title
  end.

End SortTitle.

(** ** [sorted(l, key=...)]: a stable sort by key *)

Module PySort.

Section Sorted.
Context {A K : Type}.
(** [leb k1 k2]: the order of the keys. *)
Variable leb : K -> K -> bool.
Variable key : A -> K.

(** [x] goes before the first element whose key is not below the key of
    [x]: elements of one key keep the order they came in. *)
Fixpoint insert_by (x : A) (l : list A) : list A :=
  match l with
  | [] => [x]
  | y :: l' => if leb (key x) (key y) then x :: l else y :: insert_by x l'
  end.

Definition sorted (l : list A) : list A := foldr insert_by [] l.

End Sorted.

(** [sorted(l, key=..., reverse=True)]: descending, elements of one key
    still in the order they came in. *)
Definition sorted_reverse {A K : Type} (leb : K -> K -> bool) (key : A -> K)
    (l : list A) : list A :=
  sorted (fun a b => leb b a) key l.

End PySort.

(** ** Grouping consecutive elements by a key

    The section generators walk a sorted list and start a new group
    whenever the key of the element differs from the key of the one before. *)

Module Groups.

Section Grouping.
Context {A K : Type} `{EqDecision K}.
Variable key : A -> K.

(** The groups of a list: a new group starts exactly where the key
    changes between consecutive elements. *)
Fixpoint group_adjacent (l : list A) : list (K * list A) :=
  match l with
  | [] => []
  | b :: rest =>
      match group_adjacent rest with
      | (k, g) :: gs =>
          if decide (key b = k) then (k, b :: g) :: gs
          else (key b, [b]) :: (k, g) :: gs
      | [] => [(key b, [b])]
      end
  end.

(** The groups of a list that continues an open group. *)
Definition continue_group (open : K * list A) (gs : list (K * list A))
  : list (K * list A) :=
  match gs with
  | (k, g) :: gs' =>
      if decide (open.1 = k) then (k, open.2 ++ g) :: gs' else open :: gs
  | [] => [open]
  end.

(** Consecutive groups have different keys. *)
Definition adjacent_differ (gs : list (K * list A)) : Prop :=
  forall (i : nat) (g1 g2 : K * list A),
    gs !! i = Some g1 -> gs !! S i = Some g2 -> g1.1 <> g2.1.

(** The number of groups with a key. *)
Definition count_key (k : K) (gs : list (K * list A)) : nat :=
  length (filter (fun g => g.1 = k) gs).

End Grouping.
End Groups.

(** ** The books of the builder *)

Module Catalog.
Import Text SortTitle.

(** A title as fetchBooksByTitle builds it (the fields the section
    generators read).  [series] is [None] for a book without series. *)
Record book := {
  id : Z;
  title : string;
  title_sort : string;
  author : string;
  author_sort : string;
  series : option string;
  series_index : Q;
  tags : list string;
  timestamp : Dates.datetime
}.

(** Line 1552: the sort title of a fetched book is generated from its
    title. *)
Definition fetched (title_sort_fn : string -> string) (b : book) : Prop :=
  title_sort b = generateSortTitle title_sort_fn (title b).

(** [s[0]]; [None] is the IndexError of an empty text. *)
Definition first_char (s : string) : option string :=
  match s with
  | EmptyString => None
  | String c _ => Some (str1 c)
  end.

(** [Tag.insert(position, child)] of BeautifulSoup: the position is cut
    down to the number of children. *)
Definition tag_insert {A : Type} (position : nat) (child : A) (contents : list A)
  : list A :=
  take position contents ++ child :: drop position contents.

(** [sorted(books, key=lambda x: (x['title_sort'].upper(),
    x['title_sort'].upper()))]: a pair of two equal texts orders as the
    text. *)
Definition sorted_by_title_sort (books : list book) : list book :=
  PySort.sorted String.leb (fun x => upper (title_sort x)) books.

End Catalog.

(** ** generateHTMLByTitle: the letter buckets of the Titles section *)

Module Titles.
Import Text SortTitle Catalog.

(** The paragraphs of a bucket: the letter heading and the books. *)
Inductive paragraph :=
| LetterIndex (letter : string)
| BookTitle (b : book).

(** The state of the loop of lines 1827-1902. *)
Record loop_state := {
  divTag : list (list paragraph);
  dtc : nat;
  divRunningTag : option (list paragraph);
  drtc : nat;
  current_letter : string
}.

Definition initial : loop_state :=
  {| divTag := []; dtc := 0; divRunningTag := None; drtc := 0; current_letter := "" |}.

(** One round of the loop, lines 1828-1902. *)
Definition loop_body (b : book) (st : loop_state) : option loop_state :=
  c ← first_char (title_sort b);
  let st1 :=
    if bool_decide (letter_or_symbol c <> current_letter st) then
      (* Start a new letter *)
      let '(div, n) :=
        match divRunningTag st with
        | Some running =>
            if (drtc st =? 0)%nat then (divTag st, dtc st)
            else (tag_insert (dtc st) running (divTag st), S (dtc st))
        | None => (divTag st, dtc st)
        end in
      {| divTag := div; dtc := n;
         divRunningTag := Some (tag_insert n (LetterIndex (letter_or_symbol c)) []);
         drtc := 1;
         current_letter := letter_or_symbol c |}
    else st in
  (* Add books *)
  Some {| divTag := divTag st1; dtc := dtc st1;
          divRunningTag := tag_insert (drtc st1) (BookTitle b) <$> divRunningTag st1;
          drtc := S (drtc st1);
          current_letter := current_letter st1 |}.

Fixpoint loop (title_list : list book) (st : loop_state) : option loop_state :=
  match title_list with
  | [] => Some st
  | b :: rest => st' ← loop_body b st; loop rest st'
  end.

(** Lines 1810-1907: the [div] of the section, a list of buckets.
    [useSeriesPrefixInTitlesSection] is never set, so the list is re-sorted
    by sort title first. *)
Definition generateHTMLByTitle (booksByTitle : list book)
  : option (list (list paragraph)) :=
  let title_list := sorted_by_title_sort booksByTitle in
  st ← loop title_list initial;
  (* Add the last divRunningTag to divTag *)
  Some match divRunningTag st with
       | Some running => tag_insert (dtc st) running (divTag st)
       | None => divTag st
       end.

(** *** The specification's wording *)

(** The letter of a book: [letter_or_symbol] of the first character of
    its sort title. *)
Definition letter_of (b : book) : string :=
  match first_char (title_sort b) with
  | Some c => letter_or_symbol c
  | None => ""
  end.

(** The buckets of a list: a new bucket starts exactly where the letter
    changes between consecutive books. *)
Definition buckets (l : list book) : list (string * list book) :=
  Groups.group_adjacent letter_of l.

(** The state of the loop with the finished buckets [D] and the bucket of
    letter [L] running, [bs] being its books so far. *)
Definition running_state (D : list (list paragraph)) (L : string) (bs : list book)
  : loop_state :=
  {| divTag := D; dtc := length D;
     divRunningTag := Some (LetterIndex L :: map BookTitle bs);
     drtc := S (length bs); current_letter := L |}.

(** What the loop has built: the finished buckets and the running one. *)
Definition built (st : loop_state) : list (list paragraph) :=
  match divRunningTag st with
  | Some running => tag_insert (dtc st) running (divTag st)
  | None => divTag st
  end.

(** The first character of the sort title is not an ASCII letter. *)
Definition symbol_first (b : book) : Prop :=
  match title_sort b with
  | EmptyString => False
  | String c _ => is_alpha c = false
  end.

Definition render_bucket (g : string * list book) : list paragraph :=
  LetterIndex g.1 :: map BookTitle g.2.

(** A sort title begins with a capital letter, or with a character that
    orders before the letters (a digit, a space, a sign up to the slash). *)
Definition leading_character_ok (s : string) : Prop :=
  match s with
  | EmptyString => False
  | String c _ => code c <= 57 \/ 65 <= code c <= 90
  end.

End Titles.

(** ** generateHTMLByDateAdded: the Recently Added section *)

Module DateAdded.
Import Text Catalog Dates.

(** The paragraphs inserted into the [div] of the section. *)
Inductive paragraph :=
| RangeIndex (date_range : string)
| MonthIndex (y m : Z)
| AuthorIndex (a : string)
| SeriesLine (s : string)
| BookLine (b : book).

(** Lines 912-916. *)
Definition DATE_RANGE : list Z := [30].

(** [divTag] and its counter [dtc]. *)
Record div_state := { divTag : list paragraph; dtc : nat }.

(** [divTag.insert(dtc, p); dtc += 1] *)
Definition insert (p : paragraph) (st : div_state) : div_state :=
  {| divTag := tag_insert (dtc st) p (divTag st); dtc := S (dtc st) |}.

(** Lines 2234-2301. *)
Definition add_books_to_HTML_by_date_range (date_range_list : list book)
    (date_range : string) (st : div_state) : div_state :=
  match date_range_list with
  | [] => st
  | _ => fold_left (fun st new_entry => insert (BookLine new_entry) st)
                   date_range_list (insert (RangeIndex date_range) st)
  end.

(** Lines 2155-2231: the entries of a month, with the author and series
    lines that precede them. *)
Fixpoint month_entries (this_months_list : list book)
    (current_author current_series : option string) (st : div_state) : div_state :=
  match this_months_list with
  | [] => st
  | new_entry :: rest =>
      let '(current_author, current_series, st) :=
        if bool_decide (Some (author new_entry) <> current_author)
        then (Some (author new_entry), None,
              insert (AuthorIndex (author new_entry)) st)
        else (current_author, current_series, st) in
      let '(current_series, st) :=
        match series new_entry with
        | Some s =>
            if bool_decide (Some s <> current_series)
            then (Some s, insert (SeriesLine s) st)
            else (current_series, st)
        | None => (current_series, st)
        end in
      let current_series :=
        match current_series, series new_entry with
        | Some _, None => None
        | cs, _ => cs
        end in
      month_entries rest current_author current_series (insert (BookLine new_entry) st)
  end.

(** Lines 2137-2232; [current_date] is the variable of the enclosing
    function, of which the year and the month are read. *)
Definition add_books_to_HTML_by_month (this_months_list : list book)
    (current_date : Z * Z) (st : div_state) : div_state :=
  match this_months_list with
  | [] => st
  | _ => month_entries this_months_list None None
           (insert (MonthIndex current_date.1 current_date.2) st)
  end.

(** Lines 2357-2363: the books are taken from the front of the list while
    they are recent enough; [book] is the loop variable, which stays set
    after the loop. *)
Fixpoint take_recent (today_time : datetime) (date_range_limit : Z)
    (books : list Catalog.book) (date_range_list : list Catalog.book)
    (book : option Catalog.book)
  : list Catalog.book * option Catalog.book :=
  match books with
  | [] => (date_range_list, book)
  | b :: rest =>
      if delta_days today_time (timestamp b) <=? date_range_limit
      then take_recent today_time date_range_limit rest (date_range_list ++ [b]) (Some b)
      else (date_range_list, Some b)
  end.

(** Lines 2350-2366: the loop over [DATE_RANGE]; [previous] is
    [DATE_RANGE[i-1]].  [None] is the error of reading [book] unset. *)
Fixpoint ranges_loop (today_time : datetime) (booksByDateRange : list Catalog.book)
    (i : nat) (previous : Z) (ranges : list Z)
    (date_range_list : list Catalog.book) (book : option Catalog.book)
    (st : div_state)
  : option div_state :=
  match ranges with
  | [] => Some st
  | date_range_limit :: rest =>
      let date_range :=
        match i with
        | O => "Last " +:+ str_of_Z date_range_limit +:+ " days"
        | S _ => str_of_Z previous +:+ " to " +:+ str_of_Z date_range_limit
                 +:+ " days ago"
        end in
      let '(date_range_list, book) :=
        take_recent today_time date_range_limit booksByDateRange date_range_list book in
      let st := add_books_to_HTML_by_date_range date_range_list date_range st in
      b ← book;
      ranges_loop today_time booksByDateRange (S i) date_range_limit rest [b] (Some b) st
  end.

Definition month_of (b : book) : Z * Z := (year (timestamp b), month (timestamp b)).

(** Lines 2374-2385: the loop over the books by month. *)
Fixpoint months_loop (booksByMonth : list book) (this_months_list : list book)
    (current_date : Z * Z) (st : div_state) : div_state :=
  match booksByMonth with
  | [] => add_books_to_HTML_by_month this_months_list current_date st
  | b :: rest =>
      if bool_decide (month (timestamp b) <> current_date.2
                      \/ year (timestamp b) <> current_date.1)
      then months_loop rest [b] (month_of b)
             (add_books_to_HTML_by_month this_months_list current_date st)
      else months_loop rest (this_months_list ++ [b]) current_date st
  end.

(** [sorted(books, key=lambda x: (x['timestamp'], x['timestamp']),
    reverse=True)] *)
Definition sorted_by_timestamp (books : list book) : list book :=
  PySort.sorted_reverse Dates.leb timestamp books.

(** Lines 2337-2385: the content of the [div] of the section.  [now] is
    the time of the build, [nowf()]. *)
Definition generateHTMLByDateAdded (now : datetime) (booksByTitle : list book)
  : option (list paragraph) :=
  let booksByDateRange := sorted_by_timestamp booksByTitle in
  let today_time := end_of_day now in
  st ← ranges_loop today_time booksByDateRange 0 0 DATE_RANGE [] None
         {| divTag := []; dtc := 0 |};
  let booksByMonth := sorted_by_timestamp booksByTitle in
  (* current_date = datetime.date.fromordinal(1) *)
  Some (divTag (months_loop booksByMonth [] (1, 1) st)).

(** *** The specification's wording *)

(** The headings and the books of the section, without the author and
    series lines. *)
Definition is_outline (p : paragraph) : bool :=
  match p with
  | AuthorIndex _ | SeriesLine _ => false
  | _ => true
  end.

Definition outline (ps : list paragraph) : list paragraph :=
  List.filter is_outline ps.

(** The bucket of the date range: its heading and its books, nothing
    when there is no book. *)
Definition range_bucket (date_range : string) (bs : list book) : list paragraph :=
  match bs with
  | [] => []
  | _ => RangeIndex date_range :: map BookLine bs
  end.

Definition month_bucket (g : (Z * Z) * list book) : list paragraph :=
  MonthIndex g.1.1 g.1.2 :: map BookLine g.2.

(** The books whose timestamp is less than [days + 1] whole days before
    [today_time]. *)
Definition recent (today_time : datetime) (days : Z) (bs : list book) : list book :=
  List.filter (fun b => delta_days today_time (timestamp b) <=? days) bs.

(** What add_books_to_HTML_by_month adds for a list, in outline. *)
Definition month_paragraphs (g : (Z * Z) * list Catalog.book) : list paragraph :=
  match g.2 with
  | [] => []
  | _ => month_bucket g
  end.

(** The [div] with the paragraphs [D] and its counter at their number. *)
Definition at_end (D : list paragraph) : div_state :=
  {| divTag := D; dtc := length D |}.

(** The ids of the books in the bucket of the date range: the book lines
    before the first month heading. *)
Fixpoint range_bucket_ids (ps : list paragraph) : list Z :=
  match ps with
  | MonthIndex _ _ :: _ => []
  | BookLine b :: rest => id b :: range_bucket_ids rest
  | _ :: rest => range_bucket_ids rest
  | [] => []
  end.

(** A month is later than another. *)
Definition later (a b : Z * Z) : Prop :=
  b.1 < a.1 \/ (b.1 = a.1 /\ b.2 < a.2).

(** The timestamp lies within 30 days of the build time. *)
Definition within_30_days_of_build (now : datetime) (b : Catalog.book) : Prop :=
  Z.abs (to_microseconds now - to_microseconds (timestamp b))
  <= 30 * microseconds_per_day.

(** C7 as the specification words it: the bucket of the last 30 days
    holds exactly the books whose timestamp lies within 30 days of the
    build time. *)
Definition last_30_days_exact : Prop :=
  forall (now : datetime) (books : list Catalog.book) (ps : list paragraph)
         (b : Catalog.book),
    valid now -> Forall (fun x => valid (timestamp x)) books ->
    generateHTMLByDateAdded now books = Some ps ->
    b ∈ books ->
    (In (id b) (range_bucket_ids ps) <-> within_30_days_of_build now b).

End DateAdded.

(** ** fetchBooksByAuthor: the books by author and the list of authors *)

Module Authors.
Import Text PyFloat SortTitle Catalog.

(** [s.capitalize()] of Python. *)
Definition str_capitalize (s : string) : string :=
  match s with
  | EmptyString => EmptyString
  | String c s' => String (upper_char c) (lower s')
  end.

(** Lines 3926-3931. *)
Definition author_to_author_sort (author : string) : string :=
  let tokens := split_ws author in
  let tokens :=
    match last tokens with
    | Some t => t :: removelast tokens
    | None => []
    end in
  let tokens :=
    match tokens with
    | t0 :: ((_ :: _) as rest) => (t0 +:+ ",") :: rest
    | _ => tokens
    end in
  str_capitalize (join " " tokens).

(** [int(index)]: the integer toward zero. *)
Definition int_of (index : Q) : Z := Z.quot (Qnum index) (Zpos (Qden index)).

(** ['%04d' % n] *)
Definition fmt_04d (n : Z) : string :=
  if n <? 0 then "-" +:+ zero_pad 3 (str_of_N (Z.to_N (- n)))
  else zero_pad 4 (str_of_N (Z.to_N n)).

(** The text [series_index] of both sorters. *)
Definition series_index_text (index : Q) : string :=
  let integer := int_of index in
  let fraction := (index - inject_Z integer)%Q in
  fmt_04d integer +:+ lstrip_char "0" (fmt_f 4 (Finite fraction)).

(** [not book['series']]: no series, or an empty one. *)
Definition no_series (b : book) : bool :=
  match series b with
  | None | Some EmptyString => true
  | Some _ => false
  end.

(** A list of authors: ([0]: friendly, [1]: sort). *)
Definition author_pair : Type := string * string.
(** unique_authors: ([0]: friendly, [1]: sort, [2]: book_count). *)
Definition author_count : Type := string * string * nat.

(** The text of the error (the English one; [_()] translates it). *)
Definition error_msg (author sort1 sort2 : string) : string :=
  str1 newline +:+ "Inconsistent Author Sort values for Author '" +:+ author +:+ "':"
  +:+ str1 newline +:+ "'" +:+ sort1 +:+ "' <> '" +:+ sort2 +:+ "',"
  +:+ str1 newline +:+ "unable to build catalog." +:+ str1 newline
  +:+ str1 newline +:+ "Select all books by '" +:+ author
  +:+ "', apply correct Author Sort value in Edit Metadata dialog,"
  +:+ str1 newline +:+ "then rebuild the catalog." +:+ str1 newline.

(** Lines 1445-1460: the loop that tests for author_sort mismatches, from
    index [i] on; [Some msg] is the error it stops with. *)
Fixpoint mismatch_loop (authors : list author_pair) (i : nat)
    (current_author : author_pair) : option string :=
  match authors with
  | [] => None
  | author :: rest =>
      if bool_decide (author <> current_author) && negb (i =? 0)%nat then
        (* Exit if author matches previous, but author_sort doesn't match *)
        if bool_decide (author.1 = current_author.1)
        then Some (error_msg author.1 author.2 current_author.2)
        else mismatch_loop rest (S i) author
      else mismatch_loop rest (S i) current_author
  end.

(** The variables of the loop of lines 1474-1490. *)
Record unique_state := {
  books_by_current_author : nat;
  current_author : author_pair;
  multiple_authors : bool;
  unique_authors : list author_count
}.

Section WithLibrary.

(** [title_sort] of calibre.ebooks.metadata and [icu_title] of
    calibre.utils.icu; not under src/. *)
Variable title_sort_fn : string -> string.
Variable icu_title : string -> string.

(** Lines 3933-3948. *)
Definition booksByAuthorSorter_author_sort (book : book) : string :=
  if no_series book then
    capitalize (author_sort book) +:+ " " +:+ capitalize (title_sort book)
  else
    capitalize (author_sort book) +:+ " ~"
    +:+ generateSortTitle title_sort_fn (default "" (series book)) +:+ " "
    +:+ series_index_text (series_index book).

(** Lines 3950-3965. *)
Definition booksByAuthorSorter_author (book : book) : string :=
  if no_series book then
    author_to_author_sort (author book) +:+ " " +:+ capitalize (title_sort book)
  else
    author_to_author_sort (author book) +:+ " ~"
    +:+ generateSortTitle title_sort_fn (default "" (series book)) +:+ " "
    +:+ series_index_text (series_index book).

Definition entry (st : unique_state) : author_count :=
  ((current_author st).1, icu_title (current_author st).2, books_by_current_author st).

(** Lines 1474-1490: the body of the loop over [enumerate(authors)];
    [len] is [len(authors)]. *)
Definition unique_body (len i : nat) (author : author_pair) (st : unique_state)
  : unique_state :=
  if bool_decide (author <> current_author st) then
    (* New author, save the previous author/sort/count *)
    {| books_by_current_author := 1;
       current_author := author;
       multiple_authors := true;
       unique_authors := unique_authors st ++ [entry st] |}
  else if (i =? 0)%nat && (len =? 1)%nat then
    (* Allow for single-book lists *)
    {| books_by_current_author := books_by_current_author st;
       current_author := current_author st;
       multiple_authors := multiple_authors st;
       unique_authors := unique_authors st ++ [entry st] |}
  else
    {| books_by_current_author := S (books_by_current_author st);
       current_author := current_author st;
       multiple_authors := multiple_authors st;
       unique_authors := unique_authors st |}.

Fixpoint unique_loop (len : nat) (authors : list author_pair) (i : nat)
    (st : unique_state) : unique_state :=
  match authors with
  | [] => st
  | author :: rest => unique_loop len rest (S i) (unique_body len i author st)
  end.

(** Lines 1491-1495: the [else] of the loop, which runs when the loop ends;
    [author] is the last author of the list. *)
Definition unique_else (len : nat) (author : author_pair) (st : unique_state)
  : list author_count :=
  if (bool_decide (current_author st = author) && (1 <? len)%nat)
     || negb (multiple_authors st)
  then unique_authors st ++ [entry st]
  else unique_authors st.

(** Lines 1466-1495: the list [unique_authors] of a list of books. *)
Definition build_unique_authors (booksByAuthor : list book) : option (list author_count) :=
  let authors := map (fun record => (author record, capitalize (author_sort record)))
                     booksByAuthor in
  first ← head authors;
  final ← last authors;
  let st := unique_loop (length authors) authors 0
              {| books_by_current_author := 0;
                 current_author := first;
                 multiple_authors := false;
                 unique_authors := [] |} in
  Some (unique_else (length authors) final st).

(** What fetchBooksByAuthor leaves in the builder. *)
Record fetched_authors := {
  success : bool;
  booksByAuthor : list book;
  authors : list author_count;
  error : list string
}.

(** Lines 1431-1505.  [booksByTitle] and [error] are the fields of the
    builder at the call, [self_authors] its field [authors]; [None] is the
    IndexError of an empty list. *)
Definition fetchBooksByAuthor (booksByTitle : list book)
    (self_authors : list author_count) (error : list string)
  : option fetched_authors :=
  let by_author := PySort.sorted String.leb booksByAuthorSorter_author booksByTitle in
  let pairs := map (fun record => (author record, author_sort record)) by_author in
  first ← head pairs;
  match mismatch_loop pairs 0 first with
  | Some msg =>
      Some {| success := false;
              booksByAuthor := by_author;
              authors := self_authors;
              error := error ++ ["Metadata error"; msg] |}
  | None =>
      let by_author_sort :=
        PySort.sorted String.leb booksByAuthorSorter_author_sort by_author in
      unique ← build_unique_authors by_author_sort;
      Some {| success := true;
              booksByAuthor := by_author_sort;
              authors := unique;
              error := error |}
  end.

End WithLibrary.

(** *** The specification's wording *)

(** Two books of one author name with different author_sort values. *)
Definition author_sort_mismatch (books : list book) : Prop :=
  exists b1 b2, b1 ∈ books /\ b2 ∈ books
                /\ author b1 = author b2 /\ author_sort b1 <> author_sort b2.

(** The number of books of the list with the given author name. *)
Definition books_of (name : string) (books : list book) : nat :=
  length (List.filter (fun b => bool_decide (author b = name)) books).

(** Each author of the books is in the list once, with the number of the
    books. *)
Definition counts_every_author_once (books : list book) (l : list author_count) : Prop :=
  NoDup (map (fun e => e.1.1) l)
  /\ (forall b, b ∈ books -> exists e, e ∈ l /\ e.1.1 = author b /\ e.2 = books_of (author b) books)
  /\ list_sum (map snd l) = length books.

End Authors.

(** ** The NCX navigation document *)

Module Ncx.
Import Text.

(** A [navPoint] element: its attributes [class], [id] and [playOrder]
    (absent while never assigned), the [src] of its [content] element and the
    navPoints nested in it.  The [navLabel] and [calibre:meta] children are
    left out. *)
#[warnings="-register-all"]
Inductive navPoint := NavPoint {
  nav_class : string;
  nav_id : string;
  nav_playOrder : option Z;
  nav_src : string;
  nav_children : list navPoint
}.

(** [tag['playOrder'] = v] *)
Definition assign_playOrder (v : Z) (t : navPoint) : navPoint :=
  {| nav_class := nav_class t; nav_id := nav_id t; nav_playOrder := Some v;
     nav_src := nav_src t; nav_children := nav_children t |}.

(** [tag.insert(n, child)] with [n] the number of the children so far. *)
Definition append_child (child : navPoint) (t : navPoint) : navPoint :=
  {| nav_class := nav_class t; nav_id := nav_id t; nav_playOrder := nav_playOrder t;
     nav_src := nav_src t; nav_children := nav_children t ++ [child] |}.

(** The navPoints of the document, in document order. *)
Fixpoint document_order (t : navPoint) : list navPoint :=
  match t with
  | NavPoint _ _ _ _ children => t :: flat_map document_order children
  end.

(** The file a [src] names: the text before the fragment. *)
Definition file_of (src : string) : string := take_while (fun c => negb (Ascii.eqb c "#")) src.

(** *** The specification's wording *)

(** Every navPoint has a playOrder, and the values are consecutive
    integers increasing in document order. *)
Definition play_order_consecutive (t : navPoint) : Prop :=
  exists first : Z,
    map nav_playOrder (document_order t)
    = map Some (seqZ first (Z.of_nat (length (document_order t)))).

End Ncx.

(** ** CatalogBuilder.buildSources and the generators it calls *)

Module Build.
Import Text SortTitle Catalog Dates Ncx.

(** The options the builder reads. *)
Record options := {
  generate_authors : bool;
  generate_titles : bool;
  generate_series : bool;
  generate_genres : bool;
  generate_recently_added : bool;
  generate_descriptions : bool;
  sort_descriptions_by_author : bool;
  section_list : list string
}.

(** [opts.generate_series = v] *)
Definition set_generate_series (v : bool) (o : options) : options :=
  {| generate_authors := generate_authors o;
     generate_titles := generate_titles o;
     generate_series := v;
     generate_genres := generate_genres o;
     generate_recently_added := generate_recently_added o;
     generate_descriptions := generate_descriptions o;
     sort_descriptions_by_author := sort_descriptions_by_author o;
     section_list := section_list o |}.

(** EPUB_MOBI.run, lines 4941-4953: the list of the enabled sections. *)
Definition sections_list (authors titles series genres recently_added descriptions : bool)
  : list string :=
  (if authors then ["Authors"] else [])
  ++ (if titles then ["Titles"] else [])
  ++ (if series then ["Series"] else [])
  ++ (if genres then ["Genres"] else [])
  ++ (if recently_added then ["Recently Added"] else [])
  ++ (if descriptions then ["Descriptions"] else []).

(** The options as EPUB_MOBI.run hands them to the builder:
    [sort_descriptions_by_author] is hard-wired, [section_list] is the list
    of the enabled sections. *)
Definition run_options (authors titles series genres recently_added descriptions : bool)
  : options :=
  {| generate_authors := authors;
     generate_titles := titles;
     generate_series := series;
     generate_genres := genres;
     generate_recently_added := recently_added;
     generate_descriptions := descriptions;
     sort_descriptions_by_author := true;
     section_list := sections_list authors titles series genres recently_added
                       descriptions |}.

(** A bookmarked book of the device: the book, the time stamp of the
    bookmark and [datetime.utcfromtimestamp] of it. *)
Record bookmark := {
  bm_book : book;
  bookmark_timestamp : Z;
  bookmark_time : datetime
}.

(** An entry of [self.genres]; the keys [authors] and [titles_spanned],
    read for the Kindle descriptions only, are left out. *)
Record genre := {
  tag : string;
  file : string;
  genre_books : list book
}.

(** The OPF package: the items of the manifest and the idrefs of the
    spine. *)
Record item := {
  item_id : string;
  href : string;
  media_type : string
}.

Record package := {
  manifest : list item;
  spine : list string
}.

(** What [generateThumbnail] does for a title: it writes the thumbnail, or
    raises with the cover missing, or raises with the cover file there. *)
Inductive thumbnail_result := Generated | NoCover | InvalidCover.

(** What the builder reads from outside: the database, the device and the
    clock. *)
Record inputs := {
  (** the titles fetchBooksByTitle populates from the search results *)
  titles : list book;
  (** the books of the search for series, after processExclusions *)
  series_data : list book;
  (** filterDbTags(db.all_tags()): friendly tag, normalized tag *)
  genre_tags_dict : list (string * string);
  (** the bookmarks fetchBookmarks finds on the Kindle *)
  device_bookmarks : list bookmark;
  (** the time of the build *)
  now : datetime;
  generateForKindle : bool;
  connected_kindle : bool;
  thumbnail : book -> thumbnail_result
}.

Record builder := {
  opts : options;
  booksByTitle : option (list book);
  booksByAuthor : list book;
  authors : list Authors.author_count;
  booksBySeries : list book;
  booksByTitle_noSeriesPrefix : list book;
  booksByDateRange : list book;
  booksByMonth : list book;
  bookmarked_books : list bookmark;
  booksByDateRead : list bookmark;
  genres : list genre;
  thumbs : list string;
  htmlFileList_1 : list string;
  htmlFileList_2 : list string;
  playOrder : Z;
  ncxSoup : option navPoint;
  opf : option package;
  written : list string;
  error : list string
}.

(** Assignments to the fields of the builder. *)
Definition set_opts (v : options) (self : builder) : builder :=
  let 'Build_builder x0 x1 x2 x3 x4 x5 x6 x7 x8 x9 x10 x11 x12 x13 x14 x15 x16 x17 x18 := self in
  Build_builder v x1 x2 x3 x4 x5 x6 x7 x8 x9 x10 x11 x12 x13 x14 x15 x16 x17 x18.
Definition set_booksByTitle (v : option (list book)) (self : builder) : builder :=
  let 'Build_builder x0 x1 x2 x3 x4 x5 x6 x7 x8 x9 x10 x11 x12 x13 x14 x15 x16 x17 x18 := self in
  Build_builder x0 v x2 x3 x4 x5 x6 x7 x8 x9 x10 x11 x12 x13 x14 x15 x16 x17 x18.
Definition set_booksByAuthor (v : list book) (self : builder) : builder :=
  let 'Build_builder x0 x1 x2 x3 x4 x5 x6 x7 x8 x9 x10 x11 x12 x13 x14 x15 x16 x17 x18 := self in
  Build_builder x0 x1 v x3 x4 x5 x6 x7 x8 x9 x10 x11 x12 x13 x14 x15 x16 x17 x18.
Definition set_authors (v : list Authors.author_count) (self : builder) : builder :=
  let 'Build_builder x0 x1 x2 x3 x4 x5 x6 x7 x8 x9 x10 x11 x12 x13 x14 x15 x16 x17 x18 := self in
  Build_builder x0 x1 x2 v x4 x5 x6 x7 x8 x9 x10 x11 x12 x13 x14 x15 x16 x17 x18.
Definition set_booksBySeries (v : list book) (self : builder) : builder :=
  let 'Build_builder x0 x1 x2 x3 x4 x5 x6 x7 x8 x9 x10 x11 x12 x13 x14 x15 x16 x17 x18 := self in
  Build_builder x0 x1 x2 x3 v x5 x6 x7 x8 x9 x10 x11 x12 x13 x14 x15 x16 x17 x18.
Definition set_booksByTitle_noSeriesPrefix (v : list book) (self : builder) : builder :=
  let 'Build_builder x0 x1 x2 x3 x4 x5 x6 x7 x8 x9 x10 x11 x12 x13 x14 x15 x16 x17 x18 := self in
  Build_builder x0 x1 x2 x3 x4 v x6 x7 x8 x9 x10 x11 x12 x13 x14 x15 x16 x17 x18.
Definition set_booksByDateRange (v : list book) (self : builder) : builder :=
  let 'Build_builder x0 x1 x2 x3 x4 x5 x6 x7 x8 x9 x10 x11 x12 x13 x14 x15 x16 x17 x18 := self in
  Build_builder x0 x1 x2 x3 x4 x5 v x7 x8 x9 x10 x11 x12 x13 x14 x15 x16 x17 x18.
Definition set_booksByMonth (v : list book) (self : builder) : builder :=
  let 'Build_builder x0 x1 x2 x3 x4 x5 x6 x7 x8 x9 x10 x11 x12 x13 x14 x15 x16 x17 x18 := self in
  Build_builder x0 x1 x2 x3 x4 x5 x6 v x8 x9 x10 x11 x12 x13 x14 x15 x16 x17 x18.
Definition set_bookmarked_books (v : list bookmark) (self : builder) : builder :=
  let 'Build_builder x0 x1 x2 x3 x4 x5 x6 x7 x8 x9 x10 x11 x12 x13 x14 x15 x16 x17 x18 := self in
  Build_builder x0 x1 x2 x3 x4 x5 x6 x7 v x9 x10 x11 x12 x13 x14 x15 x16 x17 x18.
Definition set_booksByDateRead (v : list bookmark) (self : builder) : builder :=
  let 'Build_builder x0 x1 x2 x3 x4 x5 x6 x7 x8 x9 x10 x11 x12 x13 x14 x15 x16 x17 x18 := self in
  Build_builder x0 x1 x2 x3 x4 x5 x6 x7 x8 v x10 x11 x12 x13 x14 x15 x16 x17 x18.
Definition set_genres (v : list genre) (self : builder) : builder :=
  let 'Build_builder x0 x1 x2 x3 x4 x5 x6 x7 x8 x9 x10 x11 x12 x13 x14 x15 x16 x17 x18 := self in
  Build_builder x0 x1 x2 x3 x4 x5 x6 x7 x8 x9 v x11 x12 x13 x14 x15 x16 x17 x18.
Definition set_thumbs (v : list string) (self : builder) : builder :=
  let 'Build_builder x0 x1 x2 x3 x4 x5 x6 x7 x8 x9 x10 x11 x12 x13 x14 x15 x16 x17 x18 := self in
  Build_builder x0 x1 x2 x3 x4 x5 x6 x7 x8 x9 x10 v x12 x13 x14 x15 x16 x17 x18.
Definition set_htmlFileList_1 (v : list string) (self : builder) : builder :=
  let 'Build_builder x0 x1 x2 x3 x4 x5 x6 x7 x8 x9 x10 x11 x12 x13 x14 x15 x16 x17 x18 := self in
  Build_builder x0 x1 x2 x3 x4 x5 x6 x7 x8 x9 x10 x11 v x13 x14 x15 x16 x17 x18.
Definition set_htmlFileList_2 (v : list string) (self : builder) : builder :=
  let 'Build_builder x0 x1 x2 x3 x4 x5 x6 x7 x8 x9 x10 x11 x12 x13 x14 x15 x16 x17 x18 := self in
  Build_builder x0 x1 x2 x3 x4 x5 x6 x7 x8 x9 x10 x11 x12 v x14 x15 x16 x17 x18.
Definition set_playOrder (v : Z) (self : builder) : builder :=
  let 'Build_builder x0 x1 x2 x3 x4 x5 x6 x7 x8 x9 x10 x11 x12 x13 x14 x15 x16 x17 x18 := self in
  Build_builder x0 x1 x2 x3 x4 x5 x6 x7 x8 x9 x10 x11 x12 x13 v x15 x16 x17 x18.
Definition set_ncxSoup (v : option navPoint) (self : builder) : builder :=
  let 'Build_builder x0 x1 x2 x3 x4 x5 x6 x7 x8 x9 x10 x11 x12 x13 x14 x15 x16 x17 x18 := self in
  Build_builder x0 x1 x2 x3 x4 x5 x6 x7 x8 x9 x10 x11 x12 x13 x14 v x16 x17 x18.
Definition set_opf (v : option package) (self : builder) : builder :=
  let 'Build_builder x0 x1 x2 x3 x4 x5 x6 x7 x8 x9 x10 x11 x12 x13 x14 x15 x16 x17 x18 := self in
  Build_builder x0 x1 x2 x3 x4 x5 x6 x7 x8 x9 x10 x11 x12 x13 x14 x15 v x17 x18.
Definition set_written (v : list string) (self : builder) : builder :=
  let 'Build_builder x0 x1 x2 x3 x4 x5 x6 x7 x8 x9 x10 x11 x12 x13 x14 x15 x16 x17 x18 := self in
  Build_builder x0 x1 x2 x3 x4 x5 x6 x7 x8 x9 x10 x11 x12 x13 x14 x15 x16 v x18.
Definition set_error (v : list string) (self : builder) : builder :=
  let 'Build_builder x0 x1 x2 x3 x4 x5 x6 x7 x8 x9 x10 x11 x12 x13 x14 x15 x16 x17 x18 := self in
  Build_builder x0 x1 x2 x3 x4 x5 x6 x7 x8 x9 x10 x11 x12 x13 x14 x15 x16 x17 v.

(** [opts.basename] and the stylesheet of the builder. *)
Definition basename : string := "Catalog".
Definition stylesheet : string := "content/stylesheet.css".

(** The builder as __init__ leaves it. *)
Definition CatalogBuilder (o : options) : builder :=
  {| opts := o;
     booksByTitle := None;
     booksByAuthor := [];
     authors := [];
     booksBySeries := [];
     booksByTitle_noSeriesPrefix := [];
     booksByDateRange := [];
     booksByMonth := [];
     bookmarked_books := [];
     booksByDateRead := [];
     genres := [];
     thumbs := [];
     htmlFileList_1 := [];
     htmlFileList_2 := [];
     playOrder := 1;
     ncxSoup := None;
     opf := None;
     written := [];
     error := [] |}.

(** [outfile = open(path, 'w'); outfile.write(...)]: the file is among
    the files written, below catalogPath. *)
Definition write (path : string) (self : builder) : builder :=
  set_written (written self ++ [path]) self.

(** [s.find(sub)] *)
Definition find (sub s : string) : Z :=
  match String.index 0 sub s with
  | Some n => Z.of_nat n
  | None => -1
  end.

(** [s[start:stop]] *)
Definition slice (s : string) (start stop : Z) : string :=
  let len := Z.of_nat (String.length s) in
  let norm := fun i => if i <? 0 then Z.max 0 (i + len) else Z.min i len in
  let a := norm start in
  let b := norm stop in
  if a <? b then String.substring (Z.to_nat a) (Z.to_nat (b - a)) s else "".

Section WithLibrary.

Variable title_sort_fn : string -> string.
Variable icu_title : string -> string.
Variable inp : inputs.

(** Line 951. *)
Definition generateRecentlyRead (self : builder) : bool :=
  generate_recently_added (opts self) && connected_kindle inp && generateForKindle inp.

(** Lines 1507-1654, from the titles populated on: the books sorted by
    sort title, or the error of an empty catalog. *)
Definition fetchBooksByTitle (self : builder) : bool * builder :=
  match titles inp with
  | _ :: _ => (true, set_booksByTitle (Some (sorted_by_title_sort (titles inp))) self)
  | [] =>
      (false,
       set_error (error self
                  ++ ["No books available to include in catalog";
                      "No books found to catalog." +:+ str1 newline
                      +:+ "Check 'Excluded books' criteria in E-book options."
                      +:+ str1 newline]) self)
  end.

(** fetchBooksByAuthor on the fields of the builder. *)
Definition fetchBooksByAuthor (self : builder) : option (bool * builder) :=
  books ← booksByTitle self;
  r ← Authors.fetchBooksByAuthor title_sort_fn icu_title books (authors self) (error self);
  Some (Authors.success r,
        set_error (Authors.error r)
          (set_authors (Authors.authors r)
             (set_booksByAuthor (Authors.booksByAuthor r) self))).

(** Lines 1718-1753: the bookmarks, read from the device. *)
Definition fetchBookmarks (self : builder) : builder :=
  if generateRecentlyRead self
  then set_bookmarked_books (device_bookmarks inp) self
  else set_bookmarked_books [] self.

(** Lines 2848-2915, as far as the list [thumbs] and the error list go;
    the image files are left out of the files written. *)
Fixpoint thumbnails_loop (titles : list book) (thumbs : list string) (error : list string)
  : list string * list string :=
  match titles with
  | [] => (thumbs, error)
  | title :: rest =>
      match thumbnail inp title with
      | Generated =>
          thumbnails_loop rest
            (thumbs ++ ["thumbnail_" +:+ str_of_Z (id title) +:+ ".jpg"]) error
      | NoCover => thumbnails_loop rest thumbs error
      | InvalidCover =>
          let error := match error with
                       | [] => ["Invalid cover files"]
                       | _ => error
                       end in
          thumbnails_loop rest thumbs
            (error ++ ["Warning: invalid cover file for '" +:+ Catalog.title title
                       +:+ "', default cover substituted." +:+ str1 newline])
      end
  end.

Definition generateThumbnails (self : builder) : option builder :=
  books ← booksByTitle self;
  let '(thumbs, error) := thumbnails_loop books ["thumbnail_default.jpg"] (error self) in
  Some (set_thumbs thumbs (set_error error self)).

(** Lines 1756-1772: a file per title. *)
Definition generateHTMLDescriptions (self : builder) : option builder :=
  books ← booksByTitle self;
  Some (foldl (fun self title => write ("content/book_" +:+ str_of_Z (id title) +:+ ".html") self)
              self books).

(** Lines 1920-2129, as far as the files go. *)
Definition generateHTMLByAuthor (self : builder) : option builder :=
  let self := write "content/ByAlphaAuthor.html" self in
  Some (set_htmlFileList_1 (htmlFileList_1 self ++ ["content/ByAlphaAuthor.html"]) self).

(** Lines 1774-1918; the content of the file is [Titles.generateHTMLByTitle]. *)
Definition generateHTMLByTitle (self : builder) : option builder :=
  books ← booksByTitle self;
  let self := set_booksByTitle_noSeriesPrefix (sorted_by_title_sort books) self in
  _ ← Titles.generateHTMLByTitle books;
  let self := write "content/ByAlphaTitle.html" self in
  Some (set_htmlFileList_1 (htmlFileList_1 self ++ ["content/ByAlphaTitle.html"]) self).

(** Lines 2566-2743, as far as the files go. *)
Definition generateHTMLBySeries (self : builder) : option builder :=
  let self := set_booksBySeries (series_data inp) self in
  match booksBySeries self with
  | [] => Some (set_opts (set_generate_series false (opts self)) self)
  | _ :: _ =>
      let self := write "content/BySeries.html" self in
      Some (set_htmlFileList_1 (htmlFileList_1 self ++ ["content/BySeries.html"]) self)
  end.

(** [this_book] of generateHTMLByTags. *)
Definition this_book (b : book) : book :=
  {| id := id b; title := Catalog.title b; title_sort := title_sort b;
     author := author b; author_sort := capitalize (author_sort b);
     series := series b; series_index := series_index b; tags := tags b;
     timestamp := timestamp b |}.

(** Lines 2777-2792: a book of a genre that [genre_list] has already.
    Every dictionary of [genre_list] holds one key, so the list is a list of
    pairs. *)
Fixpoint add_to_existing (normalized_tag : string) (b : book)
    (genre_list : list (string * list book)) : list (string * list book) :=
  match genre_list with
  | [] => []
  | (key, books) :: rest =>
      (if bool_decide (key = normalized_tag)
          && negb (existsb (fun x => bool_decide (Catalog.title x = Catalog.title b)) books)
       then (key, books ++ [b])
       else (key, books))
      :: add_to_existing normalized_tag b rest
  end.

(** Lines 2762-2795: the books of one friendly tag. *)
Fixpoint tag_books_loop (friendly_tag normalized_tag : string) (books : list book)
    (genre_list : list (string * list book)) : list (string * list book) :=
  match books with
  | [] => genre_list
  | b :: rest =>
      if bool_decide (friendly_tag ∈ tags b) then
        if bool_decide (normalized_tag ∈ map fst genre_list)
        then tag_books_loop friendly_tag normalized_tag rest
               (add_to_existing normalized_tag (this_book b) genre_list)
        else tag_books_loop friendly_tag normalized_tag rest
               (genre_list ++ [(normalized_tag, [this_book b])])
      else tag_books_loop friendly_tag normalized_tag rest genre_list
  end.

(** [genre_tags_dict[friendly_tag]] *)
Definition normalized_of (friendly_tag : string) : option string :=
  snd <$> List.find (fun kv => bool_decide (kv.1 = friendly_tag)) (genre_tags_dict inp).

(** Lines 2756-2795: the loop over the sorted friendly tags. *)
Fixpoint friendly_tags_loop (friendly_tags : list string) (books : list book)
    (genre_list : list (string * list book)) : option (list (string * list book)) :=
  match friendly_tags with
  | [] => Some genre_list
  | friendly_tag :: rest =>
      normalized_tag ← normalized_of friendly_tag;
      friendly_tags_loop rest books
        (tag_books_loop friendly_tag normalized_tag books genre_list)
  end.

(** Lines 2745-2846: a file per genre, and the list [self.genres]. *)
Definition generateHTMLByTags (self : builder) : option builder :=
  genre_list ← friendly_tags_loop
                  (PySort.sorted String.leb (fun x => x) (map fst (genre_tags_dict inp)))
                  (booksByAuthor self) [];
  let self :=
    foldl (fun self g => write ("content/Genre_" +:+ g.1 +:+ ".html") self)
          self genre_list in
  let master_genre_list :=
    map (fun g => {| tag := g.1; file := "content/Genre_" +:+ g.1 +:+ ".html";
                     genre_books := g.2 |}) genre_list in
  Some (set_genres master_genre_list self).

(** Lines 2131-2395; the content of the file is
    [DateAdded.generateHTMLByDateAdded]. *)
Definition generateHTMLByDateAdded (self : builder) : option builder :=
  books ← booksByTitle self;
  let self := set_booksByDateRange (DateAdded.sorted_by_timestamp books) self in
  let self := set_booksByMonth (DateAdded.sorted_by_timestamp books) self in
  _ ← DateAdded.generateHTMLByDateAdded (now inp) books;
  let self := write "content/ByDateAdded.html" self in
  Some (set_htmlFileList_2 (htmlFileList_2 self ++ ["content/ByDateAdded.html"]) self).

(** Lines 2397-2564, as far as the files go. *)
Definition generateHTMLByDateRead (self : builder) : option builder :=
  match bookmarked_books self with
  | [] => Some self
  | _ :: _ =>
      let self :=
        set_booksByDateRead
          (PySort.sorted_reverse Z.leb bookmark_timestamp (bookmarked_books self)) self in
      let self := write "content/ByDateRead.html" self in
      Some (set_htmlFileList_2 (htmlFileList_2 self ++ ["content/ByDateRead.html"]) self)
  end.

(** [self.booksByAuthor if self.opts.sort_descriptions_by_author else
    self.booksByTitle] *)
Definition sort_descriptions_by (self : builder) : option (list book) :=
  if sort_descriptions_by_author (opts self) then Some (booksByAuthor self)
  else booksByTitle self.

(** Lines 2993-3009 (and 3028-3044): the item and the itemref of a file. *)
Definition html_item (file : string) : item :=
  let start := find "/" file + 1 in
  let stop := find "." file in
  {| item_id := lower (slice file start stop); href := file;
     media_type := "application/xhtml+xml" |}.

(** Lines 2917-3069. *)
Definition generateOPF (self : builder) : option builder :=
  let fixed :=
    [ {| item_id := "ncx"; href := basename +:+ ".ncx";
         media_type := "application/x-dtbncx+xml" |};
      {| item_id := "stylesheet"; href := stylesheet; media_type := "text/css" |};
      {| item_id := "mastheadimage-image"; href := "images/mastheadImage.gif";
         media_type := "image/gif" |} ] in
  let thumb_items :=
    if generate_descriptions (opts self)
    then map (fun thumb =>
                {| item_id := slice thumb 0 (find ".jpg" thumb) +:+ "-image";
                   href := "images/" +:+ thumb; media_type := "image/jpeg" |})
             (thumbs self)
    else [] in
  descriptions ← (if generate_descriptions (opts self) then sort_descriptions_by self
                  else Some []);
  let files_1 := map html_item (htmlFileList_1 self) in
  let genre_files := map (fun g => html_item (file g)) (genres self) in
  let files_2 := map html_item (htmlFileList_2 self) in
  let book_items :=
    map (fun b => {| item_id := "book" +:+ str_of_Z (id b);
                     href := "content/book_" +:+ str_of_Z (id b) +:+ ".html";
                     media_type := "application/xhtml+xml" |}) descriptions in
  let sections := files_1 ++ genre_files ++ files_2 ++ book_items in
  let self := set_opf (Some {| manifest := fixed ++ thumb_items ++ sections;
                               spine := map item_id sections |}) self in
  Some (write (basename +:+ ".opf") self).

(** Lines 3071-3130: the periodical navPoint, with the [src] of the first
    enabled section. *)
Definition generateNCXHeader (self : builder) : option builder :=
  let order := playOrder self in
  let self := set_playOrder (playOrder self + 1) self in
  src ← (if generate_authors (opts self) then Some "content/ByAlphaAuthor.html"
         else if generate_titles (opts self) then Some "content/ByAlphaTitle.html"
         else if generate_series (opts self) then Some "content/BySeries.html"
         else if generate_genres (opts self) then Some "content/ByGenres.html"
         else if generate_recently_added (opts self) then Some "content/ByDateAdded.html"
         else
           books ← sort_descriptions_by self;
           first ← head books;
           Some ("content/book_" +:+ str_of_Z (id first) +:+ ".html"));
  let navPointTag :=
    {| nav_class := "periodical"; nav_id := "title"; nav_playOrder := Some order;
       nav_src := src; nav_children := [] |} in
  Some (set_ncxSoup (Some navPointTag) self).

(** The section navPoint every generator starts with: it takes the
    current playOrder. *)
Definition section_navPoint (section_id src : string) (self : builder)
  : navPoint * builder :=
  ({| nav_class := "section"; nav_id := section_id;
      nav_playOrder := Some (playOrder self); nav_src := src; nav_children := [] |},
   set_playOrder (playOrder self + 1) self).

(** An article of generateNCXDescriptions and generateNCXByGenre (lines
    3163-3168, 3851-3855): the article takes the current playOrder. *)
Definition add_volume (article_id src : string) (st : navPoint * builder)
  : navPoint * builder :=
  let '(navPointTag, self) := st in
  let navPointVolumeTag :=
    {| nav_class := "article"; nav_id := article_id;
       nav_playOrder := Some (playOrder self); nav_src := src; nav_children := [] |} in
  let self := set_playOrder (playOrder self + 1) self in
  (append_child navPointVolumeTag navPointTag, self).

(** An article of generateNCXBySeries, ByTitle, ByAuthor, ByDateAdded and
    ByDateRead (lines 3302-3306, 3396-3400, 3485-3489, 3580-3584, 3641-3645,
    3771-3777): the article is given class and id, and the current playOrder
    is assigned to [navPointTag], the section. *)
Definition add_article (article_id src : string) (st : navPoint * builder)
  : navPoint * builder :=
  let '(navPointTag, self) := st in
  let navPointByLetterTag :=
    {| nav_class := "article"; nav_id := article_id;
       nav_playOrder := None; nav_src := src; nav_children := [] |} in
  let navPointTag := assign_playOrder (playOrder self) navPointTag in
  let self := set_playOrder (playOrder self + 1) self in
  (append_child navPointByLetterTag navPointTag, self).

(** [body.insert(btc, navPointTag)]: the section goes to the end of the
    periodical navPoint, the first navPoint of the document. *)
Definition add_to_body (st : navPoint * builder) : option builder :=
  let '(navPointTag, self) := st in
  body ← ncxSoup self;
  Some (set_ncxSoup (Some (append_child navPointTag body)) self).

(** [file_ID]: the title of the section in lower case without spaces. *)
Definition file_ID (tocTitle : string) : string := replace " " "" (lower tocTitle).

(** Lines 3273-3296 and 3370-3389: the letters of a list; a letter is
    appended to [title_letters] where it changes. *)
Fixpoint letters_loop {A : Type} (first_of : A -> option string) (title_list : list A)
    (current_letter : string) (title_letters : list string) : option (list string) :=
  match title_list with
  | [] => Some title_letters
  | book :: rest =>
      c ← first_of book;
      if bool_decide (letter_or_symbol c <> current_letter)
      then letters_loop first_of rest (letter_or_symbol c)
             (title_letters ++ [letter_or_symbol c])
      else letters_loop first_of rest current_letter title_letters
  end.

Definition title_letters_of {A : Type} (first_of : A -> option string) (title_list : list A)
  : option (list string) :=
  first ← head title_list;
  c ← first_of first;
  letters_loop first_of title_list (letter_or_symbol c) [letter_or_symbol c].

(** Lines 3240-3327.  [books_by_letter] has an entry per letter of
    [title_letters]. *)
Definition generateNCXBySeries (tocTitle : string) (self : builder) : option builder :=
  _ ← ncxSoup self;
  let st := section_navPoint "byseries-ID" "content/BySeries.html#section_start" self in
  title_letters ← title_letters_of
                     (fun book => s ← series book;
                                  first_char (generateSortTitle title_sort_fn s))
                     (booksBySeries self);
  add_to_body
    (foldl (fun st letter =>
              add_article (upper letter +:+ "Series-ID")
                ("content/BySeries.html#" +:+ letter +:+ "_series") st)
           st title_letters).

(** Lines 3329-3424. *)
Definition generateNCXByTitle (tocTitle : string) (self : builder) : option builder :=
  _ ← ncxSoup self;
  let st := section_navPoint "byalphatitle-ID" "content/ByAlphaTitle.html#section_start"
              self in
  title_letters ← title_letters_of (fun book => first_char (title_sort book))
                     (booksByTitle_noSeriesPrefix self);
  add_to_body
    (foldl (fun st letter =>
              add_article (upper letter +:+ "Titles-ID")
                ("content/ByAlphaTitle.html#" +:+ letter) st)
           st title_letters).

(** Lines 3468-3480: the letters of [master_author_list]; the letter of a
    group is saved when the next group starts, the last one after the
    loop. *)
Fixpoint author_letters_loop (authors : list Authors.author_count)
    (current_letter : string) (master_author_list : list string)
  : option (list string) :=
  match authors with
  | [] => Some (master_author_list ++ [current_letter])
  | author :: rest =>
      c ← first_char author.1.2;
      if bool_decide (letter_or_symbol c <> current_letter)
      then author_letters_loop rest (letter_or_symbol c)
             (master_author_list ++ [current_letter])
      else author_letters_loop rest current_letter master_author_list
  end.

(** Lines 3426-3515. *)
Definition generateNCXByAuthor (tocTitle : string) (self : builder) : option builder :=
  _ ← ncxSoup self;
  let HTML_file := "content/ByAlphaAuthor.html" in
  let st := section_navPoint (file_ID tocTitle +:+ "-ID") (HTML_file +:+ "#section_start")
              self in
  first ← head (authors self);
  c ← first_char first.1.2;
  master_author_list ← author_letters_loop (authors self) (letter_or_symbol c) [];
  add_to_body
    (foldl (fun st letter =>
              add_article (letter +:+ "authors-ID")
                (HTML_file +:+ "#" +:+ letter +:+ "authors") st)
           st master_author_list).

(** [datetime.datetime(d.year, d.month, d.day)] *)
Definition midnight (d : datetime) : datetime :=
  {| year := year d; month := month d; day := day d;
     hour := 0; minute := 0; second := 0; microsecond := 0 |}.

(** Lines 3566-3572: the books of a date range, up to the first one
    outside; [book] is the loop variable afterwards. *)
Fixpoint titles_in_range (today_time : datetime) (date_range_limit : Z)
    (books : list book) (current_titles_list : list string) (book : option Catalog.book)
  : list string * option Catalog.book :=
  match books with
  | [] => (current_titles_list, book)
  | b :: rest =>
      if delta_days today_time (midnight (timestamp b)) <=? date_range_limit
      then titles_in_range today_time date_range_limit rest
             (current_titles_list ++ [Catalog.title b]) (Some b)
      else (current_titles_list, Some b)
  end.

(** Lines 3559-3575: the date ranges with a title; [None] is the
    NameError of [book] with no book at all. *)
Fixpoint date_ranges_loop (today_time : datetime) (books : list book) (i : nat)
    (previous : Z) (ranges : list Z) (current_titles_list : list string)
    (master_date_range_list : list string) : option (list string) :=
  match ranges with
  | [] => Some master_date_range_list
  | date_range_limit :: rest =>
      let date_range :=
        match i with
        | O => "Last " +:+ str_of_Z date_range_limit +:+ " days"
        | S _ => str_of_Z previous +:+ " to " +:+ str_of_Z date_range_limit
                 +:+ " days ago"
        end in
      let '(current_titles_list, book) :=
        titles_in_range today_time date_range_limit books current_titles_list None in
      let master_date_range_list :=
        match current_titles_list with
        | [] => master_date_range_list
        | _ :: _ => master_date_range_list ++ [date_range]
        end in
      b ← book;
      date_ranges_loop today_time books (S i) date_range_limit rest [Catalog.title b]
        master_date_range_list
  end.

(** Lines 3603-3617 (and 3749-3765): the dates of the groups of a list;
    the date of a group is saved when the next group starts, the last one
    after the loop. *)
Fixpoint dates_loop {A D : Type} `{EqDecision D} (date_of : A -> D) (l : list A)
    (current_date : D) (master_list : list D) : list D :=
  match l with
  | [] => master_list ++ [current_date]
  | book :: rest =>
      if bool_decide (date_of book <> current_date)
      then dates_loop date_of rest (date_of book) (master_list ++ [current_date])
      else dates_loop date_of rest current_date master_list
  end.

(** Lines 3517-3677. *)
Definition generateNCXByDateAdded (tocTitle : string) (self : builder) : option builder :=
  _ ← ncxSoup self;
  let HTML_file := "content/ByDateAdded.html" in
  let st := section_navPoint (file_ID tocTitle +:+ "-ID") (HTML_file +:+ "#section_start")
              self in
  master_date_range_list ←
    date_ranges_loop (midnight (now inp)) (booksByDateRange self) 0 0
      DateAdded.DATE_RANGE [] [];
  let st :=
    foldl (fun st date_range =>
             add_article (replace " " "" date_range +:+ "-ID")
               (HTML_file +:+ "#bda_" +:+ replace " " "" date_range) st)
          st master_date_range_list in
  first ← head (booksByMonth self);
  let master_month_list :=
    dates_loop DateAdded.month_of (booksByMonth self) (DateAdded.month_of first) [] in
  add_to_body
    (foldl (fun st (date : Z * Z) =>
              add_article ("bda_" +:+ str_of_Z date.1 +:+ "-" +:+ str_of_Z date.2 +:+ "-ID")
                (HTML_file +:+ "#bda_" +:+ str_of_Z date.1 +:+ "-" +:+ str_of_Z date.2) st)
           st master_month_list).

Definition day_of (b : bookmark) : Z * Z * Z :=
  (year (bookmark_time b), month (bookmark_time b), day (bookmark_time b)).

(** Lines 3678-3810.  The list of the date ranges is built as in
    generateNCXByDateAdded and not read; it is left out. *)
Definition generateNCXByDateRead (tocTitle : string) (self : builder) : option builder :=
  match booksByDateRead self with
  | [] => Some self
  | first :: _ =>
      _ ← ncxSoup self;
      let HTML_file := "content/ByDateRead.html" in
      let st := section_navPoint (file_ID tocTitle +:+ "-ID")
                  (HTML_file +:+ "#section_start") self in
      let master_day_list := dates_loop day_of (booksByDateRead self) (day_of first) [] in
      add_to_body
        (foldl (fun st (date : Z * Z * Z) =>
                  let text := str_of_Z date.1.1 +:+ "-" +:+ str_of_Z date.1.2 +:+ "-"
                              +:+ str_of_Z date.2 in
                  add_article ("bdr_" +:+ text +:+ "ID") (HTML_file +:+ "#bdr_" +:+ text) st)
               st master_day_list)
  end.

(** Lines 3864-3868: the normalized tag found for a genre, [None] when
    no friendly tag has it. *)
Definition find_normalized_tag (genre_tag : string) : string :=
  match List.find (fun kv => bool_decide (kv.2 = genre_tag)) (genre_tags_dict inp) with
  | Some kv => kv.2
  | None => "None"
  end.

(** Lines 3812-3916. *)
Definition generateNCXByGenre (tocTitle : string) (self : builder) : option builder :=
  match genres self with
  | [] => Some self
  | first :: _ =>
      _ ← ncxSoup self;
      let st := section_navPoint (file_ID tocTitle +:+ "-ID")
                  ("content/Genre_" +:+ tag first +:+ ".html#section_start") self in
      add_to_body
        (foldl (fun st genre =>
                  let normalized_tag := find_normalized_tag (tag genre) in
                  add_volume ("genre-" +:+ tag genre +:+ "-ID")
                    ("content/Genre_" +:+ normalized_tag +:+ ".html#Genre_"
                     +:+ normalized_tag) st)
               st (genres self))
  end.

(** Lines 3132-3238. *)
Definition generateNCXDescriptions (tocTitle : string) (self : builder) : option builder :=
  _ ← ncxSoup self;
  by_title ← booksByTitle self;
  first ← head by_title;
  let st := section_navPoint "bytitle-ID"
              ("content/book_" +:+ str_of_Z (id first) +:+ ".html") self in
  books ← sort_descriptions_by self;
  add_to_body
    (foldl (fun st book =>
              add_volume ("book" +:+ str_of_Z (id book) +:+ "ID")
                ("content/book_" +:+ str_of_Z (id book) +:+ ".html#book"
                 +:+ str_of_Z (id book)) st)
           st books).

(** Lines 3918-3922. *)
Definition writeNCX (self : builder) : builder := write (basename +:+ ".ncx") self.

(** A step that runs when its option is set. *)
Definition when (flag : builder -> bool) (step : builder -> option builder)
    (self : builder) : option builder :=
  if flag self then step self else Some self.

(** Lines 1353-1401.  The result is what buildSources returns and the
    builder afterwards; [None] is an exception. *)
Definition buildSources (self : builder) : option (bool * builder) :=
  let '(fetched, self) :=
    match booksByTitle self with
    | None => fetchBooksByTitle self
    | Some _ => (true, self)
    end in
  if negb fetched then Some (false, self) else
  '(by_author, self) ← fetchBooksByAuthor self;
  if negb by_author then Some (false, self) else
  let self := fetchBookmarks self in
  self ← when (fun self => generate_descriptions (opts self))
            (fun self => self ← generateThumbnails self; generateHTMLDescriptions self) self;
  self ← when (fun self => generate_authors (opts self)) generateHTMLByAuthor self;
  self ← when (fun self => generate_titles (opts self)) generateHTMLByTitle self;
  self ← when (fun self => generate_series (opts self)) generateHTMLBySeries self;
  self ← when (fun self => generate_genres (opts self)) generateHTMLByTags self;
  (* If this is the only Section, and there are no genres, bail *)
  if generate_genres (opts self)
     && bool_decide (section_list (opts self) = ["Genres"])
     && bool_decide (genres self = [])
  then
    Some (false,
          set_error (error self
                     ++ ["No books available to catalog";
                         "No Genres found to catalog." +:+ str1 newline
                         +:+ "Check 'Excluded genres'" +:+ str1 newline
                         +:+ "in E-book options." +:+ str1 newline]) self)
  else
  self ← when (fun self => generate_recently_added (opts self))
            (fun self =>
               self ← generateHTMLByDateAdded self;
               when generateRecentlyRead generateHTMLByDateRead self) self;
  self ← generateOPF self;
  self ← generateNCXHeader self;
  self ← when (fun self => generate_authors (opts self)) (generateNCXByAuthor "Authors") self;
  self ← when (fun self => generate_titles (opts self)) (generateNCXByTitle "Titles") self;
  self ← when (fun self => generate_series (opts self)) (generateNCXBySeries "Series") self;
  self ← when (fun self => generate_genres (opts self)) (generateNCXByGenre "Genres") self;
  self ← when (fun self => generate_recently_added (opts self))
            (fun self =>
               self ← generateNCXByDateAdded "Recently Added" self;
               when generateRecentlyRead (generateNCXByDateRead "Recently Read") self) self;
  self ← when (fun self => generate_descriptions (opts self))
            (generateNCXDescriptions "Descriptions") self;
  Some (true, writeNCX self).

End WithLibrary.

(** *** The specification's wording *)

(** The HTML files of the sections, as the generators list them. *)
Definition section_files (self : builder) : list string :=
  htmlFileList_1 self ++ map file (genres self) ++ htmlFileList_2 self.

(** The three documents are consistent: the file of every [src] of the
    NCX was written and is an item of the manifest, and every section file
    is once in the manifest and once in the spine. *)
Definition cross_linked (self : builder) : Prop :=
  exists ncx pkg,
    ncxSoup self = Some ncx /\ opf self = Some pkg
    /\ Forall (fun n => file_of (nav_src n) ∈ written self
                        /\ file_of (nav_src n) ∈ map href (manifest pkg))
              (document_order ncx)
    /\ Forall (fun f =>
                 length (List.filter (fun i => bool_decide (href i = f)) (manifest pkg)) = 1%nat
                 /\ exists i, i ∈ manifest pkg /\ href i = f
                    /\ length (List.filter (fun r => bool_decide (r = item_id i)) (spine pkg))
                       = 1%nat)
              (section_files self).

End Build.

(** ** The runs of the books by author *)

Module AuthorRuns.
Import Text Catalog Authors.

(** The entry of [authors] for a record, line 1467. *)
Definition pair_of (record : book) : author_pair :=
  (author record, capitalize (author_sort record)).

(** The entry of [unique_authors] for a run of books of one author. *)
Definition run_entry (icu_title : string -> string) (g : author_pair * list book)
  : author_count :=
  (g.1.1, icu_title g.1.2, length g.2).

End AuthorRuns.

(** ** What the loops of generateHTMLByTags keep *)

Module GenreList.
Import Text Catalog Build.

(** A genre of [genre_list] holds at least one book, no two books of one
    title, and only books of [books] that carry a friendly tag of the
    genre. *)
Definition genre_ok (inp : inputs) (books : list book) (g : string * list book) : Prop :=
  g.2 <> []
  /\ NoDup (map Catalog.title g.2)
  /\ Forall (fun b => exists b0 friendly_tag,
                 b0 ∈ books /\ b = this_book b0 /\ friendly_tag ∈ tags b0
                 /\ normalized_of inp friendly_tag = Some g.1) g.2.

(** The genres of [genre_list] have different tags. *)
Definition genre_list_ok (inp : inputs) (books : list book)
    (genre_list : list (string * list book)) : Prop :=
  NoDup (map fst genre_list) /\ Forall (genre_ok inp books) genre_list.

(** The genre of a tag is in [genre_list] and lists a book of the title. *)
Definition has_title (genre_list : list (string * list book)) (normalized_tag t : string)
  : Prop :=
  exists g, g ∈ genre_list /\ g.1 = normalized_tag /\ t ∈ map Catalog.title g.2.

End GenreList.

(** ** What buildSources keeps while it runs *)

Module BuildInv.
Import Text Catalog Ncx Build.

(** A file below the content directory. *)
Definition content_file (f : string) : Prop := String.prefix "content/" f = true.

(** The file of the description of a book. *)
Definition book_file (b : book) : string :=
  "content/book_" +:+ str_of_Z (id b) +:+ ".html".

(** The item of the manifest for the description of a book. *)
Definition book_item (b : book) : item :=
  {| item_id := "book" +:+ str_of_Z (id b); href := book_file b;
     media_type := "application/xhtml+xml" |}.

(** The builder while the HTML files are generated: the play order has not
    moved, neither OPF nor NCX exists, only files of the content directory
    have been written, and every file listed for the manifest has been
    written; the file of the books read has been written once there are books
    read, and every genre has the file of its tag, a normalized tag of
    [genre_tags_dict]. *)
Record html_inv (inp : inputs) (self : builder) : Prop := {
  inv_playOrder : playOrder self = 1;
  inv_ncx : ncxSoup self = None;
  inv_opf : opf self = None;
  inv_written : Forall content_file (written self);
  inv_sections : Forall (fun f => f ∈ written self) (section_files self);
  inv_read : booksByDateRead self <> [] -> "content/ByDateRead.html" ∈ written self;
  inv_genres :
    Forall (fun g => file g = "content/Genre_" +:+ tag g +:+ ".html"
                     /\ tag g ∈ map snd (genre_tags_dict inp)) (genres self)
}.

(** A step that keeps the books and the options, but for generate_series
    that it may clear, and only adds to the files written. *)
Record extends (self self' : builder) : Prop := {
  ext_booksByTitle : booksByTitle self' = booksByTitle self;
  ext_booksByAuthor : booksByAuthor self' = booksByAuthor self;
  ext_descriptions :
    generate_descriptions (opts self') = generate_descriptions (opts self);
  ext_sort :
    sort_descriptions_by_author (opts self') = sort_descriptions_by_author (opts self);
  ext_written : forall f, f ∈ written self -> f ∈ written self';
  ext_opts : opts self' = opts self \/ opts self' = set_generate_series false (opts self)
}.

(** The play orders assigned in a document, in document order. *)
Definition orders (t : navPoint) : list Z := omap nav_playOrder (document_order t).

(** The play orders assigned below a navPoint. *)
Definition children_orders (t : navPoint) : list Z :=
  omap nav_playOrder (flat_map document_order (nav_children t)).

(** The NCX while its sections are added: the play orders assigned
    increase through the document and lie below the counter, and the counter
    has counted every navPoint. *)
Definition ncx_inv (self : builder) : Prop :=
  exists ncx,
    ncxSoup self = Some ncx
    /\ nav_playOrder ncx = Some 1
    /\ StronglySorted Z.lt (orders ncx)
    /\ Forall (fun v => 1 <= v < playOrder self) (orders ncx)
    /\ Z.of_nat (length (document_order ncx)) = playOrder self - 1.

(** A section under construction, started at the play order [lo] in the
    builder [self0]: only the counter of the builder has moved. *)
Definition section_inv (self0 : builder) (lo : Z) (st : navPoint * builder) : Prop :=
  st.2 = set_playOrder (playOrder st.2) self0
  /\ StronglySorted Z.lt (orders st.1)
  /\ Forall (fun v => lo <= v < playOrder st.2) (orders st.1)
  /\ Z.of_nat (length (document_order st.1)) = playOrder st.2 - lo.

(** A section whose articles have no play order of their own. *)
Definition article_section_inv (self0 : builder) (lo : Z) (st : navPoint * builder)
  : Prop :=
  section_inv self0 lo st /\ children_orders st.1 = [].

(** A step that changes the NCX and the counter of the play order only. *)
Definition ncx_step (self self' : builder) : Prop :=
  self' = set_ncxSoup (ncxSoup self') (set_playOrder (playOrder self') self).

(** The items of the manifest for XHTML files. *)
Definition xhtml_items (pkg : package) : list item :=
  List.filter (fun i => bool_decide (media_type i = "application/xhtml+xml")) (manifest pkg).

(** The [src] values of the navPoints of a document, in document order. *)
Definition srcs (t : navPoint) : list string := map nav_src (document_order t).

(** A [src] that names one of [files], with or without a fragment. *)
Definition links_to (files : list string) (src : string) : Prop :=
  exists f, f ∈ files /\ (src = f \/ exists fragment, src = f +:+ "#" +:+ fragment).

(** What the generators of the NCX find when the HTML files are done:
    [W] holds the file of every section whose option is set, the file of the
    books read when there are any, the file of every genre and, with the
    descriptions, the file of every book. *)
Record linkable (inp : inputs) (W : list string) (self : builder) : Prop := {
  lk_authors : generate_authors (opts self) = true -> "content/ByAlphaAuthor.html" ∈ W;
  lk_titles : generate_titles (opts self) = true -> "content/ByAlphaTitle.html" ∈ W;
  lk_series : generate_series (opts self) = true -> "content/BySeries.html" ∈ W;
  lk_recent :
    generate_recently_added (opts self) = true -> "content/ByDateAdded.html" ∈ W;
  lk_read : booksByDateRead self <> [] -> "content/ByDateRead.html" ∈ W;
  lk_genres :
    Forall (fun g => file g ∈ W
                     /\ file g = "content/Genre_" +:+ tag g +:+ ".html"
                     /\ tag g ∈ map snd (genre_tags_dict inp)) (genres self);
  lk_descriptions :
    generate_descriptions (opts self) = true ->
    exists bt, booksByTitle self = Some bt /\ booksByAuthor self ≡ₚ bt
               /\ Forall (fun b => book_file b ∈ W) bt
}.

(** The periodical navPoint has the src [src], and every navPoint below
    it names a file of [W]. *)
Definition ncx_links (W : list string) (src : string) (self : builder) : Prop :=
  exists ncx,
    ncxSoup self = Some ncx /\ nav_src ncx = src
    /\ Forall (links_to W) (flat_map srcs (nav_children ncx)).

End BuildInv.

(** ** generateShortDescription: the texts cut for the NCX *)

Module ShortDescription.
Import Text.

(** What generateShortDescription gives: a text, [None], or the
    RuntimeError of an unspecified destination. *)
Inductive result :=
| Text (s : string)
| PyNone
| RuntimeError.

(** Lines 4547-4554: the loop of [shortDescription]; [None] is the end of
    the function, reached without a [return]. *)
Fixpoint shortDescription_loop (words : list string) (short_description : string)
    (limit : nat) : option string :=
  match words with
  | [] => None
  | word :: rest =>
      let short_description := short_description +:+ word +:+ " " in
      if (limit <? String.length short_description)%nat
      then Some (short_description +:+ "...")
      else shortDescription_loop rest short_description limit
  end.

Definition shortDescription (description : string) (limit : nat) : option string :=
  shortDescription_loop (split_ws description) "" limit.

Section Clips.

(** [self.authorClip] and [self.descriptionClip] *)
Variable authorClip descriptionClip : nat.

(** Lines 4563-4566 (and 4568-4571), for the clip of the destination. *)
Definition clipped (description : string) (clip : nat) : result :=
  if negb (clip =? 0)%nat && (String.length description <? clip)%nat
  then Text description
  else match shortDescription description clip with
       | Some short_description => Text short_description
       | None => PyNone
       end.

(** Lines 4540-4574; [dest] is [None] where the caller gives none. *)
Definition generateShortDescription (description : string) (dest : option string)
  : result :=
  match description with
  | EmptyString => PyNone
  | _ =>
      match dest with
      | Some d =>
          if String.eqb d "title" then
            (* No truncation for titles, let the device deal with it *)
            Text description
          else if String.eqb d "author" then clipped description authorClip
          else if String.eqb d "description" then clipped description descriptionClip
          else RuntimeError
      | None => RuntimeError
      end
  end.

(** The clip of a destination that has one. *)
Definition clip_of (dest : option string) (clip : nat) : Prop :=
  (dest = Some "author" /\ clip = authorClip)
  \/ (dest = Some "description" /\ clip = descriptionClip).

End Clips.

(** The words of a list, each followed by a space. *)
Definition spaced (words : list string) : string :=
  foldr (fun word rest => word +:+ " " +:+ rest) "" words.

End ShortDescription.

(** ** The anchors of the Titles section *)

Module TitleAnchors.
Import Text Titles.

(** The names of the anchors of the [div] of the section (lines
    1838-1841): the letter of every letter heading, in document order. *)
Definition letter_anchors (div : list (list paragraph)) : list string :=
  flat_map (fun bucket =>
              flat_map (fun p => match p with
                                 | LetterIndex letter => [letter]
                                 | BookTitle _ => []
                                 end) bucket) div.

End TitleAnchors.

(** ** The anchors of the Recently Added section *)

Module DateAnchors.
Import Text Catalog DateAdded.

(** The name of the anchor of a heading (lines 2147 and 2238). *)
Definition anchor_of (p : paragraph) : option string :=
  match p with
  | RangeIndex date_range => Some ("bda_" +:+ replace " " "" date_range)
  | MonthIndex y m => Some ("bda_" +:+ str_of_Z y +:+ "-" +:+ str_of_Z m)
  | AuthorIndex _ | SeriesLine _ | BookLine _ => None
  end.

(** The names of the anchors of the [div] of the section, in document
    order. *)
Definition date_anchors (ps : list paragraph) : list string := omap anchor_of ps.

End DateAnchors.

(** ** BIBTEX.run: the entries of the BibTeX catalog *)

Module Bibtex.
Import Text Csv.

(** [len(item)]; [None] is the TypeError of a value without length. *)
Definition py_len (item : pyval) : option nat :=
  match item with
  | PStr s => Some (String.length s)
  | PList l _ => Some (length l)
  | PNone | PObj _ _ => None
  end.

Section Run.

(** calibre.utils.bibtex.BibTeX ([bibtex_author_format], [utf8ToBibtex]),
    the built-in [int], the [year] of a date and [strftime("%b", ...)]; not
    under src/.  [None] is an exception. *)
Variable bibtex_author_format : pyval -> option string.
Variable utf8ToBibtex : pyval -> option string.
Variable py_int : pyval -> option Z.
Variable year_of : pyval -> option Z.
Variable strftime_b : pyval -> option string.
(** Lines 391-425, make_bibtex_citation for the template of the run; it
    works through [re.sub] with a callback and the BibTeX class, and is taken
    as it is. *)
Variable make_bibtex_citation : entry -> option string.
(** [nowf().strftime("%A, %d. %B %Y %H:%M")] *)
Variable generated_on : string.

(** Lines 383-389: the loop over the required fields, then the test of
    the date of publication. *)
Fixpoint required_fields (e : entry) (fields : list string) : option bool :=
  match fields with
  | [] =>
      pubdate ← e !! "pubdate";
      Some (match pubdate with PNone => false | _ => true end)
  | field :: rest =>
      item ← e !! field;
      match item with
      | PNone => Some false
      | _ => n ← py_len item; if (n =? 0)%nat then Some false else required_fields e rest
      end
  end.

(** Lines 381-389. *)
Definition check_entry_book_valid (e : entry) : option bool :=
  required_fields e ["title"; "authors"; "publisher"].

(** Lines 332-374: what a field appends to [bibtex_entry]. *)
Definition field_lines (field : string) (item : pyval) : option (list string) :=
  if decide (field = "authors") then
    a ← bibtex_author_format item; Some ["author = " +:+ dq +:+ a +:+ dq]
  else if decide (field ∈ ["title"; "publisher"; "cover"; "uuid"; "author_sort"; "series"])
  then
    t ← utf8ToBibtex item; Some [field +:+ " = " +:+ dq +:+ t +:+ dq]
  else if decide (field = "id") then
    n ← py_int item; Some ["calibreid = " +:+ dq +:+ str_of_Z n +:+ dq]
  else if decide (field = "rating") then
    n ← py_int item; Some ["rating = " +:+ dq +:+ str_of_Z n +:+ dq]
  else if decide (field = "size") then
    n ← py_int item; Some [field +:+ " = " +:+ dq +:+ str_of_Z n +:+ " octets" +:+ dq]
  else if decide (field = "tags") then
    (* A list to flatten *)
    l ← iter_items item;
    t ← utf8ToBibtex (PStr (join ", " l));
    Some ["tags = " +:+ dq +:+ t +:+ dq]
  else if decide (field = "comments") then
    match item with
    | PStr s =>
        t ← utf8ToBibtex (PStr (replace nl " " (replace (str1 cr +:+ nl) " " s)));
        Some ["note = " +:+ dq +:+ t +:+ dq]
    | _ => None
    end
  else if decide (field = "isbn") then
    match item with
    | PStr s => Some ["isbn = " +:+ dq +:+ filter_string is_digit s +:+ dq]
    | _ => None
    end
  else if decide (field = "formats") then
    fmts ← iter_items item;
    Some ["formats = " +:+ dq
          +:+ join ", " (map (fun format => lower (after_last "." format)) fmts) +:+ dq]
  else if decide (field = "series_index") then
    n ← py_int item; Some ["volume = " +:+ dq +:+ str_of_Z n +:+ dq]
  else if decide (field = "timestamp") then
    match item with
    | PObj _ (Some iso) =>
        Some ["timestamp = " +:+ dq
              +:+ take_while (fun c => negb (Ascii.eqb c "T")) iso +:+ dq]
    | _ => None
    end
  else if decide (field = "pubdate") then
    y ← year_of item;
    b ← strftime_b item;
    m ← utf8ToBibtex (PStr b);
    Some ["year = " +:+ dq +:+ str_of_Z y +:+ dq; "month = " +:+ dq +:+ m +:+ dq]
  else Some [].

(** Lines 321-374: the loop over the fields. *)
Fixpoint fields_loop (e : entry) (fields : list string) (bibtex_entry : list string)
  : option (list string) :=
  match fields with
  | [] => Some bibtex_entry
  | field :: rest =>
      item ← e !! field;
      (* check if the field should be included (none or empty) *)
      match item with
      | PNone => fields_loop e rest bibtex_entry
      | _ =>
          match py_len item with
          | Some O => fields_loop e rest bibtex_entry
          | _ =>
              lines ← field_lines field item;
              fields_loop e rest (bibtex_entry ++ lines)
          end
      end
  end.

(** Lines 300-379. *)
Definition create_bibtex_entry (e : entry) (fields : list string) (mode : string)
    (citation_bibtex : bool) : option string :=
  (if bool_decide (mode <> "misc") then check_entry_book_valid e else Some false)
  ≫= fun is_book : bool =>
  let start :=
    if is_book then Some "@book{"
    else if bool_decide (mode <> "book") then Some "@misc{"
    else None in
  match start with
  | None => Some ""   (* case strict book *)
  | Some start =>
      bibtex_entry ← (if citation_bibtex
                      then citation ← make_bibtex_citation e;
                           Some [join " " [start; citation]]
                      else Some [start]);
      bibtex_entry ← fields_loop e fields bibtex_entry;
      Some (join ("," +:+ nl +:+ "    ") bibtex_entry +:+ " }" +:+ nl +:+ nl)
  end.

(** Lines 520-532: the number of entries and the header of the file. *)
Definition count_entries (data : list entry) (bib_entry : string) : option nat :=
  if bool_decide (bib_entry = "book") then
    checked ← mapM check_entry_book_valid data;
    let nb_books := length (List.filter (fun v : bool => v) checked) in
    Some (if (nb_books <? length data)%nat then nb_books else length data)
  else Some (length data).

Definition header (nb_entries : nat) : string :=
  "%%%Calibre catalog" +:+ nl +:+ "%%%" +:+ str_of_N (N.of_nat nb_entries)
  +:+ " entries in catalog" +:+ nl +:+ nl
  +:+ "@preamble{" +:+ dq +:+ "This catalog of " +:+ str_of_N (N.of_nat nb_entries)
  +:+ " entries was generated by calibre on " +:+ generated_on +:+ dq +:+ "}"
  +:+ nl +:+ nl.

(** Lines 520-538: the text of the output file, for the entry type
    [bib_entry] chosen from the options. *)
Definition run_bibtex (fields : list string) (data : list entry) (bib_entry : string)
    (citation_bibtex : bool) : option string :=
  nb_entries ← count_entries data bib_entry;
  entries ← mapM (fun e => create_bibtex_entry e fields bib_entry citation_bibtex) data;
  Some (header nb_entries +:+ concat_lines entries).

End Run.
End Bibtex.

(** ** Sample data for the worked examples *)

Module CsvExample.
Import Text Csv.

Definition sample_fields : list string := ["title"; "authors"; "isbn"; "comments"].

(** A title with a double quote in it, no isbn. *)
Definition sample_entry : entry :=
  <["title" := PStr ("The " +:+ dq +:+ "Best" +:+ dq)]>
  (<["authors" := PList ["A. Author"; "B. Writer"] "[]"]>
  (<["isbn" := PNone]>
  (<["comments" := PStr ("one" +:+ nl +:+ "two")]> ∅))).

Definition sample_table : list (list (option string)) :=
  [[Some ("The " +:+ dq +:+ "Best" +:+ dq); Some "A. Author, B. Writer"; None;
    Some "one two"]].

(** Two records and a connected device that has the second one. *)
Definition device_fields : list string := ["id"; "title"; "ondevice"].

Definition first_entry : entry :=
  <["id" := PObj "1" None]> (<["title" := PStr "Carrie"]> ∅).

Definition second_entry : entry :=
  <["id" := PObj "2" None]> (<["title" := PStr "Misery"]> ∅).

Definition sample_on_device (id : pyval) : option pyval :=
  match id with
  | PObj "1" _ => Some PNone
  | PObj "2" _ => Some (PStr "Main")
  | _ => None
  end.

Definition device_table : list (list (option string)) :=
  [[Some "1"; Some "Carrie"; None]; [Some "2"; Some "Misery"; Some "Main"]].

(** A record whose title has a line break. *)
Definition two_line_entry : entry :=
  <["title" := PStr ("Carrie" +:+ nl +:+ "A Novel")]> ∅.

End CsvExample.

Module ThumbsExample.
Import Thumbs.

(** A stand-in for the image codec. *)
Definition sample_thumbnail (data : bytes) : option bytes := Some ("thumb of " +:+ data).

Definition sample_title : title := {| cover := Some "lib/b1/cover.jpg"; uuid := "u-1" |}.

(** The archive holds a thumbnail made from an earlier cover. *)
Definition sample_store : store :=
  {| files := {[ "lib/b1/cover.jpg" := "new cover" ]};
     thumbs_zip := [ {| ze_name := "u-1"; ze_comment := hex (crc32 "old cover");
                        ze_data := "thumb of old cover" |} ] |}.

End ThumbsExample.

Module TitlesExample.
Import Catalog.

Definition day0 : Dates.datetime :=
  {| Dates.year := 2011; Dates.month := 1; Dates.day := 15;
     Dates.hour := 12; Dates.minute := 0; Dates.second := 0; Dates.microsecond := 0 |}.

Definition mk (i : Z) (t ts a : string) : book :=
  {| id := i; title := t; title_sort := ts; author := a; author_sort := a;
     series := None; series_index := 0; tags := []; timestamp := day0 |}.

(** Sort titles as generateSortTitle gives them for the titles. *)
Definition sample_books : list book :=
  [ mk 1 "The Apple" "Apple" "Ann";
    mk 2 "[Brackets]" "/ [brackets]" "Bob";
    mk 3 "1984" "      1984" "Cy";
    mk 4 "an armchair" "Armchair" "Di" ].

End TitlesExample.

Module DateAddedExample.
Import Catalog Dates.

Definition at_time (y m d h mi s us : Z) : datetime :=
  {| year := y; month := m; day := d;
     hour := h; minute := mi; second := s; microsecond := us |}.

Definition mk (i : Z) (t a : string) (ts : datetime) : book :=
  {| id := i; title := t; title_sort := t; author := a; author_sort := a;
     series := None; series_index := 0; tags := []; timestamp := ts |}.

(** The build runs at noon of the 31st of March 2011. *)
Definition build_time : datetime := at_time 2011 3 31 12 0 0 0.

Definition sample_books : list book :=
  [ mk 1 "Old" "Ann" (at_time 2010 12 24 9 0 0 0);
    mk 2 "New" "Bob" (at_time 2011 3 30 18 30 0 0);
    mk 3 "Middle" "Cy" (at_time 2011 3 2 8 15 0 0);
    mk 4 "Older" "Di" (at_time 2010 12 1 10 0 0 0) ].

(** A book added on the 1st of March 2011 at half past midnight, 30 days
    and eleven and a half hours before the build. *)
Definition early_march_book : book :=
  mk 7 "Early March" "Eve" (at_time 2011 3 1 0 30 0 0).

End DateAddedExample.

Module AuthorsExample.
Import Catalog.

Definition mk (i : Z) (t ts a a_sort : string) (s : option string) (si : Q) : book :=
  {| id := i; title := t; title_sort := ts; author := a; author_sort := a_sort;
     series := s; series_index := si; tags := [];
     timestamp := TitlesExample.day0 |}.

(** Two books of Stephen King with different author_sort values, the
    second in a series, and a book of another author. *)
Definition carrie : book :=
  mk 1 "Carrie" "Carrie" "Stephen King" "King, Stephen" None 0.
Definition gunslinger : book :=
  mk 2 "The Gunslinger" "Gunslinger" "Stephen King" "King, S." (Some "Dark Tower") 1.
Definition henry : book :=
  mk 3 "Henry and Amy" "Henry and Amy" "Stephen Michael King" "King, Stephen Michael"
     None 0.

Definition mixed_books : list book := [carrie; gunslinger; henry].

End AuthorsExample.

Module BuildExample.
Import Catalog Build.

(** A library of three books, two of them tagged. *)
Definition apple : book :=
  {| id := 1; title := "The Apple"; title_sort := "Apple"; author := "Ann Lee";
     author_sort := "Lee, Ann"; series := None; series_index := 0;
     tags := ["Fiction"]; timestamp := DateAddedExample.at_time 2011 3 2 8 15 0 0 |}.
Definition brick : book :=
  {| id := 2; title := "Brick"; title_sort := "Brick"; author := "Bob Ray";
     author_sort := "Ray, Bob"; series := None; series_index := 0;
     tags := ["Fiction"; "History"];
     timestamp := DateAddedExample.at_time 2011 3 30 18 30 0 0 |}.
Definition year_1984 : book :=
  {| id := 3; title := "1984"; title_sort := "      1984"; author := "Cy Orr";
     author_sort := "Orr, Cy"; series := None; series_index := 0;
     tags := []; timestamp := DateAddedExample.at_time 2010 12 24 9 0 0 0 |}.

Definition library : inputs :=
  {| titles := [apple; brick; year_1984];
     series_data := [];
     genre_tags_dict := [("Fiction", "fiction"); ("History", "history")];
     device_bookmarks := [];
     now := DateAddedExample.build_time;
     generateForKindle := false;
     connected_kindle := false;
     thumbnail := fun _ => NoCover |}.

(** A library of the two books of Stephen King of [AuthorsExample],
    whose author_sort values differ. *)
Definition king_library : inputs :=
  {| titles := [AuthorsExample.carrie; AuthorsExample.gunslinger];
     series_data := [AuthorsExample.gunslinger];
     genre_tags_dict := [];
     device_bookmarks := [];
     now := DateAddedExample.build_time;
     generateForKindle := false;
     connected_kindle := false;
     thumbnail := fun _ => NoCover |}.

(** The options of a catalog with the Titles section only, of one with
    the Genres section only, and of one with the Genres and Descriptions
    sections. *)
Definition titles_only : options := run_options false true false false false false.
Definition genres_only : options := run_options false false false true false false.
Definition genres_and_descriptions : options :=
  run_options false false false true false true.

End BuildExample.

Module BibtexExample.
Import Text Csv.

(** A book with all that a book entry needs, and one without publisher. *)
Definition complete_book : entry :=
  <["title" := PStr "Brick"]>
  (<["authors" := PList ["Bob Ray"] "[]"]>
  (<["publisher" := PStr "Clay Press"]>
  (<["pubdate" := PObj "2011-03-30 18:30:00" (Some "2011-03-30T18:30:00")]> ∅))).

Definition unpublished_book : entry :=
  <["title" := PStr "The Apple"]>
  (<["authors" := PList ["Ann Lee"] "[]"]>
  (<["publisher" := PNone]>
  (<["pubdate" := PNone]> ∅))).

Definition sample_fields : list string := ["title"; "authors"; "publisher"; "pubdate"].

(** Stand-ins for the BibTeX class and the other helpers. *)
Definition sample_text (v : pyval) : option string := Some (unicode v).
Definition sample_authors (v : pyval) : option string := join " and " <$> iter_items v.

End BibtexExample.

(** * Facts about texts and numbers *)

(** [lia] over [N] with quotients and remainders taken as atoms. *)
Ltac abstract_N_divmod :=
  repeat match goal with
    | |- context [N.modulo ?a ?b] =>
        let m := fresh "m" in set (m := N.modulo a b) in *; clearbody m
    | |- context [N.div ?a ?b] =>
        let q := fresh "q" in set (q := N.div a b) in *; clearbody q
    | H : context [N.modulo ?a ?b] |- _ =>
        let m := fresh "m" in set (m := N.modulo a b) in *; clearbody m
    | H : context [N.div ?a ?b] |- _ =>
        let q := fresh "q" in set (q := N.div a b) in *; clearbody q
    end.
Ltac nlia := abstract_N_divmod; lia.

Section TextFacts.
Import Text.

Lemma append_cons (x : ascii) (a b : string) : String x a +:+ b = String x (a +:+ b).
Proof. reflexivity. Qed.

Lemma append_nil_l (a : string) : "" +:+ a = a.
Proof. reflexivity. Qed.

Lemma append_nil_r (a : string) : a +:+ "" = a.
Proof. induction a as [|x a IH]; [reflexivity | now rewrite append_cons, IH]. Qed.

Lemma append_assoc3 (a b c : string) : (a +:+ b) +:+ c = a +:+ (b +:+ c).
Proof.
  induction a as [|x a IH]; [reflexivity | now rewrite !append_cons, IH].
Qed.

Lemma length_append (a b : string) :
  String.length (a +:+ b) = (String.length a + String.length b)%nat.
Proof. induction a as [|x a IH]; [reflexivity | cbn; now rewrite <- IH]. Qed.

(** The order of two texts with heads of one length is decided by the
    heads, unless these are equal. *)
Lemma compare_append_same_length (a b x y : string) :
  String.length a = String.length b ->
  String.compare (a +:+ x) (b +:+ y)
  = match String.compare a b with Eq => String.compare x y | c => c end.
Proof.
  revert b. induction a as [|c a IH]; intros [|d b] Hlen; try discriminate.
  - reflexivity.
  - rewrite !append_cons. cbn [String.compare].
    destruct (Ascii.compare c d); try reflexivity.
    apply IH. now injection Hlen.
Qed.

Lemma ltb_append_same_length (a b x y : string) :
  String.length a = String.length b ->
  String.ltb a b = true -> String.ltb (a +:+ x) (b +:+ y) = true.
Proof.
  intros Hlen. unfold String.ltb. rewrite compare_append_same_length by assumption.
  destruct (String.compare a b); congruence.
Qed.

Lemma compare_refl (a : string) : String.compare a a = Eq.
Proof.
  induction a as [|c a IH]; [reflexivity|]. cbn [String.compare].
  unfold Ascii.compare. now rewrite N.compare_refl.
Qed.

Lemma ltb_append_prefix (a x y : string) :
  String.ltb (a +:+ x) (a +:+ y) = String.ltb x y.
Proof.
  unfold String.ltb. rewrite compare_append_same_length by reflexivity.
  now rewrite compare_refl.
Qed.

(** The first characters decide when they differ. *)
Lemma ltb_first_char (c d : ascii) (a b : string) :
  code c < code d -> String.ltb (String c a) (String d b) = true.
Proof.
  intros H. unfold String.ltb. cbn [String.compare].
  assert (Ascii.compare c d = Lt) as ->; [|reflexivity].
  unfold Ascii.compare. apply N.compare_lt_iff. unfold code in H. lia.
Qed.

Lemma prefix_nil (s : string) : String.prefix "" s = true.
Proof. now destruct s. Qed.

(** *** Decimal digits *)

Lemma code_digit_char (d : N) : (d < 10)%N -> code (digit_char d) = 48 + Z.of_N d.
Proof.
  intros Hd. unfold code, digit_char. rewrite Ascii.N_ascii_embedding by lia. lia.
Qed.

Lemma length_digs (k : nat) (n : N) : String.length (digs k n) = k.
Proof.
  revert n. induction k as [|k IH]; intros n; [reflexivity|].
  cbn [digs]. rewrite length_append, IH. cbn. lia.
Qed.

Lemma digs_head (k : nat) (n : N) :
  (1 <= k)%nat -> exists c r, digs k n = String c r /\ 48 <= code c <= 57.
Proof.
  revert n. induction k as [|k IH]; intros n Hk; [lia|].
  cbn [digs]. destruct k as [|k'].
  - exists (digit_char (n mod 10)), EmptyString. split; [reflexivity|].
    pose proof (N.mod_lt n 10 ltac:(lia)). rewrite code_digit_char; nlia.
  - destruct (IH (n / 10)%N ltac:(lia)) as (c & r & -> & Hc).
    eexists c, _. split; [apply append_cons | exact Hc].
Qed.

Lemma dec_digits_digs (f : nat) :
  forall (n : N) (acc : string),
    (n < 2 ^ N.of_nat (S f))%N ->
    exists k, (1 <= k)%nat /\ (n < 10 ^ N.of_nat k)%N
              /\ (k = 1%nat \/ (10 ^ N.of_nat (k - 1) <= n)%N)
              /\ dec_digits (S f) n acc = digs k n +:+ acc.
Proof.
  induction f as [|f IH]; intros n acc Hn.
  - exists 1%nat. cbn [dec_digits]. change (2 ^ N.of_nat 1)%N with 2%N in Hn.
    assert ((n <? 10)%N = true) as -> by (apply N.ltb_lt; lia).
    repeat split; [lia | change (10 ^ N.of_nat 1)%N with 10%N; lia | now left].
  - cbn [dec_digits]. destruct (n <? 10)%N eqn:E.
    + apply N.ltb_lt in E. exists 1%nat.
      repeat split; [lia | change (10 ^ N.of_nat 1)%N with 10%N; lia | now left].
    + apply N.ltb_ge in E.
      assert (Hdiv : (n / 10 < 2 ^ N.of_nat (S f))%N).
      { apply N.Div0.div_lt_upper_bound.
        replace (N.of_nat (S (S f))) with (N.succ (N.of_nat (S f))) in Hn by lia.
        rewrite N.pow_succ_r' in Hn. nlia. }
      destruct (IH (n / 10)%N (String (digit_char (n mod 10)) acc) Hdiv)
        as (k & Hk1 & Hlt & Hge & Heq).
      exists (S k). split; [lia|]. split; [|split].
      * replace (N.of_nat (S k)) with (N.succ (N.of_nat k)) by lia.
        rewrite N.pow_succ_r'. pose proof (N.div_mod n 10 ltac:(lia)).
        pose proof (N.mod_lt n 10 ltac:(lia)). nlia.
      * right. replace (S k - 1)%nat with k by lia.
        destruct Hge as [->|Hge]; [change (10 ^ N.of_nat 1)%N with 10%N; lia|].
        replace (N.of_nat k) with (N.succ (N.of_nat (k - 1))) by lia.
        rewrite N.pow_succ_r'. pose proof (N.div_mod n 10 ltac:(lia)). nlia.
      * cbn [dec_digits] in Heq |- *. rewrite Heq. cbn [digs].
        now rewrite append_assoc3.
Qed.

(** The decimal text of [n] is its [k] digits, [k] being the number of
    digits of [n]. *)
Lemma str_of_N_digs (n : N) :
  exists k, (1 <= k)%nat /\ (n < 10 ^ N.of_nat k)%N
            /\ (k = 1%nat \/ (10 ^ N.of_nat (k - 1) <= n)%N)
            /\ str_of_N n = digs k n.
Proof.
  unfold str_of_N.
  destruct (dec_digits_digs (N.to_nat (N.log2 n)) n "") as (k & H1 & H2 & H3 & H4).
  - replace (N.of_nat (S (N.to_nat (N.log2 n)))) with (N.succ (N.log2 n)) by lia.
    destruct n as [|p]; [reflexivity|]. apply N.log2_spec. lia.
  - exists k. rewrite H4, append_nil_r. auto.
Qed.

Lemma digs_lt (k : nat) :
  forall n1 n2 : N,
    (n2 < 10 ^ N.of_nat k)%N -> (n1 < n2)%N ->
    String.ltb (digs k n1) (digs k n2) = true.
Proof.
  induction k as [|k IH]; intros n1 n2 H2 Hlt.
  - change (10 ^ N.of_nat 0)%N with 1%N in H2. lia.
  - cbn [digs].
    pose proof (N.div_mod n1 10 ltac:(lia)) as E1.
    pose proof (N.div_mod n2 10 ltac:(lia)) as E2.
    pose proof (N.mod_lt n1 10 ltac:(lia)) as M1.
    pose proof (N.mod_lt n2 10 ltac:(lia)) as M2.
    replace (N.of_nat (S k)) with (N.succ (N.of_nat k)) in H2 by lia.
    rewrite N.pow_succ_r' in H2.
    destruct (N.lt_trichotomy (n1 / 10) (n2 / 10)) as [Hd|[Hd|Hd]]; [| |nlia].
    + apply ltb_append_same_length; [now rewrite !length_digs|].
      apply IH; [nlia | assumption].
    + rewrite Hd, ltb_append_prefix. apply ltb_first_char.
      rewrite !code_digit_char by assumption. rewrite Hd in E1. nlia.
Qed.

Lemma length_spaces (n : nat) : String.length (spaces n) = n.
Proof. induction n; cbn; congruence. Qed.

Lemma spaces_add (a b : nat) : spaces (a + b) = spaces a +:+ spaces b.
Proof. induction a as [|a IH]; [reflexivity|]. cbn [Nat.add spaces]. now rewrite IH. Qed.

(** Right-aligned in ten characters, the decimal texts of numbers below
    [10^10] are ordered as the numbers are. *)
Lemma pad_left_lt (n1 n2 : N) :
  (n1 < n2)%N -> (n2 < 10 ^ 10)%N ->
  String.ltb (pad_left 10 (str_of_N n1)) (pad_left 10 (str_of_N n2)) = true
  /\ String.length (pad_left 10 (str_of_N n1)) = 10%nat
  /\ String.length (pad_left 10 (str_of_N n2)) = 10%nat.
Proof.
  intros Hlt H10.
  destruct (str_of_N_digs n1) as (k1 & Hk1 & Hu1 & Hl1 & ->).
  destruct (str_of_N_digs n2) as (k2 & Hk2 & Hu2 & Hl2 & ->).
  unfold pad_left. rewrite !length_digs, !length_append, !length_spaces, !length_digs.
  assert (Hk2' : (k2 <= 10)%nat).
  { destruct Hl2 as [->|Hl2]; [lia|].
    assert (10 ^ N.of_nat (k2 - 1) < 10 ^ 10)%N as H by lia.
    apply N.pow_lt_mono_r_iff in H; lia. }
  assert (Hk12 : (k1 <= k2)%nat).
  { destruct Hl1 as [->|Hl1]; [lia|].
    assert (10 ^ N.of_nat (k1 - 1) < 10 ^ N.of_nat k2)%N as H by lia.
    apply N.pow_lt_mono_r_iff in H; lia. }
  split; [|lia].
  destruct (decide (k1 = k2)) as [->|Hne].
  - rewrite ltb_append_prefix. now apply digs_lt.
  - replace (10 - k1)%nat with ((10 - k2) + (k2 - k1))%nat by lia.
    rewrite spaces_add, append_assoc3, ltb_append_prefix.
    destruct (digs_head k2 n2 Hk2) as (c & r & -> & Hc).
    destruct (k2 - k1)%nat as [|d] eqn:E; [lia|]. cbn [spaces]. rewrite append_cons.
    apply ltb_first_char. change (code " ") with 32. lia.
Qed.

End TextFacts.

(** ** Sort titles *)

Section CaseFacts.
Import Text.

Lemma low_not_alpha (c : ascii) : code c <= 57 -> is_alpha c = false.
Proof. intros H. unfold is_alpha, is_upper, is_lower. lia. Qed.

Lemma upper_char_plain (c : ascii) : code c <= 64 -> upper_char c = c.
Proof.
  unfold upper_char, is_lower, is_lower_latin. intros H.
  assert (97 <=? code c = false) as -> by lia.
  assert (224 <=? code c = false) as -> by lia. reflexivity.
Qed.

Lemma lower_char_plain (c : ascii) : code c <= 64 -> lower_char c = c.
Proof.
  unfold lower_char, is_upper, is_upper_latin. intros H.
  assert (65 <=? code c = false) as -> by lia.
  assert (192 <=? code c = false) as -> by lia. reflexivity.
Qed.

Lemma lower_plain (s : string) : plain s -> lower s = s.
Proof.
  unfold plain, lower. induction s as [|c s IH]; [reflexivity|]. cbn.
  intros H. apply andb_true_iff in H as [Hc Hs].
  rewrite lower_char_plain by lia. now rewrite IH.
Qed.

Lemma lower_append (a b : string) : lower (a +:+ b) = lower a +:+ lower b.
Proof.
  unfold lower. induction a as [|c a IH]; [reflexivity|].
  rewrite append_cons. cbn. now rewrite IH.
Qed.

Lemma plain_append (a b : string) : plain a -> plain b -> plain (a +:+ b).
Proof.
  unfold plain. induction a as [|c a IH]; [auto|]. rewrite append_cons. cbn.
  intros Ha Hb. apply andb_true_iff in Ha as [Hc Ha]. rewrite Hc. cbn. auto.
Qed.

Lemma plain_spaces (n : nat) : plain (spaces n).
Proof. unfold plain. induction n; [reflexivity | assumption]. Qed.

Lemma plain_digs (k : nat) (n : N) : plain (digs k n).
Proof.
  revert n. induction k as [|k IH]; intros n; [reflexivity|]. cbn [digs].
  apply plain_append; [apply IH|]. unfold plain. cbn. rewrite andb_true_r.
  pose proof (N.mod_lt n 10 ltac:(lia)). rewrite code_digit_char; nlia.
Qed.

Lemma plain_pad_decimal (n : N) : plain (pad_left 10 (str_of_N n)).
Proof.
  destruct (str_of_N_digs n) as (k & _ & _ & _ & ->). unfold pad_left.
  apply plain_append; [apply plain_spaces | apply plain_digs].
Qed.

Lemma code_upper_char (c : ascii) :
  is_alpha c = true -> 65 <= code (upper_char c) <= 90.
Proof.
  unfold is_alpha, upper_char. intros H. destruct (is_lower c) eqn:El.
  - unfold is_lower in El. unfold code in *. cbn [orb].
    pose proof (Ascii.N_ascii_bounded c).
    rewrite Ascii.N_ascii_embedding by lia. lia.
  - cbn in H. rewrite orb_false_r in H. unfold is_upper in H.
    assert (is_lower_latin c = false) as -> by (unfold is_lower_latin; lia).
    cbn [orb]. lia.
Qed.

Lemma take_while_digits (digits suffix : string) :
  all_digits digits = true -> SortTitle.no_leading_digit suffix = true ->
  take_while is_digit (digits +:+ suffix) = digits
  /\ drop_while is_digit (digits +:+ suffix) = suffix.
Proof.
  unfold all_digits. intros Hd Hs. induction digits as [|c d IH].
  - destruct suffix as [|c s]; [split; reflexivity|].
    cbn [SortTitle.no_leading_digit] in Hs. rewrite append_nil_l.
    cbn [take_while drop_while]. apply negb_true_iff in Hs. rewrite Hs. split; reflexivity.
  - cbn [list_ascii_of_string forallb] in Hd. apply andb_true_iff in Hd as [Hc Hd].
    rewrite append_cons. cbn [take_while drop_while].
    rewrite Hc. destruct (IH Hd) as [-> ->]. split; reflexivity.
Qed.

End CaseFacts.

(** * Properties *)

(** ** The CSV writer *)

Section CsvFacts.
Import Text Csv.

Variable get_field : pyval -> string -> pyval.
Variable is_device_connected : bool.
Variable on_device : pyval -> option pyval.

Lemma replace_dq_doubled (s : string) : replace dq (dq +:+ dq) s = doubled s.
Proof.
  unfold replace, dq, str1. induction s as [|c s IH]; [reflexivity|].
  cbn [replace_from doubled String.prefix String.length Nat.pred].
  destruct (ascii_dec dquote c) as [<-|Hne].
  - rewrite Ascii.eqb_refl, prefix_nil, IH. reflexivity.
  - destruct (Ascii.eqb_spec c dquote) as [->|_]; [congruence|]. now rewrite IH.
Qed.

Lemma fields_loop_cells (e : entry) (fields : list string) :
  forall (cells : list (option string)) (outstr : list string),
    Forall2 (fun f t => field_text get_field e f = Some t) fields cells ->
    fields_loop get_field e fields outstr = Some (outstr ++ map csv_cell cells).
Proof.
  induction fields as [|f fields IH]; intros cells outstr H.
  - inversion H; subst. cbn. now rewrite app_nil_r.
  - inversion H as [|? t ? cells' Hf Hrest]; subst; clear H.
    unfold field_text in Hf. cbn [fields_loop].
    destruct (field_item get_field e f) as [item|]; [|discriminate]. simpl in Hf |- *.
    assert (Hstep : forall item',
      fields_loop get_field e fields
        (outstr ++ [dq +:+ replace dq (dq +:+ dq) (unicode item') +:+ dq])
      = Some (outstr ++ csv_cell (Some (unicode item')) :: map csv_cell cells')).
    { intros item'. rewrite (IH _ _ Hrest), <- app_assoc. cbn [app csv_cell].
      now rewrite replace_dq_doubled. }
    destruct item;
      [ injection Hf as <-; rewrite (IH _ _ Hrest), <- app_assoc; reflexivity | ..];
      (destruct (convert_item f _) as [item'|]; [|discriminate]; simpl in Hf |- *;
       injection Hf as <-; apply Hstep).
Qed.

Lemma entries_loop_lines (fields : list string) (data : list entry) :
  forall (table : list (list (option string))) (outfile : string),
    Forall2 (fun e cells =>
               Forall2 (fun f t => field_text get_field e f = Some t) fields cells)
            data table ->
    entries_loop get_field fields data outfile
    = Some (outfile +:+ concat_lines (map csv_line table)).
Proof.
  induction data as [|e data IH]; intros table outfile H; inversion H; subst; clear H.
  - cbn. now rewrite append_nil_r.
  - cbn [entries_loop]. erewrite fields_loop_cells by eassumption. cbn.
    erewrite IH by eassumption. cbn [map concat_lines]. unfold csv_line.
    now rewrite append_assoc3.
Qed.

(** The loop over the fields returns exactly when every field has its
    text. *)
Lemma fields_loop_inv (e : entry) (fields : list string) :
  forall (outstr r : list string),
    fields_loop get_field e fields outstr = Some r ->
    exists cells,
      Forall2 (fun f t => field_text get_field e f = Some t) fields cells
      /\ r = outstr ++ map csv_cell cells.
Proof.
  induction fields as [|f fields IH]; intros outstr r H.
  - injection H as <-. exists []. split; [constructor | now rewrite app_nil_r].
  - cbn [fields_loop] in H. apply bind_Some in H as (item & Hitem & H).
    assert (Hcell : exists t, field_text get_field e f = Some t
                              /\ exists outstr',
                                   fields_loop get_field e fields outstr' = Some r
                                   /\ outstr' = outstr ++ [csv_cell t]).
    { unfold field_text. rewrite Hitem. cbn [mbind option_bind].
      destruct item;
        [ exists None; split; [reflexivity|]; eexists; split; [exact H | reflexivity] | ..];
        (apply bind_Some in H as (item' & -> & H); cbn [mbind option_bind];
         exists (Some (unicode item')); split; [reflexivity|];
         eexists; split; [exact H|]; cbn [csv_cell]; now rewrite replace_dq_doubled). }
    destruct Hcell as (t & Ht & outstr' & Hloop & ->).
    destruct (IH _ _ Hloop) as (cells & Hcells & ->).
    exists (t :: cells). split; [now constructor|].
    now rewrite <- app_assoc.
Qed.

Lemma entries_loop_inv (fields : list string) (data : list entry) :
  forall (outfile out : string),
    entries_loop get_field fields data outfile = Some out ->
    exists table,
      Forall2 (fun e cells =>
                 Forall2 (fun f t => field_text get_field e f = Some t) fields cells)
              data table
      /\ out = outfile +:+ concat_lines (map csv_line table).
Proof.
  induction data as [|e data IH]; intros outfile out H.
  - injection H as <-. exists []. split; [constructor | now rewrite append_nil_r].
  - cbn [entries_loop] in H. apply bind_Some in H as (outstr & Hf & H).
    apply fields_loop_inv in Hf as (cells & Hcells & ->). cbn [app] in H.
    destruct (IH _ _ H) as (table & Htable & ->).
    exists (cells :: table). split; [now constructor|].
    cbn [map concat_lines]. unfold csv_line. now rewrite append_assoc3.
Qed.

(** The data the lines are written from: record by record, the records
    as they are written. *)
Lemma written_data (fields : list string) (data data' : list entry) :
  (if is_device_connected && bool_decide ("ondevice" ∈ fields)
   then add_on_device on_device data else Some data) = Some data'
  <-> Forall2 (fun e e' => written_record is_device_connected on_device fields e = Some e')
        data data'.
Proof.
  unfold written_record.
  destruct (is_device_connected && bool_decide ("ondevice" ∈ fields)).
  - revert data'. induction data as [|e data IH]; intros data'; split; intros H.
    + injection H as <-. constructor.
    + inversion H. reflexivity.
    + cbn [add_on_device] in H.
      apply bind_Some in H as (id & Hid & H). apply bind_Some in H as (v & Hv & H).
      apply bind_Some in H as (rest' & Hrest & H). injection H as <-.
      constructor; [now rewrite Hid; cbn; rewrite Hv | now apply IH].
    + inversion H as [|? e' ? rest' He Hrest]; subst. cbn [add_on_device].
      apply bind_Some in He as (id & Hid & He). apply bind_Some in He as (v & Hv & He).
      injection He as <-. rewrite Hid. cbn. rewrite Hv. cbn.
      apply IH in Hrest. rewrite Hrest. reflexivity.
  - split; intros H.
    + injection H as <-. induction data; constructor; auto.
    + f_equal. induction H as [|e e' l l' He _ IH]; [reflexivity|].
      injection He as <-. now rewrite IH.
Qed.

Lemma rows_of_written (fields : list string) (data : list entry)
    (table : list (list (option string))) :
  Forall2 (record_cells get_field is_device_connected on_device fields) data table
  <-> exists data',
        Forall2 (fun e e' =>
                   written_record is_device_connected on_device fields e = Some e')
          data data'
        /\ Forall2 (fun e cells =>
                      Forall2 (fun f t => field_text get_field e f = Some t) fields cells)
             data' table.
Proof.
  split.
  - induction 1 as [|e cells data table (e' & He & Hc) _ (data' & Hd & Ht)].
    + exists []. split; constructor.
    + exists (e' :: data'). split; constructor; assumption.
  - intros (data' & Hd & Ht). revert table Ht.
    induction Hd as [|e e' data data' He _ IH]; intros table Ht;
      inversion Ht; subst; constructor; [exists e'; auto | auto].
Qed.

Lemma line_breaks_append (a b : string) :
  line_breaks (a +:+ b) = (line_breaks a + line_breaks b)%nat.
Proof.
  unfold line_breaks. induction a as [|c a IH]; [reflexivity|].
  rewrite append_cons. cbn [list_ascii_of_string List.filter].
  destruct (Ascii.eqb newline c); cbn [length]; now rewrite IH.
Qed.

Lemma line_breaks_doubled (s : string) : line_breaks (doubled s) = line_breaks s.
Proof.
  unfold line_breaks. induction s as [|c s IH]; [reflexivity|]. cbn [doubled].
  destruct (Ascii.eqb_spec c dquote) as [->|_].
  - cbn [list_ascii_of_string List.filter].
    change (Ascii.eqb newline dquote) with false. cbn iota. exact IH.
  - cbn [list_ascii_of_string List.filter].
    destruct (Ascii.eqb newline c); cbn [length]; now rewrite IH.
Qed.

Lemma line_breaks_cell (t : option string) :
  (forall s, t = Some s -> line_breaks s = 0%nat) -> line_breaks (csv_cell t) = 0%nat.
Proof.
  intros H. destruct t as [s|]; [|reflexivity]. cbn [csv_cell].
  rewrite !line_breaks_append, line_breaks_doubled, (H s eq_refl). reflexivity.
Qed.

Lemma line_breaks_cells (cells : list (option string)) :
  single_line cells -> line_breaks (join "," (map csv_cell cells)) = 0%nat.
Proof.
  unfold single_line. induction 1 as [|t cells Ht Hrest IH]; [reflexivity|].
  cbn [map]. destruct (map csv_cell cells) as [|c rest] eqn:E.
  - cbn [join]. now apply line_breaks_cell.
  - cbn [join] in IH |- *. rewrite !line_breaks_append, (line_breaks_cell t Ht), IH.
    reflexivity.
Qed.

Lemma line_breaks_replace (s : string) : line_breaks (replace nl " " s) = 0%nat.
Proof.
  unfold replace, nl, str1, line_breaks. induction s as [|c s IH]; [reflexivity|].
  cbn [replace_from String.prefix String.length Nat.pred].
  destruct (ascii_dec newline c) as [<-|Hne].
  - rewrite prefix_nil. exact IH.
  - cbn [list_ascii_of_string List.filter].
    destruct (Ascii.eqb_spec newline c) as [E|_]; [contradiction | exact IH].
Qed.

(** C8, as the code has it.  The CSV file is the byte order mark, the
    header line of the field names joined by commas, then one row per
    record of the data, in the order of the data: the record with its
    ondevice value when a device is connected and the field is requested,
    written as its cells joined by commas and a line break, a cell being the
    text of the field between double quotes with its double quotes doubled,
    and the empty quoted text for [None].  The run returns exactly when
    every record has its cells, a row is a single line when no text of
    its cells has a line break, and the text of the comments has none. *)
Theorem run_csv_format (fields : list string) (data : list entry) :
  (forall table : list (list (option string)),
      Forall2 (record_cells get_field is_device_connected on_device fields) data table ->
      run_csv get_field is_device_connected on_device fields data
      = Some (BOM +:+ (join "," fields +:+ nl) +:+ concat_lines (map csv_line table))
      /\ length table = length data)
  /\ (forall out : string,
         run_csv get_field is_device_connected on_device fields data = Some out ->
         exists table,
           Forall2 (record_cells get_field is_device_connected on_device fields)
             data table
           /\ out = BOM +:+ (join "," fields +:+ nl)
                    +:+ concat_lines (map csv_line table))
  /\ (forall cells : list (option string),
         single_line cells -> line_breaks (csv_line cells) = 1%nat)
  /\ (forall (e : entry) (s : string),
         e !! "comments" = Some (PStr s) ->
         exists t, field_text get_field e "comments" = Some (Some t)
                   /\ line_breaks t = 0%nat).
Proof.
  split; [|split; [|split]].
  - intros table Ht. split; [|symmetry; eapply Forall2_length; eassumption].
    apply rows_of_written in Ht as (data' & Hd & Ht).
    apply written_data in Hd. unfold run_csv. rewrite Hd. cbn [mbind option_bind].
    erewrite entries_loop_lines by eassumption. now rewrite append_assoc3.
  - intros out H. unfold run_csv in H. apply bind_Some in H as (data' & Hd & H).
    apply written_data in Hd.
    apply entries_loop_inv in H as (table & Ht & ->).
    exists table. split; [|now rewrite append_assoc3].
    apply rows_of_written. eauto.
  - intros cells H. unfold csv_line.
    rewrite line_breaks_append, line_breaks_cells by assumption. reflexivity.
  - intros e s H. unfold field_text, field_item. cbn [String.prefix].
    change (if ascii_dec "#" "c" then true else false) with false. cbn iota.
    rewrite H. cbn [mbind option_bind].
    eexists. split; [reflexivity|]. cbn [unicode]. apply line_breaks_replace.
Qed.

End CsvFacts.

Lemma run_csv_format_witness :
  (Csv.run_csv (fun _ _ => Csv.PNone) true CsvExample.sample_on_device
     CsvExample.device_fields [CsvExample.first_entry; CsvExample.second_entry]
   = Some (Csv.BOM +:+ (Text.join "," CsvExample.device_fields +:+ Csv.nl)
           +:+ Csv.concat_lines (map Csv.csv_line CsvExample.device_table))
   /\ length CsvExample.device_table
      = length [CsvExample.first_entry; CsvExample.second_entry])
  /\ Csv.line_breaks
       (Csv.csv_line [Some "2"; Some "Misery"; Some "Main"]) = 1%nat.
Proof.
  split.
  - apply (proj1 (run_csv_format (fun _ _ => Csv.PNone) true CsvExample.sample_on_device
                    CsvExample.device_fields
                    [CsvExample.first_entry; CsvExample.second_entry])
             CsvExample.device_table).
    constructor; [|constructor; [|constructor]].
    + eexists. split; [reflexivity|]. repeat constructor.
    + eexists. split; [reflexivity|]. repeat constructor.
  - apply (proj1 (proj2 (proj2 (run_csv_format (fun _ _ => Csv.PNone) true
                                  CsvExample.sample_on_device CsvExample.device_fields
                                  [CsvExample.first_entry; CsvExample.second_entry])))).
    repeat constructor; intros s [= <-]; reflexivity.
Defined.

(** C8 as the specification words it fails for a record with a line break
    in a text other than the comments: the title is written as it is, and
    the record takes two lines of the file. *)
Lemma run_csv_line_break_in_title :
  ~ Csv.one_line_per_record (fun _ _ => Csv.PNone) false (fun _ => None)
      ["title"] [CsvExample.two_line_entry].
Proof.
  intros H. specialize (H _ eq_refl). vm_compute in H. discriminate H.
Qed.

(** ** The limits of the thumbnail width *)

Section ThumbWidthFacts.
Import Text PyFloat ThumbWidth.

Lemma render_hundredths_range (n : Z) :
  100 <= n <= 200 -> two_decimal_in_range (render_hundredths n) = true.
Proof.
  intros Hn.
  assert (Hall : forallb (fun k => two_decimal_in_range
                                     (render_hundredths (100 + Z.of_nat k)))
                         (seq 0 101) = true) by (vm_compute; reflexivity).
  rewrite forallb_forall in Hall.
  replace n with (100 + Z.of_nat (Z.to_nat (n - 100))) by lia.
  apply Hall, in_seq. lia.
Qed.

Lemma round_hundredths_range (a : Z) (b : positive) :
  Z.pos b <= a <= 2 * Z.pos b ->
  100 <= round_half_even ((a # b) * inject_Z (pow10 2)) <= 200.
Proof.
  intros Hab. unfold round_half_even, Qmult, inject_Z, pow10. cbn [Qnum Qden].
  change (10 ^ Z.of_nat 2) with 100. rewrite Pos.mul_1_r.
  pose proof (Z.div_mod (a * 100) (Z.pos b) ltac:(lia)) as Hdm.
  pose proof (Z.mod_pos_bound (a * 100) (Z.pos b) ltac:(lia)) as Hr.
  set (fl := a * 100 / Z.pos b) in *. set (r := (a * 100) mod Z.pos b) in *.
  assert (100 <= fl <= 200) by nia.
  destruct (2 * r <? Z.pos b) eqn:E1; [lia|].
  assert (fl < 200) by (apply Z.ltb_ge in E1; nia).
  destruct (Z.pos b <? 2 * r); [lia|]. destruct (Z.even fl); lia.
Qed.

Lemma clamp_range (f : pyfloat) : (1 <= clamp f)%Q /\ (clamp f <= 2)%Q.
Proof.
  destruct f as [q| | |]; cbn; try (split; discriminate).
  destruct (Qle_bool 1 q) eqn:E1; cbn; [|split; discriminate].
  destruct (Qle_bool q 2) eqn:E2; cbn; [|split; discriminate].
  split; now apply Qle_bool_iff.
Qed.

Lemma fmt_clamped (c : Q) :
  (1 <= c)%Q -> (c <= 2)%Q -> two_decimal_in_range (fmt_f 2 (Finite c)) = true.
Proof.
  intros H1 H2. destruct c as [a b]. unfold Qle in H1, H2. cbn in H1, H2.
  assert (Ha : Z.abs a = a) by lia.
  unfold fmt_f, Qabs. rewrite Ha.
  assert (Qle_bool ten_to_50 (a # b) = false) as ->.
  { apply not_true_is_false. rewrite Qle_bool_iff. unfold Qle, ten_to_50. cbn.
    assert (10 ^ 50 > 2) by (vm_compute; reflexivity). nia. }
  assert (Qle_bool 0 (a # b) = true) as ->.
  { rewrite Qle_bool_iff. unfold Qle. cbn. lia. }
  apply (render_hundredths_range (round_half_even ((a # b) * inject_Z (pow10 2)))).
  apply round_hundredths_range. lia.
Qed.

(** C10, as the code has it.  When [float()] raises on the option value
    the result is the text 1.0; when it gives a number that is not a NaN
    the result is the two-decimal text of that number limited to the
    interval from 1.0 to 2.0, which is 1.00 for a number below 1.0 and 2.00
    for a number above 2.0. *)
Theorem validate_thumb_width_limits (tw : optval) :
  match as_float tw with
  | None => validate_thumb_width tw = "1.0"
  | Some NaN => True
  | Some f =>
      validate_thumb_width tw = fmt_f 2 (Finite (clamp f))
      /\ two_decimal_in_range (validate_thumb_width tw) = true
      /\ (lt f (Finite 1) = true -> validate_thumb_width tw = "1.00")
      /\ (lt (Finite 2) f = true -> validate_thumb_width tw = "2.00")
  end.
Proof.
  destruct tw as [s [f|]]; cbn [as_float]; [|reflexivity].
  assert (Hv : f <> NaN ->
               validate_thumb_width {| shown := s; as_float := Some f |}
               = fmt_f 2 (Finite (clamp f))).
  { intros Hnan. unfold validate_thumb_width, limit_thumb_width. cbn.
    destruct f as [q| | |]; cbn; try reflexivity; try congruence.
    destruct (Qle_bool 1 q) eqn:E1; cbn; [|reflexivity].
    destruct (Qle_bool q 2) eqn:E2; cbn; reflexivity. }
  assert (Hall : f <> NaN ->
    validate_thumb_width {| shown := s; as_float := Some f |}
      = fmt_f 2 (Finite (clamp f))
    /\ two_decimal_in_range
         (validate_thumb_width {| shown := s; as_float := Some f |}) = true
    /\ (lt f (Finite 1) = true ->
        validate_thumb_width {| shown := s; as_float := Some f |} = "1.00")
    /\ (lt (Finite 2) f = true ->
        validate_thumb_width {| shown := s; as_float := Some f |} = "2.00")).
  { intros Hnan. rewrite (Hv Hnan). split; [reflexivity|]. split.
    - apply fmt_clamped; apply clamp_range.
    - split.
      + destruct f as [q| | |]; cbn; try discriminate; [|reflexivity].
        intros Hlt. rewrite Hlt. reflexivity.
      + destruct f as [q| | |]; cbn; try discriminate; [|reflexivity].
        intros Hlt. rewrite Hlt.
        destruct (Qle_bool 1 q) eqn:E1; cbn; [reflexivity|].
        exfalso. apply negb_true_iff in Hlt.
        apply not_true_iff_false in Hlt, E1. rewrite Qle_bool_iff in Hlt, E1.
        apply Qnot_le_lt in Hlt, E1. apply (Qlt_irrefl 1).
        apply Qlt_trans with q; [|assumption].
        apply Qlt_trans with 2%Q; [reflexivity | assumption]. }
  destruct f; try (apply Hall; discriminate). exact I.
Qed.

(** C10 as the specification words it fails: an option value on which
    [float()] raises ends as the text 1.0, which has one decimal. *)
Lemma thumb_width_unparsable_not_two_decimal : ~ always_two_decimal.
Proof.
  intros H. specialize (H {| shown := "abc"; as_float := None |}).
  vm_compute in H. discriminate H.
Qed.

End ThumbWidthFacts.

(** ** The thumbnail cache *)

Section ThumbsFacts.
Import Text Thumbs.

Variable thumbnail : bytes -> option bytes.

Lemma getinfo_app_last (name : string) (zf : archive) (e : zip_entry) :
  ze_name e = name -> getinfo name (zf ++ [e]) = Some e.
Proof.
  intros He. induction zf as [|x zf IH]; cbn.
  - destruct (decide (ze_name e = name)); [reflexivity | contradiction].
  - now rewrite IH.
Qed.

Lemma save_new_thumb_stores (t : title) (image_dir thumb_file : string)
    (data thumb : bytes) (st : store) :
  thumbnail data = Some thumb ->
  exists st',
    save_new_thumb thumbnail t image_dir thumb_file data (hex (crc32 data)) st = Some st'
    /\ stores_new t (path_join image_dir thumb_file) data thumb st st'.
Proof.
  intros Ht. unfold save_new_thumb. rewrite Ht. cbn. eexists. split; [reflexivity|].
  unfold stores_new. cbn. split; [apply lookup_insert_eq|]. split; [reflexivity|].
  now apply getinfo_app_last.
Qed.

Lemma stores_new_grows (t : title) (path : string) (data thumb : bytes)
    (st st' : store) :
  stores_new t path data thumb st st' -> thumbs_zip st' <> thumbs_zip st.
Proof.
  intros (_ & Hz & _) Heq. rewrite Heq in Hz.
  apply (f_equal (@length _)) in Hz. rewrite length_app in Hz. cbn in Hz. lia.
Qed.


End ThumbsFacts.



(** ** Dates *)

Section DateFacts.
Import Dates.

Lemma lex_leb_total (a : list Z) : forall b, lex_leb a b = true \/ lex_leb b a = true.
Proof.
  induction a as [|x a IH]; intros [|y b]; cbn; auto.
  destruct (Z.ltb_spec x y), (Z.ltb_spec y x); auto; lia.
Qed.

Lemma lex_leb_trans (a : list Z) :
  forall b c, lex_leb a b = true -> lex_leb b c = true -> lex_leb a c = true.
Proof.
  induction a as [|x a IH]; intros [|y b] [|z c]; cbn; auto; try discriminate.
  destruct (Z.ltb_spec x y), (Z.ltb_spec y x), (Z.ltb_spec y z), (Z.ltb_spec z y),
    (Z.ltb_spec x z), (Z.ltb_spec z x); auto; try lia; try discriminate.
  apply IH.
Qed.

Lemma days_before_year_succ (y : Z) :
  days_before_year (y + 1) = days_before_year y + 365 + (if is_leap y then 1 else 0).
Proof.
  unfold days_before_year, is_leap. replace (y + 1 - 1) with y by lia.
  destruct (Z.eqb_spec (y mod 4) 0), (Z.eqb_spec (y mod 100) 0),
    (Z.eqb_spec (y mod 400) 0); cbn [andb orb negb];
    Z.to_euclidean_division_equations; lia.
Qed.

Lemma days_before_year_mono (y1 y2 : Z) :
  y1 <= y2 -> days_before_year y1 <= days_before_year y2.
Proof.
  intros H. replace y2 with (y1 + Z.of_nat (Z.to_nat (y2 - y1))) by lia.
  induction (Z.to_nat (y2 - y1)) as [|n IH]; [rewrite Z.add_0_r; lia|].
  replace (y1 + Z.of_nat (S n)) with (y1 + Z.of_nat n + 1) by lia.
  rewrite days_before_year_succ. destruct (is_leap _); lia.
Qed.

(** The days of a year up to the end of a month. *)
Lemma month_end (y m : Z) :
  1 <= m <= 12 ->
  days_before_month y m + days_in_month y m
  = if m =? 12 then 365 + (if is_leap y then 1 else 0) else days_before_month y (m + 1).
Proof.
  intros Hm. unfold days_before_month, days_in_month.
  assert (Hc : m = 1 \/ m = 2 \/ m = 3 \/ m = 4 \/ m = 5 \/ m = 6 \/ m = 7 \/ m = 8
               \/ m = 9 \/ m = 10 \/ m = 11 \/ m = 12) by lia.
  destruct (is_leap y);
    repeat (destruct Hc as [->|Hc]; [reflexivity|]); subst; reflexivity.
Qed.

Lemma days_before_month_mono (y m1 m2 : Z) :
  1 <= m1 -> m1 <= m2 -> m2 <= 12 -> days_before_month y m1 <= days_before_month y m2.
Proof.
  intros H1 H12 H2.
  replace m2 with (m1 + Z.of_nat (Z.to_nat (m2 - m1))) in * by lia.
  induction (Z.to_nat (m2 - m1)) as [|n IH]; [rewrite Z.add_0_r; lia|].
  specialize (IH ltac:(lia) ltac:(lia)).
  pose proof (month_end y (m1 + Z.of_nat n) ltac:(lia)) as He.
  destruct (Z.eqb_spec (m1 + Z.of_nat n) 12); [lia|].
  replace (m1 + Z.of_nat (S n)) with (m1 + Z.of_nat n + 1) by lia.
  assert (0 <= days_in_month y (m1 + Z.of_nat n)).
  { unfold days_in_month. repeat destruct (_ =? _); cbn; try destruct (is_leap y); lia. }
  lia.
Qed.

Lemma days_before_month_bound (y m : Z) :
  1 <= m <= 12 ->
  0 <= days_before_month y m
  /\ days_before_month y m + days_in_month y m <= 365 + (if is_leap y then 1 else 0).
Proof.
  intros Hm. split.
  - pose proof (days_before_month_mono y 1 m ltac:(lia) ltac:(lia) ltac:(lia)) as H.
    assert (days_before_month y 1 = 0) as E by reflexivity. lia.
  - pose proof (month_end y m Hm) as He. destruct (Z.eqb_spec m 12); [lia|].
    rewrite He.
    pose proof (days_before_month_mono y (m + 1) 12 ltac:(lia) ltac:(lia) ltac:(lia)) as H.
    pose proof (month_end y 12 ltac:(lia)) as H12. cbn [Z.eqb Pos.eqb] in H12.
    assert (0 <= days_in_month y 12) by (unfold days_in_month; cbn; lia).
    lia.
Qed.

(** Ordinals follow the order of year, month, day. *)
Lemma toordinal_mono (a b : datetime) :
  valid a -> valid b ->
  lex_leb [year a; month a; day a] [year b; month b; day b] = true ->
  toordinal a <= toordinal b.
Proof.
  intros (Hya & Hma & Hda & _) (Hyb & Hmb & Hdb & _). cbn [lex_leb]. unfold toordinal.
  pose proof (days_before_month_bound (year a) (month a) Hma) as [Ba1 Ba2].
  pose proof (days_before_month_bound (year b) (month b) Hmb) as [Bb1 Bb2].
  destruct (Z.ltb_spec (year a) (year b)) as [Hy|Hy].
  - intros _. pose proof (days_before_year_mono (year a + 1) (year b) ltac:(lia)) as H.
    rewrite days_before_year_succ in H. lia.
  - destruct (Z.ltb_spec (year b) (year a)) as [Hy'|Hy']; [discriminate|].
    assert (Ey : year a = year b) by lia. rewrite Ey in *.
    destruct (Z.ltb_spec (month a) (month b)) as [Hm|Hm].
    + intros _. pose proof (month_end (year b) (month a) Hma) as He.
      destruct (Z.eqb_spec (month a) 12); [lia|].
      pose proof (days_before_month_mono (year b) (month a + 1) (month b)
                    ltac:(lia) ltac:(lia) ltac:(lia)). lia.
    + destruct (Z.ltb_spec (month b) (month a)) as [Hm'|Hm']; [discriminate|].
      assert (Em : month a = month b) by lia. rewrite Em in *.
      destruct (Z.ltb_spec (day a) (day b)); [lia|].
      destruct (Z.ltb_spec (day b) (day a)); [discriminate | lia].
Qed.

Lemma toordinal_lt (a b : datetime) :
  valid a -> valid b ->
  (year a < year b
   \/ (year a = year b /\ month a < month b)
   \/ (year a = year b /\ month a = month b /\ day a < day b)) ->
  toordinal a < toordinal b.
Proof.
  intros (Hya & Hma & Hda & _) (Hyb & Hmb & Hdb & _) H. unfold toordinal.
  pose proof (days_before_month_bound (year a) (month a) Hma) as [Ba1 Ba2].
  pose proof (days_before_month_bound (year b) (month b) Hmb) as [Bb1 Bb2].
  destruct H as [Hy|[[Ey Hm]|(Ey & Em & Hd)]].
  - pose proof (days_before_year_mono (year a + 1) (year b) ltac:(lia)) as H.
    rewrite days_before_year_succ in H. lia.
  - rewrite Ey in *. pose proof (month_end (year b) (month a) Hma) as He.
    destruct (Z.eqb_spec (month a) 12); [lia|].
    pose proof (days_before_month_mono (year b) (month a + 1) (month b)
                  ltac:(lia) ltac:(lia) ltac:(lia)). lia.
  - rewrite Ey, Em. lia.
Qed.

(** The order of the fields is the order in time. *)
Lemma leb_to_microseconds (a b : datetime) :
  valid a -> valid b -> leb a b = true -> to_microseconds a <= to_microseconds b.
Proof.
  intros Va Vb. pose proof (toordinal_lt a b Va Vb) as Hlt.
  assert (Heq : year a = year b -> month a = month b -> day a = day b ->
                toordinal a = toordinal b).
  { unfold toordinal. intros -> -> ->. reflexivity. }
  destruct Va as (_ & _ & _ & Hha & Hmia & Hsa & Husa).
  destruct Vb as (_ & _ & _ & Hhb & Hmib & Hsb & Husb).
  unfold leb, fields, to_microseconds. cbn [lex_leb].
  repeat match goal with
         | |- context [Z.ltb ?x ?y] => destruct (Z.ltb_spec x y)
         end; intros Hleb; try discriminate Hleb; lia.
Qed.

Lemma leb_total (a b : datetime) : leb a b = true \/ leb b a = true.
Proof. apply lex_leb_total. Qed.

Lemma leb_trans (a b c : datetime) :
  leb a b = true -> leb b c = true -> leb a c = true.
Proof. apply lex_leb_trans. Qed.

(** A later book is fewer days back. *)
Lemma delta_days_mono (today a b : datetime) :
  valid a -> valid b -> leb b a = true ->
  delta_days today a <= delta_days today b.
Proof.
  intros Va Vb Hle. unfold delta_days, microseconds_per_day.
  pose proof (leb_to_microseconds b a Vb Va Hle).
  apply Z.div_le_mono; lia.
Qed.

(** The year and month follow the order of the timestamps. *)
Lemma leb_year_month (a b : datetime) :
  leb a b = true ->
  year a < year b \/ (year a = year b /\ month a <= month b).
Proof.
  unfold leb, fields. cbn [lex_leb].
  repeat match goal with
         | |- context [Z.ltb ?x ?y] => destruct (Z.ltb_spec x y)
         end; intros Hleb; try discriminate Hleb; lia.
Qed.

End DateFacts.

Section FloatTextFacts.
Import Text PyFloat.

Lemma str_of_Z_nonneg (z : Z) : 0 <= z -> str_of_Z z = str_of_N (Z.to_N z).
Proof. intros H. unfold str_of_Z. destruct (Z.ltb_spec z 0); [lia | reflexivity]. Qed.

Lemma str_of_Z_head (z : Z) : exists c r, str_of_Z z = String c r /\ code c <= 57.
Proof.
  unfold str_of_Z. destruct (z <? 0).
  - eexists "-"%char, _. split; [reflexivity|]. vm_compute. discriminate.
  - destruct (str_of_N_digs (Z.to_N z)) as (k & Hk & _ & _ & ->).
    destruct (digs_head k (Z.to_N z) Hk) as (c & r & -> & Hc).
    exists c, r. split; [reflexivity | lia].
Qed.

Lemma float_of_digits_small (n : N) :
  (n < 2 ^ 53)%N -> float_of_digits n = Finite (inject_Z (Z.of_N n)).
Proof.
  intros H. unfold float_of_digits. apply N.ltb_lt in H. now rewrite H.
Qed.

Lemma fmt_f_integer (z : Z) :
  0 <= z < 10 ^ 50 -> fmt_f 0 (Finite (inject_Z z)) = str_of_Z z.
Proof.
  intros Hz. unfold fmt_f, Qabs, inject_Z. rewrite Z.abs_eq by lia.
  assert (Qle_bool ten_to_50 (z # 1) = false) as ->.
  { apply not_true_is_false. rewrite Qle_bool_iff. unfold Qle, ten_to_50, inject_Z.
    cbn [Qnum Qden]. lia. }
  assert (Qle_bool 0 (z # 1) = true) as ->.
  { rewrite Qle_bool_iff. unfold Qle. cbn [Qnum Qden]. lia. }
  unfold fixed_nonneg, round_half_even, pow10, Qmult, inject_Z. cbn [Qnum Qden].
  change (10 ^ Z.of_nat 0) with 1. change (Z.pos (1 * 1)) with 1.
  rewrite Z.mul_1_r, Z.mod_1_r, !Z.div_1_r. cbn [Z.mul Z.ltb Z.compare].
  apply append_nil_r.
Qed.

Lemma exponent_large_head (prec : nat) (q : Q) :
  exponent_large prec q = EmptyString
  \/ exists c r, exponent_large prec q = String c r /\ code c <= 57.
Proof.
  unfold exponent_large.
  destruct (pow10 _ <=? _);
    match goal with
    | |- context [str_of_Z ?m] =>
        destruct (str_of_Z_head m) as (c & r & -> & Hc)
    end; right; rewrite append_cons; eauto.
Qed.

(** A formatted float is short, or begins with a sign or a digit. *)
Lemma fmt_f_head (prec : nat) (x : pyfloat) :
  (String.length (fmt_f prec x) < 10)%nat
  \/ exists c r, fmt_f prec x = String c r /\ code c <= 57.
Proof.
  destruct x as [q| | |]; try (left; unfold fmt_f; cbn; lia).
  unfold fmt_f. destruct (Qle_bool 0 q).
  - destruct (Qle_bool ten_to_50 (Qabs q)).
    + destruct (exponent_large_head prec (Qabs q)) as [->|H]; [left; cbn; lia | now right].
    + right. unfold fixed_nonneg.
      match goal with |- context [str_of_Z ?m +:+ _] =>
        destruct (str_of_Z_head m) as (c & r & -> & Hc) end.
      rewrite append_cons. eauto.
  - right. eexists "-"%char, _. split; [reflexivity|]. vm_compute. discriminate.
Qed.

End FloatTextFacts.

Section SortTitleFacts.
Import Text PyFloat SortTitle.

Variable title_sort : string -> string.

Lemma number_word_head (word : string) :
  exists c r, number_word word = String c r /\ code c <= 57.
Proof.
  unfold number_word.
  set (F := fmt_f 0 _). set (suffix := drop_while _ _).
  unfold pad_left. destruct (fmt_f_head 0 (float_of_digits
     (digits_value (take_while is_digit (replace "," "" word))))) as [Hshort|Hhead];
    fold F in Hshort || fold F in Hhead.
  - destruct (10 - String.length F)%nat as [|d] eqn:E; [lia|].
    cbn [spaces]. rewrite !append_cons. eexists " "%char, _.
    split; [reflexivity|]. vm_compute. discriminate.
  - destruct Hhead as (c & r & HF & Hc). rewrite HF.
    destruct (10 - _)%nat; cbn [spaces]; rewrite ?append_nil_l, !append_cons.
    + eauto.
    + eexists " "%char, _. split; [reflexivity|]. vm_compute. discriminate.
Qed.

Lemma capitalize_low (c : ascii) (r : string) :
  code c <= 57 -> capitalize (String c r) = String c (lower r).
Proof.
  intros Hc. unfold capitalize. now rewrite upper_char_plain by lia.
Qed.

Lemma no_slash_low (c : ascii) :
  code c <= 57 ->
  bool_decide (letter_or_symbol (str1 c) <> str1 c)
  && ((code "A" <? code c) || ((code "9" <? code c) && (code c <? code "A"))) = false.
Proof.
  intros Hc. change (code "A") with 65. change (code "9") with 57.
  apply andb_false_iff. right. lia.
Qed.

Lemma is_digit_low (c : ascii) : is_digit c = true -> code c <= 57.
Proof. unfold is_digit. lia. Qed.

(** The first word of a title that begins with a digit. *)
Lemma first_word_digit (c0 : ascii) (w : string) :
  is_digit c0 = true ->
  first_word (String c0 w) = [capitalize (number_word (String c0 w))]
  /\ exists c r, number_word (String c0 w) = String c r /\ code c <= 57.
Proof.
  intros Hd. destruct (number_word_head (String c0 w)) as (c & r & Hw & Hc).
  split; [|eauto]. unfold first_word. rewrite Hd, Hw.
  now rewrite no_slash_low.
Qed.

(** The first word of a title that begins with a letter. *)
Lemma first_word_letter (c : ascii) (w : string) :
  is_alpha c = true -> first_word (String c w) = [String (upper_char c) (lower w)].
Proof.
  intros Ha. unfold first_word.
  assert (is_digit c = false) as ->.
  { unfold is_alpha, is_upper, is_lower in Ha. unfold is_digit. lia. }
  assert (letter_or_symbol (str1 c) = str1 c) as ->.
  { unfold letter_or_symbol. cbn. now rewrite Ha. }
  rewrite bool_decide_eq_false_2 by auto. reflexivity.
Qed.

Lemma join_cons (sep x : string) (l : list string) :
  exists tail, join sep (x :: l) = x +:+ tail.
Proof.
  destruct l as [|y l]; [exists EmptyString; cbn; now rewrite append_nil_r|].
  eexists. reflexivity.
Qed.

(** The text of a number word below [2^53], which a float holds
    exactly: the number right-aligned in ten characters, then the suffix. *)
Lemma number_word_exact (word digits suffix : string) (n : N) :
  replace "," "" word = digits +:+ suffix ->
  all_digits digits = true ->
  no_leading_digit suffix = true ->
  digits_value digits = n ->
  (n < 2 ^ 53)%N ->
  number_word word = pad_left 10 (str_of_N n) +:+ suffix.
Proof.
  intros Hrep Hall Hsuf Hval Hn. unfold number_word. rewrite Hrep.
  destruct (take_while_digits digits suffix Hall Hsuf) as [-> ->].
  rewrite Hval, float_of_digits_small by assumption.
  rewrite fmt_f_integer, str_of_Z_nonneg, N2Z.id; [reflexivity|lia|].
  split; [lia|]. assert (2 ^ 53 < 10 ^ 50) by (vm_compute; reflexivity). lia.
Qed.

(** The word of a leading number below [2^53]: the number right-aligned
    in ten characters, then the suffix in lower case. *)
Lemma first_word_number (c0 : ascii) (w digits suffix : string) (n : N) :
  is_digit c0 = true ->
  replace "," "" (String c0 w) = digits +:+ suffix ->
  all_digits digits = true ->
  no_leading_digit suffix = true ->
  digits_value digits = n ->
  (n < 2 ^ 53)%N ->
  first_word (String c0 w) = [pad_left 10 (str_of_N n) +:+ lower suffix].
Proof.
  intros Hd Hrep Hall Hsuf Hval Hn.
  destruct (first_word_digit c0 w Hd) as [-> (c & r & Hw & Hc)].
  f_equal.
  rewrite (number_word_exact _ digits suffix n) in Hw |- * by assumption.
  assert (Hp : plain (pad_left 10 (str_of_N n))) by apply plain_pad_decimal.
  destruct (pad_left 10 (str_of_N n)) as [|c' r'] eqn:Ep.
  - (* the padded text is not empty *)
    exfalso. apply (f_equal String.length) in Ep. unfold pad_left in Ep.
    rewrite length_append, length_spaces in Ep. cbn in Ep. lia.
  - rewrite append_cons in Hw |- *. injection Hw as -> _.
    rewrite capitalize_low by assumption.
    rewrite lower_append, append_cons. do 2 f_equal. apply lower_plain.
    unfold plain in Hp |- *. cbn in Hp. now apply andb_true_iff in Hp as [_ Hp].
Qed.

(** Every word that begins with a digit reads, commas removed, as digits
    followed by a suffix. *)
Lemma number_word_of_total (c0 : ascii) (w : string) :
  is_digit c0 = true -> exists n suffix, number_word_of (String c0 w) n suffix.
Proof.
  intros Hd. set (word := replace "," "" (String c0 w)).
  exists (digits_value (take_while is_digit word)), (drop_while is_digit word).
  exists c0, w, (take_while is_digit word). repeat split; try assumption.
  - fold word. induction word as [|c s IH]; [reflexivity|]. cbn [take_while drop_while].
    destruct (is_digit c); [|reflexivity]. now rewrite append_cons, <- IH.
  - unfold all_digits. induction word as [|c s IH]; [reflexivity|]. cbn [take_while].
    destruct (is_digit c) eqn:E; [|reflexivity]. cbn. now rewrite E.
  - induction word as [|c s IH]; [reflexivity|]. cbn [drop_while].
    destruct (is_digit c) eqn:E; [exact IH|]. cbn. now rewrite E.
Qed.

(** The first word of a title that does not begin with a digit: the word
    capitalized, after a word ['/'] when it begins with a character above
    ['9'] that is no ASCII letter. *)
Lemma first_word_other (c : ascii) (w : string) :
  is_digit c = false ->
  first_word (String c w)
  = (if negb (is_alpha c) && (57 <? code c) then ["/"] else [])
    ++ [capitalize (String c w)].
Proof.
  intros Hd. unfold first_word. rewrite Hd. f_equal.
  assert (letter_or_symbol (str1 c) = if is_alpha c then str1 c else "Symbols") as ->.
  { unfold letter_or_symbol. cbn. now rewrite orb_false_r. }
  change (code "A") with 65. change (code "9") with 57.
  destruct (is_alpha c) eqn:Ea.
  - rewrite bool_decide_eq_false_2 by auto. reflexivity.
  - rewrite bool_decide_eq_true_2 by discriminate. cbn [negb andb].
    unfold is_alpha, is_upper in Ea.
    assert (code c <> 65) by (intros E; rewrite E in Ea; discriminate).
    destruct (57 <? code c) eqn:E9.
    + assert ((65 <? code c) || true && (code c <? 65) = true) as -> by lia. reflexivity.
    + assert ((65 <? code c) || false && (code c <? 65) = false) as -> by lia. reflexivity.
Qed.

(** C4, as the code has it.  The key is the words of the title, after
    title_sort, joined by single spaces, each word written as follows.  A
    word that begins with a digit reads, commas removed, as a number and a
    suffix, and is replaced by the number (below [2^53], where a float is
    exact) right-aligned in a field of ten characters, wider from eleven
    digits on, and the suffix after it:
    unchanged in a word after the first, in lower case in the first word,
    which is capitalized.  A word after the first that does not begin with a
    digit is kept; a first word that does not begin with a digit is
    capitalized, after a word ['/'] when it begins with a character above
    ['9'] that is no ASCII letter.  So the keys of two titles with leading
    numbers [n1 < n2] below [10^10] are in this order, and the key of a title
    that begins with a digit comes before the key of a title that begins with
    an ASCII letter. *)
Theorem generateSortTitle_order :
  (forall (t w : string) (rest : list string),
      split_ws (title_sort t) = w :: rest ->
      generateSortTitle title_sort t = join " " (first_word w ++ map other_word rest))
  /\ (forall (c0 : ascii) (w : string),
         is_digit c0 = true -> exists n suffix, number_word_of (String c0 w) n suffix)
  /\ (forall (word suffix : string) (n : N),
         number_word_of word n suffix -> (n < 2 ^ 53)%N ->
         other_word word = pad_left 10 (str_of_N n) +:+ suffix
         /\ first_word word = [pad_left 10 (str_of_N n) +:+ lower suffix]
         /\ (10 <= String.length (pad_left 10 (str_of_N n)))%nat
         /\ ((n < 10 ^ 10)%N -> String.length (pad_left 10 (str_of_N n)) = 10%nat))
  /\ (forall (c : ascii) (w : string),
         is_digit c = false ->
         other_word (String c w) = String c w
         /\ first_word (String c w)
            = (if negb (is_alpha c) && (57 <? code c) then ["/"] else [])
              ++ [capitalize (String c w)])
  /\ (forall (t1 t2 : string) (n1 n2 : N),
         leading_number_title title_sort t1 n1 ->
         leading_number_title title_sort t2 n2 ->
         (n1 < n2)%N -> (n2 < 10 ^ 10)%N ->
         str_lt (generateSortTitle title_sort t1) (generateSortTitle title_sort t2))
  /\ (forall t1 t2 : string,
         leading_digit_title title_sort t1 ->
         leading_letter_title title_sort t2 ->
         str_lt (generateSortTitle title_sort t1) (generateSortTitle title_sort t2)).
Proof.
  split; [|split; [|split; [|split; [|split]]]].
  - intros t w rest Hw. unfold generateSortTitle. now rewrite Hw.
  - apply number_word_of_total.
  - intros word suffix n (c0 & w & digits & -> & Hd & Hrep & Hall & Hsuf & Hval) Hn.
    split; [|split; [|split]].
    + unfold other_word. rewrite Hd.
      now apply (number_word_exact _ digits suffix n).
    + now apply (first_word_number c0 w digits suffix n).
    + unfold pad_left. rewrite length_append, length_spaces. lia.
    + intros H10. destruct (str_of_N_digs n) as (k & Hk & Hu & Hl & ->).
      unfold pad_left. rewrite length_append, length_spaces, length_digs.
      assert (k <= 10)%nat; [|lia].
      destruct Hl as [->|Hl]; [lia|].
      destruct (Nat.le_gt_cases k 10) as [|Hgt]; [assumption|]. exfalso.
      assert (10 ^ 10 <= 10 ^ N.of_nat (k - 1))%N by (apply N.pow_le_mono_r; lia).
      lia.
  - intros c w Hd. split; [unfold other_word; now rewrite Hd|].
    now apply first_word_other.
  - intros t1 t2 n1 n2
      (c1 & w1 & rest1 & d1 & s1 & Hw1 & Hc1 & Hr1 & _ & Ha1 & Hs1 & Hv1)
      (c2 & w2 & rest2 & d2 & s2 & Hw2 & Hc2 & Hr2 & _ & Ha2 & Hs2 & Hv2) Hlt H10.
    assert (H53 : (10 ^ 10 < 2 ^ 53)%N) by (vm_compute; reflexivity).
    unfold str_lt, generateSortTitle. rewrite Hw1, Hw2.
    rewrite (first_word_number c1 w1 d1 s1 n1), (first_word_number c2 w2 d2 s2 n2)
      by (assumption || lia).
    cbn [app].
    destruct (join_cons " " (pad_left 10 (str_of_N n1) +:+ lower s1)
                (map other_word rest1)) as [tail1 ->].
    destruct (join_cons " " (pad_left 10 (str_of_N n2) +:+ lower s2)
                (map other_word rest2)) as [tail2 ->].
    rewrite !append_assoc3.
    destruct (pad_left_lt n1 n2 Hlt H10) as (Hpad & L1 & L2).
    apply ltb_append_same_length; [congruence | assumption].
  - intros t1 t2 (c1 & w1 & rest1 & Hw1 & Hd1) (c2 & w2 & rest2 & Hw2 & Ha2).
    unfold str_lt, generateSortTitle. rewrite Hw1, Hw2.
    destruct (first_word_digit c1 w1 Hd1) as [-> (c & r & -> & Hc)].
    rewrite capitalize_low by assumption.
    rewrite first_word_letter by assumption. cbn [app].
    destruct (join_cons " " (String c (lower r)) (map other_word rest1)) as [tail1 ->].
    destruct (join_cons " " (String (upper_char c2) (lower w2)) (map other_word rest2))
      as [tail2 ->].
    rewrite !append_cons. apply ltb_first_char.
    pose proof (code_upper_char c2 Ha2). lia.
Qed.

End SortTitleFacts.

Lemma generateSortTitle_order_witness :
  (SortTitle.other_word "1,984th" = Text.pad_left 10 (Text.str_of_N 1984) +:+ "th"
   /\ SortTitle.first_word "3D" = [Text.pad_left 10 (Text.str_of_N 3) +:+ Text.lower "D"])
  /\ SortTitle.str_lt
       (SortTitle.generateSortTitle SortTitle.title_sort_model "The 2 Towers")
       (SortTitle.generateSortTitle SortTitle.title_sort_model "1,984th day")
  /\ SortTitle.str_lt
       (SortTitle.generateSortTitle SortTitle.title_sort_model "1,984th day")
       (SortTitle.generateSortTitle SortTitle.title_sort_model "an Apple").
Proof.
  destruct (generateSortTitle_order SortTitle.title_sort_model)
    as (_ & _ & Hword & _ & Hnumbers & Hdigit).
  split; [split|split].
  - apply (Hword "1,984th" "th" 1984%N); [|reflexivity].
    exists "1"%char, ",984th", "1984". repeat split; reflexivity.
  - apply (Hword "3D" "D" 3%N); [|reflexivity].
    exists "3"%char, "D", "3". repeat split; reflexivity.
  - apply (Hnumbers "The 2 Towers" "1,984th day" 2%N 1984%N).
    + exists "2"%char, EmptyString, ["Towers"], "2", EmptyString.
      repeat split; try reflexivity. discriminate.
    + exists "1"%char, ",984th", ["day"], "1984", "th".
      repeat split; try reflexivity. discriminate.
    + reflexivity.
    + reflexivity.
  - apply (Hdigit "1,984th day" "an Apple").
    + exists "1"%char, ",984th", ["day"]. split; reflexivity.
    + exists "A"%char, "pple", []. split; reflexivity.
Defined.

(** C4 as the specification words it fails from eleven digits on: the
    field of ten characters no longer pads, and the text of 99999999999
    comes after the text of 100000000000. *)
Lemma generateSortTitle_long_numbers_misordered :
  ~ SortTitle.keys_compare_numerically SortTitle.title_sort_model.
Proof.
  intros H.
  specialize (H "99999999999 bottles" "100000000000 stars" 99999999999%N 100000000000%N).
  assert (Hk : SortTitle.str_lt
                 (SortTitle.generateSortTitle SortTitle.title_sort_model
                    "99999999999 bottles")
                 (SortTitle.generateSortTitle SortTitle.title_sort_model
                    "100000000000 stars")).
  { apply H.
    - exists "9"%char, "9999999999", ["bottles"], "99999999999", EmptyString.
      repeat split; try reflexivity. discriminate.
    - exists "1"%char, "00000000000", ["stars"], "100000000000", EmptyString.
      repeat split; try reflexivity. discriminate.
    - reflexivity. }
  vm_compute in Hk. discriminate Hk.
Qed.

(** ** Sorting *)

Section SortFacts.
Context {A K : Type}.
Variable leb : K -> K -> bool.
Variable key : A -> K.
Hypothesis leb_total : forall a b, leb a b = true \/ leb b a = true.
Hypothesis leb_trans : forall a b c, leb a b = true -> leb b c = true -> leb a c = true.

Let ordered (x y : A) : Prop := leb (key x) (key y) = true.

Lemma insert_by_perm (x : A) (l : list A) : PySort.insert_by leb key x l ≡ₚ x :: l.
Proof.
  induction l as [|y l IH]; cbn; [reflexivity|].
  destruct (leb (key x) (key y)); [reflexivity|].
  rewrite IH. apply Permutation_swap.
Qed.

Lemma sorted_perm (l : list A) : PySort.sorted leb key l ≡ₚ l.
Proof.
  induction l as [|x l IH]; cbn; [reflexivity|].
  fold (PySort.sorted leb key l). now rewrite insert_by_perm, IH.
Qed.

Lemma insert_by_sorted (x : A) (l : list A) :
  StronglySorted ordered l -> StronglySorted ordered (PySort.insert_by leb key x l).
Proof.
  induction l as [|y l IH]; intros Hs; cbn.
  - repeat constructor.
  - apply StronglySorted_inv in Hs as [Hs Hy].
    destruct (leb (key x) (key y)) eqn:E.
    + constructor; [constructor; assumption|]. constructor; [exact E|].
      eapply Forall_impl; [exact Hy|]. intros z Hz. unfold ordered in *. eauto.
    + constructor; [auto|].
      rewrite insert_by_perm. constructor; [|assumption].
      unfold ordered. destruct (leb_total (key x) (key y)); congruence.
Qed.

Lemma sorted_strongly (l : list A) : StronglySorted ordered (PySort.sorted leb key l).
Proof.
  induction l as [|x l IH]; cbn; [constructor|]. now apply insert_by_sorted.
Qed.

End SortFacts.

Section StringOrderFacts.
Import Text.

Lemma string_leb_trans (a b c : string) :
  String.leb a b = true -> String.leb b c = true -> String.leb a c = true.
Proof.
  intros H1 H2. apply Is_true_true.
  apply (@transitivity _ String.le _ a b c); apply Is_true_true; assumption.
Qed.

(** Ordered texts have ordered first characters. *)
Lemma string_leb_first_char (c d : ascii) (a b : string) :
  String.leb (String c a) (String d b) = true -> code c <= code d.
Proof.
  unfold String.leb. cbn [String.compare]. unfold Ascii.compare, code.
  destruct (N.compare_spec (N_of_ascii c) (N_of_ascii d)); lia.
Qed.

Lemma string_leb_nil_r (a : string) : String.leb a "" = true -> a = EmptyString.
Proof. destruct a; [reflexivity|]. discriminate. Qed.

End StringOrderFacts.

(** ** Groups of consecutive elements *)

Section GroupFacts.
Import Groups.
Context {A K : Type} `{EqDecision K}.
Variable key : A -> K.

Lemma group_cons (b : A) (rest : list A) :
  group_adjacent key (b :: rest)
  = continue_group (key b, [b]) (group_adjacent key rest).
Proof.
  cbn [group_adjacent]. unfold continue_group.
  destruct (group_adjacent key rest) as [|[k g] gs]; [reflexivity|]. cbn [fst snd].
  destruct (decide (key b = k)); reflexivity.
Qed.

Lemma continue_group_same (L : K) (bs : list A) (b : A) (rest : list A) :
  key b = L ->
  continue_group (L, bs) (group_adjacent key (b :: rest))
  = continue_group (L, bs ++ [b]) (group_adjacent key rest).
Proof.
  intros HL. rewrite group_cons, HL. unfold continue_group.
  destruct (group_adjacent key rest) as [|[k g] gs]; cbn [fst snd].
  - rewrite decide_True by reflexivity. reflexivity.
  - destruct (decide (L = k)) as [->|Hne].
    + rewrite decide_True by reflexivity. now rewrite <- app_assoc.
    + rewrite decide_True by reflexivity. reflexivity.
Qed.

Lemma group_head (b : A) (rest : list A) :
  exists g gs, group_adjacent key (b :: rest) = (key b, g) :: gs.
Proof.
  cbn [group_adjacent]. destruct (group_adjacent key rest) as [|[k g] gs]; [eauto|].
  destruct (decide (key b = k)) as [->|]; eauto.
Qed.

Lemma continue_group_other (L : K) (bs : list A) (b : A) (rest : list A) :
  key b <> L ->
  continue_group (L, bs) (group_adjacent key (b :: rest))
  = (L, bs) :: group_adjacent key (b :: rest).
Proof.
  intros HL. destruct (group_head b rest) as (g & gs & ->).
  unfold continue_group. cbn [fst]. now rewrite decide_False by congruence.
Qed.

Lemma group_concat (l : list A) : concat (map snd (group_adjacent key l)) = l.
Proof.
  induction l as [|b rest IH]; [reflexivity|]. cbn [group_adjacent].
  destruct (group_adjacent key rest) as [|[k g] gs]; cbn in IH |- *; [now rewrite <- IH|].
  destruct (decide (key b = k)); cbn; now rewrite IH.
Qed.

Lemma group_keys (l : list A) :
  Forall (fun g => g.2 <> [] /\ Forall (fun b => key b = g.1) g.2) (group_adjacent key l).
Proof.
  induction l as [|b rest IH]; [constructor|]. cbn [group_adjacent].
  destruct (group_adjacent key rest) as [|[k g] gs].
  - repeat constructor. discriminate.
  - apply Forall_cons in IH as [[Hg Hk] Hgs].
    destruct (decide (key b = k)) as [Hb|Hb].
    + constructor; [|assumption]. split; [discriminate|]. constructor; assumption.
    + constructor; [split; [discriminate | repeat constructor]|].
      constructor; [split|]; assumption.
Qed.

Lemma group_adjacent_differ (l : list A) : adjacent_differ (group_adjacent key l).
Proof.
  induction l as [|b rest IH]; intros i g1 g2 H1 H2; [discriminate|].
  cbn [group_adjacent] in H1, H2.
  destruct (group_adjacent key rest) as [|[k g] gs]; [destruct i; discriminate|].
  destruct (decide (key b = k)) as [Hb|Hb].
  - destruct i as [|i].
    + injection H1 as <-. cbn [fst]. apply (IH 0%nat (k, g) g2); [reflexivity|exact H2].
    + apply (IH (S i) g1 g2); assumption.
  - destruct i as [|i].
    + injection H1 as <-. injection H2 as <-. exact Hb.
    + apply (IH i g1 g2); assumption.
Qed.

Lemma group_member (l : list A) (b : A) :
  b ∈ l -> exists g, g ∈ group_adjacent key l /\ b ∈ g.2 /\ g.1 = key b.
Proof.
  intros Hb. rewrite <- (group_concat l) in Hb.
  apply list_elem_of_In, in_concat in Hb as (bs & Hbs & Hin).
  apply in_map_iff in Hbs as (g & <- & Hg).
  exists g. apply list_elem_of_In in Hg, Hin. split; [assumption|]. split; [assumption|].
  pose proof (group_keys l) as Hl. rewrite Forall_forall in Hl.
  destruct (Hl g Hg) as [_ Hall]. rewrite Forall_forall in Hall. symmetry. auto.
Qed.

Lemma group_key_source (l : list A) (g : K * list A) :
  g ∈ group_adjacent key l -> exists b, b ∈ l /\ key b = g.1.
Proof.
  intros Hg. pose proof (group_keys l) as Hl. rewrite Forall_forall in Hl.
  destruct (Hl g Hg) as [Hne Hall]. destruct (g.2) as [|b bs] eqn:Eg; [contradiction|].
  apply Forall_cons in Hall as [Hb _]. exists b. split; [|exact Hb].
  rewrite <- (group_concat l). apply list_elem_of_In, in_concat.
  exists (g.2). split; [apply in_map; now apply list_elem_of_In|].
  rewrite Eg. now left.
Qed.

Lemma count_key_none (k : K) (l : list A) :
  Forall (fun b => key b <> k) l -> count_key k (group_adjacent key l) = 0%nat.
Proof.
  intros Hl. unfold count_key.
  assert (Hk : Forall (fun g => g.1 <> k) (group_adjacent key l)).
  { rewrite Forall_forall. intros g Hg.
    destruct (group_key_source l g Hg) as (b & Hb & <-).
    rewrite Forall_forall in Hl. auto. }
  induction Hk as [|g gs Hg _ IH]; [reflexivity|].
  rewrite filter_cons_False by exact Hg. exact IH.
Qed.

(** When the elements of a key come first, the key has one group at
    most. *)
Lemma count_key_first (k : K) (l : list A) :
  StronglySorted (fun a b => key b = k -> key a = k) l ->
  (count_key k (group_adjacent key l) <= 1)%nat.
Proof.
  induction l as [|b rest IH]; intros Hs; [cbn; lia|].
  apply StronglySorted_inv in Hs as [Hs Hb]. specialize (IH Hs).
  destruct rest as [|b' rest'].
  - cbn. unfold count_key. cbn. destruct (decide _); cbn; lia.
  - destruct (group_head b' rest') as (g & gs & Hbk).
    rewrite group_cons. unfold continue_group. rewrite Hbk. rewrite Hbk in IH.
    cbn [fst snd].
    destruct (decide (key b = key b')) as [Heq|Hne].
    + unfold count_key in IH |- *. cbn [fst] in *.
      destruct (decide (key b' = k)) as [Hl|Hl].
      * rewrite filter_cons_True in IH |- * by exact Hl. exact IH.
      * rewrite filter_cons_False in IH |- * by exact Hl. exact IH.
    + destruct (decide (key b = k)) as [Hl|Hl].
      * assert (Hnone : Forall (fun x => key x <> k) (b' :: rest')).
        { apply StronglySorted_inv in Hs as [_ Hb'].
          assert (H0 : key b' <> k) by congruence.
          constructor; [exact H0|].
          eapply Forall_impl; [exact Hb'|]. cbn. intros x Hx Hxl. auto. }
        pose proof (count_key_none k _ Hnone) as H0. rewrite Hbk in H0.
        unfold count_key in H0 |- *.
        rewrite filter_cons_True by exact Hl. cbn [length]. rewrite H0. lia.
      * unfold count_key in IH |- *.
        rewrite filter_cons_False by exact Hl. exact IH.
Qed.

(** In a list ordered by key, the keys of the groups are strictly
    ordered. *)
Lemma group_keys_strict (ge : K -> K -> Prop) (l : list A) :
  (forall a b, ge a b -> ge b a -> a = b) ->
  (forall a b c, ge a b -> ge b c -> ge a c) ->
  StronglySorted (fun a b => ge (key a) (key b)) l ->
  StronglySorted (fun g1 g2 => ge g1.1 g2.1 /\ g1.1 <> g2.1) (group_adjacent key l).
Proof.
  intros Hanti Htrans. induction l as [|b rest IH]; intros Hs; [constructor|].
  apply StronglySorted_inv in Hs as [Hs Hb]. specialize (IH Hs).
  rewrite group_cons. unfold continue_group.
  destruct (group_adjacent key rest) as [|[k g] gs] eqn:E; [repeat constructor|].
  cbn [fst snd]. destruct (decide (key b = k)) as [Heq|Hne].
  - apply StronglySorted_inv in IH as [IH1 IH2]. constructor; assumption.
  - constructor; [exact IH|].
    destruct rest as [|b' rest']; [discriminate|].
    destruct (group_head b' rest') as (g' & gs' & Hhead).
    pose proof E as E'. rewrite Hhead in E'. injection E' as Ek _ _.
    rewrite Forall_forall. intros g2 Hg2.
    destruct (group_key_source (b' :: rest') g2) as (x & Hx & Hkx).
    { rewrite E. exact Hg2. }
    rewrite Forall_forall in Hb. rewrite <- Hkx. split; [now apply Hb|].
    cbn [fst]. intros Hbx. apply Hne. rewrite <- Ek.
    apply elem_of_cons in Hx as [->|Hx]; [exact Hbx|].
    apply StronglySorted_inv in Hs as [_ Hb']. rewrite Forall_forall in Hb'.
    apply Hanti; [apply Hb; left|].
    rewrite Hbx. now apply Hb'.
Qed.

End GroupFacts.

Lemma StronglySorted_change {A : Type} (R R' : A -> A -> Prop) (P : A -> Prop)
    (l : list A) :
  (forall a b, P a -> P b -> R a b -> R' a b) ->
  Forall P l -> StronglySorted R l -> StronglySorted R' l.
Proof.
  intros Himp HP Hs. induction Hs as [|a l Hs IH Ha]; [constructor|].
  apply Forall_cons in HP as [Pa Pl]. constructor; [auto|].
  rewrite Forall_forall in Ha, Pl |- *. intros x Hx. auto.
Qed.

(** ** The Titles section *)

Section TitlesFacts.
Import Text SortTitle Catalog Titles.

Lemma tag_insert_end {A : Type} (x : A) (l : list A) :
  tag_insert (length l) x l = l ++ [x].
Proof. unfold tag_insert. now rewrite take_ge, drop_ge by lia. Qed.

Lemma tag_insert_nil {A : Type} (n : nat) (x : A) : tag_insert n x [] = [x].
Proof. unfold tag_insert. now rewrite take_nil, drop_nil. Qed.

Lemma letter_or_symbol_char (c : ascii) :
  letter_or_symbol (str1 c) = if is_alpha c then str1 c else "Symbols".
Proof. unfold letter_or_symbol. cbn. now rewrite orb_false_r. Qed.

Lemma letter_nonempty (c : ascii) : letter_or_symbol (str1 c) <> "".
Proof. rewrite letter_or_symbol_char. destruct (is_alpha c); discriminate. Qed.

Lemma letter_of_cons (b : book) (c : ascii) (r : string) :
  title_sort b = String c r -> letter_of b = letter_or_symbol (str1 c).
Proof. intros H. unfold letter_of. now rewrite H. Qed.

Lemma loop_body_first (b : book) (c : ascii) (r : string) :
  title_sort b = String c r ->
  loop_body b initial = Some (running_state [] (letter_or_symbol (str1 c)) [b]).
Proof.
  intros Hts. unfold loop_body. rewrite Hts. cbn [first_char mbind option_bind].
  change (current_letter initial) with EmptyString.
  rewrite bool_decide_eq_true_2 by apply letter_nonempty. reflexivity.
Qed.

Lemma loop_body_same (b : book) (c : ascii) (r : string)
    (D : list (list paragraph)) (bs : list book) :
  title_sort b = String c r ->
  loop_body b (running_state D (letter_or_symbol (str1 c)) bs)
  = Some (running_state D (letter_or_symbol (str1 c)) (bs ++ [b])).
Proof.
  intros Hts. unfold loop_body, running_state. rewrite Hts.
  cbn [first_char mbind option_bind current_letter].
  rewrite bool_decide_eq_false_2 by (intros H; now apply H).
  cbn [divTag dtc divRunningTag drtc current_letter fmap option_fmap option_map].
  rewrite <- (length_map BookTitle bs).
  change (S (length (map BookTitle bs)))
    with (length (LetterIndex (letter_or_symbol (str1 c)) :: map BookTitle bs)).
  rewrite tag_insert_end, List.map_app, length_app. cbn [length map app].
  rewrite length_map, Nat.add_1_r. reflexivity.
Qed.

Lemma loop_body_new (b : book) (c : ascii) (r : string)
    (D : list (list paragraph)) (L : string) (bs : list book) :
  title_sort b = String c r ->
  letter_or_symbol (str1 c) <> L ->
  loop_body b (running_state D L bs)
  = Some (running_state (D ++ [LetterIndex L :: map BookTitle bs])
            (letter_or_symbol (str1 c)) [b]).
Proof.
  intros Hts HL. unfold loop_body, running_state. rewrite Hts.
  cbn [first_char mbind option_bind current_letter].
  rewrite bool_decide_eq_true_2 by exact HL.
  cbn [divTag dtc divRunningTag drtc current_letter Nat.eqb
       fmap option_fmap option_map].
  rewrite tag_insert_end, tag_insert_nil.
  rewrite length_app. cbn [length]. rewrite Nat.add_1_r. reflexivity.
Qed.

(** The loop from a state with a running bucket. *)
Lemma loop_running (l : list book) :
  forall (D : list (list paragraph)) (L : string) (bs : list book),
    Forall (fun b => title_sort b <> EmptyString) l ->
    exists st',
      loop l (running_state D L bs) = Some st'
      /\ built st' = D ++ map render_bucket (Groups.continue_group (L, bs) (buckets l)).
Proof.
  induction l as [|b rest IH]; intros D L bs Hne.
  - eexists. split; [reflexivity|]. unfold built. cbn. apply tag_insert_end.
  - apply Forall_cons in Hne as [Hb Hrest].
    destruct (title_sort b) as [|c r] eqn:Hts; [contradiction|].
    pose proof (letter_of_cons b c r Hts) as Hlet.
    cbn [loop].
    destruct (decide (letter_or_symbol (str1 c) = L)) as [<-|HL].
    + rewrite (loop_body_same b c r D bs Hts). cbn [mbind option_bind].
      destruct (IH D (letter_or_symbol (str1 c)) (bs ++ [b]) Hrest)
        as (st' & Hloop & Hbuilt).
      exists st'. split; [exact Hloop|]. rewrite Hbuilt.
      unfold buckets. now rewrite (continue_group_same letter_of).
    + rewrite (loop_body_new b c r D L bs Hts HL). cbn [mbind option_bind].
      destruct (IH (D ++ [LetterIndex L :: map BookTitle bs])
                  (letter_or_symbol (str1 c)) [b] Hrest) as (st' & Hloop & Hbuilt).
      exists st'. split; [exact Hloop|]. rewrite Hbuilt.
      unfold buckets. rewrite (continue_group_other letter_of) by congruence.
      rewrite group_cons, Hlet, <- app_assoc. reflexivity.
Qed.

(** The section is the buckets of the sorted list, each rendered as its
    letter heading followed by its books. *)
Lemma loop_buckets (l : list book) :
  Forall (fun b => title_sort b <> EmptyString) l ->
  exists st', loop l initial = Some st' /\ built st' = map render_bucket (buckets l).
Proof.
  intros Hne. destruct l as [|b rest].
  - eexists. split; reflexivity.
  - apply Forall_cons in Hne as [Hb Hrest].
    destruct (title_sort b) as [|c r] eqn:Hts; [contradiction|].
    cbn [loop]. rewrite (loop_body_first b c r Hts). cbn [mbind option_bind].
    destruct (loop_running rest [] (letter_or_symbol (str1 c)) [b] Hrest)
      as (st' & Hloop & Hbuilt).
    exists st'. split; [exact Hloop|]. rewrite Hbuilt.
    unfold buckets. rewrite group_cons, (letter_of_cons b c r Hts). reflexivity.
Qed.

(** *** Generated sort titles *)

Lemma join_head (sep : string) (c : ascii) (r : string) (l : list string) :
  exists r', join sep (String c r :: l) = String c r'.
Proof.
  destruct (join_cons sep (String c r) l) as [tail ->]. rewrite append_cons. eauto.
Qed.

Lemma generateSortTitle_head (title_sort_fn : string -> string) (t : string) :
  generateSortTitle title_sort_fn t = EmptyString
  \/ leading_character_ok (generateSortTitle title_sort_fn t).
Proof.
  unfold generateSortTitle. destruct (split_ws (title_sort_fn t)) as [|w rest].
  - now left.
  - destruct w as [|c0 w'].
    + (* not reached: split() gives no empty word *)
      cbn [first_word capitalize app]. destruct (map other_word rest) as [|x xs].
      * now left.
      * right. cbn. left. vm_compute. discriminate.
    + right. destruct (is_digit c0) eqn:Ed.
      * destruct (first_word_digit c0 w' Ed) as [-> (c & r & -> & Hc)].
        rewrite capitalize_low by assumption. cbn [app].
        destruct (join_head " " c (lower r) (map other_word rest)) as [r' ->].
        cbn. now left.
      * unfold first_word. rewrite Ed.
        destruct (bool_decide _ && _) eqn:Es.
        -- cbn [app]. destruct (join_head " " "/" EmptyString
                                  (capitalize (String c0 w') :: map other_word rest))
             as [r' ->].
           cbn. left. vm_compute. discriminate.
        -- cbn [app capitalize].
           destruct (join_head " " (upper_char c0) (lower w') (map other_word rest))
             as [r' ->].
           cbn. rewrite letter_or_symbol_char in Es.
           destruct (is_alpha c0) eqn:Ea.
           ++ right. now apply code_upper_char.
           ++ left.
              rewrite bool_decide_eq_true_2 in Es by discriminate.
              change (code "A") with 65 in Es. change (code "9") with 57 in Es.
              cbn [andb] in Es. unfold is_alpha, is_upper in Ea.
              assert (code c0 <> 65) by (intros E; rewrite E in Ea; discriminate).
              rewrite upper_char_plain by lia. lia.
Qed.

Lemma symbol_first_letter (b : book) : symbol_first b -> letter_of b = "Symbols".
Proof.
  unfold symbol_first, letter_of. destruct (title_sort b) as [|c r]; [contradiction|].
  intros Ha. cbn [first_char]. rewrite letter_or_symbol_char. now rewrite Ha.
Qed.

(** In the order of the upper-case sort titles, a book after which a
    Symbols book comes is a Symbols book. *)
Lemma symbols_sort_first (a b : book) :
  leading_character_ok (title_sort a) -> leading_character_ok (title_sort b) ->
  String.leb (upper (title_sort a)) (upper (title_sort b)) = true ->
  letter_of b = "Symbols" -> letter_of a = "Symbols".
Proof.
  unfold leading_character_ok, letter_of.
  destruct (title_sort a) as [|ca ra]; [contradiction|].
  destruct (title_sort b) as [|cb rb]; [contradiction|].
  cbn [first_char]. rewrite !letter_or_symbol_char. intros Ha Hb Hle.
  assert (Hup : forall c, code c <= 57 \/ 65 <= code c <= 90 -> upper_char c = c).
  { intros c Hc. unfold upper_char, is_lower, is_lower_latin.
    destruct ((97 <=? code c) && (code c <=? 122)
              || (224 <=? code c) && (code c <=? 254) && negb (code c =? 247)) eqn:E;
      [lia | reflexivity]. }
  unfold upper in Hle. cbn [map_string] in Hle.
  rewrite (Hup ca Ha), (Hup cb Hb) in Hle. apply string_leb_first_char in Hle.
  destruct (is_alpha cb) eqn:Eb; [discriminate|]. intros _.
  assert (is_alpha ca = false) as ->; [|reflexivity].
  unfold is_alpha, is_upper, is_lower in Eb |- *. lia.
Qed.

(** C5.  For books whose sort titles were generated by generateSortTitle
    and are not empty: the section holds the buckets of the list sorted by
    sort title, a new bucket starting exactly where [letter_or_symbol] of the
    first character changes between consecutive books; one bucket at most
    is labelled Symbols, and every book whose sort title begins with a
    character that is not a letter is in a bucket with that label. *)
Theorem generateHTMLByTitle_buckets (title_sort_fn : string -> string)
    (books : list book) :
  Forall (fetched title_sort_fn) books ->
  Forall (fun b => title_sort b <> EmptyString) books ->
  let title_list := sorted_by_title_sort books in
  generateHTMLByTitle books = Some (map render_bucket (buckets title_list))
  /\ concat (map snd (buckets title_list)) = title_list
  /\ Forall (fun g => g.2 <> [] /\ Forall (fun b => letter_of b = g.1) g.2)
            (buckets title_list)
  /\ Groups.adjacent_differ (buckets title_list)
  /\ (Groups.count_key "Symbols" (buckets title_list) <= 1)%nat
  /\ (forall b, b ∈ books -> symbol_first b ->
        exists g, g ∈ buckets title_list /\ g.1 = "Symbols" /\ b ∈ g.2).
Proof.
  intros Hf Hne title_list.
  assert (Hperm : title_list ≡ₚ books) by apply sorted_perm.
  assert (Hne' : Forall (fun b => title_sort b <> EmptyString) title_list)
    by now rewrite Hperm.
  assert (Hok : Forall (fun b => leading_character_ok (title_sort b)) title_list).
  { rewrite Hperm. rewrite Forall_forall in Hf, Hne |- *. intros b Hb.
    specialize (Hf b Hb). specialize (Hne b Hb). unfold fetched in Hf.
    destruct (generateSortTitle_head title_sort_fn (title b)) as [H|H];
      rewrite <- Hf in H; [contradiction | exact H]. }
  split; [|split; [|split; [|split; [|split]]]].
  - unfold generateHTMLByTitle. fold title_list.
    destruct (loop_buckets title_list Hne') as (st' & -> & Hb). cbn. f_equal. exact Hb.
  - apply group_concat.
  - apply group_keys.
  - apply group_adjacent_differ.
  - apply count_key_first.
    eapply StronglySorted_change; [|exact Hok|].
    + intros a b Ha Hb Hab. exact (symbols_sort_first a b Ha Hb Hab).
    + apply (sorted_strongly String.leb (fun x => upper (title_sort x))).
      * apply String.leb_total.
      * apply string_leb_trans.
  - intros b Hb Hs.
    destruct (group_member letter_of title_list b) as (g & Hg & Hbg & Hlab).
    { now rewrite Hperm. }
    exists g. split; [assumption|]. split; [|assumption].
    rewrite Hlab. now apply symbol_first_letter.
Qed.

End TitlesFacts.

Lemma generateHTMLByTitle_buckets_witness :
  let title_list := Catalog.sorted_by_title_sort TitlesExample.sample_books in
  Titles.generateHTMLByTitle TitlesExample.sample_books
  = Some (map Titles.render_bucket (Titles.buckets title_list))
  /\ concat (map snd (Titles.buckets title_list)) = title_list
  /\ Forall (fun g => g.2 <> [] /\ Forall (fun b => Titles.letter_of b = g.1) g.2)
            (Titles.buckets title_list)
  /\ Groups.adjacent_differ (Titles.buckets title_list)
  /\ (Groups.count_key "Symbols" (Titles.buckets title_list) <= 1)%nat
  /\ (forall b, b ∈ TitlesExample.sample_books -> Titles.symbol_first b ->
        exists g, g ∈ Titles.buckets title_list /\ g.1 = "Symbols" /\ b ∈ g.2).
Proof.
  apply (generateHTMLByTitle_buckets SortTitle.title_sort_model
           TitlesExample.sample_books).
  - repeat constructor.
  - repeat constructor; discriminate.
Defined.

(** ** The Recently Added section *)

Section DateAddedFacts.
Import Text Catalog Dates DateAdded Groups.

Lemma insert_at_end (p : paragraph) (D : list paragraph) :
  insert p (at_end D) = at_end (D ++ [p]).
Proof.
  unfold insert, at_end. cbn [divTag dtc]. rewrite tag_insert_end, length_app.
  cbn [length]. now rewrite Nat.add_1_r.
Qed.

Lemma outline_app (a b : list paragraph) : outline (a ++ b) = outline a ++ outline b.
Proof. apply List.filter_app. Qed.

Lemma outline_book_lines (bs : list book) : outline (map BookLine bs) = map BookLine bs.
Proof. induction bs as [|b bs IH]; [reflexivity|]. cbn. now rewrite <- IH at 2. Qed.

Lemma fold_book_lines (bs : list book) :
  forall D, fold_left (fun st new_entry => insert (BookLine new_entry) st) bs (at_end D)
            = at_end (D ++ map BookLine bs).
Proof.
  induction bs as [|b bs IH]; intros D; cbn [fold_left map].
  - now rewrite app_nil_r.
  - rewrite insert_at_end, IH, <- app_assoc. reflexivity.
Qed.

Lemma add_by_date_range_at_end (bs : list book) (date_range : string)
    (D : list paragraph) :
  add_books_to_HTML_by_date_range bs date_range (at_end D)
  = at_end (D ++ range_bucket date_range bs).
Proof.
  unfold add_books_to_HTML_by_date_range, range_bucket. destruct bs as [|b bs].
  - now rewrite app_nil_r.
  - rewrite insert_at_end, fold_book_lines, <- app_assoc. reflexivity.
Qed.

Lemma month_entries_at_end (l : list book) :
  forall (ca cs : option string) (D : list paragraph),
    exists X, month_entries l ca cs (at_end D) = at_end (D ++ X)
              /\ outline X = map BookLine l.
Proof.
  induction l as [|e rest IH]; intros ca cs D.
  - exists []. split; [now rewrite app_nil_r | reflexivity].
  - cbn [month_entries].
    destruct (bool_decide (Some (author e) <> ca));
      destruct (series e) as [s|];
      try destruct (bool_decide (Some s <> _));
      rewrite ?insert_at_end;
      match goal with
      | |- context [month_entries rest ?a ?c (at_end ?D')] =>
          destruct (IH a c D') as (X & -> & HX)
      end;
      rewrite <- ?app_assoc; eexists; (split; [reflexivity|]);
      rewrite ?outline_app, HX; reflexivity.
Qed.

Lemma add_by_month_at_end (l : list book) (cur : Z * Z) (D : list paragraph) :
  exists X, add_books_to_HTML_by_month l cur (at_end D) = at_end (D ++ X)
            /\ outline X = month_paragraphs (cur, l).
Proof.
  unfold add_books_to_HTML_by_month, month_paragraphs. cbn [snd].
  destruct l as [|b l].
  - exists []. split; [now rewrite app_nil_r | reflexivity].
  - rewrite insert_at_end.
    destruct (month_entries_at_end (b :: l) None None (D ++ [MonthIndex cur.1 cur.2]))
      as (X & -> & HX).
    exists (MonthIndex cur.1 cur.2 :: X). split; [now rewrite <- app_assoc|].
    cbn. unfold outline in HX. rewrite HX. reflexivity.
Qed.

Lemma months_loop_at_end (l : list book) :
  forall (bs : list book) (cur : Z * Z) (D : list paragraph),
    exists X, months_loop l bs cur (at_end D) = at_end (D ++ X)
              /\ outline X
                 = concat (map month_paragraphs
                             (continue_group (cur, bs) (group_adjacent month_of l))).
Proof.
  induction l as [|b rest IH]; intros bs cur D.
  - cbn [months_loop]. destruct (add_by_month_at_end bs cur D) as (X & -> & HX).
    exists X. split; [reflexivity|]. cbn. now rewrite app_nil_r.
  - cbn [months_loop].
    destruct (decide (month_of b = cur)) as [Heq|Hne].
    + rewrite bool_decide_eq_false_2.
      2:{ unfold month_of in Heq. rewrite <- Heq. cbn. intros [H|H]; congruence. }
      destruct (IH (bs ++ [b]) cur D) as (X & -> & HX). exists X.
      split; [reflexivity|]. rewrite HX. now rewrite (continue_group_same month_of).
    + rewrite bool_decide_eq_true_2.
      2:{ unfold month_of in Hne. destruct cur as [y m]. cbn.
          destruct (decide (month (timestamp b) = m)); [|now left].
          destruct (decide (year (timestamp b) = y)); [|now right]. congruence. }
      destruct (add_by_month_at_end bs cur D) as (X1 & -> & HX1).
      destruct (IH [b] (month_of b) (D ++ X1)) as (X2 & -> & HX2).
      exists (X1 ++ X2). split; [now rewrite <- app_assoc|].
      rewrite outline_app, HX1, HX2.
      rewrite (continue_group_other month_of) by exact Hne.
      rewrite <- (group_cons month_of). reflexivity.
Qed.

Lemma month_paragraphs_groups (l : list book) :
  concat (map month_paragraphs (group_adjacent month_of l))
  = concat (map month_bucket (group_adjacent month_of l)).
Proof.
  pose proof (group_keys month_of l) as Hk.
  induction Hk as [|g gs [Hg _] _ IH]; [reflexivity|]. cbn [map concat]. rewrite IH.
  f_equal. unfold month_paragraphs. destruct (g.2); [contradiction | reflexivity].
Qed.

(** The loop from its start: the months of the list, one bucket each. *)
Lemma months_loop_start (l : list book) (D : list paragraph) :
  exists X, months_loop l [] (1, 1) (at_end D) = at_end (D ++ X)
            /\ outline X = concat (map month_bucket (group_adjacent month_of l)).
Proof.
  destruct (months_loop_at_end l [] (1, 1) D) as (X & HX & Ho).
  exists X. split; [exact HX|]. rewrite Ho, <- month_paragraphs_groups.
  unfold continue_group. destruct (group_adjacent month_of l) as [|[k g] gs];
    [reflexivity|]. cbn [fst snd].
  destruct (decide ((1, 1) = k)); reflexivity.
Qed.

Lemma recent_none (today : datetime) (limit : Z) (l : list book) :
  Forall (fun x => limit < delta_days today (timestamp x)) l ->
  recent today limit l = [].
Proof.
  unfold recent. induction 1 as [|x l Hx _ IH]; [reflexivity|]. cbn [List.filter].
  destruct (Z.leb_spec (delta_days today (timestamp x)) limit); [lia | exact IH].
Qed.

(** On a list in which later books are fewer days back, taking from the
    front up to the first book that is too old takes every recent book. *)
Lemma take_recent_filter (today : datetime) (limit : Z) (l : list book) :
  StronglySorted (fun a b => delta_days today (timestamp a)
                             <= delta_days today (timestamp b)) l ->
  forall (acc : list book) (bk : option book),
    exists bk',
      take_recent today limit l acc bk = (acc ++ recent today limit l, bk')
      /\ (is_Some bk \/ l <> [] -> is_Some bk').
Proof.
  induction l as [|b rest IH]; intros Hs acc bk.
  - exists bk. split; [cbn; now rewrite app_nil_r | intros [H|H]; [exact H | congruence]].
  - apply StronglySorted_inv in Hs as [Hs Hb].
    cbn [take_recent]. unfold recent. cbn [List.filter]. fold (recent today limit rest).
    destruct (Z.leb_spec (delta_days today (timestamp b)) limit) as [Hle|Hgt].
    + destruct (IH Hs (acc ++ [b]) (Some b)) as (bk' & -> & Hsome).
      exists bk'. split; [now rewrite <- app_assoc | intros _; apply Hsome; left; eauto].
    + exists (Some b). split; [|eauto]. rewrite recent_none; [now rewrite app_nil_r|].
      eapply Forall_impl; [exact Hb|]. cbn. intros x Hx. lia.
Qed.

Lemma sorted_by_timestamp_sorted (books : list book) :
  StronglySorted (fun a b => Dates.leb (timestamp b) (timestamp a) = true)
                 (sorted_by_timestamp books).
Proof.
  apply (sorted_strongly (fun k1 k2 => Dates.leb k2 k1) timestamp).
  - intros a b. destruct (leb_total a b); auto.
  - intros a b c H1 H2. eapply leb_trans; eassumption.
Qed.

Lemma recent_days (today : datetime) (l : list book) (b : book) :
  In b (recent today 30 l)
  <-> In b l /\ to_microseconds today - to_microseconds (timestamp b)
                < 31 * microseconds_per_day.
Proof.
  unfold recent. rewrite filter_In. unfold delta_days, microseconds_per_day.
  rewrite Z.leb_le. split; intros [Hin H]; (split; [exact Hin|]);
    revert H; generalize (to_microseconds today - to_microseconds (timestamp b));
    intros z H; Z.to_euclidean_division_equations; lia.
Qed.

(** C7, as the code has it.  The section is, in outline, the bucket
    Last 30 days followed by one bucket per month.  The first holds exactly
    the books whose timestamp is less than 31 days before 23:59:59 of the
    build day; the months list every book once, under the year and month of
    its timestamp, later months first. *)
Theorem generateHTMLByDateAdded_buckets (now : datetime) (books : list book) :
  books <> [] ->
  Forall (fun b => valid (timestamp b)) books ->
  let by_date := sorted_by_timestamp books in
  let today_time := end_of_day now in
  let months := group_adjacent month_of by_date in
  exists ps,
    generateHTMLByDateAdded now books = Some ps
    /\ outline ps
       = range_bucket "Last 30 days" (recent today_time 30 by_date)
         ++ concat (map month_bucket months)
    /\ (forall b, In b (recent today_time 30 by_date)
                  <-> In b books
                      /\ to_microseconds today_time - to_microseconds (timestamp b)
                         < 31 * microseconds_per_day)
    /\ by_date ≡ₚ books
    /\ concat (map snd months) = by_date
    /\ Forall (fun g => g.2 <> [] /\ Forall (fun b => month_of b = g.1) g.2) months
    /\ StronglySorted (fun g1 g2 => later g1.1 g2.1) months.
Proof.
  intros Hne Hvalid by_date today_time months.
  assert (Hperm : by_date ≡ₚ books) by apply sorted_perm.
  assert (Hvalid' : Forall (fun b => valid (timestamp b)) by_date) by now rewrite Hperm.
  pose proof (sorted_by_timestamp_sorted books) as Hsorted. fold by_date in Hsorted.
  assert (Hne' : by_date <> []).
  { intros E. rewrite E in Hperm. apply Permutation_nil in Hperm. congruence. }
  assert (Hdays : StronglySorted
                    (fun a b => delta_days today_time (timestamp a)
                                <= delta_days today_time (timestamp b)) by_date).
  { eapply StronglySorted_change; [|exact Hvalid'|exact Hsorted].
    intros a b Va Vb Hab. now apply delta_days_mono. }
  destruct (take_recent_filter today_time 30 by_date Hdays [] None)
    as (bk & Htake & Hbk).
  destruct (Hbk ltac:(right; exact Hne')) as [b0 ->].
  destruct (months_loop_start by_date
              ([] ++ range_bucket "Last 30 days" (recent today_time 30 by_date)))
    as (X & HX & Ho).
  exists (([] ++ range_bucket "Last 30 days" (recent today_time 30 by_date)) ++ X).
  split; [|split; [|split; [|split; [|split; [|split]]]]].
  - unfold generateHTMLByDateAdded, DATE_RANGE. fold by_date. fold today_time.
    cbn [ranges_loop]. rewrite Htake. cbn [app mbind option_bind].
    change {| divTag := []; dtc := 0 |} with (at_end []).
    change ("Last " +:+ str_of_Z 30 +:+ " days") with "Last 30 days".
    rewrite add_by_date_range_at_end, HX. reflexivity.
  - rewrite outline_app, Ho. f_equal. cbn [app]. unfold range_bucket.
    destruct (recent today_time 30 by_date); [reflexivity|].
    cbn. do 2 f_equal. exact (outline_book_lines _).
  - intros b. rewrite recent_days. rewrite <- !list_elem_of_In. now rewrite Hperm.
  - exact Hperm.
  - apply group_concat.
  - apply group_keys.
  - eapply StronglySorted_change with (P := fun _ => True);
      [|apply Forall_true; auto
       |apply (group_keys_strict month_of (fun a b => later a b \/ a = b))].
    + intros g1 g2 _ _ [[H|H] Hneq]; [exact H | contradiction].
    + intros [y1 m1] [y2 m2]. unfold later. cbn. intros [H1|H1] [H2|H2];
        try (injection H1 as -> ->); try (injection H2 as -> ->); try reflexivity;
        f_equal; lia.
    + intros [y1 m1] [y2 m2] [y3 m3]. unfold later. cbn. intros [H1|H1] [H2|H2];
        try (injection H1 as -> ->); try (injection H2 as -> ->); auto; left; lia.
    + eapply StronglySorted_change with (P := fun _ => True);
        [|apply Forall_true; auto|exact Hsorted].
      intros a b _ _ Hab. apply leb_year_month in Hab. unfold later, month_of. cbn.
      destruct (decide (year (timestamp a) = year (timestamp b)
                        /\ month (timestamp a) = month (timestamp b))) as [[-> ->]|Hd];
        [now right | left; lia].
Qed.

End DateAddedFacts.

Lemma generateHTMLByDateAdded_buckets_witness :
  let books := DateAddedExample.sample_books in
  let by_date := DateAdded.sorted_by_timestamp books in
  let today_time := Dates.end_of_day DateAddedExample.build_time in
  let months := Groups.group_adjacent DateAdded.month_of by_date in
  exists ps,
    DateAdded.generateHTMLByDateAdded DateAddedExample.build_time books = Some ps
    /\ DateAdded.outline ps
       = DateAdded.range_bucket "Last 30 days" (DateAdded.recent today_time 30 by_date)
         ++ concat (map DateAdded.month_bucket months)
    /\ (forall b, In b (DateAdded.recent today_time 30 by_date)
                  <-> In b books
                      /\ Dates.to_microseconds today_time
                         - Dates.to_microseconds (Catalog.timestamp b)
                         < 31 * Dates.microseconds_per_day)
    /\ by_date ≡ₚ books
    /\ concat (map snd months) = by_date
    /\ Forall (fun g => g.2 <> []
                        /\ Forall (fun b => DateAdded.month_of b = g.1) g.2) months
    /\ StronglySorted (fun g1 g2 => DateAdded.later g1.1 g2.1) months.
Proof.
  apply (generateHTMLByDateAdded_buckets DateAddedExample.build_time
           DateAddedExample.sample_books).
  - discriminate.
  - repeat (apply Forall_cons; split); try apply Forall_nil;
      unfold Dates.valid; cbn; lia.
Defined.

(** C7, the specification's wording refuted: built at noon of the 31st of
    March 2011, the bucket Last 30 days holds a book added on the 1st of
    March at 0:30, which is 30 days and eleven and a half hours before the
    build. *)
Lemma generateHTMLByDateAdded_last_30_days_not_exact :
  ~ DateAdded.last_30_days_exact.
Proof.
  intros H.
  assert (E : exists ps,
             DateAdded.generateHTMLByDateAdded DateAddedExample.build_time
               [DateAddedExample.early_march_book] = Some ps
             /\ DateAdded.range_bucket_ids ps = [7]).
  { eexists. split; vm_compute; reflexivity. }
  destruct E as (ps & E & Hids).
  assert (Hin : In (Catalog.id DateAddedExample.early_march_book)
                    (DateAdded.range_bucket_ids ps)
                 <-> DateAdded.within_30_days_of_build DateAddedExample.build_time
                       DateAddedExample.early_march_book).
  { apply (H DateAddedExample.build_time [DateAddedExample.early_march_book]).
    - unfold Dates.valid. cbn. lia.
    - apply Forall_cons; split; [|now apply Forall_nil].
      unfold Dates.valid. vm_compute. repeat split; discriminate.
    - exact E.
    - apply list_elem_of_In. now left. }
  rewrite Hids in Hin. destruct Hin as [Hin _].
  assert (Hw := Hin (or_introl eq_refl)).
  unfold DateAdded.within_30_days_of_build in Hw. vm_compute in Hw.
  apply Hw. reflexivity.
Qed.

(** ** The books by author *)

Section AuthorsFacts.
Import Text Catalog Authors.

Variable title_sort_fn : string -> string.
Variable icu_title : string -> string.

(** An error of the mismatch loop comes from two entries of one name with
    different sort values. *)
Lemma mismatch_loop_sound (pairs : list author_pair) :
  forall (i : nat) (current : author_pair) (msg : string),
    mismatch_loop pairs i current = Some msg ->
    exists p q, p ∈ pairs /\ q ∈ current :: pairs /\ p.1 = q.1 /\ p.2 <> q.2.
Proof.
  induction pairs as [|a rest IH]; intros i current msg H; [discriminate|].
  cbn [mismatch_loop] in H.
  destruct (bool_decide (a <> current) && negb (i =? 0)%nat) eqn:Hcond.
  - apply andb_prop in Hcond as [Hd _]. apply bool_decide_eq_true in Hd.
    destruct (bool_decide (a.1 = current.1)) eqn:Hname.
    + apply bool_decide_eq_true in Hname. exists a, current.
      repeat split; [left | left | exact Hname |].
      intros H2. apply Hd. destruct a, current. cbn in *. congruence.
    + destruct (IH _ _ _ H) as (p & q & Hp & Hq & Hpq).
      exists p, q. repeat split; [now right | now right | apply Hpq..].
  - destruct (IH _ _ _ H) as (p & q & Hp & Hq & Hpq).
    exists p, q. split; [now right|]. split; [|exact Hpq].
    apply elem_of_cons in Hq as [->|Hq]; [left | right; now right].
Qed.

Lemma build_unique_authors_total (books : list book) :
  books <> [] -> is_Some (build_unique_authors icu_title books).
Proof.
  intros Hne. unfold build_unique_authors.
  destruct books as [|b rest]; [contradiction|]. cbn [map head mbind option_bind].
  destruct (last _) eqn:El; [eexists; reflexivity|].
  apply last_None in El. discriminate.
Qed.

(** X3.  Without two books of one name and different sort
    values, and with a book in the list, fetchBooksByAuthor succeeds and
    leaves the error list as it was. *)
Lemma fetchBooksByAuthor_consistent (books : list book)
    (prev : list author_count) (err : list string) :
  books <> [] ->
  ~ author_sort_mismatch books ->
  exists r, fetchBooksByAuthor title_sort_fn icu_title books prev err = Some r
            /\ success r = true /\ error r = err.
Proof.
  intros Hne Hok. unfold fetchBooksByAuthor.
  set (by_author := PySort.sorted _ _ books).
  assert (Hperm : by_author ≡ₚ books) by apply sorted_perm.
  assert (Hne' : by_author <> []).
  { intros E. rewrite E in Hperm. apply Permutation_nil in Hperm. congruence. }
  destruct by_author as [|b0 rest] eqn:Eb; [contradiction|].
  cbn [map head mbind option_bind].
  destruct (mismatch_loop _ 0 _) as [msg|] eqn:Hm.
  - exfalso. apply Hok. apply mismatch_loop_sound in Hm as (p & q & Hp & Hq & Hn & Hs).
    assert (Hin : forall x : author_pair,
               x ∈ (author b0, author_sort b0)
                   :: map (fun record => (author record, author_sort record)) (b0 :: rest) ->
               exists b, b ∈ books /\ x = (author b, author_sort b)).
    { intros x Hx. apply elem_of_cons in Hx as [->|Hx].
      - exists b0. split; [|reflexivity]. rewrite <- Hperm. left.
      - apply list_elem_of_fmap in Hx as (b & -> & Hb). exists b.
        split; [now rewrite <- Hperm | reflexivity]. }
    destruct (Hin p ltac:(now right)) as (b1 & Hb1 & ->).
    destruct (Hin q Hq) as (b2 & Hb2 & ->).
    exists b1, b2. auto.
  - destruct (build_unique_authors_total
                (PySort.sorted String.leb (booksByAuthorSorter_author_sort title_sort_fn)
                   (b0 :: rest))) as [u Hu].
    { intros E. pose proof (sorted_perm String.leb
                  (booksByAuthorSorter_author_sort title_sort_fn) (b0 :: rest)) as Hp.
      rewrite E in Hp. apply Permutation_nil in Hp. discriminate. }
    rewrite Hu. eexists. split; [reflexivity|]. split; reflexivity.
Qed.

(** C6, at the failing input: for a list of one book the list of authors
    holds the author twice, each time with the count 0, so the counts sum to
    0 and not to the one book. *)
Theorem fetchBooksByAuthor_single_book (b : book)
    (prev : list author_count) (err : list string) :
  let e := (author b, icu_title (capitalize (author_sort b)), 0%nat) in
  fetchBooksByAuthor title_sort_fn icu_title [b] prev err
  = Some {| success := true; booksByAuthor := [b]; authors := [e; e]; error := err |}
  /\ ~ counts_every_author_once [b] [e; e].
Proof.
  split.
  - unfold fetchBooksByAuthor, build_unique_authors. cbn.
    assert (Hd : forall x : author_pair, bool_decide (x <> x) = false).
    { intros x. apply bool_decide_eq_false_2. intros H. now apply H. }
    rewrite andb_false_r. cbn. unfold unique_body, unique_else. cbn.
    rewrite Hd. cbn. rewrite andb_false_r. reflexivity.
  - intros (Hnd & _). cbn in Hnd. apply NoDup_cons in Hnd as [Hnotin _].
    apply Hnotin. left.
Qed.

End AuthorsFacts.

(** C9, at the failing input: two books of Stephen King have different
    author_sort values; sorted by author, a book of Stephen Michael King
    stands between them, no two neighbours show the mismatch, and
    fetchBooksByAuthor returns True with the error list as it was. *)
Theorem fetchBooksByAuthor_misses_mismatch :
  Authors.author_sort_mismatch AuthorsExample.mixed_books
  /\ forall (title_sort_fn icu_title : string -> string)
            (prev : list Authors.author_count) (err : list string),
       map Catalog.id
         (PySort.sorted String.leb (Authors.booksByAuthorSorter_author title_sort_fn)
            AuthorsExample.mixed_books) = [1; 3; 2]
       /\ exists r,
           Authors.fetchBooksByAuthor title_sort_fn icu_title
             AuthorsExample.mixed_books prev err = Some r
           /\ Authors.success r = true /\ Authors.error r = err.
Proof.
  split.
  - exists AuthorsExample.carrie, AuthorsExample.gunslinger.
    repeat split; [left | right; left | discriminate].
  - intros title_sort_fn icu_title prev err. split; [vm_compute; reflexivity|].
    eexists. split; [vm_compute; reflexivity|]. split; reflexivity.
Qed.

(** ** The sources of the catalog: HTML files, OPF and NCX *)

Section BuildFacts.
Import Text Catalog Ncx Build.

Variable title_sort_fn : string -> string.
Variable icu_title : string -> string.

(** The articles of the Genres and Descriptions sections take their own
    playOrder: for a catalog of these two sections the values run from 1 on
    through the document. *)
Lemma buildSources_descriptions_play_order :
  exists self ncx,
    buildSources title_sort_fn icu_title BuildExample.library
      (CatalogBuilder BuildExample.genres_and_descriptions) = Some (true, self)
    /\ ncxSoup self = Some ncx
    /\ map nav_playOrder (document_order ncx) = map Some (seqZ 1 8).
Proof.
  eexists. eexists. split; [vm_compute; reflexivity|].
  split; [reflexivity|]. vm_compute. reflexivity.
Qed.

(** C1, at the failing input: for a catalog with the Titles section
    only, built from three books, the three article navPoints of the section
    have no playOrder; their values went to the section navPoint, which ends
    with 5 after the 1 of the periodical navPoint. *)
Theorem buildSources_titles_articles_without_playOrder :
  exists self ncx,
    buildSources title_sort_fn icu_title BuildExample.library
      (CatalogBuilder BuildExample.titles_only) = Some (true, self)
    /\ ncxSoup self = Some ncx
    /\ map (fun n => (nav_class n, nav_playOrder n)) (document_order ncx)
       = [("periodical", Some 1); ("section", Some 5);
          ("article", None); ("article", None); ("article", None)]
    /\ ~ play_order_consecutive ncx.
Proof.
  eexists. eexists. split; [vm_compute; reflexivity|].
  split; [reflexivity|]. split; [vm_compute; reflexivity|].
  intros [first H]. apply (f_equal (fun l => nth 2 l None)) in H.
  vm_compute in H. discriminate H.
Qed.

(** C2, at the failing input: for a catalog with the Genres section only
    the periodical navPoint of the NCX names content/ByGenres.html, a file
    that no generator writes and that is not in the manifest. *)
Theorem buildSources_genres_periodical_src_not_written :
  exists self ncx pkg,
    buildSources title_sort_fn icu_title BuildExample.library
      (CatalogBuilder BuildExample.genres_only) = Some (true, self)
    /\ ncxSoup self = Some ncx /\ opf self = Some pkg
    /\ nav_src ncx = "content/ByGenres.html"
    /\ written self = ["content/Genre_fiction.html"; "content/Genre_history.html";
                       "Catalog.opf"; "Catalog.ncx"]
    /\ map href (manifest pkg)
       = ["Catalog.ncx"; "content/stylesheet.css"; "images/mastheadImage.gif";
          "content/Genre_fiction.html"; "content/Genre_history.html"]
    /\ ~ cross_linked self.
Proof.
  eexists. eexists. eexists. split; [vm_compute; reflexivity|].
  split; [reflexivity|]. split; [reflexivity|]. split; [reflexivity|].
  split; [reflexivity|]. split; [reflexivity|].
  intros (ncx & pkg & Hn & _ & Hall & _).
  injection Hn as <-. apply Forall_cons in Hall as [[Hw _] _].
  apply (bool_decide_pack _) in Hw. vm_compute in Hw. exact Hw.
Qed.

(** Where the two books with the mismatch are neighbours in the order by
    author, fetchBooksByAuthor reports it and buildSources returns False
    with no file written and neither OPF nor NCX built. *)
Lemma buildSources_aborts_on_mismatch :
  exists self msg,
    buildSources title_sort_fn icu_title BuildExample.king_library
      (CatalogBuilder (run_options true true true true true true)) = Some (false, self)
    /\ error self = ["Metadata error"; msg]
    /\ written self = [] /\ opf self = None /\ ncxSoup self = None.
Proof.
  eexists. eexists. split; [vm_compute; reflexivity|]. repeat split.
Qed.

End BuildFacts.

(** ** More on fetchBooksByAuthor *)

Section AuthorsMore.
Import Text Catalog Authors AuthorRuns Groups.

Variable title_sort_fn : string -> string.
Variable icu_title : string -> string.

(** The error of the mismatch loop names two entries of one author with
    different sort values. *)
Lemma mismatch_loop_message (pairs : list author_pair) :
  forall (i : nat) (current : author_pair) (msg : string),
    mismatch_loop pairs i current = Some msg ->
    exists p q, p ∈ pairs /\ q ∈ current :: pairs /\ p.1 = q.1 /\ p.2 <> q.2
                /\ msg = error_msg p.1 p.2 q.2.
Proof.
  induction pairs as [|a rest IH]; intros i current msg H; [discriminate|].
  cbn [mismatch_loop] in H.
  destruct (bool_decide (a <> current) && negb (i =? 0)%nat) eqn:Hcond.
  - apply andb_prop in Hcond as [Hd _]. apply bool_decide_eq_true in Hd.
    destruct (bool_decide (a.1 = current.1)) eqn:Hname.
    + apply bool_decide_eq_true in Hname. injection H as <-. exists a, current.
      repeat split; [left | left | exact Hname |].
      intros H2. apply Hd. destruct a, current. cbn in *. congruence.
    + destruct (IH _ _ _ H) as (p & q & Hp & Hq & Hpq).
      exists p, q. repeat split; [now right | now right | apply Hpq..].
  - destruct (IH _ _ _ H) as (p & q & Hp & Hq & Hpq).
    exists p, q. split; [now right|]. split; [|exact Hpq].
    apply elem_of_cons in Hq as [->|Hq]; [left | right; now right].
Qed.

Lemma sorted_nonempty {A K : Type} (leb : K -> K -> bool) (key : A -> K) (l : list A) :
  l <> [] -> PySort.sorted leb key l <> [].
Proof.
  intros Hne E. pose proof (sorted_perm leb key l) as Hp. rewrite E in Hp.
  apply Permutation_nil in Hp. congruence.
Qed.

(** X1.  fetchBooksByAuthor raises (the IndexError of [authors[0]]) for the
    empty list of books and for no other list. *)
Theorem fetchBooksByAuthor_defined (books : list book)
    (prev : list author_count) (err : list string) :
  is_Some (fetchBooksByAuthor title_sort_fn icu_title books prev err) <-> books <> [].
Proof.
  split.
  - intros [r Hr] ->. discriminate Hr.
  - intros Hne. unfold fetchBooksByAuthor.
    pose proof (sorted_nonempty String.leb (booksByAuthorSorter_author title_sort_fn)
                  books Hne) as Hs.
    destruct (PySort.sorted String.leb (booksByAuthorSorter_author title_sort_fn) books)
      as [|b0 rest] eqn:Eb; [contradiction|].
    cbn [map head mbind option_bind].
    destruct (mismatch_loop _ 0 _) as [msg|]; [eexists; reflexivity|].
    destruct (build_unique_authors_total icu_title
                (PySort.sorted String.leb (booksByAuthorSorter_author_sort title_sort_fn)
                   (b0 :: rest))) as [u Hu].
    { apply sorted_nonempty. discriminate. }
    rewrite Hu. eexists. reflexivity.
Qed.

(** X2.  When fetchBooksByAuthor returns False there are two books of one
    author with different author_sort values, the error list has grown by
    'Metadata error' and the message that names this author and the two
    values, and the list of authors is as it was. *)
Theorem fetchBooksByAuthor_failure (books : list book)
    (prev : list author_count) (err : list string) (r : fetched_authors) :
  fetchBooksByAuthor title_sort_fn icu_title books prev err = Some r ->
  success r = false ->
  exists b1 b2,
    b1 ∈ books /\ b2 ∈ books /\ author b1 = author b2
    /\ author_sort b1 <> author_sort b2
    /\ error r = err ++ ["Metadata error";
                         error_msg (author b1) (author_sort b1) (author_sort b2)]
    /\ authors r = prev.
Proof.
  unfold fetchBooksByAuthor. intros H Hs.
  set (by_author := PySort.sorted _ _ books) in H.
  assert (Hperm : by_author ≡ₚ books) by apply sorted_perm.
  destruct by_author as [|b0 rest] eqn:Eb; [discriminate|].
  cbn [map head mbind option_bind] in H.
  destruct (mismatch_loop _ 0 _) as [msg|] eqn:Hm.
  - injection H as <-. cbn [error authors].
    apply mismatch_loop_message in Hm as (p & q & Hp & Hq & Hn & Hd & ->).
    assert (Hin : forall x : author_pair,
               x ∈ (author b0, author_sort b0)
                   :: map (fun record => (author record, author_sort record)) (b0 :: rest) ->
               exists b, b ∈ books /\ x = (author b, author_sort b)).
    { intros x Hx. apply elem_of_cons in Hx as [->|Hx].
      - exists b0. split; [|reflexivity]. rewrite <- Hperm. left.
      - apply list_elem_of_fmap in Hx as (b & -> & Hb). exists b.
        split; [now rewrite <- Hperm | reflexivity]. }
    destruct (Hin p ltac:(now right)) as (b1 & Hb1 & ->).
    destruct (Hin q Hq) as (b2 & Hb2 & ->).
    exists b1, b2. cbn [fst snd] in *. auto 10.
  - destruct (build_unique_authors _ _); [|discriminate].
    injection H as <-. discriminate Hs.
Qed.

(** X4.  Whatever it returns, fetchBooksByAuthor leaves in booksByAuthor the
    books it was given, each as often as before; after True they are in the
    order of the key of booksByAuthorSorter_author_sort. *)
Theorem fetchBooksByAuthor_books (books : list book)
    (prev : list author_count) (err : list string) (r : fetched_authors) :
  fetchBooksByAuthor title_sort_fn icu_title books prev err = Some r ->
  booksByAuthor r ≡ₚ books
  /\ (success r = true ->
      StronglySorted
        (fun a b => String.leb (booksByAuthorSorter_author_sort title_sort_fn a)
                               (booksByAuthorSorter_author_sort title_sort_fn b) = true)
        (booksByAuthor r)).
Proof.
  unfold fetchBooksByAuthor. intros H.
  set (by_author := PySort.sorted _ _ books) in H.
  assert (Hperm : by_author ≡ₚ books) by apply sorted_perm.
  destruct (head _) as [first|]; [|discriminate]. cbn [mbind option_bind] in H.
  destruct (mismatch_loop _ 0 _) as [msg|].
  - injection H as <-. cbn. split; [exact Hperm | discriminate].
  - destruct (build_unique_authors _ _); [|discriminate].
    injection H as <-. cbn. split.
    + now rewrite sorted_perm.
    + intros _. apply (sorted_strongly String.leb
                         (booksByAuthorSorter_author_sort title_sort_fn)).
      * apply String.leb_total.
      * apply string_leb_trans.
Qed.

(** The loop over the authors of a list of two or more books builds the
    runs of the list: [seen] are the books of the current author so far. *)
Lemma unique_loop_runs (len : nat) (l : list book) :
  (2 <= len)%nat ->
  forall (i : nat) (st : unique_state) (seen : list book),
    books_by_current_author st = length seen ->
    let st' := unique_loop icu_title len (map pair_of l) i st in
    unique_authors st' ++ [entry icu_title st']
    = unique_authors st
      ++ map (run_entry icu_title)
           (continue_group (current_author st, seen) (group_adjacent pair_of l)).
Proof.
  intros Hlen. induction l as [|b l IH]; intros i st seen Hseen.
  - cbn. unfold entry, run_entry. cbn. now rewrite Hseen.
  - cbn [map unique_loop]. unfold unique_body.
    assert (Hone : (len =? 1)%nat = false) by (apply Nat.eqb_neq; lia).
    rewrite Hone, andb_false_r.
    destruct (bool_decide (pair_of b <> current_author st)) eqn:Hd.
    + apply bool_decide_eq_true in Hd.
      rewrite (IH (S i) _ [b]) by reflexivity. cbn [unique_authors current_author].
      rewrite continue_group_other by exact Hd.
      rewrite <- group_cons, <- app_assoc. cbn [app map]. f_equal. f_equal.
      unfold entry, run_entry. cbn. now rewrite Hseen.
    + apply bool_decide_eq_false in Hd.
      assert (He : pair_of b = current_author st).
      { destruct (decide (pair_of b = current_author st)); [assumption | contradiction]. }
      rewrite (IH (S i) _ (seen ++ [b])).
      * cbn [unique_authors current_author]. now rewrite continue_group_same.
      * cbn. rewrite length_app. cbn. lia.
Qed.

Lemma unique_loop_current (len : nat) (l : list author_pair) :
  forall (i : nat) (st : unique_state),
    current_author (unique_loop icu_title len l i st)
    = default (current_author st) (last l).
Proof.
  induction l as [|a l IH]; intros i st; [reflexivity|].
  cbn [unique_loop]. rewrite IH.
  assert (Hc : current_author (unique_body icu_title len i a st) = a).
  { unfold unique_body. destruct (bool_decide (a <> current_author st)) eqn:Hd.
    - reflexivity.
    - apply bool_decide_eq_false in Hd.
      destruct (decide (a = current_author st)) as [->|]; [|contradiction].
      now destruct (_ && _). }
  rewrite Hc. destruct l as [|a0 l']; [reflexivity|].
  change (last (a :: a0 :: l')) with (last (a0 :: l')).
  destruct (last (a0 :: l')) eqn:El; [reflexivity|].
  apply last_None in El. discriminate.
Qed.

Lemma build_unique_authors_runs (books : list book) :
  (2 <= length books)%nat ->
  build_unique_authors icu_title books
  = Some (map (run_entry icu_title) (group_adjacent pair_of books)).
Proof.
  intros Hlen. unfold build_unique_authors.
  change (map (fun record => (author record, capitalize (author_sort record))) books)
    with (map pair_of books).
  destruct books as [|b0 rest]; [cbn in Hlen; lia|].
  cbn [map head mbind option_bind].
  assert (El : exists final, last (pair_of b0 :: map pair_of rest) = Some final).
  { destruct (last (pair_of b0 :: map pair_of rest)) eqn:El; [eauto|].
    apply last_None in El. discriminate. }
  destruct El as [final El]. unfold author_pair in *. rewrite El.
  cbn [mbind option_bind]. f_equal. unfold unique_else.
  set (st0 := {| books_by_current_author := 0; current_author := pair_of b0;
                 multiple_authors := false; unique_authors := [] |}).
  pose proof (unique_loop_current (length (pair_of b0 :: map pair_of rest))
                (pair_of b0 :: map pair_of rest) 0%nat st0) as Hcur.
  unfold author_pair in Hcur. rewrite El in Hcur. cbn in Hcur.
  rewrite bool_decide_eq_true_2 by exact Hcur.
  assert (Hgt : (1 <? length (pair_of b0 :: map pair_of rest))%nat = true).
  { apply Nat.ltb_lt. cbn [length] in *. rewrite length_map. lia. }
  unfold author_pair in Hgt. rewrite Hgt. cbn [andb orb].
  pose proof (unique_loop_runs (length (pair_of b0 :: map pair_of rest)) (b0 :: rest)) as Hr.
  cbn [map] in Hr.
  specialize (Hr ltac:(cbn [length] in *; rewrite length_map; lia) 0%nat st0 [] eq_refl).
  cbn zeta in Hr. unfold author_pair in Hr. rewrite Hr.
  cbn [unique_authors current_author st0 app]. f_equal.
  destruct (group_head pair_of b0 rest) as (g & gs & Hg).
  unfold author_pair in Hg. rewrite Hg.
  unfold continue_group. cbn [fst snd]. now rewrite decide_True by reflexivity.
Qed.

(** X5.  For two or more books, after True, the list of authors is the list
    of the runs of booksByAuthor: consecutive books of one author name and
    capitalized author_sort give one entry, with their number.  Every count
    is positive and the counts sum to the number of books. *)
Theorem fetchBooksByAuthor_runs (books : list book)
    (prev : list author_count) (err : list string) (r : fetched_authors) :
  (2 <= length books)%nat ->
  fetchBooksByAuthor title_sort_fn icu_title books prev err = Some r ->
  success r = true ->
  authors r = map (run_entry icu_title) (group_adjacent pair_of (booksByAuthor r))
  /\ Forall (fun e : author_count => (1 <= e.2)%nat) (authors r)
  /\ list_sum (map snd (authors r)) = length books.
Proof.
  intros Hlen H Hs.
  unfold fetchBooksByAuthor in H.
  destruct (head _) as [first|]; [|discriminate]. cbn [mbind option_bind] in H.
  destruct (mismatch_loop _ 0 _) as [msg|]; [injection H as <-; discriminate Hs|].
  rewrite build_unique_authors_runs in H.
  2:{ rewrite !sorted_perm. exact Hlen. }
  cbn [mbind option_bind] in H. injection H as <-. cbn [authors booksByAuthor] in *.
  set (l := PySort.sorted String.leb (booksByAuthorSorter_author_sort title_sort_fn) _)
    in *.
  assert (Hperm : l ≡ₚ books) by (unfold l; now rewrite !sorted_perm).
  split; [reflexivity|]. split.
  - apply Forall_map. eapply Forall_impl; [apply (group_keys pair_of l)|].
    intros [k g] [Hne _]. cbn in *. destruct g; [contradiction | cbn; lia].
  - rewrite <- (Permutation_length Hperm).
    rewrite <- (group_concat pair_of l) at 2.
    generalize (group_adjacent pair_of l). intros gs.
    induction gs as [|g gs IH]; [reflexivity|].
    cbn [map concat]. rewrite length_app, <- IH. reflexivity.
Qed.

End AuthorsMore.

Lemma fetchBooksByAuthor_failure_witness :
  exists r,
    Authors.fetchBooksByAuthor SortTitle.title_sort_model (fun s => s)
      [AuthorsExample.carrie; AuthorsExample.gunslinger] [] [] = Some r
    /\ Authors.success r = false
    /\ exists b1 b2,
        b1 ∈ [AuthorsExample.carrie; AuthorsExample.gunslinger]
        /\ b2 ∈ [AuthorsExample.carrie; AuthorsExample.gunslinger]
        /\ Catalog.author b1 = Catalog.author b2
        /\ Catalog.author_sort b1 <> Catalog.author_sort b2
        /\ Authors.error r
           = [] ++ ["Metadata error";
                    Authors.error_msg (Catalog.author b1) (Catalog.author_sort b1)
                      (Catalog.author_sort b2)]
        /\ Authors.authors r = [].
Proof.
  eexists. split; [vm_compute; reflexivity|]. split; [reflexivity|].
  apply (fetchBooksByAuthor_failure SortTitle.title_sort_model (fun s => s)
           [AuthorsExample.carrie; AuthorsExample.gunslinger] [] []);
    vm_compute; reflexivity.
Defined.

Lemma fetchBooksByAuthor_consistent_witness :
  exists r,
    Authors.fetchBooksByAuthor SortTitle.title_sort_model (fun s => s)
      [AuthorsExample.carrie; AuthorsExample.henry] [] ["earlier"] = Some r
    /\ Authors.success r = true /\ Authors.error r = ["earlier"].
Proof.
  apply (fetchBooksByAuthor_consistent SortTitle.title_sort_model (fun s => s)
           [AuthorsExample.carrie; AuthorsExample.henry] [] ["earlier"]).
  - discriminate.
  - intros (b1 & b2 & H1 & H2 & Ha & Hs). apply Hs.
    apply elem_of_cons in H1 as [->|H1]; [|apply list_elem_of_singleton in H1 as ->];
      (apply elem_of_cons in H2 as [->|H2]; [|apply list_elem_of_singleton in H2 as ->]);
      first [reflexivity | discriminate Ha].
Defined.

Lemma fetchBooksByAuthor_books_witness :
  exists r,
    Authors.fetchBooksByAuthor SortTitle.title_sort_model (fun s => s)
      AuthorsExample.mixed_books [] [] = Some r
    /\ Authors.booksByAuthor r ≡ₚ AuthorsExample.mixed_books
    /\ (Authors.success r = true ->
        StronglySorted
          (fun a b =>
             String.leb
               (Authors.booksByAuthorSorter_author_sort SortTitle.title_sort_model a)
               (Authors.booksByAuthorSorter_author_sort SortTitle.title_sort_model b)
             = true)
          (Authors.booksByAuthor r)).
Proof.
  eexists. split; [vm_compute; reflexivity|].
  apply (fetchBooksByAuthor_books SortTitle.title_sort_model (fun s => s)
           AuthorsExample.mixed_books [] []).
  vm_compute. reflexivity.
Defined.

Lemma fetchBooksByAuthor_runs_witness :
  exists r,
    Authors.fetchBooksByAuthor SortTitle.title_sort_model (fun s => s)
      [AuthorsExample.carrie; AuthorsExample.henry; AuthorsExample.carrie] [] [] = Some r
    /\ Authors.authors r
       = map (AuthorRuns.run_entry (fun s => s))
           (Groups.group_adjacent AuthorRuns.pair_of (Authors.booksByAuthor r))
    /\ Forall (fun e : Authors.author_count => (1 <= e.2)%nat) (Authors.authors r)
    /\ list_sum (map snd (Authors.authors r))
       = length [AuthorsExample.carrie; AuthorsExample.henry; AuthorsExample.carrie].
Proof.
  eexists. split; [vm_compute; reflexivity|].
  apply (fetchBooksByAuthor_runs SortTitle.title_sort_model (fun s => s)
           [AuthorsExample.carrie; AuthorsExample.henry; AuthorsExample.carrie] [] []).
  - cbn. lia.
  - vm_compute. reflexivity.
  - reflexivity.
Defined.

(** ** The genres of generateHTMLByTags *)

Section GenresFacts.
Import Text Catalog Build GenreList.

Variable inp : inputs.

(** Writing a list of files one after the other. *)
Lemma foldl_write {A : Type} (f : A -> string) (l : list A) :
  forall self : builder,
    foldl (fun self x => write (f x) self) self l
    = set_written (written self ++ map f l) self.
Proof.
  induction l as [|x l IH]; intros self.
  - cbn. rewrite app_nil_r. now destruct self.
  - cbn [foldl map]. rewrite IH. destruct self. cbn.
    now rewrite <- app_assoc.
Qed.

Lemma add_to_existing_keys (normalized_tag : string) (b : book)
    (genre_list : list (string * list book)) :
  map fst (add_to_existing normalized_tag b genre_list) = map fst genre_list.
Proof.
  induction genre_list as [|[key bs] rest IH]; [reflexivity|].
  cbn [add_to_existing map]. rewrite IH. now destruct (_ && _).
Qed.

Lemma add_to_existing_ok (books : list book) (friendly_tag normalized_tag : string)
    (b0 : book) (genre_list : list (string * list book)) :
  b0 ∈ books -> friendly_tag ∈ tags b0 ->
  normalized_of inp friendly_tag = Some normalized_tag ->
  Forall (genre_ok inp books) genre_list ->
  Forall (genre_ok inp books) (add_to_existing normalized_tag (this_book b0) genre_list).
Proof.
  intros Hb Hf Hn. induction genre_list as [|[key bs] rest IH]; intros Hall.
  - constructor.
  - apply Forall_cons in Hall as [(Hne & Hnd & Hbs) Hrest].
    cbn [add_to_existing]. constructor; [|auto].
    destruct (bool_decide (key = normalized_tag)) eqn:Hk; cbn [andb]; [|repeat split; auto].
    destruct (existsb _ bs) eqn:He; cbn [negb]; [repeat split; auto|].
    apply bool_decide_eq_true in Hk. subst key. cbn [fst snd] in *.
    unfold genre_ok. cbn [fst snd].
    split; [now destruct bs|]. split.
    + rewrite List.map_app. cbn [map]. apply NoDup_app. split; [exact Hnd|].
      split; [|apply NoDup_singleton].
      intros t Ht Ht'. apply list_elem_of_singleton in Ht'. subst t.
      apply list_elem_of_fmap in Ht as (x & Hx & Hin).
      assert (Hex : existsb (fun x => bool_decide (Catalog.title x = Catalog.title (this_book b0)))
                      bs = true).
      { apply existsb_exists. exists x. split; [now apply list_elem_of_In|].
        apply bool_decide_eq_true. now symmetry. }
      congruence.
    + apply Forall_app. split; [exact Hbs|]. constructor; [|constructor].
      exists b0, friendly_tag. auto.
Qed.

Lemma tag_books_loop_ok (all : list book) (friendly_tag normalized_tag : string)
    (books : list book) :
  normalized_of inp friendly_tag = Some normalized_tag ->
  (forall b, b ∈ books -> b ∈ all) ->
  forall genre_list,
    genre_list_ok inp all genre_list ->
    genre_list_ok inp all (tag_books_loop friendly_tag normalized_tag books genre_list).
Proof.
  intros Hn. induction books as [|b rest IH]; intros Hsub genre_list [Hnd Hall];
    [split; assumption|].
  cbn [tag_books_loop].
  assert (Hrest : forall x, x ∈ rest -> x ∈ all) by (intros x Hx; apply Hsub; now right).
  destruct (bool_decide (friendly_tag ∈ tags b)) eqn:Hf; [|apply IH; [assumption | now split]].
  apply bool_decide_eq_true in Hf.
  destruct (bool_decide (normalized_tag ∈ map fst genre_list)) eqn:Hin; apply IH; try assumption.
  - split; [now rewrite add_to_existing_keys|].
    eapply add_to_existing_ok; eauto. apply Hsub. left.
  - apply bool_decide_eq_false in Hin. split.
    + rewrite List.map_app. cbn [map fst]. apply NoDup_app. split; [exact Hnd|].
      split; [|apply NoDup_singleton].
      intros t Ht Ht'. apply list_elem_of_singleton in Ht'. now subst t.
    + apply Forall_app. split; [exact Hall|]. constructor; [|constructor].
      split; [discriminate|]. cbn [fst snd map]. split; [apply NoDup_singleton|].
      constructor; [|constructor]. exists b, friendly_tag.
      split; [apply Hsub; left | auto].
Qed.

Lemma friendly_tags_loop_ok (books : list book) (friendly_tags : list string) :
  forall genre_list result,
    genre_list_ok inp books genre_list ->
    friendly_tags_loop inp friendly_tags books genre_list = Some result ->
    genre_list_ok inp books result.
Proof.
  induction friendly_tags as [|friendly_tag rest IH]; intros genre_list result Hok H.
  - injection H as <-. exact Hok.
  - cbn [friendly_tags_loop] in H.
    destruct (normalized_of inp friendly_tag) as [normalized_tag|] eqn:Hn; [|discriminate].
    cbn [mbind option_bind] in H. eapply IH; [|exact H].
    apply tag_books_loop_ok; auto.
Qed.

(** X6.  After generateHTMLByTags the genres have different
    tags; each genre has its file content/Genre_<tag>.html, which was
    written, holds at least one book and no two books of one title, and every
    book of it is a book of booksByAuthor that carries a friendly tag whose
    normalized form is the tag of the genre. *)
Theorem generateHTMLByTags_genres (self self' : builder) :
  generateHTMLByTags inp self = Some self' ->
  NoDup (map tag (genres self'))
  /\ Forall (fun g =>
               file g = "content/Genre_" +:+ tag g +:+ ".html"
               /\ file g ∈ written self'
               /\ genre_books g <> []
               /\ NoDup (map Catalog.title (genre_books g))
               /\ Forall (fun b => exists b0 friendly_tag,
                              b0 ∈ booksByAuthor self /\ b = this_book b0
                              /\ friendly_tag ∈ tags b0
                              /\ normalized_of inp friendly_tag = Some (tag g))
                         (genre_books g))
            (genres self').
Proof.
  unfold generateHTMLByTags. intros H.
  destruct (friendly_tags_loop inp _ (booksByAuthor self) []) as [genre_list|] eqn:Hl;
    [|discriminate].
  cbn [mbind option_bind] in H. injection H as <-.
  apply friendly_tags_loop_ok in Hl; [|split; constructor].
  destruct Hl as [Hnd Hall]. rewrite foldl_write.
  assert (Hg : forall v s, genres (set_genres v s) = v) by (intros v []; reflexivity).
  assert (Hw : forall v s, written (set_genres v s) = written s)
    by (intros v []; reflexivity).
  assert (Hw' : forall v s, written (set_written v s) = v) by (intros v []; reflexivity).
  rewrite Hg, Hw, Hw'. split.
  - rewrite map_map. cbn [tag]. exact Hnd.
  - apply Forall_map. rewrite Forall_forall in Hall |- *. intros g Hgin.
    destruct (Hall g Hgin) as (Hne & Hnd' & Hbs). cbn [file tag genre_books].
    split; [reflexivity|]. split; [|auto].
    apply elem_of_app. right. apply list_elem_of_fmap. exists g. auto.
Qed.

Lemma add_to_existing_keeps (normalized_tag n t : string) (b : book)
    (genre_list : list (string * list book)) :
  has_title genre_list n t -> has_title (add_to_existing normalized_tag b genre_list) n t.
Proof.
  intros (g & Hg & Hk & Ht). induction genre_list as [|[key bs] rest IH];
    [apply elem_of_nil in Hg; contradiction|].
  cbn [add_to_existing]. apply elem_of_cons in Hg as [->|Hg].
  - eexists. split; [left|]. cbn [fst snd] in *.
    destruct (_ && _); cbn [fst snd]; split; auto.
    rewrite List.map_app. apply elem_of_app. now left.
  - destruct (IH Hg) as (g' & Hg' & Hk' & Ht'). exists g'. split; [now right | auto].
Qed.

Lemma add_to_existing_adds (normalized_tag : string) (b : book)
    (genre_list : list (string * list book)) :
  normalized_tag ∈ map fst genre_list ->
  has_title (add_to_existing normalized_tag b genre_list) normalized_tag (Catalog.title b).
Proof.
  induction genre_list as [|[key bs] rest IH]; intros Hin;
    [apply elem_of_nil in Hin; contradiction|].
  cbn [add_to_existing map fst] in *.
  destruct (bool_decide (key = normalized_tag)) eqn:Hk.
  - apply bool_decide_eq_true in Hk. subst key. cbn [andb].
    eexists. split; [left|].
    destruct (existsb _ bs) eqn:He; cbn [negb fst snd]; (split; [reflexivity|]).
    + apply existsb_exists in He as (x & Hx & Ht). apply bool_decide_eq_true in Ht.
      rewrite <- Ht. apply list_elem_of_fmap. exists x.
      split; [reflexivity | now apply list_elem_of_In].
    + rewrite List.map_app. apply elem_of_app. right. left.
  - apply bool_decide_eq_false in Hk. apply elem_of_cons in Hin as [->|Hin]; [contradiction|].
    destruct (IH Hin) as (g & Hg & Hgk & Ht). exists g. split; [now right | auto].
Qed.

Lemma tag_books_loop_keeps (friendly_tag normalized_tag n t : string) (books : list book) :
  forall genre_list,
    has_title genre_list n t ->
    has_title (tag_books_loop friendly_tag normalized_tag books genre_list) n t.
Proof.
  induction books as [|b rest IH]; intros genre_list H; [exact H|].
  cbn [tag_books_loop]. destruct (bool_decide (friendly_tag ∈ tags b)); [|auto].
  destruct (bool_decide (normalized_tag ∈ map fst genre_list)); apply IH.
  - now apply add_to_existing_keeps.
  - destruct H as (g & Hg & Hk & Ht). exists g. split; [|auto].
    apply elem_of_app. now left.
Qed.

Lemma tag_books_loop_adds (friendly_tag normalized_tag : string) (books : list book)
    (b : book) :
  b ∈ books -> friendly_tag ∈ tags b ->
  forall genre_list,
    has_title (tag_books_loop friendly_tag normalized_tag books genre_list)
      normalized_tag (Catalog.title b).
Proof.
  intros Hb Hf. induction books as [|x rest IH]; intros genre_list;
    [apply elem_of_nil in Hb; contradiction|].
  cbn [tag_books_loop]. apply elem_of_cons in Hb as [<-|Hb].
  - rewrite bool_decide_eq_true_2 by exact Hf.
    destruct (bool_decide (normalized_tag ∈ map fst genre_list)) eqn:Hin;
      apply tag_books_loop_keeps.
    + apply bool_decide_eq_true in Hin.
      now apply (add_to_existing_adds normalized_tag (this_book b)).
    + eexists. split; [apply elem_of_app; right; left|].
      cbn. split; [reflexivity | left].
  - destruct (bool_decide (friendly_tag ∈ tags x)); [|auto].
    destruct (bool_decide (normalized_tag ∈ map fst genre_list)); auto.
Qed.

Lemma friendly_tags_loop_keeps (books : list book) (n t : string)
    (friendly_tags : list string) :
  forall genre_list result,
    has_title genre_list n t ->
    friendly_tags_loop inp friendly_tags books genre_list = Some result ->
    has_title result n t.
Proof.
  induction friendly_tags as [|f rest IH]; intros genre_list result Hh H.
  - injection H as <-. exact Hh.
  - cbn [friendly_tags_loop] in H.
    destruct (normalized_of inp f) as [nt|]; [|discriminate].
    cbn [mbind option_bind] in H. eapply IH; [|exact H].
    now apply tag_books_loop_keeps.
Qed.

Lemma friendly_tags_loop_adds (books : list book) (b : book)
    (friendly_tag normalized_tag : string) (friendly_tags : list string) :
  b ∈ books -> friendly_tag ∈ tags b ->
  normalized_of inp friendly_tag = Some normalized_tag ->
  friendly_tag ∈ friendly_tags ->
  forall genre_list result,
    friendly_tags_loop inp friendly_tags books genre_list = Some result ->
    has_title result normalized_tag (Catalog.title b).
Proof.
  intros Hb Hf Hn. induction friendly_tags as [|f rest IH]; intros Hin genre_list result H;
    [apply elem_of_nil in Hin; contradiction|].
  cbn [friendly_tags_loop] in H.
  destruct (normalized_of inp f) as [nt|] eqn:Hnf; [|discriminate].
  cbn [mbind option_bind] in H.
  apply elem_of_cons in Hin as [<-|Hin].
  - eapply friendly_tags_loop_keeps; [|exact H].
    assert (nt = normalized_tag) as -> by congruence.
    now apply tag_books_loop_adds.
  - eapply IH; eauto.
Qed.

(** X7.  After generateHTMLByTags no tagged book is lost
    but for its title: for every book of booksByAuthor and every friendly
    tag of the dictionary that the book carries, the genre of the normalized
    tag is in self.genres and lists a book of that title. *)
Theorem generateHTMLByTags_complete (self self' : builder) (b : book)
    (friendly_tag normalized_tag : string) :
  generateHTMLByTags inp self = Some self' ->
  b ∈ booksByAuthor self ->
  friendly_tag ∈ tags b ->
  normalized_of inp friendly_tag = Some normalized_tag ->
  exists g, g ∈ genres self' /\ tag g = normalized_tag
            /\ Catalog.title b ∈ map Catalog.title (genre_books g).
Proof.
  unfold generateHTMLByTags. intros H Hb Hf Hn.
  assert (Hk : friendly_tag ∈ map fst (genre_tags_dict inp)).
  { unfold normalized_of in Hn.
    destruct (List.find _ (genre_tags_dict inp)) as [kv|] eqn:Efind; [|discriminate].
    apply find_some in Efind as [Hin Heq]. apply bool_decide_eq_true in Heq.
    rewrite <- Heq. apply list_elem_of_fmap. exists kv.
    split; [reflexivity | now apply list_elem_of_In]. }
  destruct (friendly_tags_loop inp _ (booksByAuthor self) []) as [genre_list|] eqn:Hl;
    [|discriminate].
  cbn [mbind option_bind] in H. injection H as <-.
  eapply (friendly_tags_loop_adds _ b friendly_tag normalized_tag) in Hl; eauto.
  2:{ rewrite sorted_perm. exact Hk. }
  destruct Hl as (g & Hg & Hgk & Ht).
  exists {| tag := g.1; file := "content/Genre_" +:+ g.1 +:+ ".html"; genre_books := g.2 |}.
  split; [|split; [exact Hgk | exact Ht]].
  assert (Hgen : forall v s, genres (set_genres v s) = v) by (intros v []; reflexivity).
  rewrite Hgen. apply list_elem_of_fmap. exists g. auto.
Qed.

End GenresFacts.

Lemma generateHTMLByTags_genres_witness :
  let self :=
    Build.set_booksByAuthor
      [BuildExample.apple; BuildExample.year_1984; BuildExample.brick]
      (Build.CatalogBuilder BuildExample.genres_only) in
  exists self',
    Build.generateHTMLByTags BuildExample.library self = Some self'
    /\ NoDup (map Build.tag (Build.genres self'))
    /\ Forall (fun g =>
                 Build.file g = "content/Genre_" +:+ Build.tag g +:+ ".html"
                 /\ Build.file g ∈ Build.written self'
                 /\ Build.genre_books g <> []
                 /\ NoDup (map Catalog.title (Build.genre_books g))
                 /\ Forall (fun b => exists b0 friendly_tag,
                                b0 ∈ Build.booksByAuthor self /\ b = Build.this_book b0
                                /\ friendly_tag ∈ Catalog.tags b0
                                /\ Build.normalized_of BuildExample.library friendly_tag
                                   = Some (Build.tag g))
                           (Build.genre_books g))
              (Build.genres self').
Proof.
  intros self. eexists. split; [vm_compute; reflexivity|].
  apply (generateHTMLByTags_genres BuildExample.library self).
  vm_compute. reflexivity.
Defined.

Lemma generateHTMLByTags_complete_witness :
  let self :=
    Build.set_booksByAuthor
      [BuildExample.apple; BuildExample.year_1984; BuildExample.brick]
      (Build.CatalogBuilder BuildExample.genres_only) in
  exists self',
    Build.generateHTMLByTags BuildExample.library self = Some self'
    /\ exists g, g ∈ Build.genres self' /\ Build.tag g = "history"
                 /\ Catalog.title BuildExample.brick
                    ∈ map Catalog.title (Build.genre_books g).
Proof.
  intros self. eexists. split; [vm_compute; reflexivity|].
  apply (generateHTMLByTags_complete BuildExample.library self _ BuildExample.brick
           "History" "history").
  - vm_compute. reflexivity.
  - right. right. left.
  - right. left.
  - reflexivity.
Defined.

(** ** The play orders of the NCX *)

Section NcxFacts.
Import Text Catalog Ncx Build BuildInv.

Variable title_sort_fn : string -> string.
Variable icu_title : string -> string.
Variable inp : inputs.

Lemma document_order_unfold (t : navPoint) :
  document_order t = t :: flat_map document_order (nav_children t).
Proof. now destruct t. Qed.

Lemma orders_unfold (t : navPoint) :
  orders t = match nav_playOrder t with
             | Some v => v :: children_orders t
             | None => children_orders t
             end.
Proof.
  unfold orders, children_orders. rewrite document_order_unfold. cbn [omap list_omap].
  now destruct (nav_playOrder t).
Qed.

Lemma children_orders_append (c t : navPoint) :
  children_orders (append_child c t) = children_orders t ++ orders c.
Proof.
  unfold children_orders, orders. cbn [append_child nav_children].
  rewrite flat_map_app, omap_app. cbn [flat_map]. now rewrite app_nil_r.
Qed.

Lemma orders_append (c t : navPoint) :
  orders (append_child c t) = orders t ++ orders c.
Proof.
  rewrite !(orders_unfold (append_child c t)), (orders_unfold t), children_orders_append.
  cbn [append_child nav_playOrder]. now destruct (nav_playOrder t).
Qed.

Lemma length_document_order_append (c t : navPoint) :
  length (document_order (append_child c t))
  = (length (document_order t) + length (document_order c))%nat.
Proof.
  rewrite (document_order_unfold (append_child c t)), (document_order_unfold t).
  cbn [append_child nav_children length]. rewrite flat_map_app, length_app.
  cbn [flat_map]. rewrite app_nil_r. lia.
Qed.

Lemma sorted_app (l1 l2 : list Z) (m : Z) :
  StronglySorted Z.lt l1 -> StronglySorted Z.lt l2 ->
  Forall (fun v => v < m) l1 -> Forall (fun v => m <= v) l2 ->
  StronglySorted Z.lt (l1 ++ l2).
Proof.
  intros H1 H2 Hlt Hge. induction H1 as [|a l1 Hs IH Ha]; [exact H2|].
  apply Forall_cons in Hlt as [Hm Hlt]. cbn. constructor; [auto|].
  apply Forall_app. split; [exact Ha|].
  eapply Forall_impl; [exact Hge|]. cbn. intros. lia.
Qed.

(** The fields of a builder that only had its counter set. *)
Lemma playOrder_set (v : Z) (self : builder) : playOrder (set_playOrder v self) = v.
Proof. now destruct self. Qed.

Lemma set_playOrder_twice (v w : Z) (self : builder) :
  set_playOrder v (set_playOrder w self) = set_playOrder v self.
Proof. now destruct self. Qed.

Lemma ncxSoup_set_playOrder (v : Z) (self : builder) :
  ncxSoup (set_playOrder v self) = ncxSoup self.
Proof. now destruct self. Qed.

Lemma section_navPoint_inv (section_id src : string) (self0 : builder) :
  article_section_inv self0 (playOrder self0) (section_navPoint section_id src self0).
Proof.
  unfold article_section_inv, section_inv, section_navPoint. cbn [fst snd].
  rewrite playOrder_set, orders_unfold. cbn.
  repeat split; try reflexivity.
  - repeat constructor.
  - repeat constructor; lia.
  - lia.
Qed.

Lemma add_volume_inv (self0 : builder) (lo : Z) (article_id src : string)
    (st : navPoint * builder) :
  section_inv self0 lo st -> section_inv self0 lo (add_volume article_id src st).
Proof.
  destruct st as [sec self]. unfold section_inv, add_volume. cbn [fst snd].
  intros (Hself & Hs & Hb & Hlen).
  rewrite playOrder_set, orders_append, length_document_order_append.
  rewrite (orders_unfold (NavPoint _ _ _ _ _)). cbn.
  assert (Hlo : lo <= playOrder self) by lia.
  repeat split.
  - rewrite Hself, set_playOrder_twice. reflexivity.
  - apply (sorted_app _ _ (playOrder self)); auto.
    + repeat constructor.
    + eapply Forall_impl; [exact Hb|]. cbn. intros. lia.
    + repeat constructor. lia.
  - apply Forall_app. split.
    + eapply Forall_impl; [exact Hb|]. cbn. intros. lia.
    + repeat constructor; lia.
  - lia.
Qed.

Lemma add_article_inv (self0 : builder) (lo : Z) (article_id src : string)
    (st : navPoint * builder) :
  article_section_inv self0 lo st ->
  article_section_inv self0 lo (add_article article_id src st).
Proof.
  destruct st as [sec self]. unfold article_section_inv, section_inv, add_article.
  cbn [fst snd]. intros ((Hself & Hs & Hb & Hlen) & Hc).
  assert (Hpos : (1 <= length (document_order sec))%nat).
  { rewrite document_order_unfold. cbn. lia. }
  rewrite playOrder_set, children_orders_append, length_document_order_append.
  rewrite orders_unfold, children_orders_append.
  assert (Hco : children_orders (assign_playOrder (playOrder self) sec) = children_orders sec)
    by reflexivity.
  assert (Hlen' : length (document_order (assign_playOrder (playOrder self) sec))
                  = length (document_order sec)).
  { rewrite !document_order_unfold. reflexivity. }
  rewrite Hco, Hc, Hlen'. rewrite (orders_unfold (NavPoint _ _ _ _ _)). cbn.
  repeat split.
  - rewrite Hself, set_playOrder_twice. reflexivity.
  - repeat constructor.
  - repeat constructor; lia.
  - lia.
Qed.

Lemma foldl_add_volume {A : Type} (self0 : builder) (lo : Z) (f g : A -> string)
    (l : list A) :
  forall st, section_inv self0 lo st ->
             section_inv self0 lo (foldl (fun st x => add_volume (f x) (g x) st) st l).
Proof.
  induction l as [|x l IH]; intros st H; [exact H|].
  cbn [foldl]. apply IH. now apply add_volume_inv.
Qed.

Lemma foldl_add_article {A : Type} (self0 : builder) (lo : Z) (f g : A -> string)
    (l : list A) :
  forall st, article_section_inv self0 lo st ->
             article_section_inv self0 lo
               (foldl (fun st x => add_article (f x) (g x) st) st l).
Proof.
  induction l as [|x l IH]; intros st H; [exact H|].
  cbn [foldl]. apply IH. now apply add_article_inv.
Qed.

(** A finished section goes to the end of the document. *)
Lemma add_to_body_inv (self0 self' : builder) (st : navPoint * builder) :
  ncx_inv self0 ->
  section_inv self0 (playOrder self0) st ->
  add_to_body st = Some self' ->
  ncx_inv self' /\ ncx_step self0 self'.
Proof.
  destruct st as [sec self]. unfold section_inv, add_to_body. cbn [fst snd].
  intros (ncx & Hn & H1 & Hs & Hb & Hlen) (Hself & Hss & Hsb & Hslen) H.
  assert (Hsoup : ncxSoup self = Some ncx).
  { rewrite Hself, ncxSoup_set_playOrder. exact Hn. }
  rewrite Hsoup in H. cbn in H. injection H as <-.
  assert (Hp : forall v s, playOrder (set_ncxSoup v s) = playOrder s)
    by (intros v []; reflexivity).
  assert (Hx : forall v s, ncxSoup (set_ncxSoup v s) = v) by (intros v []; reflexivity).
  split.
  - exists (append_child sec ncx). rewrite Hx, Hp, orders_append,
      length_document_order_append.
    repeat split; auto.
    + apply (sorted_app _ _ (playOrder self0)); auto.
      * eapply Forall_impl; [exact Hb|]. cbn. intros. lia.
      * eapply Forall_impl; [exact Hsb|]. cbn. intros. lia.
    + apply Forall_app. split.
      * eapply Forall_impl; [exact Hb|]. cbn. intros. lia.
      * eapply Forall_impl; [exact Hsb|]. cbn. intros. lia.
    + lia.
  - unfold ncx_step. rewrite Hx, Hp. now rewrite Hself at 1.
Qed.

Lemma ncx_step_refl (self : builder) : ncx_step self self.
Proof. unfold ncx_step. now destruct self. Qed.

Lemma ncx_step_trans (a b c : builder) : ncx_step a b -> ncx_step b c -> ncx_step a c.
Proof.
  unfold ncx_step. intros Hab Hbc. rewrite Hbc at 1. rewrite Hab at 1.
  now destruct a.
Qed.

Lemma generateNCXHeader_inv (self self' : builder) :
  playOrder self = 1 ->
  generateNCXHeader self = Some self' ->
  ncx_inv self' /\ ncx_step self self'.
Proof.
  unfold generateNCXHeader. intros Hp H.
  destruct (if generate_authors _ then _ else _) as [src|]; [|discriminate].
  cbn [mbind option_bind] in H. injection H as <-.
  assert (Hpo : forall v s, playOrder (set_ncxSoup v s) = playOrder s)
    by (intros v []; reflexivity).
  assert (Hx : forall v s, ncxSoup (set_ncxSoup v s) = v) by (intros v []; reflexivity).
  split.
  - eexists. rewrite Hx, Hpo, playOrder_set, Hp. split; [reflexivity|].
    rewrite orders_unfold. cbn. repeat split; repeat constructor; lia.
  - unfold ncx_step. now rewrite Hx, Hpo, playOrder_set.
Qed.

Lemma generateNCXByTitle_inv (tocTitle : string) (self self' : builder) :
  ncx_inv self ->
  generateNCXByTitle tocTitle self = Some self' ->
  ncx_inv self' /\ ncx_step self self'.
Proof.
  intros Hinv H. unfold generateNCXByTitle in H.
  destruct (ncxSoup self); [|discriminate]. cbn [mbind option_bind] in H.
  destruct (title_letters_of _ _) as [letters|]; [|discriminate].
  cbn [mbind option_bind] in H.
  eapply add_to_body_inv; [exact Hinv | | exact H].
  apply foldl_add_article, section_navPoint_inv.
Qed.

Lemma generateNCXBySeries_inv (tocTitle : string) (self self' : builder) :
  ncx_inv self ->
  generateNCXBySeries title_sort_fn tocTitle self = Some self' ->
  ncx_inv self' /\ ncx_step self self'.
Proof.
  intros Hinv H. unfold generateNCXBySeries in H.
  destruct (ncxSoup self); [|discriminate]. cbn [mbind option_bind] in H.
  destruct (title_letters_of _ _) as [letters|]; [|discriminate].
  cbn [mbind option_bind] in H.
  eapply add_to_body_inv; [exact Hinv | | exact H].
  apply foldl_add_article, section_navPoint_inv.
Qed.

Lemma generateNCXByAuthor_inv (tocTitle : string) (self self' : builder) :
  ncx_inv self ->
  generateNCXByAuthor tocTitle self = Some self' ->
  ncx_inv self' /\ ncx_step self self'.
Proof.
  intros Hinv H. unfold generateNCXByAuthor in H.
  destruct (ncxSoup self); [|discriminate]. cbn [mbind option_bind] in H.
  destruct (head (authors self)) as [first|]; [|discriminate].
  cbn [mbind option_bind] in H.
  destruct (first_char _) as [c|]; [|discriminate]. cbn [mbind option_bind] in H.
  destruct (author_letters_loop _ _ _) as [letters|]; [|discriminate].
  cbn [mbind option_bind] in H.
  eapply add_to_body_inv; [exact Hinv | | exact H].
  apply foldl_add_article, section_navPoint_inv.
Qed.

Lemma generateNCXByDateAdded_inv (tocTitle : string) (self self' : builder) :
  ncx_inv self ->
  generateNCXByDateAdded inp tocTitle self = Some self' ->
  ncx_inv self' /\ ncx_step self self'.
Proof.
  intros Hinv H. unfold generateNCXByDateAdded in H.
  destruct (ncxSoup self); [|discriminate]. cbn [mbind option_bind] in H.
  destruct (date_ranges_loop _ _ _ _ _ _ _) as [ranges|]; [|discriminate].
  cbn [mbind option_bind] in H.
  destruct (head (booksByMonth self)) as [first|]; [|discriminate].
  cbn [mbind option_bind] in H.
  eapply add_to_body_inv; [exact Hinv | | exact H].
  apply foldl_add_article, foldl_add_article, section_navPoint_inv.
Qed.

Lemma generateNCXByDateRead_inv (tocTitle : string) (self self' : builder) :
  ncx_inv self ->
  generateNCXByDateRead tocTitle self = Some self' ->
  ncx_inv self' /\ ncx_step self self'.
Proof.
  intros Hinv H. unfold generateNCXByDateRead in H.
  destruct (booksByDateRead self) as [|first rest].
  { injection H as <-. split; [exact Hinv | apply ncx_step_refl]. }
  destruct (ncxSoup self); [|discriminate]. cbn [mbind option_bind] in H.
  eapply add_to_body_inv; [exact Hinv | | exact H].
  apply foldl_add_article, section_navPoint_inv.
Qed.

Lemma generateNCXByGenre_inv (tocTitle : string) (self self' : builder) :
  ncx_inv self ->
  generateNCXByGenre inp tocTitle self = Some self' ->
  ncx_inv self' /\ ncx_step self self'.
Proof.
  intros Hinv H. unfold generateNCXByGenre in H.
  destruct (genres self) as [|first rest].
  { injection H as <-. split; [exact Hinv | apply ncx_step_refl]. }
  destruct (ncxSoup self); [|discriminate]. cbn [mbind option_bind] in H.
  eapply add_to_body_inv; [exact Hinv | | exact H].
  apply foldl_add_volume, section_navPoint_inv.
Qed.

Lemma generateNCXDescriptions_inv (tocTitle : string) (self self' : builder) :
  ncx_inv self ->
  generateNCXDescriptions tocTitle self = Some self' ->
  ncx_inv self' /\ ncx_step self self'.
Proof.
  intros Hinv H. unfold generateNCXDescriptions in H.
  destruct (ncxSoup self); [|discriminate]. cbn [mbind option_bind] in H.
  destruct (booksByTitle self) as [by_title|]; [|discriminate].
  cbn [mbind option_bind] in H.
  destruct (head by_title) as [first|]; [|discriminate]. cbn [mbind option_bind] in H.
  destruct (sort_descriptions_by self) as [books|]; [|discriminate].
  cbn [mbind option_bind] in H.
  eapply add_to_body_inv; [exact Hinv | | exact H].
  apply foldl_add_volume, section_navPoint_inv.
Qed.

(** A step of the NCX that runs when its option is set. *)
Lemma when_ncx (flag : builder -> bool) (step : builder -> option builder)
    (self self' : builder) :
  (forall s s', ncx_inv s -> step s = Some s' -> ncx_inv s' /\ ncx_step s s') ->
  ncx_inv self ->
  when flag step self = Some self' ->
  ncx_inv self' /\ ncx_step self self'.
Proof.
  unfold when. intros Hstep Hinv H. destruct (flag self); [eauto|].
  injection H as <-. split; [exact Hinv | apply ncx_step_refl].
Qed.

End NcxFacts.

(** ** The steps of buildSources *)

Section BuildSteps.
Import Text Catalog Ncx Build BuildInv.

Variable title_sort_fn : string -> string.
Variable icu_title : string -> string.
Variable inp : inputs.

Lemma buildSources_true (self self' : builder) :
  buildSources title_sort_fn icu_title inp self = Some (true, self') ->
  exists s0 s1 s2 s3 s4 s5 s6 s7 s8 s9 s10 s11 s12 s13 s14 s15,
    match booksByTitle self with
    | None => fetchBooksByTitle inp self
    | Some _ => (true, self)
    end = (true, s0)
    /\ fetchBooksByAuthor title_sort_fn icu_title s0 = Some (true, s1)
    /\ when (fun self => generate_descriptions (opts self))
         (fun self => self ← generateThumbnails inp self; generateHTMLDescriptions self)
         (fetchBookmarks inp s1) = Some s2
    /\ when (fun self => generate_authors (opts self)) generateHTMLByAuthor s2 = Some s3
    /\ when (fun self => generate_titles (opts self)) generateHTMLByTitle s3 = Some s4
    /\ when (fun self => generate_series (opts self)) (generateHTMLBySeries inp) s4 = Some s5
    /\ when (fun self => generate_genres (opts self)) (generateHTMLByTags inp) s5 = Some s6
    /\ when (fun self => generate_recently_added (opts self))
         (fun self =>
            self ← generateHTMLByDateAdded inp self;
            when (generateRecentlyRead inp) generateHTMLByDateRead self) s6 = Some s7
    /\ generateOPF s7 = Some s8
    /\ generateNCXHeader s8 = Some s9
    /\ when (fun self => generate_authors (opts self)) (generateNCXByAuthor "Authors") s9
       = Some s10
    /\ when (fun self => generate_titles (opts self)) (generateNCXByTitle "Titles") s10
       = Some s11
    /\ when (fun self => generate_series (opts self))
         (generateNCXBySeries title_sort_fn "Series") s11 = Some s12
    /\ when (fun self => generate_genres (opts self)) (generateNCXByGenre inp "Genres") s12
       = Some s13
    /\ when (fun self => generate_recently_added (opts self))
         (fun self =>
            self ← generateNCXByDateAdded inp "Recently Added" self;
            when (generateRecentlyRead inp) (generateNCXByDateRead "Recently Read") self)
         s13 = Some s14
    /\ when (fun self => generate_descriptions (opts self))
         (generateNCXDescriptions "Descriptions") s14 = Some s15
    /\ self' = writeNCX s15.
Proof.
  unfold buildSources. intros H.
  destruct (match booksByTitle self with None => _ | Some _ => _ end) as [fetched s0]
    eqn:E0.
  destruct fetched; cbn [negb] in H; [|discriminate].
  destruct (fetchBooksByAuthor title_sort_fn icu_title s0) as [[by_author s1]|] eqn:E1;
    [|discriminate].
  cbn [mbind option_bind] in H. destruct by_author; cbn [negb] in H; [|discriminate].
  repeat match type of H with
         | context [mbind _ ?x] =>
             destruct x eqn:?; cbn [mbind option_bind] in H; [|discriminate]
         | (if ?c then _ else _) = _ => destruct c eqn:?; [discriminate|]
         end.
  injection H as <-.
  do 16 eexists. repeat split; first [eassumption | reflexivity].
Qed.

Lemma buildSources_false (self self' : builder) :
  buildSources title_sort_fn icu_title inp self = Some (false, self') ->
  match booksByTitle self with
  | None => fetchBooksByTitle inp self
  | Some _ => (true, self)
  end = (false, self')
  \/ (exists s0,
        match booksByTitle self with
        | None => fetchBooksByTitle inp self
        | Some _ => (true, self)
        end = (true, s0)
        /\ fetchBooksByAuthor title_sort_fn icu_title s0 = Some (false, self'))
  \/ (exists s0 s1 s2 s3 s4 s5 s6,
        match booksByTitle self with
        | None => fetchBooksByTitle inp self
        | Some _ => (true, self)
        end = (true, s0)
        /\ fetchBooksByAuthor title_sort_fn icu_title s0 = Some (true, s1)
        /\ when (fun self => generate_descriptions (opts self))
             (fun self => self ← generateThumbnails inp self; generateHTMLDescriptions self)
             (fetchBookmarks inp s1) = Some s2
        /\ when (fun self => generate_authors (opts self)) generateHTMLByAuthor s2 = Some s3
        /\ when (fun self => generate_titles (opts self)) generateHTMLByTitle s3 = Some s4
        /\ when (fun self => generate_series (opts self)) (generateHTMLBySeries inp) s4
           = Some s5
        /\ when (fun self => generate_genres (opts self)) (generateHTMLByTags inp) s5
           = Some s6
        /\ genres s6 = []
        /\ exists msg, self' = set_error (error s6 ++ msg) s6 /\ msg <> []).
Proof.
  unfold buildSources. intros H.
  destruct (match booksByTitle self with None => _ | Some _ => _ end) as [fetched s0]
    eqn:E0.
  destruct fetched; cbn [negb] in H; [|injection H as <-; now left].
  right.
  destruct (fetchBooksByAuthor title_sort_fn icu_title s0) as [[by_author s1]|] eqn:E1;
    [|discriminate].
  cbn [mbind option_bind] in H.
  destruct by_author; cbn [negb] in H; [|injection H as <-; left; eauto].
  right.
  do 5 (match type of H with
        | context [mbind _ ?x] =>
            destruct x eqn:?; cbn [mbind option_bind] in H; [|discriminate]
        end).
  match type of H with
  | (if ?c then _ else _) = _ => destruct c eqn:Hbail
  end.
  - injection H as <-. apply andb_prop in Hbail as [_ Hg].
    apply bool_decide_eq_true in Hg.
    do 7 eexists. repeat split; try eassumption.
    eexists. split; [reflexivity | discriminate].
  - repeat match type of H with
           | context [mbind _ ?x] =>
               destruct x eqn:?; cbn [mbind option_bind] in H; [|discriminate]
           end.
    discriminate H.
Qed.

End BuildSteps.

(** ** The HTML files of buildSources *)

Section HtmlFacts.
Import Text Catalog Ncx Build BuildInv.

Variable title_sort_fn : string -> string.
Variable icu_title : string -> string.
Variable inp : inputs.

Lemma html_inv_initial (o : options) : html_inv inp (CatalogBuilder o).
Proof. constructor; cbn; auto; try constructor. intros H. now contradiction H. Qed.

Lemma extends_refl (self : builder) : extends self self.
Proof. constructor; auto. Qed.

Lemma extends_trans (a b c : builder) : extends a b -> extends b c -> extends a c.
Proof.
  intros [H1 H2 H3 H4 H5 H6] [G1 G2 G3 G4 G5 G6]. constructor; try congruence; auto.
  destruct H6 as [H6|H6], G6 as [G6|G6]; rewrite G6, H6; auto.
Qed.

(** Assignments that the two relations do not see. *)
Ltac frame_inv :=
  let H := fresh in
  intros H; destruct H; constructor;
  repeat match goal with s : builder |- _ => destruct s end; cbn in *; auto.

Ltac frame_ext :=
  constructor;
  repeat match goal with s : builder |- _ => destruct s end; cbn in *; auto.

Lemma html_inv_write (f : string) (self : builder) :
  content_file f -> html_inv inp self -> html_inv inp (write f self).
Proof.
  intros Hf [H1 H2 H3 H4 H5 H6 H7]. unfold write. destruct self.
  constructor; cbn in *; auto.
  - apply Forall_app. split; [assumption | repeat constructor; assumption].
  - eapply Forall_impl; [exact H5|]. cbn. intros x Hx. apply elem_of_app. now left.
  - intros Hne. apply elem_of_app. left. auto.
Qed.

Lemma extends_write (f : string) (self : builder) : extends self (write f self).
Proof. unfold write. frame_ext. intros g Hg. apply elem_of_app. now left. Qed.

Lemma html_inv_list_1 (f : string) (self : builder) :
  f ∈ written self -> html_inv inp self ->
  html_inv inp (set_htmlFileList_1 (htmlFileList_1 self ++ [f]) self).
Proof.
  intros Hf [H1 H2 H3 H4 H5 H6 H7]. destruct self. constructor; cbn in *; auto.
  unfold section_files in *. cbn in *.
  rewrite !Forall_app in *. destruct H5 as (Ha & Hb & Hc).
  repeat split; auto.
Qed.

Lemma html_inv_list_2 (f : string) (self : builder) :
  f ∈ written self -> html_inv inp self ->
  html_inv inp (set_htmlFileList_2 (htmlFileList_2 self ++ [f]) self).
Proof.
  intros Hf [H1 H2 H3 H4 H5 H6 H7]. destruct self. constructor; cbn in *; auto.
  unfold section_files in *. cbn in *.
  rewrite !Forall_app in *. destruct H5 as (Ha & Hb & Hc).
  repeat split; auto.
Qed.

Lemma written_write (f : string) (self : builder) : f ∈ written (write f self).
Proof. unfold write. destruct self. cbn. apply elem_of_app. right. left. Qed.

(** A section file written and listed in htmlFileList_1 or _2. *)
Lemma html_inv_section_1 (f : string) (self : builder) :
  content_file f -> html_inv inp self ->
  html_inv inp (set_htmlFileList_1 (htmlFileList_1 (write f self) ++ [f]) (write f self)).
Proof.
  intros Hf Hinv. apply html_inv_list_1; [apply written_write | now apply html_inv_write].
Qed.

Lemma html_inv_section_2 (f : string) (self : builder) :
  content_file f -> html_inv inp self ->
  html_inv inp (set_htmlFileList_2 (htmlFileList_2 (write f self) ++ [f]) (write f self)).
Proof.
  intros Hf Hinv. apply html_inv_list_2; [apply written_write | now apply html_inv_write].
Qed.

Lemma extends_section_1 (f : string) (l : list string) (self : builder) :
  extends self (set_htmlFileList_1 l (write f self)).
Proof. unfold write. frame_ext. intros g Hg. apply elem_of_app. now left. Qed.

Lemma extends_section_2 (f : string) (l : list string) (self : builder) :
  extends self (set_htmlFileList_2 l (write f self)).
Proof. unfold write. frame_ext. intros g Hg. apply elem_of_app. now left. Qed.

Lemma fetchBooksByTitle_inv (self s0 : builder) :
  html_inv inp self ->
  match booksByTitle self with
  | None => fetchBooksByTitle inp self
  | Some _ => (true, self)
  end = (true, s0) ->
  html_inv inp s0 /\ is_Some (booksByTitle s0).
Proof.
  intros Hinv H. destruct (booksByTitle self) as [bt|] eqn:E.
  - injection H as <-. rewrite E. eauto.
  - unfold fetchBooksByTitle in H. destruct (titles inp); [discriminate|].
    injection H as <-. split; [revert Hinv; frame_inv|].
    destruct self. cbn. eauto.
Qed.

Lemma fetch_authors_facts (books : list book) (prev : list Authors.author_count)
    (err : list string) (r : Authors.fetched_authors) :
  Authors.fetchBooksByAuthor title_sort_fn icu_title books prev err = Some r ->
  Authors.booksByAuthor r ≡ₚ books
  /\ (Authors.success r = false -> Authors.error r <> []).
Proof.
  unfold Authors.fetchBooksByAuthor. intros H.
  destruct (head _) as [first|]; [|discriminate]. cbn [mbind option_bind] in H.
  destruct (Authors.mismatch_loop _ 0 _) as [msg|].
  - injection H as <-. cbn. split; [apply sorted_perm|].
    intros _ Hnil. apply app_eq_nil in Hnil as [_ Hnil]. discriminate.
  - destruct (Authors.build_unique_authors _ _); [|discriminate].
    injection H as <-. cbn. split; [now rewrite !sorted_perm | discriminate].
Qed.

Lemma fetchBooksByAuthor_inv (s0 s1 : builder) (ok : bool) :
  html_inv inp s0 ->
  fetchBooksByAuthor title_sort_fn icu_title s0 = Some (ok, s1) ->
  html_inv inp s1
  /\ exists bt, booksByTitle s0 = Some bt /\ booksByTitle s1 = Some bt
                /\ booksByAuthor s1 ≡ₚ bt
                /\ opts s1 = opts s0 /\ written s1 = written s0
                /\ (ok = false -> error s1 <> []).
Proof.
  intros Hinv H. unfold fetchBooksByAuthor in H.
  destruct (booksByTitle s0) as [bt|] eqn:E; [|discriminate].
  cbn [mbind option_bind] in H.
  destruct (Authors.fetchBooksByAuthor _ _ bt _ _) as [r|] eqn:Er; [|discriminate].
  cbn [mbind option_bind] in H. injection H as <- <-.
  split; [revert Hinv; frame_inv|].
  exists bt. split; [reflexivity|].
  destruct (fetch_authors_facts bt _ _ r Er) as [Hperm Herr].
  destruct s0. cbn in *. auto 10.
Qed.

Lemma content_file_book (b : book) : content_file (book_file b).
Proof. reflexivity. Qed.

Lemma fetchBookmarks_inv (self : builder) :
  html_inv inp self ->
  html_inv inp (fetchBookmarks inp self) /\ extends self (fetchBookmarks inp self).
Proof.
  intros Hinv. unfold fetchBookmarks.
  destruct (generateRecentlyRead inp self); (split; [revert Hinv; frame_inv | frame_ext]).
Qed.

(** The descriptions: a file per book of booksByTitle. *)
Lemma descriptions_inv (self self' : builder) :
  html_inv inp self ->
  (self ← generateThumbnails inp self; generateHTMLDescriptions self) = Some self' ->
  html_inv inp self' /\ extends self self'
  /\ exists bt, booksByTitle self = Some bt
                /\ Forall (fun b => book_file b ∈ written self') bt.
Proof.
  intros Hinv H. unfold generateThumbnails, generateHTMLDescriptions in H.
  destruct (booksByTitle self) as [bt|] eqn:E; [|discriminate].
  cbn [mbind option_bind] in H.
  destruct (thumbnails_loop inp bt _ _) as [thumbs error].
  cbn [mbind option_bind] in H.
  assert (Hbt : booksByTitle (set_thumbs thumbs (set_error error self)) = Some bt)
    by (destruct self; exact E).
  rewrite Hbt in H. cbn [mbind option_bind] in H. injection H as <-.
  rewrite (foldl_write book_file).
  destruct Hinv as [H1 H2 H3 H4 H5 H6 H7]. destruct self. cbn in *.
  split; [|split].
  - constructor; cbn; auto.
    + apply Forall_app. split; [assumption|]. apply Forall_map, Forall_forall.
      intros b _. apply content_file_book.
    + eapply Forall_impl; [exact H5|]. cbn. intros x Hx. apply elem_of_app. now left.
    + intros Hne. apply elem_of_app. left. auto.
  - constructor; cbn; auto. intros f Hf. apply elem_of_app. now left.
  - exists bt. split; [congruence|]. apply Forall_forall. intros b Hb.
    apply elem_of_app. right. apply list_elem_of_fmap. eauto.
Qed.

Lemma generateHTMLByAuthor_inv (self self' : builder) :
  html_inv inp self -> generateHTMLByAuthor self = Some self' ->
  html_inv inp self' /\ extends self self'.
Proof.
  unfold generateHTMLByAuthor. intros Hinv H. injection H as <-.
  split; [now apply html_inv_section_1 | apply extends_section_1].
Qed.

Lemma generateHTMLByTitle_inv (self self' : builder) :
  html_inv inp self -> generateHTMLByTitle self = Some self' ->
  html_inv inp self' /\ extends self self'.
Proof.
  unfold generateHTMLByTitle. intros Hinv H.
  destruct (booksByTitle self) as [bt|]; [|discriminate]. cbn [mbind option_bind] in H.
  destruct (Titles.generateHTMLByTitle bt); [|discriminate].
  cbn [mbind option_bind] in H. injection H as <-. split.
  - apply html_inv_section_1; [reflexivity|]. revert Hinv. frame_inv.
  - eapply extends_trans; [|apply extends_section_1]. frame_ext.
Qed.

Lemma generateHTMLBySeries_inv (self self' : builder) :
  html_inv inp self -> generateHTMLBySeries inp self = Some self' ->
  html_inv inp self' /\ extends self self'.
Proof.
  unfold generateHTMLBySeries. intros Hinv H.
  assert (Hs : html_inv inp (set_booksBySeries (series_data inp) self))
    by (revert Hinv; frame_inv).
  assert (He : extends self (set_booksBySeries (series_data inp) self)) by frame_ext.
  destruct (booksBySeries _); injection H as <-.
  - split; [revert Hs; frame_inv|].
    eapply extends_trans; [exact He|]. frame_ext.
  - split; [now apply html_inv_section_1|].
    eapply extends_trans; [exact He | apply extends_section_1].
Qed.

Lemma generateHTMLByTags_inv (self self' : builder) :
  html_inv inp self -> generateHTMLByTags inp self = Some self' ->
  html_inv inp self' /\ extends self self'.
Proof.
  unfold generateHTMLByTags. intros [H1 H2 H3 H4 H5 H6 H7] H.
  destruct (friendly_tags_loop inp _ _ _) as [genre_list|] eqn:E; [|discriminate].
  cbn [mbind option_bind] in H. injection H as <-.
  apply friendly_tags_loop_ok in E as [_ Hok]; [|split; constructor].
  rewrite (foldl_write (fun g : string * list book => "content/Genre_" +:+ g.1 +:+ ".html")).
  destruct self. unfold section_files in *. cbn in *.
  rewrite !Forall_app in H5. destruct H5 as (Ha & Hb & Hc).
  split; constructor; cbn; auto.
  - apply Forall_app. split; [assumption|]. apply Forall_map, Forall_forall.
    intros g _. reflexivity.
  - unfold section_files. cbn. rewrite !Forall_app. repeat split.
    + eapply Forall_impl; [exact Ha|]. cbn. intros x Hx. apply elem_of_app. now left.
    + rewrite map_map. cbn. apply Forall_forall. intros f Hf.
      apply elem_of_app. now right.
    + eapply Forall_impl; [exact Hc|]. cbn. intros x Hx. apply elem_of_app. now left.
  - intros Hne. apply elem_of_app. left. auto.
  - apply Forall_map. eapply Forall_impl; [exact Hok|]. cbn.
    intros g (Hne & _ & Hbooks). split; [reflexivity|].
    destruct (g.2) as [|b bs]; [contradiction|].
    apply Forall_cons in Hbooks as [(b0 & friendly_tag & _ & _ & _ & Hn) _].
    unfold normalized_of in Hn.
    destruct (List.find _ (genre_tags_dict inp)) as [kv|] eqn:Hfind; [|discriminate].
    injection Hn as <-. apply List.find_some in Hfind as [Hin _].
    apply list_elem_of_fmap. exists kv. split; [reflexivity|]. now apply list_elem_of_In.
  - intros f Hf. apply elem_of_app. now left.
Qed.

Lemma generateHTMLByDateRead_inv (self self' : builder) :
  html_inv inp self -> generateHTMLByDateRead self = Some self' ->
  html_inv inp self' /\ extends self self'.
Proof.
  unfold generateHTMLByDateRead. intros Hinv H.
  destruct (bookmarked_books self); injection H as <-.
  - split; [assumption | apply extends_refl].
  - split.
    + destruct Hinv as [H1 H2 H3 H4 H5 H6 H7]. unfold write, section_files in *.
      destruct self. constructor; cbn in *; auto.
      * apply Forall_app. split; [assumption | now repeat constructor].
      * rewrite !Forall_app in *. destruct H5 as (Ha & Hb & Hc).
        repeat split; try (eapply Forall_impl; [eassumption|]; cbn; intros x Hx;
                           apply elem_of_app; now left).
        repeat constructor. apply elem_of_app. right. left.
      * intros _. apply elem_of_app. right. left.
    + eapply extends_trans; [|apply extends_section_2]. frame_ext.
Qed.

Lemma when_html (flag : builder -> bool) (step : builder -> option builder)
    (self self' : builder) :
  (forall s s', html_inv inp s -> step s = Some s' -> html_inv inp s' /\ extends s s') ->
  html_inv inp self ->
  when flag step self = Some self' ->
  html_inv inp self' /\ extends self self'.
Proof.
  unfold when. intros Hstep Hinv H. destruct (flag self); [eauto|].
  injection H as <-. split; [exact Hinv | apply extends_refl].
Qed.

Lemma generateHTMLByDateAdded_inv (self self' : builder) :
  html_inv inp self ->
  (self ← generateHTMLByDateAdded inp self;
   when (generateRecentlyRead inp) generateHTMLByDateRead self) = Some self' ->
  html_inv inp self' /\ extends self self'.
Proof.
  intros Hinv H. unfold generateHTMLByDateAdded in H.
  destruct (booksByTitle self) as [bt|]; [|discriminate]. cbn [mbind option_bind] in H.
  destruct (DateAdded.generateHTMLByDateAdded _ bt); [|discriminate].
  cbn [mbind option_bind] in H.
  apply when_html in H; [|apply generateHTMLByDateRead_inv|].
  - destruct H as [Hi He]. split; [exact Hi|].
    eapply extends_trans; [|exact He].
    eapply extends_trans; [|apply extends_section_2]. frame_ext.
  - apply html_inv_section_2; [reflexivity|]. revert Hinv. frame_inv.
Qed.

End HtmlFacts.

(** ** What buildSources guarantees *)

Section BuildGuarantees.
Import Text Catalog Ncx Build BuildInv.

Variable title_sort_fn : string -> string.
Variable icu_title : string -> string.
Variable inp : inputs.

(** The five sections generated before the check for genres. *)
Lemma html_sections (s1 s2 s3 s4 s5 s6 : builder) :
  html_inv inp s1 ->
  when (fun self => generate_descriptions (opts self))
    (fun self => self ← generateThumbnails inp self; generateHTMLDescriptions self)
    (fetchBookmarks inp s1) = Some s2 ->
  when (fun self => generate_authors (opts self)) generateHTMLByAuthor s2 = Some s3 ->
  when (fun self => generate_titles (opts self)) generateHTMLByTitle s3 = Some s4 ->
  when (fun self => generate_series (opts self)) (generateHTMLBySeries inp) s4 = Some s5 ->
  when (fun self => generate_genres (opts self)) (generateHTMLByTags inp) s5 = Some s6 ->
  html_inv inp s6 /\ extends s1 s6
  /\ (generate_descriptions (opts s1) = true ->
      exists bt, booksByTitle s1 = Some bt
                 /\ Forall (fun b => book_file b ∈ written s6) bt).
Proof.
  intros Hinv E2 E3 E4 E5 E6.
  destruct (fetchBookmarks_inv inp s1 Hinv) as [Hi1 He1].
  assert (H2 : html_inv inp s2 /\ extends (fetchBookmarks inp s1) s2
               /\ (generate_descriptions (opts s1) = true ->
                   exists bt, booksByTitle s1 = Some bt
                              /\ Forall (fun b => book_file b ∈ written s2) bt)).
  { unfold when in E2.
    destruct (generate_descriptions (opts (fetchBookmarks inp s1))) eqn:Hd.
    - destruct (descriptions_inv inp _ _ Hi1 E2) as (Hi & He & bt & Hbt & Hall).
      split; [exact Hi|]. split; [exact He|]. intros _. exists bt. split; [|exact Hall].
      rewrite <- Hbt. symmetry. apply He1.
    - injection E2 as <-. split; [exact Hi1|]. split; [apply extends_refl|].
      intros Hd'. rewrite (ext_descriptions _ _ He1) in Hd. congruence. }
  destruct H2 as (Hi2 & He2 & Hb2).
  destruct (when_html inp _ _ _ _ (generateHTMLByAuthor_inv inp) Hi2 E3) as [Hi3 He3].
  destruct (when_html inp _ _ _ _ (generateHTMLByTitle_inv inp) Hi3 E4) as [Hi4 He4].
  destruct (when_html inp _ _ _ _ (generateHTMLBySeries_inv inp) Hi4 E5) as [Hi5 He5].
  destruct (when_html inp _ _ _ _ (generateHTMLByTags_inv inp) Hi5 E6) as [Hi6 He6].
  assert (He26 : extends s2 s6) by eauto using extends_trans.
  split; [exact Hi6|]. split; [eauto using extends_trans|].
  intros Hd. destruct (Hb2 Hd) as (bt & Hbt & Hall). exists bt. split; [exact Hbt|].
  eapply Forall_impl; [exact Hall|]. cbn. intros b Hb. now apply He26.
Qed.

(** What generateOPF leaves: the package and one more file. *)
Lemma generateOPF_facts (self self' : builder) :
  generateOPF self = Some self' ->
  (exists descriptions pkg,
     (if generate_descriptions (opts self) then sort_descriptions_by self else Some [])
     = Some descriptions
     /\ opf self' = Some pkg
     /\ xhtml_items pkg
        = map html_item (section_files self)
          ++ map (fun b => {| item_id := "book" +:+ str_of_Z (id b); href := book_file b;
                              media_type := "application/xhtml+xml" |}) descriptions
     /\ spine pkg = map item_id (xhtml_items pkg))
  /\ written self' = written self ++ [basename +:+ ".opf"]
  /\ playOrder self' = playOrder self
  /\ section_files self' = section_files self.
Proof.
  unfold generateOPF. intros H. apply bind_Some in H as (descriptions & Hd & H).
  injection H as <-. split; [|destruct self; repeat split].
  exists descriptions. eexists. split; [exact Hd|]. split; [destruct self; reflexivity|].
  assert (Hthumbs : forall l : list string,
             List.filter (fun i => bool_decide (media_type i = "application/xhtml+xml"))
               (map (fun thumb =>
                       {| item_id := slice thumb 0 (find ".jpg" thumb) +:+ "-image";
                          href := "images/" +:+ thumb; media_type := "image/jpeg" |}) l)
             = []).
  { induction l as [|t l IH]; [reflexivity | exact IH]. }
  assert (Hkeep : forall l : list item,
             Forall (fun i => media_type i = "application/xhtml+xml") l ->
             List.filter (fun i => bool_decide (media_type i = "application/xhtml+xml")) l
             = l).
  { induction 1 as [|i l Hi _ IH]; [reflexivity|].
    cbn [List.filter]. rewrite bool_decide_eq_true_2 by exact Hi. now rewrite IH. }
  assert (Hitems : forall l : list string,
             Forall (fun i => media_type i = "application/xhtml+xml") (map html_item l)).
  { intros l. apply Forall_forall. intros i Hi. apply list_elem_of_fmap in Hi as (f & -> & _).
    reflexivity. }
  unfold xhtml_items. cbn [manifest spine List.filter media_type].
  change (bool_decide ("application/x-dtbncx+xml" = "application/xhtml+xml")) with false.
  change (bool_decide ("text/css" = "application/xhtml+xml")) with false.
  change (bool_decide ("image/gif" = "application/xhtml+xml")) with false.
  cbn [app]. rewrite List.filter_app.
  replace (List.filter _ (if generate_descriptions (opts self) then _ else []))
    with (@nil item) by (destruct (generate_descriptions (opts self));
                         [now rewrite Hthumbs | reflexivity]).
  cbn [app]. rewrite Hkeep.
  - split; [|reflexivity]. unfold section_files, book_file.
    rewrite !List.map_app, List.map_map, <- !app_assoc. reflexivity.
  - rewrite !Forall_app. repeat split; try apply Hitems.
    + apply Forall_forall. intros i Hi. apply list_elem_of_fmap in Hi as (f & -> & _).
      reflexivity.
    + apply Forall_forall. intros i Hi. apply list_elem_of_fmap in Hi as (f & -> & _).
      reflexivity.
Qed.

(** X8.  When buildSources returns False for a new builder,
    neither the OPF nor the NCX has been built or written, at most files of
    the content directory have been written, and the error list is not
    empty. *)
Theorem buildSources_abort (o : options) (self' : builder) :
  buildSources title_sort_fn icu_title inp (CatalogBuilder o) = Some (false, self') ->
  opf self' = None /\ ncxSoup self' = None
  /\ Forall content_file (written self')
  /\ ((basename +:+ ".opf") ∉ written self') /\ ((basename +:+ ".ncx") ∉ written self')
  /\ error self' <> [].
Proof.
  intros H.
  assert (Hgoal : html_inv inp self' /\ error self' <> []).
  { apply buildSources_false in H as [H|[(s0 & E0 & E1)|H]].
    - cbn in H. unfold fetchBooksByTitle in H. destruct (titles inp); [|discriminate].
      injection H as <-. split; [|discriminate].
      destruct (html_inv_initial inp o). constructor; assumption.
    - destruct (fetchBooksByTitle_inv inp _ _ (html_inv_initial inp o) E0) as [Hi0 _].
      destruct (fetchBooksByAuthor_inv title_sort_fn icu_title inp _ _ _ Hi0 E1)
        as (Hi1 & bt & _ & _ & _ & _ & _ & Herr).
      split; [exact Hi1 | now apply Herr].
    - destruct H as (s0 & s1 & s2 & s3 & s4 & s5 & s6 & E0 & E1 & E2 & E3 & E4 & E5 & E6
                     & Hg & msg & -> & Hmsg).
      destruct (fetchBooksByTitle_inv inp _ _ (html_inv_initial inp o) E0) as [Hi0 _].
      destruct (fetchBooksByAuthor_inv title_sort_fn icu_title inp _ _ _ Hi0 E1) as (Hi1 & _).
      destruct (html_sections s1 s2 s3 s4 s5 s6 Hi1 E2 E3 E4 E5 E6) as (Hi6 & _).
      split.
      + destruct Hi6. destruct s6. constructor; cbn in *; auto.
      + destruct s6. cbn. intros Hnil. apply app_eq_nil in Hnil as [_ Hnil]. contradiction. }
  destruct Hgoal as [[H1 H2 H3 H4 H5 H6 H7] Herr].
  repeat split; auto.
  - intros Hin. rewrite Forall_forall in H4. apply H4 in Hin. discriminate Hin.
  - intros Hin. rewrite Forall_forall in H4. apply H4 in Hin. discriminate Hin.
Qed.

(** The steps of the NCX after its header. *)
Lemma ncx_sections (s9 s10 s11 s12 s13 s14 s15 : builder) :
  ncx_inv s9 ->
  when (fun self => generate_authors (opts self)) (generateNCXByAuthor "Authors") s9
  = Some s10 ->
  when (fun self => generate_titles (opts self)) (generateNCXByTitle "Titles") s10
  = Some s11 ->
  when (fun self => generate_series (opts self))
    (generateNCXBySeries title_sort_fn "Series") s11 = Some s12 ->
  when (fun self => generate_genres (opts self)) (generateNCXByGenre inp "Genres") s12
  = Some s13 ->
  when (fun self => generate_recently_added (opts self))
    (fun self =>
       self ← generateNCXByDateAdded inp "Recently Added" self;
       when (generateRecentlyRead inp) (generateNCXByDateRead "Recently Read") self)
    s13 = Some s14 ->
  when (fun self => generate_descriptions (opts self))
    (generateNCXDescriptions "Descriptions") s14 = Some s15 ->
  ncx_inv s15 /\ ncx_step s9 s15.
Proof.
  intros Hi9 E10 E11 E12 E13 E14 E15.
  destruct (when_ncx _ _ _ _ (generateNCXByAuthor_inv "Authors") Hi9 E10) as [Hi10 Hs10].
  destruct (when_ncx _ _ _ _ (generateNCXByTitle_inv "Titles") Hi10 E11) as [Hi11 Hs11].
  destruct (when_ncx _ _ _ _ (generateNCXBySeries_inv title_sort_fn "Series") Hi11 E12)
    as [Hi12 Hs12].
  destruct (when_ncx _ _ _ _ (generateNCXByGenre_inv inp "Genres") Hi12 E13)
    as [Hi13 Hs13].
  assert (H14 : ncx_inv s14 /\ ncx_step s13 s14).
  { eapply when_ncx; [|exact Hi13|exact E14].
    intros s s' Hs H.
    apply bind_Some in H as (t & Et & H).
    destruct (generateNCXByDateAdded_inv inp _ _ _ Hs Et) as [Hit Hst].
    destruct (when_ncx _ _ _ _ (generateNCXByDateRead_inv "Recently Read") Hit H)
      as [Hi Hst'].
    split; [exact Hi | eauto using ncx_step_trans]. }
  destruct H14 as [Hi14 Hs14].
  destruct (when_ncx _ _ _ _ (generateNCXDescriptions_inv "Descriptions") Hi14 E15)
    as [Hi15 Hs15].
  split; [exact Hi15 | eauto 10 using ncx_step_trans].
Qed.

(** X9.  When buildSources returns True for a new
    builder, the NCX exists, its first navPoint has the play order 1, the
    play orders that navPoints carry increase strictly in document order and
    lie below the counter, and the counter has advanced once for every
    navPoint of the document. *)
Theorem buildSources_play_orders (o : options) (self' : builder) :
  buildSources title_sort_fn icu_title inp (CatalogBuilder o) = Some (true, self') ->
  exists ncx,
    ncxSoup self' = Some ncx
    /\ nav_playOrder ncx = Some 1
    /\ StronglySorted Z.lt (orders ncx)
    /\ Forall (fun v => 1 <= v < playOrder self') (orders ncx)
    /\ Z.of_nat (length (document_order ncx)) = playOrder self' - 1.
Proof.
  intros H. apply buildSources_true in H
    as (s0 & s1 & s2 & s3 & s4 & s5 & s6 & s7 & s8 & s9 & s10 & s11 & s12 & s13 & s14
        & s15 & E0 & E1 & E2 & E3 & E4 & E5 & E6 & E7 & E8 & E9 & E10 & E11 & E12 & E13
        & E14 & E15 & ->).
  destruct (fetchBooksByTitle_inv inp _ _ (html_inv_initial inp o) E0) as [Hi0 _].
  destruct (fetchBooksByAuthor_inv title_sort_fn icu_title inp _ _ _ Hi0 E1) as (Hi1 & _).
  destruct (html_sections s1 s2 s3 s4 s5 s6 Hi1 E2 E3 E4 E5 E6) as (Hi6 & _).
  destruct (when_html inp _ _ _ _ (generateHTMLByDateAdded_inv inp) Hi6 E7) as [Hi7 _].
  assert (Hp8 : playOrder s8 = 1).
  { destruct (generateOPF_facts _ _ E8) as (_ & _ & -> & _). apply Hi7. }
  destruct (generateNCXHeader_inv _ _ Hp8 E9) as [Hi9 _].
  destruct (ncx_sections s9 s10 s11 s12 s13 s14 s15 Hi9 E10 E11 E12 E13 E14 E15)
    as [(ncx & Hn & H1 & Hs & Hb & Hl) _].
  exists ncx. unfold writeNCX, write. destruct s15. cbn in *. auto.
Qed.

(** generateOPF assigns the package and writes the file; the options and
    the lists of books are as they were. *)
Lemma generateOPF_frame (self self' : builder) :
  generateOPF self = Some self' ->
  opts self' = opts self /\ booksByTitle self' = booksByTitle self
  /\ booksByAuthor self' = booksByAuthor self.
Proof.
  unfold generateOPF. intros H. apply bind_Some in H as (descriptions & _ & H).
  injection H as <-. destruct self. repeat split.
Qed.

(** X10.  When buildSources returns True for a new builder,
    the OPF and the NCX have been written, the XHTML items of the manifest
    are exactly the items of the section files followed by one item per
    description (none when descriptions are off, else one per book of
    booksByAuthor or booksByTitle as sort_descriptions_by_author chooses, in
    that order, each naming the file of its book), every one of them names a
    file that has been written, and the spine lists exactly these items, in
    the order of the manifest. *)
Theorem buildSources_manifest_written (o : options) (self' : builder) :
  buildSources title_sort_fn icu_title inp (CatalogBuilder o) = Some (true, self') ->
  exists pkg descriptions,
    opf self' = Some pkg
    /\ (basename +:+ ".opf") ∈ written self'
    /\ (basename +:+ ".ncx") ∈ written self'
    /\ (if generate_descriptions (opts self') then sort_descriptions_by self'
        else Some []) = Some descriptions
    /\ xhtml_items pkg
       = map html_item (section_files self') ++ map book_item descriptions
    /\ Forall (fun i => href i ∈ written self') (xhtml_items pkg)
    /\ spine pkg = map item_id (xhtml_items pkg).
Proof.
  intros H. apply buildSources_true in H
    as (s0 & s1 & s2 & s3 & s4 & s5 & s6 & s7 & s8 & s9 & s10 & s11 & s12 & s13 & s14
        & s15 & E0 & E1 & E2 & E3 & E4 & E5 & E6 & E7 & E8 & E9 & E10 & E11 & E12 & E13
        & E14 & E15 & ->).
  destruct (fetchBooksByTitle_inv inp _ _ (html_inv_initial inp o) E0) as [Hi0 _].
  destruct (fetchBooksByAuthor_inv title_sort_fn icu_title inp _ _ _ Hi0 E1)
    as (Hi1 & bt & _ & Hbt & Hperm & _).
  destruct (html_sections s1 s2 s3 s4 s5 s6 Hi1 E2 E3 E4 E5 E6) as (Hi6 & He6 & Hbooks).
  destruct (when_html inp _ _ _ _ (generateHTMLByDateAdded_inv inp) Hi6 E7) as [Hi7 He7].
  assert (He : extends s1 s7) by eauto using extends_trans.
  destruct (generateOPF_facts _ _ E8)
    as ((descriptions & pkg & Hd & Hopf & Hitems & Hspine) & Hw8 & Hp8 & Hs8).
  assert (Hi9 : ncx_inv s9 /\ ncx_step s8 s9).
  { apply generateNCXHeader_inv; [|exact E9]. rewrite Hp8. apply Hi7. }
  destruct Hi9 as [Hi9 Hs9].
  destruct (ncx_sections s9 s10 s11 s12 s13 s14 s15 Hi9 E10 E11 E12 E13 E14 E15)
    as [_ Hs15].
  assert (Hstep : ncx_step s8 s15) by eauto using ncx_step_trans.
  assert (Hsame : opf s15 = opf s8 /\ written s15 = written s8
                  /\ section_files s15 = section_files s8).
  { unfold ncx_step in Hstep. rewrite Hstep. destruct s8. repeat split. }
  destruct Hsame as (Hopf15 & Hw15 & Hs15').
  assert (Hwritten : written (writeNCX s15)
                     = (written s7 ++ [basename +:+ ".opf"]) ++ [basename +:+ ".ncx"]).
  { rewrite <- Hw8, <- Hw15. unfold writeNCX, write. destruct s15. reflexivity. }
  assert (Hsections : section_files (writeNCX s15) = section_files s7).
  { rewrite <- Hs8, <- Hs15'. unfold writeNCX, write. destruct s15. reflexivity. }
  destruct (generateOPF_frame _ _ E8) as (Ho8 & Hbt8 & Hba8).
  assert (Hframe : opts (writeNCX s15) = opts s7
                   /\ booksByTitle (writeNCX s15) = booksByTitle s7
                   /\ booksByAuthor (writeNCX s15) = booksByAuthor s7).
  { rewrite <- Ho8, <- Hbt8, <- Hba8. unfold ncx_step in Hstep. rewrite Hstep.
    unfold writeNCX, write. destruct s8. repeat split. }
  destruct Hframe as (Ho & Hbt15 & Hba).
  exists pkg, descriptions. split.
  { rewrite <- Hopf, <- Hopf15. unfold writeNCX, write. destruct s15. reflexivity. }
  rewrite Hwritten, Hsections. split; [set_solver|]. split; [set_solver|].
  split.
  { unfold sort_descriptions_by in Hd |- *. now rewrite Ho, Hbt15, Hba. }
  split; [exact Hitems|].
  split; [|exact Hspine].
  rewrite Hitems. apply Forall_app. split.
  - apply Forall_forall. intros i Hi. apply list_elem_of_fmap in Hi as (f & -> & Hf).
    cbn. apply elem_of_app. left. apply elem_of_app. left.
    destruct Hi7 as [_ _ _ _ Hall _ _]. rewrite Forall_forall in Hall. now apply Hall.
  - apply Forall_forall. intros i Hi. apply list_elem_of_fmap in Hi as (b & -> & Hb).
    cbn [href]. apply elem_of_app. left. apply elem_of_app. left.
    destruct (generate_descriptions (opts s7)) eqn:Hgd.
    + rewrite (ext_descriptions _ _ He) in Hgd.
      destruct (Hbooks Hgd) as (bt' & Hbt' & Hall).
      assert (bt' = bt) as -> by congruence.
      assert (Hin : b ∈ bt).
      { unfold sort_descriptions_by in Hd.
        destruct (sort_descriptions_by_author (opts s7)).
        - injection Hd as <-. rewrite (ext_booksByAuthor _ _ He) in Hb.
          now rewrite Hperm in Hb.
        - rewrite (ext_booksByTitle _ _ He) in Hd. congruence. }
      rewrite Forall_forall in Hall. apply (ext_written _ _ He7). now apply Hall.
    + injection Hd as <-. inversion Hb.
Qed.

End BuildGuarantees.

Lemma buildSources_abort_witness :
  exists self',
    Build.buildSources SortTitle.title_sort_model (fun s => s) BuildExample.king_library
      (Build.CatalogBuilder (Build.run_options true true true true true true))
    = Some (false, self')
    /\ Build.opf self' = None /\ Build.ncxSoup self' = None
    /\ Forall BuildInv.content_file (Build.written self')
    /\ ((Build.basename +:+ ".opf") ∉ Build.written self')
    /\ ((Build.basename +:+ ".ncx") ∉ Build.written self')
    /\ Build.error self' <> [].
Proof.
  eexists. split; [vm_compute; reflexivity|].
  apply (buildSources_abort SortTitle.title_sort_model (fun s => s)
           BuildExample.king_library (Build.run_options true true true true true true)).
  vm_compute. reflexivity.
Defined.

Lemma buildSources_play_orders_witness :
  exists self',
    Build.buildSources SortTitle.title_sort_model (fun s => s) BuildExample.library
      (Build.CatalogBuilder BuildExample.genres_and_descriptions) = Some (true, self')
    /\ exists ncx,
        Build.ncxSoup self' = Some ncx
        /\ Ncx.nav_playOrder ncx = Some 1
        /\ StronglySorted Z.lt (BuildInv.orders ncx)
        /\ Forall (fun v => 1 <= v < Build.playOrder self') (BuildInv.orders ncx)
        /\ Z.of_nat (length (Ncx.document_order ncx)) = Build.playOrder self' - 1.
Proof.
  eexists. split; [vm_compute; reflexivity|].
  apply (buildSources_play_orders SortTitle.title_sort_model (fun s => s)
           BuildExample.library BuildExample.genres_and_descriptions).
  vm_compute. reflexivity.
Defined.

Lemma buildSources_manifest_written_witness :
  exists self',
    Build.buildSources SortTitle.title_sort_model (fun s => s) BuildExample.library
      (Build.CatalogBuilder BuildExample.genres_and_descriptions) = Some (true, self')
    /\ exists pkg descriptions,
        Build.opf self' = Some pkg
        /\ (Build.basename +:+ ".opf") ∈ Build.written self'
        /\ (Build.basename +:+ ".ncx") ∈ Build.written self'
        /\ (if Build.generate_descriptions (Build.opts self')
            then Build.sort_descriptions_by self' else Some []) = Some descriptions
        /\ BuildInv.xhtml_items pkg
           = map Build.html_item (Build.section_files self')
             ++ map BuildInv.book_item descriptions
        /\ Forall (fun i => Build.href i ∈ Build.written self') (BuildInv.xhtml_items pkg)
        /\ Build.spine pkg = map Build.item_id (BuildInv.xhtml_items pkg).
Proof.
  eexists. split; [vm_compute; reflexivity|].
  apply (buildSources_manifest_written SortTitle.title_sort_model (fun s => s)
           BuildExample.library BuildExample.genres_and_descriptions).
  vm_compute. reflexivity.
Defined.

(** ** The links of the NCX *)

Section NcxLinks.
Import Text Catalog Ncx Build BuildInv.

Variable title_sort_fn : string -> string.
Variable icu_title : string -> string.
Variable inp : inputs.
Variable W : list string.
Variable top : string.

Lemma srcs_unfold (t : navPoint) : srcs t = nav_src t :: flat_map srcs (nav_children t).
Proof.
  unfold srcs. rewrite document_order_unfold. cbn [map]. f_equal.
  induction (nav_children t) as [|c l IH]; [reflexivity|].
  cbn [flat_map]. now rewrite List.map_app, IH.
Qed.

Lemma srcs_append (c t : navPoint) : srcs (append_child c t) = srcs t ++ srcs c.
Proof.
  rewrite (srcs_unfold (append_child c t)), (srcs_unfold t).
  cbn [append_child nav_src nav_children]. rewrite flat_map_app. cbn [flat_map].
  now rewrite app_nil_r.
Qed.

Lemma srcs_assign (v : Z) (t : navPoint) : srcs (assign_playOrder v t) = srcs t.
Proof. now rewrite (srcs_unfold (assign_playOrder v t)), (srcs_unfold t). Qed.

Lemma add_article_srcs (article_id src : string) (st : navPoint * builder) :
  srcs (add_article article_id src st).1 = srcs st.1 ++ [src].
Proof.
  destruct st as [sec self]. unfold add_article. cbn [fst].
  now rewrite srcs_append, srcs_assign.
Qed.

Lemma add_volume_srcs (article_id src : string) (st : navPoint * builder) :
  srcs (add_volume article_id src st).1 = srcs st.1 ++ [src].
Proof. destruct st as [sec self]. unfold add_volume. cbn [fst]. now rewrite srcs_append. Qed.

Lemma foldl_add_article_srcs {A : Type} (f g : A -> string) (l : list A) :
  forall st,
    srcs (foldl (fun st x => add_article (f x) (g x) st) st l).1 = srcs st.1 ++ map g l.
Proof.
  induction l as [|x l IH]; intros st; [now rewrite app_nil_r|].
  cbn [foldl map]. now rewrite IH, add_article_srcs, <- app_assoc.
Qed.

Lemma foldl_add_volume_srcs {A : Type} (f g : A -> string) (l : list A) :
  forall st,
    srcs (foldl (fun st x => add_volume (f x) (g x) st) st l).1 = srcs st.1 ++ map g l.
Proof.
  induction l as [|x l IH]; intros st; [now rewrite app_nil_r|].
  cbn [foldl map]. now rewrite IH, add_volume_srcs, <- app_assoc.
Qed.

Lemma section_inv_soup (self0 : builder) (lo : Z) (st : navPoint * builder) :
  section_inv self0 lo st -> ncxSoup st.2 = ncxSoup self0.
Proof. intros [H _]. rewrite H. apply ncxSoup_set_playOrder. Qed.

(** The section that add_to_body appends keeps the links of the NCX. *)
Lemma add_to_body_links (self0 self' : builder) (lo : Z) (st : navPoint * builder) :
  ncx_links W top self0 ->
  section_inv self0 lo st ->
  Forall (links_to W) (srcs st.1) ->
  add_to_body st = Some self' ->
  ncx_links W top self'.
Proof.
  intros (ncx & Hn & Hsrc & Hall) Hst Hsec H. apply section_inv_soup in Hst.
  destruct st as [sec self]. unfold add_to_body in H. cbn [fst snd] in *.
  rewrite Hst, Hn in H. cbn [mbind option_bind] in H. injection H as <-.
  exists (append_child sec ncx). split; [now destruct self|]. split; [exact Hsrc|].
  cbn [append_child nav_children]. rewrite flat_map_app. cbn [flat_map].
  rewrite app_nil_r. apply Forall_app. now split.
Qed.

Lemma links_to_file (f : string) : f ∈ W -> links_to W f.
Proof. intros H. exists f. auto. Qed.

Lemma links_to_fragment (f fragment : string) :
  f ∈ W -> links_to W (f +:+ "#" +:+ fragment).
Proof. intros H. exists f. eauto. Qed.

(** A section whose articles all name one file. *)
Lemma one_file_links {A : Type} (file : string) (g : A -> string) (l : list A) :
  file ∈ W ->
  Forall (links_to W) ((file +:+ "#section_start") :: map (fun x => file +:+ "#" +:+ g x) l).
Proof.
  intros H. constructor; [now apply (links_to_fragment file "section_start")|].
  apply Forall_map, Forall_forall. intros x _. now apply links_to_fragment.
Qed.

Lemma generateNCXByAuthor_links (tocTitle : string) (self self' : builder) :
  generate_authors (opts self) = true ->
  linkable inp W self -> ncx_links W top self ->
  generateNCXByAuthor tocTitle self = Some self' ->
  ncx_links W top self'.
Proof.
  intros Hflag Hl Hn H. unfold generateNCXByAuthor in H.
  destruct (ncxSoup self); [|discriminate]. cbn [mbind option_bind] in H.
  destruct (head (authors self)) as [first|]; [|discriminate].
  cbn [mbind option_bind] in H.
  destruct (first_char _) as [c|]; [|discriminate]. cbn [mbind option_bind] in H.
  destruct (author_letters_loop _ _ _) as [letters|]; [|discriminate].
  cbn [mbind option_bind] in H.
  eapply add_to_body_links; [exact Hn| | |exact H].
  - apply foldl_add_article, section_navPoint_inv.
  - rewrite foldl_add_article_srcs.
    apply (one_file_links "content/ByAlphaAuthor.html" (fun letter => letter +:+ "authors")).
    now apply Hl.
Qed.

Lemma generateNCXByTitle_links (tocTitle : string) (self self' : builder) :
  generate_titles (opts self) = true ->
  linkable inp W self -> ncx_links W top self ->
  generateNCXByTitle tocTitle self = Some self' ->
  ncx_links W top self'.
Proof.
  intros Hflag Hl Hn H. unfold generateNCXByTitle in H.
  destruct (ncxSoup self); [|discriminate]. cbn [mbind option_bind] in H.
  destruct (title_letters_of _ _) as [letters|]; [|discriminate].
  cbn [mbind option_bind] in H.
  eapply add_to_body_links; [exact Hn| | |exact H].
  - apply foldl_add_article, section_navPoint_inv.
  - rewrite foldl_add_article_srcs.
    apply (one_file_links "content/ByAlphaTitle.html" (fun letter => letter)).
    now apply Hl.
Qed.

Lemma generateNCXBySeries_links (tocTitle : string) (self self' : builder) :
  generate_series (opts self) = true ->
  linkable inp W self -> ncx_links W top self ->
  generateNCXBySeries title_sort_fn tocTitle self = Some self' ->
  ncx_links W top self'.
Proof.
  intros Hflag Hl Hn H. unfold generateNCXBySeries in H.
  destruct (ncxSoup self); [|discriminate]. cbn [mbind option_bind] in H.
  destruct (title_letters_of _ _) as [letters|]; [|discriminate].
  cbn [mbind option_bind] in H.
  eapply add_to_body_links; [exact Hn| | |exact H].
  - apply foldl_add_article, section_navPoint_inv.
  - rewrite foldl_add_article_srcs.
    apply (one_file_links "content/BySeries.html" (fun letter => letter +:+ "_series")).
    now apply Hl.
Qed.

Lemma generateNCXByDateAdded_links (tocTitle : string) (self self' : builder) :
  generate_recently_added (opts self) = true ->
  linkable inp W self -> ncx_links W top self ->
  generateNCXByDateAdded inp tocTitle self = Some self' ->
  ncx_links W top self'.
Proof.
  intros Hflag Hl Hn H. unfold generateNCXByDateAdded in H.
  destruct (ncxSoup self); [|discriminate]. cbn [mbind option_bind] in H.
  destruct (date_ranges_loop _ _ _ _ _ _ _) as [ranges|]; [|discriminate].
  cbn [mbind option_bind] in H.
  destruct (head (booksByMonth self)) as [first|]; [|discriminate].
  cbn [mbind option_bind] in H.
  eapply add_to_body_links; [exact Hn| | |exact H].
  - apply foldl_add_article, foldl_add_article, section_navPoint_inv.
  - rewrite !foldl_add_article_srcs.
    assert (Hf : "content/ByDateAdded.html" ∈ W) by now apply Hl.
    apply Forall_app. split.
    + apply (one_file_links "content/ByDateAdded.html"
               (fun date_range => "bda_" +:+ replace " " "" date_range)), Hf.
    + apply Forall_map, Forall_forall. intros date _.
      apply (links_to_fragment "content/ByDateAdded.html"
               ("bda_" +:+ str_of_Z date.1 +:+ "-" +:+ str_of_Z date.2)), Hf.
Qed.

Lemma generateNCXByDateRead_links (tocTitle : string) (self self' : builder) :
  linkable inp W self -> ncx_links W top self ->
  generateNCXByDateRead tocTitle self = Some self' ->
  ncx_links W top self'.
Proof.
  intros Hl Hn H. unfold generateNCXByDateRead in H.
  destruct (booksByDateRead self) as [|first rest] eqn:E.
  { now injection H as <-. }
  destruct (ncxSoup self); [|discriminate]. cbn [mbind option_bind] in H.
  eapply add_to_body_links; [exact Hn| | |exact H].
  - apply foldl_add_article, section_navPoint_inv.
  - rewrite foldl_add_article_srcs.
    apply (one_file_links "content/ByDateRead.html"
             (fun date : Z * Z * Z =>
                "bdr_" +:+ str_of_Z date.1.1 +:+ "-" +:+ str_of_Z date.1.2 +:+ "-"
                +:+ str_of_Z date.2)).
    apply Hl. rewrite E. discriminate.
Qed.

(** The normalized tag that generateNCXByGenre finds for the tag of a
    genre is this tag. *)
Lemma find_normalized_tag_found (genre_tag : string) :
  genre_tag ∈ map snd (genre_tags_dict inp) -> find_normalized_tag inp genre_tag = genre_tag.
Proof.
  intros Hin. unfold find_normalized_tag.
  destruct (List.find _ (genre_tags_dict inp)) as [kv|] eqn:E.
  - apply List.find_some in E as [_ E]. now apply bool_decide_eq_true in E.
  - apply list_elem_of_fmap in Hin as (kv & -> & Hin). apply list_elem_of_In in Hin.
    apply (List.find_none _ _ E) in Hin. cbn in Hin.
    apply bool_decide_eq_false in Hin. contradiction.
Qed.

Lemma genre_link (t fragment : string) :
  ("content/Genre_" +:+ t +:+ ".html") ∈ W ->
  links_to W ("content/Genre_" +:+ t +:+ ".html#" +:+ fragment).
Proof.
  intros H. exists ("content/Genre_" +:+ t +:+ ".html"). split; [exact H|]. right.
  exists fragment. now rewrite !append_assoc3.
Qed.

Lemma generateNCXByGenre_links (tocTitle : string) (self self' : builder) :
  linkable inp W self -> ncx_links W top self ->
  generateNCXByGenre inp tocTitle self = Some self' ->
  ncx_links W top self'.
Proof.
  intros Hl Hn H. unfold generateNCXByGenre in H.
  pose proof (lk_genres _ _ _ Hl) as Hg.
  destruct (genres self) as [|first rest] eqn:E.
  { now injection H as <-. }
  destruct (ncxSoup self); [|discriminate]. cbn [mbind option_bind] in H.
  eapply add_to_body_links; [exact Hn| | |exact H].
  - apply foldl_add_volume. apply section_navPoint_inv.
  - rewrite foldl_add_volume_srcs. constructor.
    + apply Forall_cons in Hg as [(Hw & Hfile & _) _].
      apply (genre_link (tag first) "section_start"). now rewrite <- Hfile.
    + apply Forall_map. eapply Forall_impl; [exact Hg|]. cbn.
      intros g (Hw & Hfile & Htag). rewrite (find_normalized_tag_found _ Htag).
      apply (genre_link (tag g) ("Genre_" +:+ tag g)). now rewrite <- Hfile.
Qed.

Lemma book_link (b : book) (fragment : string) :
  book_file b ∈ W ->
  links_to W ("content/book_" +:+ str_of_Z (id b) +:+ ".html#" +:+ fragment).
Proof.
  intros H. exists (book_file b). split; [exact H|]. right.
  exists fragment. unfold book_file. now rewrite !append_assoc3.
Qed.

Lemma generateNCXDescriptions_links (tocTitle : string) (self self' : builder) :
  generate_descriptions (opts self) = true ->
  linkable inp W self -> ncx_links W top self ->
  generateNCXDescriptions tocTitle self = Some self' ->
  ncx_links W top self'.
Proof.
  intros Hflag Hl Hn H. unfold generateNCXDescriptions in H.
  destruct (lk_descriptions _ _ _ Hl Hflag) as (bt & Hbt & Hperm & Hall).
  destruct (ncxSoup self); [|discriminate]. cbn [mbind option_bind] in H.
  rewrite Hbt in H. cbn [mbind option_bind] in H.
  destruct (head bt) as [first|] eqn:Hfirst; [|discriminate].
  cbn [mbind option_bind] in H.
  destruct (sort_descriptions_by self) as [books|] eqn:Hbooks; [|discriminate].
  cbn [mbind option_bind] in H.
  assert (Hsub : forall b, b ∈ books -> b ∈ bt).
  { unfold sort_descriptions_by in Hbooks.
    destruct (sort_descriptions_by_author (opts self)).
    - injection Hbooks as <-. intros b Hb. now rewrite <- Hperm.
    - rewrite Hbt in Hbooks. now injection Hbooks as <-. }
  rewrite Forall_forall in Hall.
  eapply add_to_body_links; [exact Hn| | |exact H].
  - apply foldl_add_volume. apply section_navPoint_inv.
  - rewrite foldl_add_volume_srcs. constructor.
    + apply (links_to_file (book_file first)), Hall.
      destruct bt; [discriminate|]. injection Hfirst as <-. left.
    + apply Forall_map, Forall_forall. intros b Hb. cbn.
      apply (book_link b ("book" +:+ str_of_Z (id b))), Hall, Hsub, Hb.
Qed.

Lemma generateNCXHeader_links (self self' : builder) :
  generateNCXHeader self = Some self' ->
  exists src0,
    (if generate_authors (opts self) then Some "content/ByAlphaAuthor.html"
     else if generate_titles (opts self) then Some "content/ByAlphaTitle.html"
     else if generate_series (opts self) then Some "content/BySeries.html"
     else if generate_genres (opts self) then Some "content/ByGenres.html"
     else if generate_recently_added (opts self) then Some "content/ByDateAdded.html"
     else books ← sort_descriptions_by self;
          first ← head books;
          Some ("content/book_" +:+ str_of_Z (id first) +:+ ".html")) = Some src0
    /\ forall files, ncx_links files src0 self'.
Proof.
  unfold generateNCXHeader. intros H. apply bind_Some in H as (src0 & Hsrc & H).
  injection H as <-. exists src0. split.
  - rewrite <- Hsrc. now destruct self.
  - intros files. eexists. split; [now destruct self|]. split; [reflexivity|]. constructor.
Qed.

(** The NCX steps leave what the generators rely on. *)
Lemma linkable_step (self self' : builder) :
  ncx_step self self' -> linkable inp W self -> linkable inp W self'.
Proof.
  unfold ncx_step. intros -> [H1 H2 H3 H4 H5 H6 H7]. destruct self.
  constructor; assumption.
Qed.

(** The three properties that the sections of the NCX keep. *)
Lemma when_links (flag : builder -> bool) (step : builder -> option builder)
    (self self' : builder) :
  (forall s s', ncx_inv s -> step s = Some s' -> ncx_inv s' /\ ncx_step s s') ->
  (forall s s', flag s = true -> ncx_inv s -> linkable inp W s -> ncx_links W top s ->
                step s = Some s' -> ncx_links W top s') ->
  ncx_inv self /\ linkable inp W self /\ ncx_links W top self ->
  when flag step self = Some self' ->
  ncx_inv self' /\ linkable inp W self' /\ ncx_links W top self'.
Proof.
  unfold when. intros Hinv Hlinks (Hi & Hl & Hn) H.
  destruct (flag self) eqn:Hflag; [|now injection H as <-].
  destruct (Hinv _ _ Hi H) as [Hi' Hstep].
  split; [exact Hi'|]. split; [now apply (linkable_step self) | eauto].
Qed.

(** The sections of the NCX after its header. *)
Lemma ncx_sections_links (s9 s10 s11 s12 s13 s14 s15 : builder) :
  ncx_inv s9 -> linkable inp W s9 -> ncx_links W top s9 ->
  when (fun self => generate_authors (opts self)) (generateNCXByAuthor "Authors") s9
  = Some s10 ->
  when (fun self => generate_titles (opts self)) (generateNCXByTitle "Titles") s10
  = Some s11 ->
  when (fun self => generate_series (opts self))
    (generateNCXBySeries title_sort_fn "Series") s11 = Some s12 ->
  when (fun self => generate_genres (opts self)) (generateNCXByGenre inp "Genres") s12
  = Some s13 ->
  when (fun self => generate_recently_added (opts self))
    (fun self =>
       self ← generateNCXByDateAdded inp "Recently Added" self;
       when (generateRecentlyRead inp) (generateNCXByDateRead "Recently Read") self)
    s13 = Some s14 ->
  when (fun self => generate_descriptions (opts self))
    (generateNCXDescriptions "Descriptions") s14 = Some s15 ->
  ncx_links W top s15.
Proof.
  intros Hi Hl Hn E10 E11 E12 E13 E14 E15.
  assert (H9 : ncx_inv s9 /\ linkable inp W s9 /\ ncx_links W top s9) by auto.
  apply (when_links _ _ _ _ (generateNCXByAuthor_inv "Authors")
           (fun s s' Hf _ => generateNCXByAuthor_links "Authors" s s' Hf)) in E10; [|exact H9].
  apply (when_links _ _ _ _ (generateNCXByTitle_inv "Titles")
           (fun s s' Hf _ => generateNCXByTitle_links "Titles" s s' Hf)) in E11; [|exact E10].
  apply (when_links _ _ _ _ (generateNCXBySeries_inv title_sort_fn "Series")
           (fun s s' Hf _ => generateNCXBySeries_links "Series" s s' Hf)) in E12; [|exact E11].
  apply (when_links _ _ _ _ (generateNCXByGenre_inv inp "Genres")
           (fun s s' _ _ => generateNCXByGenre_links "Genres" s s')) in E13; [|exact E12].
  apply when_links in E14; [| | |exact E13].
  - apply (when_links _ _ _ _ (generateNCXDescriptions_inv "Descriptions")
             (fun s s' Hf _ => generateNCXDescriptions_links "Descriptions" s s' Hf))
      in E15; [|exact E14].
    apply E15.
  - intros s s' Hs H. apply bind_Some in H as (t & Et & H).
    destruct (generateNCXByDateAdded_inv inp _ _ _ Hs Et) as [Hit Hst].
    destruct (when_ncx _ _ _ _ (generateNCXByDateRead_inv "Recently Read") Hit H)
      as [Hi' Hst'].
    split; [exact Hi' | eauto using ncx_step_trans].
  - intros s s' Hflag Hs Hls Hns H. apply bind_Some in H as (t & Et & H).
    destruct (generateNCXByDateAdded_inv inp _ _ _ Hs Et) as [Hit Hst].
    assert (Ht : ncx_inv t /\ linkable inp W t /\ ncx_links W top t).
    { split; [exact Hit|]. split; [now apply (linkable_step s)|].
      now apply (generateNCXByDateAdded_links "Recently Added" s). }
    apply (when_links _ _ _ _ (generateNCXByDateRead_inv "Recently Read")
             (fun s s' _ _ => generateNCXByDateRead_links "Recently Read" s s')) in H;
      [apply H | exact Ht].
Qed.

End NcxLinks.

(** ** The files that the NCX links to *)

Section BuildLinks.
Import Text Catalog Ncx Build BuildInv.

Variable title_sort_fn : string -> string.
Variable icu_title : string -> string.
Variable inp : inputs.

(** The options that no step changes, and generate_series, which is
    cleared at most. *)
Lemma extends_flags (s s' : builder) :
  extends s s' ->
  generate_authors (opts s') = generate_authors (opts s)
  /\ generate_titles (opts s') = generate_titles (opts s)
  /\ generate_recently_added (opts s') = generate_recently_added (opts s)
  /\ (generate_series (opts s') = true -> generate_series (opts s) = true).
Proof.
  intros [_ _ _ _ _ [H|H]]; rewrite H; [auto|]. destruct (opts s). cbn. auto.
  repeat split; auto. discriminate.
Qed.

Lemma generateHTMLByAuthor_file (s s' : builder) :
  generateHTMLByAuthor s = Some s' -> "content/ByAlphaAuthor.html" ∈ written s'.
Proof.
  unfold generateHTMLByAuthor, write. intros H. injection H as <-. destruct s. cbn.
  apply elem_of_app. right. left.
Qed.

Lemma generateHTMLByTitle_file (s s' : builder) :
  generateHTMLByTitle s = Some s' -> "content/ByAlphaTitle.html" ∈ written s'.
Proof.
  unfold generateHTMLByTitle, write. intros H.
  apply bind_Some in H as (bt & _ & H). apply bind_Some in H as (div & _ & H).
  injection H as <-. destruct s. cbn. apply elem_of_app. right. left.
Qed.

Lemma generateHTMLBySeries_file (s s' : builder) :
  when (fun self => generate_series (opts self)) (generateHTMLBySeries inp) s = Some s' ->
  generate_series (opts s') = true -> "content/BySeries.html" ∈ written s'.
Proof.
  unfold when, generateHTMLBySeries, write.
  destruct (generate_series (opts s)) eqn:E; intros H; [|injection H as <-; congruence].
  destruct (booksBySeries _); injection H as <-; destruct s; cbn; [discriminate|].
  intros _. apply elem_of_app. right. left.
Qed.

Lemma generateHTMLByDateAdded_file (s s' : builder) :
  (self ← generateHTMLByDateAdded inp s;
   when (generateRecentlyRead inp) generateHTMLByDateRead self) = Some s' ->
  "content/ByDateAdded.html" ∈ written s'.
Proof.
  intros H. apply bind_Some in H as (t & Et & H).
  assert (Ht : "content/ByDateAdded.html" ∈ written t).
  { unfold generateHTMLByDateAdded, write in Et.
    apply bind_Some in Et as (bt & _ & Et). apply bind_Some in Et as (div & _ & Et).
    injection Et as <-. destruct s. cbn. apply elem_of_app. right. left. }
  unfold when, generateHTMLByDateRead, write in H.
  destruct (generateRecentlyRead inp t); [|now injection H as <-].
  destruct (bookmarked_books t); injection H as <-; [exact Ht|].
  destruct t. cbn in *. apply elem_of_app. now left.
Qed.

Lemma when_file (flag : builder -> bool) (step : builder -> option builder)
    (f : string) (s s' : builder) :
  (forall s s', step s = Some s' -> f ∈ written s') ->
  when flag step s = Some s' -> flag s = true -> f ∈ written s'.
Proof. unfold when. intros Hstep H Hflag. rewrite Hflag in H. eauto. Qed.

(** The HTML files at the end of the sections: the invariant, and the
    file of every section whose option is set. *)
Lemma html_files (s1 s2 s3 s4 s5 s6 s7 : builder) :
  html_inv inp s1 ->
  when (fun self => generate_descriptions (opts self))
    (fun self => self ← generateThumbnails inp self; generateHTMLDescriptions self)
    (fetchBookmarks inp s1) = Some s2 ->
  when (fun self => generate_authors (opts self)) generateHTMLByAuthor s2 = Some s3 ->
  when (fun self => generate_titles (opts self)) generateHTMLByTitle s3 = Some s4 ->
  when (fun self => generate_series (opts self)) (generateHTMLBySeries inp) s4 = Some s5 ->
  when (fun self => generate_genres (opts self)) (generateHTMLByTags inp) s5 = Some s6 ->
  when (fun self => generate_recently_added (opts self))
    (fun self =>
       self ← generateHTMLByDateAdded inp self;
       when (generateRecentlyRead inp) generateHTMLByDateRead self) s6 = Some s7 ->
  html_inv inp s7 /\ extends s1 s7
  /\ (generate_authors (opts s7) = true -> "content/ByAlphaAuthor.html" ∈ written s7)
  /\ (generate_titles (opts s7) = true -> "content/ByAlphaTitle.html" ∈ written s7)
  /\ (generate_series (opts s7) = true -> "content/BySeries.html" ∈ written s7)
  /\ (generate_recently_added (opts s7) = true
      -> "content/ByDateAdded.html" ∈ written s7).
Proof.
  intros Hinv E2 E3 E4 E5 E6 E7.
  destruct (fetchBookmarks_inv inp s1 Hinv) as [Hi1 He1].
  assert (H2 : html_inv inp s2 /\ extends (fetchBookmarks inp s1) s2).
  { apply (when_html inp _ _ _ _) in E2; [exact E2| |exact Hi1].
    intros s s' Hs H. destruct (descriptions_inv inp s s' Hs H) as (Hi & He & _). auto. }
  destruct H2 as [Hi2 He2].
  destruct (when_html inp _ _ _ _ (generateHTMLByAuthor_inv inp) Hi2 E3) as [Hi3 He3].
  destruct (when_html inp _ _ _ _ (generateHTMLByTitle_inv inp) Hi3 E4) as [Hi4 He4].
  destruct (when_html inp _ _ _ _ (generateHTMLBySeries_inv inp) Hi4 E5) as [Hi5 He5].
  destruct (when_html inp _ _ _ _ (generateHTMLByTags_inv inp) Hi5 E6) as [Hi6 He6].
  destruct (when_html inp _ _ _ _ (generateHTMLByDateAdded_inv inp) Hi6 E7) as [Hi7 He7].
  assert (He67 : extends s5 s7) by eauto using extends_trans.
  assert (He47 : extends s4 s7) by eauto using extends_trans.
  assert (He37 : extends s3 s7) by eauto using extends_trans.
  assert (He27 : extends s2 s7) by eauto using extends_trans.
  split; [exact Hi7|]. split; [eauto using extends_trans|].
  split; [|split; [|split]].
  - intros Hflag. destruct (extends_flags _ _ He27) as (Ha & _).
    rewrite Ha in Hflag. apply (ext_written _ _ He37).
    exact (when_file _ _ _ _ _ generateHTMLByAuthor_file E3 Hflag).
  - intros Hflag. destruct (extends_flags _ _ He37) as (_ & Ht & _).
    rewrite Ht in Hflag. apply (ext_written _ _ He47).
    exact (when_file _ _ _ _ _ generateHTMLByTitle_file E4 Hflag).
  - intros Hflag. destruct (extends_flags _ _ He67) as (_ & _ & _ & Hs).
    apply (ext_written _ _ He67). apply (generateHTMLBySeries_file _ _ E5). auto.
  - intros Hflag. destruct (extends_flags _ _ He7) as (_ & _ & Hr & _).
    rewrite Hr in Hflag.
    exact (when_file _ _ _ _ _ generateHTMLByDateAdded_file E7 Hflag).
Qed.

Lemma generateOPF_form (self self' : builder) :
  generateOPF self = Some self' ->
  exists pkg, self' = write (basename +:+ ".opf") (set_opf (Some pkg) self).
Proof.
  unfold generateOPF. intros H. apply bind_Some in H as (descriptions & _ & H).
  injection H as <-. eauto.
Qed.

Lemma links_to_more (W W' : list string) (src : string) :
  (forall f, f ∈ W -> f ∈ W') -> links_to W src -> links_to W' src.
Proof. intros Hsub (f & Hf & H). exists f. auto. Qed.

Lemma linkable_more (W W' : list string) (self : builder) :
  (forall f, f ∈ W -> f ∈ W') -> linkable inp W self -> linkable inp W' self.
Proof.
  intros Hsub [H1 H2 H3 H4 H5 H6 H7]. constructor; auto.
  - eapply Forall_impl; [exact H6|]. cbn. intros g (Hg & Hrest). auto.
  - intros Hd. destruct (H7 Hd) as (bt & Hbt & Hperm & Hall). exists bt.
    split; [exact Hbt|]. split; [exact Hperm|].
    eapply Forall_impl; [exact Hall|]. cbn. auto.
Qed.

(** The NCX of a catalog that has been built: the builder [s8] at the
    header of the NCX, whose options choose the src of the periodical
    navPoint, and the links below it. *)
Lemma buildSources_ncx (o : options) (self' : builder) :
  buildSources title_sort_fn icu_title inp (CatalogBuilder o) = Some (true, self') ->
  exists ncx s8,
    ncxSoup self' = Some ncx
    /\ Forall (links_to (written self')) (flat_map srcs (nav_children ncx))
    /\ linkable inp (written self') s8
    /\ (opts s8 = o \/ opts s8 = set_generate_series false o)
    /\ (if generate_authors (opts s8) then Some "content/ByAlphaAuthor.html"
        else if generate_titles (opts s8) then Some "content/ByAlphaTitle.html"
        else if generate_series (opts s8) then Some "content/BySeries.html"
        else if generate_genres (opts s8) then Some "content/ByGenres.html"
        else if generate_recently_added (opts s8) then Some "content/ByDateAdded.html"
        else books ← sort_descriptions_by s8;
             first ← head books;
             Some ("content/book_" +:+ str_of_Z (id first) +:+ ".html"))
       = Some (nav_src ncx).
Proof.
  intros H. apply buildSources_true in H
    as (s0 & s1 & s2 & s3 & s4 & s5 & s6 & s7 & s8 & s9 & s10 & s11 & s12 & s13 & s14
        & s15 & E0 & E1 & E2 & E3 & E4 & E5 & E6 & E7 & E8 & E9 & E10 & E11 & E12 & E13
        & E14 & E15 & ->).
  destruct (fetchBooksByTitle_inv inp _ _ (html_inv_initial inp o) E0) as [Hi0 _].
  assert (Ho0 : opts s0 = o).
  { cbn in E0. unfold fetchBooksByTitle in E0. destruct (titles inp); [discriminate|].
    now injection E0 as <-. }
  destruct (fetchBooksByAuthor_inv title_sort_fn icu_title inp _ _ _ Hi0 E1)
    as (Hi1 & bt & _ & Hbt & Hperm & Ho1 & _).
  destruct (html_sections inp s1 s2 s3 s4 s5 s6 Hi1 E2 E3 E4 E5 E6)
    as (Hi6 & He6 & Hbooks).
  destruct (when_html inp _ _ _ _ (generateHTMLByDateAdded_inv inp) Hi6 E7) as [_ He67].
  destruct (html_files s1 s2 s3 s4 s5 s6 s7 Hi1 E2 E3 E4 E5 E6 E7)
    as (Hi7 & He7 & Ha & Ht & Hs & Hr).
  destruct (generateOPF_form _ _ E8) as (pkg & Hs8).
  assert (Hfields : opts s8 = opts s7 /\ booksByDateRead s8 = booksByDateRead s7
                    /\ genres s8 = genres s7 /\ booksByTitle s8 = booksByTitle s7
                    /\ booksByAuthor s8 = booksByAuthor s7).
  { rewrite Hs8. unfold write. destruct s7. repeat split. }
  destruct Hfields as (Ho & Hd & Hg & Hbt8 & Hba8).
  assert (Hl8 : linkable inp (written s8) s8).
  { assert (Hw : forall f, f ∈ written s7 -> f ∈ written s8).
    { intros f Hf. rewrite Hs8. unfold write. destruct s7. cbn in *.
      apply elem_of_app. now left. }
    destruct Hi7 as [_ _ _ _ Hsec Hread Hgen].
    constructor; rewrite ?Ho, ?Hd, ?Hg, ?Hbt8, ?Hba8; auto.
    - unfold section_files in Hsec. rewrite !Forall_app in Hsec.
      destruct Hsec as (_ & Hsec & _). rewrite Forall_map in Hsec.
      rewrite Forall_forall in *. intros g Hin. destruct (Hgen g Hin). auto.
    - intros Hd8. rewrite (ext_descriptions _ _ He7) in Hd8.
      destruct (Hbooks Hd8) as (bt' & Hbt' & Hall).
      assert (bt' = bt) as -> by congruence.
      exists bt. rewrite (ext_booksByTitle _ _ He7), (ext_booksByAuthor _ _ He7).
      split; [exact Hbt|]. split; [exact Hperm|].
      eapply Forall_impl; [exact Hall|]. cbn. intros b Hb.
      now apply Hw, (ext_written _ _ He67). }
  assert (Hi9 : ncx_inv s9 /\ ncx_step s8 s9).
  { apply generateNCXHeader_inv; [|exact E9].
    rewrite Hs8. unfold write. destruct Hi7 as [Hp _ _ _ _ _ _]. now destruct s7. }
  destruct Hi9 as [Hi9 Hs9].
  destruct (generateNCXHeader_links _ _ E9) as (top & Htop & Hn9).
  pose proof (ncx_sections_links title_sort_fn inp (written s8) top
                s9 s10 s11 s12 s13 s14 s15
                Hi9 (linkable_step inp _ _ _ Hs9 Hl8) (Hn9 _) E10 E11 E12 E13 E14 E15)
    as (ncx & Hn & Hsrc & Hall).
  destruct (ncx_sections title_sort_fn inp s9 s10 s11 s12 s13 s14 s15 Hi9
              E10 E11 E12 E13 E14 E15) as [_ Hs15].
  assert (Hstep : ncx_step s8 s15) by eauto using ncx_step_trans.
  assert (Hw15 : written s15 = written s8).
  { unfold ncx_step in Hstep. rewrite Hstep. now destruct s8. }
  assert (Hsub : forall f, f ∈ written s8 -> f ∈ written (writeNCX s15)).
  { intros f Hf. unfold writeNCX, write. rewrite <- Hw15 in Hf. destruct s15. cbn in *.
    apply elem_of_app. now left. }
  exists ncx, s8. split; [unfold writeNCX, write; now destruct s15|].
  split; [|split; [|split]].
  - eapply Forall_impl; [exact Hall|]. cbn. intros src. now apply links_to_more.
  - now apply (linkable_more (written s8)).
  - rewrite Ho. destruct (ext_opts _ _ He7) as [H7|H7]; rewrite H7, Ho1, Ho0; auto.
  - now rewrite Hsrc.
Qed.

(** X11.  When buildSources returns True for a new builder,
    every navPoint of the NCX below the periodical one (the sections and
    their articles) has a src that names a file that has been written, with
    or without a fragment. *)
Theorem buildSources_links (o : options) (self' : builder) :
  buildSources title_sort_fn icu_title inp (CatalogBuilder o) = Some (true, self') ->
  exists ncx,
    ncxSoup self' = Some ncx
    /\ Forall (links_to (written self')) (flat_map srcs (nav_children ncx)).
Proof.
  intros H. apply buildSources_ncx in H as (ncx & s8 & Hn & Hall & _). eauto.
Qed.

(** X19.  When buildSources returns True for a new
    builder with the Authors or the Titles section, or without the Genres
    section and with the Recently Added or the Descriptions section, the src
    of the periodical navPoint of the NCX is a file that has been written. *)
Theorem buildSources_periodical_src (o : options) (self' : builder) :
  buildSources title_sort_fn icu_title inp (CatalogBuilder o) = Some (true, self') ->
  generate_authors o = true \/ generate_titles o = true
  \/ (generate_genres o = false
      /\ (generate_recently_added o = true \/ generate_descriptions o = true)) ->
  exists ncx, ncxSoup self' = Some ncx /\ nav_src ncx ∈ written self'.
Proof.
  intros H Hflags. apply buildSources_ncx in H as (ncx & s8 & Hn & _ & Hl & Ho & Hsrc).
  exists ncx. split; [exact Hn|].
  assert (Hsame : generate_authors (opts s8) = generate_authors o
                  /\ generate_titles (opts s8) = generate_titles o
                  /\ generate_genres (opts s8) = generate_genres o
                  /\ generate_recently_added (opts s8) = generate_recently_added o
                  /\ generate_descriptions (opts s8) = generate_descriptions o).
  { destruct Ho as [->| ->]; [auto 10|]. destruct o. cbn. auto 10. }
  destruct Hsame as (Ha & Ht & Hg & Hr & Hd).
  destruct Hl as [La Lt Ls Lr _ _ Ld].
  destruct (generate_authors (opts s8)) eqn:Ea.
  { injection Hsrc as <-. auto. }
  destruct (generate_titles (opts s8)) eqn:Et.
  { injection Hsrc as <-. auto. }
  destruct (generate_series (opts s8)) eqn:Es.
  { injection Hsrc as <-. auto. }
  destruct Hflags as [Hf|[Hf|[Hf1 Hf2]]]; [congruence | congruence |].
  rewrite Hg, Hf1 in Hsrc.
  destruct (generate_recently_added (opts s8)) eqn:Er.
  { injection Hsrc as <-. auto. }
  destruct Hf2 as [Hf2|Hf2]; [congruence|].
  rewrite <- Hd in Hf2. destruct (Ld Hf2) as (bt & Hbt & Hperm & Hall).
  apply bind_Some in Hsrc as (books & Hbooks & Hsrc).
  apply bind_Some in Hsrc as (first & Hfirst & Hsrc). injection Hsrc as <-.
  assert (Hin : first ∈ bt).
  { assert (Hf : first ∈ books) by (destruct books; [discriminate|];
                                    injection Hfirst as <-; left).
    unfold sort_descriptions_by in Hbooks.
    destruct (sort_descriptions_by_author (opts s8)).
    - injection Hbooks as <-. now rewrite <- Hperm.
    - congruence. }
  rewrite Forall_forall in Hall. apply (Hall first Hin).
Qed.

End BuildLinks.

Lemma buildSources_links_witness :
  exists self',
    Build.buildSources SortTitle.title_sort_model (fun s => s) BuildExample.library
      (Build.CatalogBuilder (Build.run_options true true true true true true))
    = Some (true, self')
    /\ exists ncx,
        Build.ncxSoup self' = Some ncx
        /\ Forall (BuildInv.links_to (Build.written self'))
             (flat_map BuildInv.srcs (Ncx.nav_children ncx)).
Proof.
  eexists. split; [vm_compute; reflexivity|].
  apply (buildSources_links SortTitle.title_sort_model (fun s => s) BuildExample.library
           (Build.run_options true true true true true true)).
  vm_compute. reflexivity.
Defined.

Lemma buildSources_periodical_src_witness :
  exists self',
    Build.buildSources SortTitle.title_sort_model (fun s => s) BuildExample.library
      (Build.CatalogBuilder BuildExample.titles_only) = Some (true, self')
    /\ exists ncx,
        Build.ncxSoup self' = Some ncx /\ Ncx.nav_src ncx ∈ Build.written self'.
Proof.
  eexists. split; [vm_compute; reflexivity|].
  apply (buildSources_periodical_src SortTitle.title_sort_model (fun s => s)
           BuildExample.library BuildExample.titles_only).
  - vm_compute. reflexivity.
  - right. left. reflexivity.
Defined.

(** ** The short descriptions *)

Section ShortDescriptionFacts.
Import Text ShortDescription.

Variable authorClip descriptionClip : nat.

Lemma spaced_snoc (words : list string) (word : string) :
  spaced (words ++ [word]) = spaced words +:+ word +:+ " ".
Proof.
  induction words as [|w l IH]; [cbn; now rewrite append_nil_r|].
  cbn [app spaced foldr] in *. fold (spaced (l ++ [word])). fold (spaced l).
  now rewrite IH, !append_assoc3.
Qed.

(** The loop from the words [done] on: it returns at the first word with
    which the text exceeds the limit. *)
Lemma shortDescription_loop_spec (limit : nat) (words : list string) :
  forall done : list string,
    (String.length (spaced done) <= limit)%nat ->
    match shortDescription_loop words (spaced done) limit with
    | Some s =>
        exists k, (k < length words)%nat
                  /\ s = spaced (done ++ take (S k) words) +:+ "..."
                  /\ (String.length (spaced (done ++ take k words)) <= limit)%nat
                  /\ (limit < String.length (spaced (done ++ take (S k) words)))%nat
    | None => (String.length (spaced (done ++ words)) <= limit)%nat
    end.
Proof.
  induction words as [|word rest IH]; intros done Hdone.
  - cbn. now rewrite app_nil_r.
  - cbn [shortDescription_loop]. rewrite <- spaced_snoc.
    destruct (limit <? String.length (spaced (done ++ [word])))%nat eqn:E.
    + apply Nat.ltb_lt in E. exists 0%nat. cbn [take length].
      rewrite app_nil_r. repeat split; auto. lia.
    + apply Nat.ltb_ge in E. specialize (IH (done ++ [word]) E).
      destruct (shortDescription_loop rest _ limit) as [s|].
      * destruct IH as (k & Hk & -> & Hle & Hlt). exists (S k).
        cbn [take length]. rewrite <- !app_assoc in *. cbn [app] in *.
        repeat split; auto. lia.
      * now rewrite <- app_assoc in IH.
Qed.

Lemma shortDescription_spec (description : string) (limit : nat) :
  let words := split_ws description in
  match shortDescription description limit with
  | Some s =>
      exists k, (k < length words)%nat
                /\ s = spaced (take (S k) words) +:+ "..."
                /\ (String.length (spaced (take k words)) <= limit)%nat
                /\ (limit < String.length (spaced (take (S k) words)))%nat
  | None => (String.length (spaced words) <= limit)%nat
  end.
Proof.
  intros words. unfold shortDescription.
  apply (shortDescription_loop_spec limit words []). cbn. lia.
Qed.

Lemma generateShortDescription_clipped (description : string) (dest : option string)
    (clip : nat) :
  description <> "" ->
  clip_of authorClip descriptionClip dest clip ->
  generateShortDescription authorClip descriptionClip description dest
  = clipped description clip.
Proof.
  intros Hne [[-> ->]|[-> ->]]; destruct description; try contradiction; reflexivity.
Qed.

(** X12.  For the destinations author and description, a
    text that generateShortDescription returns is the description itself,
    shorter than the clip, or it is cut on a word boundary: leading words of
    the description, each followed by one space, then three dots, ending with
    the first word with which the text exceeds the clip; a cut text is longer
    than the clip by four characters at least. *)
Theorem generateShortDescription_truncated (description : string) (dest : option string)
    (clip : nat) (s : string) :
  clip_of authorClip descriptionClip dest clip ->
  generateShortDescription authorClip descriptionClip description dest = Text s ->
  (s = description /\ (String.length description < clip)%nat)
  \/ (exists k,
        let words := split_ws description in
        (k < length words)%nat
        /\ s = spaced (take (S k) words) +:+ "..."
        /\ (String.length (spaced (take k words)) <= clip)%nat
        /\ (clip < String.length (spaced (take (S k) words)))%nat
        /\ (clip + 4 <= String.length s)%nat).
Proof.
  intros Hclip H.
  assert (Hne : description <> "") by (intros ->; destruct dest; discriminate H).
  rewrite (generateShortDescription_clipped _ _ clip Hne Hclip) in H.
  unfold clipped in H.
  destruct (negb (clip =? 0)%nat && (String.length description <? clip)%nat) eqn:E.
  - injection H as <-. left. apply andb_true_iff in E as [_ E].
    apply Nat.ltb_lt in E. auto.
  - right. pose proof (shortDescription_spec description clip) as Hs. cbn zeta in Hs.
    destruct (shortDescription description clip) as [s'|]; [|discriminate].
    injection H as <-. destruct Hs as (k & Hk & -> & Hle & Hlt).
    exists k. cbn zeta. repeat split; auto.
    rewrite length_append. cbn [String.length]. lia.
Qed.

(** X13.  For the destinations author and description,
    generateShortDescription returns None for a description that is not
    shorter than the clip while its words, each followed by one space, do not
    exceed the clip: the loop of shortDescription ends without a return. *)
Theorem generateShortDescription_none (description : string) (dest : option string)
    (clip : nat) :
  clip_of authorClip descriptionClip dest clip ->
  description <> "" ->
  (clip <= String.length description)%nat ->
  (String.length (spaced (split_ws description)) <= clip)%nat ->
  generateShortDescription authorClip descriptionClip description dest = PyNone.
Proof.
  intros Hclip Hne Hlong Hwords.
  rewrite (generateShortDescription_clipped _ _ clip Hne Hclip). unfold clipped.
  assert ((String.length description <? clip)%nat = false) as ->
      by now apply Nat.ltb_ge.
  rewrite andb_false_r.
  pose proof (shortDescription_spec description clip) as Hs. cbn zeta in Hs.
  destruct (shortDescription description clip) as [s|]; [|reflexivity].
  destruct Hs as (k & Hk & _ & _ & Hlt).
  assert (Hmono : forall (l : list string) (n : nat),
             (String.length (spaced (take n l)) <= String.length (spaced l))%nat).
  { induction l as [|w l IH]; intros n; destruct n as [|n];
      cbn [take spaced foldr String.length]; try lia.
    fold (spaced l). fold (spaced (take n l)).
    rewrite !length_append. specialize (IH n). lia. }
  specialize (Hmono (split_ws description) (S k)). lia.
Qed.

End ShortDescriptionFacts.

Lemma generateShortDescription_truncated_witness :
  exists s,
    ShortDescription.generateShortDescription 6 10 "The quick brown fox"
      (Some "description") = ShortDescription.Text s
    /\ ((s = "The quick brown fox" /\ (String.length "The quick brown fox" < 10)%nat)
        \/ (exists k,
              let words := Text.split_ws "The quick brown fox" in
              (k < length words)%nat
              /\ s = ShortDescription.spaced (take (S k) words) +:+ "..."
              /\ (String.length (ShortDescription.spaced (take k words)) <= 10)%nat
              /\ (10 < String.length (ShortDescription.spaced (take (S k) words)))%nat
              /\ (10 + 4 <= String.length s)%nat)).
Proof.
  eexists. split; [vm_compute; reflexivity|].
  apply (generateShortDescription_truncated 6 10 "The quick brown fox"
           (Some "description") 10).
  - right. split; reflexivity.
  - vm_compute. reflexivity.
Defined.

Lemma generateShortDescription_none_witness :
  ShortDescription.generateShortDescription 6 10 "a        b" (Some "description")
  = ShortDescription.PyNone.
Proof.
  apply (generateShortDescription_none 6 10 "a        b" (Some "description") 10).
  - right. split; reflexivity.
  - discriminate.
  - vm_compute. lia.
  - vm_compute. lia.
Defined.

(** ** The sort keys of the books of an author *)

Section SortKeys.
Import Text PyFloat SortTitle Catalog Authors.

Variable title_sort_fn : string -> string.

(** A key that continues with a title against one that continues with
    the tilde of a series. *)
Lemma title_before_tilde (a t rest : string) :
  (forall c r, t = String c r -> code c < 126) ->
  String.ltb (a +:+ " " +:+ t) (a +:+ " ~" +:+ rest) = true.
Proof.
  intros Ht. rewrite ltb_append_prefix.
  change (" ~" +:+ rest) with (" " +:+ String "~" rest).
  rewrite (ltb_append_prefix " " t (String "~" rest)).
  destruct t as [|c r]; [reflexivity|]. apply ltb_first_char.
  now apply (Ht c r).
Qed.

Lemma tilde_before_title (a rest r : string) (c : ascii) :
  126 < code c ->
  String.ltb (a +:+ " ~" +:+ rest) (a +:+ " " +:+ String c r) = true.
Proof.
  intros Hc. rewrite ltb_append_prefix.
  change (" ~" +:+ rest) with (" " +:+ String "~" rest).
  rewrite (ltb_append_prefix " " (String "~" rest) (String c r)).
  now apply ltb_first_char.
Qed.

Lemma capitalize_head (s : string) (c : ascii) (r : string) :
  capitalize s = String c r -> exists c0 r0, s = String c0 r0 /\ c = upper_char c0.
Proof. destruct s as [|c0 r0]; [discriminate|]. cbn. intros H. injection H as <- _. eauto. Qed.

(** X14.  Both sorters put a book without series before
    the books of a series of the same author (the same capitalized
    author_sort, or the same author_to_author_sort of the author) when its
    sort title is empty or begins, in upper case, with a character before the
    tilde; a sort title that begins with a character after the tilde puts it
    behind them. *)
Theorem booksByAuthorSorter_series_last (b1 b2 : book) :
  no_series b1 = true -> no_series b2 = false ->
  (capitalize (author_sort b1) = capitalize (author_sort b2) ->
   ((forall c r, title_sort b1 = String c r -> code (upper_char c) < 126) ->
    String.ltb (booksByAuthorSorter_author_sort title_sort_fn b1)
               (booksByAuthorSorter_author_sort title_sort_fn b2) = true)
   /\ (forall c r, title_sort b1 = String c r -> 126 < code (upper_char c) ->
       String.ltb (booksByAuthorSorter_author_sort title_sort_fn b2)
                  (booksByAuthorSorter_author_sort title_sort_fn b1) = true))
  /\ (author_to_author_sort (author b1) = author_to_author_sort (author b2) ->
      ((forall c r, title_sort b1 = String c r -> code (upper_char c) < 126) ->
       String.ltb (booksByAuthorSorter_author title_sort_fn b1)
                  (booksByAuthorSorter_author title_sort_fn b2) = true)
      /\ (forall c r, title_sort b1 = String c r -> 126 < code (upper_char c) ->
          String.ltb (booksByAuthorSorter_author title_sort_fn b2)
                     (booksByAuthorSorter_author title_sort_fn b1) = true)).
Proof.
  intros H1 H2. unfold booksByAuthorSorter_author_sort, booksByAuthorSorter_author.
  rewrite H1, H2.
  split; intros ->; (split; [intros Ht | intros c r Hts Hc]).
  - apply title_before_tilde. intros c r Hcap.
    apply capitalize_head in Hcap as (c0 & r0 & Hts & ->). eauto.
  - rewrite Hts. cbn [capitalize]. now apply tilde_before_title.
  - apply title_before_tilde. intros c r Hcap.
    apply capitalize_head in Hcap as (c0 & r0 & Hts & ->). eauto.
  - rewrite Hts. cbn [capitalize]. now apply tilde_before_title.
Qed.

(** *** The series index *)

Lemma digs_leading_zero (k : nat) :
  forall n : N, (n < 10 ^ N.of_nat k)%N -> digs (S k) n = String "0" (digs k n).
Proof.
  induction k as [|k IH]; intros n Hn.
  - change (10 ^ N.of_nat 0)%N with 1%N in Hn. assert (n = 0%N) as -> by lia. reflexivity.
  - change (digs (S (S k)) n) with (digs (S k) (n / 10) +:+ str1 (digit_char (n mod 10))).
    rewrite IH.
    + rewrite append_cons. reflexivity.
    + replace (N.of_nat (S k)) with (N.succ (N.of_nat k)) in Hn by lia.
      rewrite N.pow_succ_r' in Hn. apply N.Div0.div_lt_upper_bound. lia.
Qed.

Lemma zeros_digs (j k : nat) (n : N) :
  (n < 10 ^ N.of_nat k)%N -> zeros j +:+ digs k n = digs (j + k) n.
Proof.
  intros Hn. induction j as [|j IH]; [reflexivity|].
  cbn [zeros Nat.add]. rewrite append_cons, IH. symmetry. apply digs_leading_zero.
  eapply N.lt_le_trans; [exact Hn|]. apply N.pow_le_mono_r; lia.
Qed.

(** ['%04d'] of a number below 10000 is its four digits. *)
Lemma fmt_04d_digs (i : Z) : 0 <= i < 10000 -> fmt_04d i = digs 4 (Z.to_N i).
Proof.
  intros Hi. unfold fmt_04d. assert ((i <? 0) = false) as -> by lia.
  destruct (str_of_N_digs (Z.to_N i)) as (k & Hk1 & Hlt & Hge & ->).
  assert (Hk : (k <= 4)%nat).
  { destruct Hge as [->|Hge]; [lia|].
    destruct (le_gt_dec k 4) as [|Hgt]; [assumption|exfalso].
    assert (10 ^ 4 <= 10 ^ N.of_nat (k - 1))%N by (apply N.pow_le_mono_r; lia).
    change (10 ^ 4)%N with 10000%N in *. lia. }
  unfold zero_pad. rewrite length_digs, zeros_digs by assumption.
  now replace (4 - k + k)%nat with 4%nat by lia.
Qed.

(** The text of a whole series index. *)
Lemma series_index_text_whole (i : Z) :
  series_index_text (inject_Z i) = fmt_04d i +:+ ".0000".
Proof.
  unfold series_index_text, int_of. cbn [inject_Z Qnum Qden].
  rewrite Z.quot_1_r. f_equal.
  unfold Qminus, Qplus, Qopp, inject_Z. cbn [Qnum Qden].
  replace (i * 1 + - i * 1) with 0 by lia. reflexivity.
Qed.

(** X15.  Both sorters order two books of one series of
    one author by the series index, for whole indexes from 0 to 9999 (the
    four digits of '%04d'). *)
Theorem booksByAuthorSorter_series_index (b1 b2 : book) (i1 i2 : Z) :
  no_series b1 = false -> no_series b2 = false ->
  series b1 = series b2 ->
  series_index b1 = inject_Z i1 -> series_index b2 = inject_Z i2 ->
  0 <= i1 < i2 -> i2 < 10000 ->
  (capitalize (author_sort b1) = capitalize (author_sort b2) ->
   String.ltb (booksByAuthorSorter_author_sort title_sort_fn b1)
              (booksByAuthorSorter_author_sort title_sort_fn b2) = true)
  /\ (author_to_author_sort (author b1) = author_to_author_sort (author b2) ->
      String.ltb (booksByAuthorSorter_author title_sort_fn b1)
                 (booksByAuthorSorter_author title_sort_fn b2) = true).
Proof.
  intros H1 H2 Hs Hi1 Hi2 Hlt Hmax.
  unfold booksByAuthorSorter_author_sort, booksByAuthorSorter_author.
  rewrite H1, H2, Hs, Hi1, Hi2, !series_index_text_whole.
  rewrite !fmt_04d_digs by lia.
  assert (Hd : String.ltb (digs 4 (Z.to_N i1) +:+ ".0000") (digs 4 (Z.to_N i2) +:+ ".0000")
               = true).
  { apply ltb_append_same_length; [now rewrite !length_digs|].
    apply digs_lt; [change (10 ^ N.of_nat 4)%N with 10000%N|]; lia. }
  split; intros ->; rewrite !ltb_append_prefix; exact Hd.
Qed.

End SortKeys.

Lemma booksByAuthorSorter_series_last_witness :
  let b1 := AuthorsExample.carrie in
  let b2 :=
    AuthorsExample.mk 2 "The Gunslinger" "Gunslinger" "Stephen King" "King, Stephen"
      (Some "Dark Tower") 1 in
  let key1 := Authors.booksByAuthorSorter_author_sort SortTitle.title_sort_model in
  let key2 := Authors.booksByAuthorSorter_author SortTitle.title_sort_model in
  (Text.capitalize (Catalog.author_sort b1) = Text.capitalize (Catalog.author_sort b2) ->
   ((forall c r, Catalog.title_sort b1 = String c r -> Text.code (Text.upper_char c) < 126) ->
    String.ltb (key1 b1) (key1 b2) = true)
   /\ (forall c r, Catalog.title_sort b1 = String c r ->
        126 < Text.code (Text.upper_char c) -> String.ltb (key1 b2) (key1 b1) = true))
  /\ (Authors.author_to_author_sort (Catalog.author b1)
      = Authors.author_to_author_sort (Catalog.author b2) ->
      ((forall c r, Catalog.title_sort b1 = String c r ->
                    Text.code (Text.upper_char c) < 126) ->
       String.ltb (key2 b1) (key2 b2) = true)
      /\ (forall c r, Catalog.title_sort b1 = String c r ->
           126 < Text.code (Text.upper_char c) -> String.ltb (key2 b2) (key2 b1) = true)).
Proof.
  apply (booksByAuthorSorter_series_last SortTitle.title_sort_model
           AuthorsExample.carrie
           (AuthorsExample.mk 2 "The Gunslinger" "Gunslinger" "Stephen King"
              "King, Stephen" (Some "Dark Tower") 1)); reflexivity.
Defined.

Lemma booksByAuthorSorter_series_index_witness :
  let b1 := AuthorsExample.gunslinger in
  let b2 :=
    AuthorsExample.mk 4 "The Drawing of the Three" "Drawing of the Three" "Stephen King"
      "King, S." (Some "Dark Tower") 2 in
  (Text.capitalize (Catalog.author_sort b1) = Text.capitalize (Catalog.author_sort b2) ->
   String.ltb (Authors.booksByAuthorSorter_author_sort SortTitle.title_sort_model b1)
              (Authors.booksByAuthorSorter_author_sort SortTitle.title_sort_model b2)
   = true)
  /\ (Authors.author_to_author_sort (Catalog.author b1)
      = Authors.author_to_author_sort (Catalog.author b2) ->
      String.ltb (Authors.booksByAuthorSorter_author SortTitle.title_sort_model b1)
                 (Authors.booksByAuthorSorter_author SortTitle.title_sort_model b2)
      = true).
Proof.
  apply (booksByAuthorSorter_series_index SortTitle.title_sort_model
           AuthorsExample.gunslinger
           (AuthorsExample.mk 4 "The Drawing of the Three" "Drawing of the Three"
              "Stephen King" "King, S." (Some "Dark Tower") 2) 1 2);
    try reflexivity; lia.
Defined.

(** ** The letters of the Titles section in the HTML file and in the NCX *)

Section TitleAnchorsFacts.
Import Text SortTitle Catalog Titles Ncx Build BuildInv TitleAnchors.

Lemma loop_nonempty (l : list book) :
  forall st st', loop l st = Some st' -> Forall (fun b => title_sort b <> EmptyString) l.
Proof.
  induction l as [|b rest IH]; intros st st' H; [constructor|].
  cbn [loop] in H. apply bind_Some in H as (st1 & Hb & H).
  constructor; [|eauto]. intros Hts. unfold loop_body in Hb. rewrite Hts in Hb.
  discriminate Hb.
Qed.

Lemma letter_anchors_buckets (gs : list (string * list book)) :
  letter_anchors (map render_bucket gs) = map fst gs.
Proof.
  unfold letter_anchors. induction gs as [|g gs IH]; [reflexivity|].
  cbn [map flat_map render_bucket]. rewrite IH. f_equal.
  induction (g.2) as [|b bs IHb]; [reflexivity | exact IHb].
Qed.

(** The letters that the NCX loop collects are those of the buckets. *)
Lemma letters_loop_buckets (l : list book) :
  forall (L : string) (bs : list book) (acc : list string),
    Forall (fun b => title_sort b <> EmptyString) l ->
    letters_loop (fun book => first_char (title_sort book)) l L (acc ++ [L])
    = Some (acc ++ map fst (Groups.continue_group (L, bs) (buckets l))).
Proof.
  induction l as [|b rest IH]; intros L bs acc Hne; [reflexivity|].
  apply Forall_cons in Hne as [Hb Hrest].
  destruct (title_sort b) as [|c r] eqn:Hts; [contradiction|].
  pose proof (letter_of_cons b c r Hts) as Hlet.
  cbn [letters_loop]. rewrite Hts. cbn [first_char mbind option_bind].
  destruct (decide (letter_or_symbol (str1 c) = L)) as [<-|HL].
  - rewrite bool_decide_eq_false_2 by auto.
    rewrite (IH _ (bs ++ [b]) acc Hrest).
    unfold buckets. now rewrite (continue_group_same letter_of).
  - rewrite bool_decide_eq_true_2 by exact HL.
    rewrite (IH _ [b] (acc ++ [L]) Hrest).
    unfold buckets. rewrite (continue_group_other letter_of) by congruence.
    rewrite group_cons, Hlet, <- app_assoc. reflexivity.
Qed.

Lemma title_letters_of_buckets (l : list book) :
  l <> [] -> Forall (fun b => title_sort b <> EmptyString) l ->
  title_letters_of (fun book => first_char (title_sort book)) l
  = Some (map fst (buckets l)).
Proof.
  intros Hl Hne. destruct l as [|b rest]; [contradiction|].
  pose proof Hne as Hall. apply Forall_cons in Hne as [Hb Hrest].
  destruct (title_sort b) as [|c r] eqn:Hts; [contradiction|].
  unfold title_letters_of. cbn [head mbind option_bind]. rewrite Hts.
  cbn [first_char mbind option_bind].
  pose proof (letters_loop_buckets (b :: rest) (letter_or_symbol (str1 c)) [] [] Hall)
    as Hloop.
  cbn [app] in Hloop. rewrite Hloop. f_equal. unfold buckets.
  rewrite (continue_group_same letter_of) by apply (letter_of_cons b c r Hts).
  rewrite group_cons, (letter_of_cons b c r Hts). reflexivity.
Qed.

(** X16.  After generateHTMLByTitle has written the Titles
    section for a non-empty list of books, generateNCXByTitle succeeds on a
    builder with the same list booksByTitle_noSeriesPrefix and an NCX, and
    the section it appends links, after its own start, to
    content/ByAlphaTitle.html#<letter> for exactly the names of the letter
    anchors of the HTML section, in their order. *)
Theorem generateNCXByTitle_anchors (tocTitle : string) (self0 self1 self : builder)
    (books : list book) (body : navPoint) :
  booksByTitle self0 = Some books -> books <> [] ->
  generateHTMLByTitle self0 = Some self1 ->
  booksByTitle_noSeriesPrefix self = booksByTitle_noSeriesPrefix self1 ->
  ncxSoup self = Some body ->
  exists div section self',
    Titles.generateHTMLByTitle books = Some div
    /\ generateNCXByTitle tocTitle self = Some self'
    /\ ncxSoup self' = Some (append_child section body)
    /\ srcs section
       = "content/ByAlphaTitle.html#section_start"
         :: map (fun letter => "content/ByAlphaTitle.html#" +:+ letter) (letter_anchors div).
Proof.
  intros Hbooks Hne Hhtml Hlist Hsoup.
  unfold Build.generateHTMLByTitle in Hhtml. rewrite Hbooks in Hhtml.
  cbn [mbind option_bind] in Hhtml.
  destruct (Titles.generateHTMLByTitle books) as [div|] eqn:Hdiv; [|discriminate].
  cbn [mbind option_bind] in Hhtml. injection Hhtml as <-.
  assert (Hl : booksByTitle_noSeriesPrefix self = sorted_by_title_sort books)
    by (rewrite Hlist; unfold write; now destruct self0).
  unfold Titles.generateHTMLByTitle in Hdiv.
  apply bind_Some in Hdiv as (st & Hloop & Hdiv).
  pose proof (loop_nonempty _ _ _ Hloop) as Hall.
  destruct (loop_buckets _ Hall) as (st' & Hloop' & Hbuilt).
  assert (st' = st) as -> by congruence.
  assert (Hd : div = map render_bucket (buckets (sorted_by_title_sort books))).
  { injection Hdiv as <-. exact Hbuilt. }
  assert (Hsorted : sorted_by_title_sort books <> []).
  { intros Hnil. apply Hne. apply Permutation_nil_r.
    rewrite <- Hnil. unfold sorted_by_title_sort. now rewrite sorted_perm. }
  pose proof (title_letters_of_buckets _ Hsorted Hall) as Hletters.
  set (st0 := section_navPoint "byalphatitle-ID" "content/ByAlphaTitle.html#section_start"
                self).
  set (final := foldl (fun st letter =>
                         add_article (upper letter +:+ "Titles-ID")
                           ("content/ByAlphaTitle.html#" +:+ letter) st)
                  st0 (map fst (buckets (sorted_by_title_sort books)))).
  assert (Hfinal : ncxSoup final.2 = Some body).
  { rewrite <- Hsoup. apply (section_inv_soup self (playOrder self)).
    apply foldl_add_article, section_navPoint_inv. }
  exists div, final.1, (set_ncxSoup (Some (append_child final.1 body)) final.2).
  split; [reflexivity|].
  split; [|split].
  - unfold generateNCXByTitle. rewrite Hsoup, Hl. cbn [mbind option_bind].
    rewrite Hletters. cbn [mbind option_bind]. fold st0. fold final.
    unfold add_to_body. destruct final as [sec s]. cbn [fst snd] in *.
    rewrite Hfinal. reflexivity.
  - now destruct (final.2).
  - unfold final. rewrite foldl_add_article_srcs, Hd, letter_anchors_buckets. reflexivity.
Qed.

End TitleAnchorsFacts.

Lemma generateNCXByTitle_anchors_witness :
  let books := [BuildExample.apple; BuildExample.brick; BuildExample.year_1984] in
  let self0 :=
    Build.set_booksByTitle (Some books) (Build.CatalogBuilder BuildExample.titles_only) in
  let body :=
    {| Ncx.nav_class := "periodical"; Ncx.nav_id := "title";
       Ncx.nav_playOrder := Some 1; Ncx.nav_src := "content/ByAlphaTitle.html";
       Ncx.nav_children := [] |} in
  exists self1,
    Build.generateHTMLByTitle self0 = Some self1
    /\ exists div section self',
        Titles.generateHTMLByTitle books = Some div
        /\ Build.generateNCXByTitle "Titles" (Build.set_ncxSoup (Some body) self1)
           = Some self'
        /\ Build.ncxSoup self' = Some (Ncx.append_child section body)
        /\ BuildInv.srcs section
           = "content/ByAlphaTitle.html#section_start"
             :: map (fun letter => "content/ByAlphaTitle.html#" +:+ letter)
                  (TitleAnchors.letter_anchors div).
Proof.
  intros books self0 body. eexists. split; [vm_compute; reflexivity|].
  eapply generateNCXByTitle_anchors with (self0 := self0) (books := books).
  - reflexivity.
  - discriminate.
  - vm_compute. reflexivity.
  - reflexivity.
  - reflexivity.
Defined.

(** ** The dates of the Recently Added section in the HTML file and in the
    NCX *)

Section DateAnchorsFacts.
Import Text Catalog Dates DateAdded Groups Ncx Build BuildInv DateAnchors.

Variable inp : inputs.

Lemma date_anchors_app (a b : list paragraph) :
  date_anchors (a ++ b) = date_anchors a ++ date_anchors b.
Proof. apply omap_app. Qed.

Lemma date_anchors_outline (ps : list paragraph) :
  date_anchors (outline ps) = date_anchors ps.
Proof.
  unfold date_anchors, outline. induction ps as [|p ps IH]; [reflexivity|].
  destruct p; cbn [List.filter is_outline omap list_omap anchor_of]; now rewrite ?IH.
Qed.

Lemma date_anchors_books (bs : list book) : date_anchors (map BookLine bs) = [].
Proof. induction bs as [|b bs IH]; [reflexivity | exact IH]. Qed.

Lemma date_anchors_months (gs : list (Z * Z * list book)) :
  date_anchors (concat (map month_bucket gs))
  = map (fun g => "bda_" +:+ str_of_Z g.1.1 +:+ "-" +:+ str_of_Z g.1.2) gs.
Proof.
  induction gs as [|g gs IH]; [reflexivity|].
  cbn [map concat]. rewrite date_anchors_app, IH. unfold month_bucket.
  change (date_anchors (MonthIndex g.1.1 g.1.2 :: map BookLine g.2))
    with (("bda_" +:+ str_of_Z g.1.1 +:+ "-" +:+ str_of_Z g.1.2)
          :: date_anchors (map BookLine g.2)).
  now rewrite date_anchors_books.
Qed.

(** The [div] of the section in outline: the bucket of the last 30 days
    and the months. *)
Lemma generateHTMLByDateAdded_outline (now : datetime) (books : list book)
    (ps : list paragraph) :
  Forall (fun b => valid (timestamp b)) books ->
  DateAdded.generateHTMLByDateAdded now books = Some ps ->
  sorted_by_timestamp books <> []
  /\ outline ps
     = range_bucket "Last 30 days" (recent (end_of_day now) 30 (sorted_by_timestamp books))
       ++ concat (map month_bucket (group_adjacent month_of (sorted_by_timestamp books))).
Proof.
  intros Hvalid H. set (by_date := sorted_by_timestamp books) in *.
  set (today_time := end_of_day now) in *.
  assert (Hperm : by_date ≡ₚ books) by apply sorted_perm.
  assert (Hvalid' : Forall (fun b => valid (timestamp b)) by_date) by now rewrite Hperm.
  pose proof (sorted_by_timestamp_sorted books) as Hsorted. fold by_date in Hsorted.
  assert (Hdays : StronglySorted
                    (fun a b => delta_days today_time (timestamp a)
                                <= delta_days today_time (timestamp b)) by_date).
  { eapply StronglySorted_change; [|exact Hvalid'|exact Hsorted].
    intros a b Va Vb Hab. now apply delta_days_mono. }
  destruct (take_recent_filter today_time 30 by_date Hdays [] None)
    as (bk & Htake & Hbk).
  destruct (months_loop_start by_date
              ([] ++ range_bucket "Last 30 days" (recent today_time 30 by_date)))
    as (X & HX & Ho).
  unfold DateAdded.generateHTMLByDateAdded, DATE_RANGE in H. fold by_date in H.
  fold today_time in H. cbn [ranges_loop] in H. rewrite Htake in H.
  cbn [app] in H. destruct bk as [b0|]; [|discriminate H].
  cbn [mbind option_bind] in H.
  change {| divTag := []; dtc := 0 |} with (at_end []) in H.
  change ("Last " +:+ str_of_Z 30 +:+ " days") with "Last 30 days" in H.
  rewrite add_by_date_range_at_end, HX in H. injection H as <-.
  split.
  - intros E. rewrite E in Htake. cbn in Htake. discriminate Htake.
  - cbn [at_end divTag]. rewrite outline_app, Ho. f_equal. cbn [app].
    unfold range_bucket. destruct (recent today_time 30 by_date); [reflexivity|].
    cbn. do 2 f_equal. exact (outline_book_lines _).
Qed.

(** The dates that the NCX loop collects are those of the groups. *)
Lemma dates_loop_groups {A D : Type} `{EqDecision D} (date_of : A -> D) (l : list A) :
  forall (cur : D) (bs : list A) (acc : list D),
    dates_loop date_of l cur acc
    = acc ++ map fst (continue_group (cur, bs) (group_adjacent date_of l)).
Proof.
  induction l as [|b rest IH]; intros cur bs acc; [reflexivity|].
  cbn [dates_loop]. destruct (decide (date_of b = cur)) as [Hb|Hb].
  - rewrite bool_decide_eq_false_2 by auto. rewrite (IH cur (bs ++ [b]) acc).
    now rewrite (continue_group_same date_of) by exact Hb.
  - rewrite bool_decide_eq_true_2 by exact Hb. rewrite (IH (date_of b) [b] (acc ++ [cur])).
    rewrite (continue_group_other date_of) by exact Hb.
    rewrite group_cons, <- app_assoc. reflexivity.
Qed.

Lemma dates_loop_first {A D : Type} `{EqDecision D} (date_of : A -> D) (first : A)
    (rest : list A) :
  dates_loop date_of (first :: rest) (date_of first) []
  = map fst (group_adjacent date_of (first :: rest)).
Proof.
  rewrite (dates_loop_groups date_of (first :: rest) (date_of first) [] []).
  cbn [app]. rewrite (continue_group_same date_of) by reflexivity.
  now rewrite group_cons.
Qed.

(** A book that the NCX counts among the last 30 days, by the days
    between two midnights, is in the bucket of the HTML file. *)
Lemma midnight_days (now ts : datetime) :
  valid now -> valid ts ->
  delta_days (midnight now) (midnight ts) <= 30 ->
  delta_days (end_of_day now) ts <= 30.
Proof.
  intros (_ & _ & _ & _ & _ & _ & Hus) (_ & _ & _ & Hh & Hm & Hs & Hu).
  unfold delta_days, to_microseconds, microseconds_per_day, midnight, end_of_day, toordinal.
  cbn [year month day hour minute second microsecond].
  set (a := days_before_year (year now) + days_before_month (year now) (month now)
            + day now).
  set (b := days_before_year (year ts) + days_before_month (year ts) (month ts) + day ts).
  clearbody a b. intros H.
  assert (Hab : a - b <= 30) by (Z.to_euclidean_division_equations; lia).
  apply Z.lt_succ_r. apply Z.div_lt_upper_bound; lia.
Qed.

Lemma titles_in_range_some (today_time : datetime) (limit : Z) (l : list book) :
  forall (acc : list string) (b : book),
    exists more b', titles_in_range today_time limit l acc (Some b) = (acc ++ more, Some b').
Proof.
  induction l as [|x rest IH]; intros acc b.
  - exists [], b. now rewrite app_nil_r.
  - cbn [titles_in_range]. destruct (_ <=? limit).
    + destruct (IH (acc ++ [Catalog.title x]) x) as (more & b' & ->).
      exists (Catalog.title x :: more), b'. now rewrite <- app_assoc.
    + exists [], x. now rewrite app_nil_r.
Qed.

(** The date ranges of the NCX: the last 30 days, when the first book of
    the list is that recent. *)
Lemma date_ranges_loop_first (today_time : datetime) (first : book) (rest : list book) :
  exists ranges,
    date_ranges_loop today_time (first :: rest) 0 0 DATE_RANGE [] [] = Some ranges
    /\ (ranges = []
        \/ (ranges = ["Last 30 days"]
            /\ delta_days today_time (midnight (timestamp first)) <= 30)).
Proof.
  unfold DATE_RANGE. cbn [date_ranges_loop titles_in_range].
  destruct (Z.leb_spec (delta_days today_time (midnight (timestamp first))) 30) as [Hd|Hd].
  - destruct (titles_in_range_some today_time 30 rest ([] ++ [Catalog.title first]) first)
      as (more & b' & ->).
    cbn [app mbind option_bind]. eexists. split; [reflexivity|]. right. split; [|exact Hd].
    reflexivity.
  - cbn [app mbind option_bind]. eexists. split; [reflexivity|]. now left.
Qed.

(** X17.  After generateHTMLByDateAdded has written the
    Recently Added section, generateNCXByDateAdded succeeds on a builder
    holding the same lists booksByDateRange and booksByMonth and an NCX, and
    the articles of the section it appends link to
    content/ByDateAdded.html#<anchor> for the names of the anchors of the
    HTML section, in their order: for all of them, or for all but the anchor
    of the last 30 days. *)
Theorem generateNCXByDateAdded_anchors (tocTitle : string) (self0 self1 self : builder)
    (books : list book) (body : navPoint) :
  valid (now inp) ->
  Forall (fun b => valid (timestamp b)) books ->
  booksByTitle self0 = Some books ->
  Build.generateHTMLByDateAdded inp self0 = Some self1 ->
  booksByDateRange self = booksByDateRange self1 ->
  booksByMonth self = booksByMonth self1 ->
  ncxSoup self = Some body ->
  exists ps section self' linked,
    DateAdded.generateHTMLByDateAdded (now inp) books = Some ps
    /\ generateNCXByDateAdded inp tocTitle self = Some self'
    /\ ncxSoup self' = Some (append_child section body)
    /\ srcs section
       = "content/ByDateAdded.html#section_start"
         :: map (fun anchor => "content/ByDateAdded.html#" +:+ anchor) linked
    /\ (date_anchors ps = linked \/ date_anchors ps = "bda_Last30days" :: linked).
Proof.
  intros Vnow Vbooks Hbooks Hhtml Hrange Hmonth Hsoup.
  unfold Build.generateHTMLByDateAdded in Hhtml. rewrite Hbooks in Hhtml.
  cbn [mbind option_bind] in Hhtml.
  destruct (DateAdded.generateHTMLByDateAdded (now inp) books) as [ps|] eqn:Hps;
    [|discriminate].
  cbn [mbind option_bind] in Hhtml. injection Hhtml as <-.
  assert (Hr : booksByDateRange self = sorted_by_timestamp books)
    by (rewrite Hrange; unfold write; now destruct self0).
  assert (Hm : booksByMonth self = sorted_by_timestamp books)
    by (rewrite Hmonth; unfold write; now destruct self0).
  destruct (generateHTMLByDateAdded_outline _ _ _ Vbooks Hps) as [Hne Hout].
  assert (Hvalid : Forall (fun b => valid (timestamp b)) (sorted_by_timestamp books)).
  { unfold sorted_by_timestamp, PySort.sorted_reverse. now rewrite sorted_perm. }
  destruct (sorted_by_timestamp books) as [|first rest] eqn:Hsorted; [contradiction|].
  apply Forall_cons in Hvalid as [Vfirst _].
  destruct (date_ranges_loop_first (midnight (now inp)) first rest)
    as (ranges & Hranges & Hcases).
  set (months := group_adjacent month_of (first :: rest)) in *.
  set (st0 := section_navPoint (file_ID tocTitle +:+ "-ID")
                ("content/ByDateAdded.html" +:+ "#section_start") self).
  set (st1 := foldl (fun st date_range =>
                       add_article (replace " " "" date_range +:+ "-ID")
                         ("content/ByDateAdded.html" +:+ "#bda_"
                          +:+ replace " " "" date_range) st)
                st0 ranges).
  set (final := foldl (fun st (date : Z * Z) =>
                         add_article
                           ("bda_" +:+ str_of_Z date.1 +:+ "-" +:+ str_of_Z date.2 +:+ "-ID")
                           ("content/ByDateAdded.html" +:+ "#bda_" +:+ str_of_Z date.1
                            +:+ "-" +:+ str_of_Z date.2) st)
                  st1 (map fst months)).
  assert (Hfinal : ncxSoup final.2 = Some body).
  { rewrite <- Hsoup. apply (section_inv_soup self (playOrder self)).
    apply foldl_add_article, foldl_add_article, section_navPoint_inv. }
  exists ps, final.1, (set_ncxSoup (Some (append_child final.1 body)) final.2).
  exists (map (fun date_range => "bda_" +:+ replace " " "" date_range) ranges
          ++ map (fun g : Z * Z * list book =>
                    "bda_" +:+ str_of_Z g.1.1 +:+ "-" +:+ str_of_Z g.1.2) months).
  split; [reflexivity|]. split; [|split; [|split]].
  - unfold generateNCXByDateAdded. rewrite Hsoup, Hr, Hm. cbn [mbind option_bind].
    rewrite Hranges. cbn [mbind option_bind head].
    rewrite dates_loop_first. fold months. fold st0. fold st1. fold final.
    unfold add_to_body. destruct final as [sec s]. cbn [fst snd] in *.
    rewrite Hfinal. reflexivity.
  - now destruct (final.2).
  - unfold final, st1. rewrite !foldl_add_article_srcs.
    rewrite List.map_app, !List.map_map. cbn [app]. reflexivity.
  - rewrite <- date_anchors_outline, Hout, date_anchors_app, date_anchors_months.
    fold months. destruct Hcases as [->|[-> Hd]].
    + cbn [map app]. unfold range_bucket. destruct (recent _ 30 _) as [|b bs].
      * now left.
      * right. change (date_anchors (RangeIndex "Last 30 days" :: map BookLine (b :: bs)))
          with ("bda_Last30days" :: date_anchors (map BookLine (b :: bs))).
        now rewrite date_anchors_books.
    + left. unfold range_bucket, recent. cbn [List.filter].
      apply (midnight_days _ _ Vnow Vfirst) in Hd.
      assert ((delta_days (end_of_day (now inp)) (timestamp first) <=? 30) = true) as ->
          by now apply Z.leb_le.
      change (date_anchors (RangeIndex "Last 30 days" :: map BookLine ?l))
        with ("bda_Last30days" :: date_anchors (map BookLine l)).
      rewrite date_anchors_books. reflexivity.
Qed.

End DateAnchorsFacts.

Lemma generateNCXByDateAdded_anchors_witness :
  let books := [BuildExample.apple; BuildExample.brick; BuildExample.year_1984] in
  let self0 :=
    Build.set_booksByTitle (Some books)
      (Build.CatalogBuilder (Build.run_options false false false false true false)) in
  let body :=
    {| Ncx.nav_class := "periodical"; Ncx.nav_id := "title";
       Ncx.nav_playOrder := Some 1; Ncx.nav_src := "content/ByDateAdded.html";
       Ncx.nav_children := [] |} in
  exists self1,
    Build.generateHTMLByDateAdded BuildExample.library self0 = Some self1
    /\ exists ps section self' linked,
        DateAdded.generateHTMLByDateAdded (Build.now BuildExample.library) books = Some ps
        /\ Build.generateNCXByDateAdded BuildExample.library "Recently Added"
             (Build.set_ncxSoup (Some body) self1) = Some self'
        /\ Build.ncxSoup self' = Some (Ncx.append_child section body)
        /\ BuildInv.srcs section
           = "content/ByDateAdded.html#section_start"
             :: map (fun anchor => "content/ByDateAdded.html#" +:+ anchor) linked
        /\ (DateAnchors.date_anchors ps = linked
            \/ DateAnchors.date_anchors ps = "bda_Last30days" :: linked).
Proof.
  intros books self0 body. eexists. split; [vm_compute; reflexivity|].
  eapply generateNCXByDateAdded_anchors with (self0 := self0) (books := books).
  - unfold Dates.valid. vm_compute. repeat split; discriminate.
  - repeat constructor; unfold Dates.valid; vm_compute; repeat split; discriminate.
  - reflexivity.
  - vm_compute. reflexivity.
  - reflexivity.
  - reflexivity.
  - reflexivity.
Defined.

(** ** The BibTeX catalog *)

Section BibtexFacts.
Import Text Csv Bibtex.

Variable bibtex_author_format : pyval -> option string.
Variable utf8ToBibtex : pyval -> option string.
Variable py_int : pyval -> option Z.
Variable year_of : pyval -> option Z.
Variable strftime_b : pyval -> option string.
Variable make_bibtex_citation : entry -> option string.
Variable generated_on : string.

Lemma prefix_append (a b : string) : String.prefix a (a +:+ b) = true.
Proof.
  induction a as [|c a IH]; [apply prefix_nil|]. rewrite append_cons. cbn.
  destruct (ascii_dec c c); [exact IH | contradiction].
Qed.

Lemma fields_loop_keeps (e : entry) (fields : list string) :
  forall acc lines,
    fields_loop bibtex_author_format utf8ToBibtex py_int year_of strftime_b e fields acc
    = Some lines ->
    exists more, lines = acc ++ more.
Proof.
  induction fields as [|field rest IH]; intros acc lines H.
  - injection H as <-. exists []. now rewrite app_nil_r.
  - cbn [fields_loop] in H. apply bind_Some in H as (item & _ & H).
    assert (Hskip : fields_loop bibtex_author_format utf8ToBibtex py_int year_of
                      strftime_b e rest acc = Some lines -> exists more, lines = acc ++ more)
      by apply IH.
    assert (Hadd : (field_lines bibtex_author_format utf8ToBibtex py_int year_of
                      strftime_b field item
                    ≫= fun l => fields_loop bibtex_author_format utf8ToBibtex py_int
                                  year_of strftime_b e rest (acc ++ l)) = Some lines ->
                   exists more, lines = acc ++ more).
    { intros Ha. apply bind_Some in Ha as (l & _ & Ha).
      apply IH in Ha as (more & ->). exists (l ++ more). now rewrite app_assoc. }
    destruct item as [|s|l shown|shown iso]; cbn [py_len] in H; auto.
    + destruct (String.length s); auto.
    + destruct (length l); auto.
Qed.

(** The type of an entry: what create_bibtex_entry writes first. *)
Lemma create_bibtex_entry_start (e : entry) (fields : list string) (mode : string)
    (citation_bibtex : bool) (t : string) :
  create_bibtex_entry bibtex_author_format utf8ToBibtex py_int year_of strftime_b
    make_bibtex_citation e fields mode citation_bibtex = Some t ->
  exists is_book : bool,
    (if bool_decide (mode <> "misc") then check_entry_book_valid e else Some false)
    = Some is_book
    /\ if is_book then String.prefix "@book{" t = true
       else if bool_decide (mode <> "book") then String.prefix "@misc{" t = true
            else t = "".
Proof.
  unfold create_bibtex_entry. intros H.
  apply bind_Some in H as (is_book & Hb & H). exists is_book. split; [exact Hb|].
  assert (Hstart : forall start : string,
             (bibtex_entry ← (if citation_bibtex
                              then citation ← make_bibtex_citation e;
                                   Some [join " " [start; citation]]
                              else Some [start]);
              bibtex_entry ← fields_loop bibtex_author_format utf8ToBibtex py_int year_of
                               strftime_b e fields bibtex_entry;
              Some (join ("," +:+ nl +:+ "    ") bibtex_entry +:+ " }" +:+ nl +:+ nl))
             = Some t ->
             String.prefix start t = true).
  { intros start Hs. apply bind_Some in Hs as (first & Hf & Hs).
    apply bind_Some in Hs as (lines & Hl & Hs). injection Hs as <-.
    apply fields_loop_keeps in Hl as (more & ->).
    assert (Hfirst : exists x tail, first = [x] /\ x = start +:+ tail).
    { destruct citation_bibtex.
      - apply bind_Some in Hf as (c & _ & Hf). injection Hf as <-.
        eexists. eexists. split; reflexivity.
      - injection Hf as <-. exists start, "". split; [reflexivity|].
        now rewrite append_nil_r. }
    destruct Hfirst as (x & tail & -> & ->). cbn [app].
    destruct (join_cons ("," +:+ nl +:+ "    ") (start +:+ tail) more) as [rest ->].
    rewrite !append_assoc3. apply prefix_append. }
  destruct is_book; [now apply Hstart|].
  destruct (bool_decide (mode <> "book")); [now apply Hstart|].
  now injection H as <-.
Qed.

(** X18.  When BIBTEX.run writes the catalog, the number of
    entries that its header gives is the number of entries written: every
    text of create_bibtex_entry is empty or begins with the type of the
    entry, none is empty but for an entry that is no valid book with the
    entry type book, and with the entry type misc every entry is a misc
    entry. *)
Theorem run_bibtex_count (fields : list string) (data : list entry) (bib_entry : string)
    (citation_bibtex : bool) (out : string) :
  run_bibtex bibtex_author_format utf8ToBibtex py_int year_of strftime_b
    make_bibtex_citation generated_on fields data bib_entry citation_bibtex = Some out ->
  exists (entries : list string) (nb_entries : nat),
    Forall2 (fun e t =>
               create_bibtex_entry bibtex_author_format utf8ToBibtex py_int year_of
                 strftime_b make_bibtex_citation e fields bib_entry citation_bibtex
               = Some t) data entries
    /\ out = header generated_on nb_entries +:+ concat_lines entries
    /\ nb_entries = length (List.filter (fun t => negb (String.eqb t "")) entries)
    /\ Forall (fun t => if bool_decide (bib_entry = "book")
                        then t = "" \/ String.prefix "@book{" t = true
                        else if bool_decide (bib_entry = "misc")
                             then String.prefix "@misc{" t = true
                             else String.prefix "@book{" t = true
                                  \/ String.prefix "@misc{" t = true) entries.
Proof.
  unfold run_bibtex. intros H. apply bind_Some in H as (nb & Hnb & H).
  apply bind_Some in H as (entries & Hentries & H). injection H as <-.
  apply mapM_Some in Hentries.
  exists entries, nb. split; [exact Hentries|]. split; [reflexivity|].
  assert (Hnonempty : forall t, String.prefix "@book{" t = true
                                \/ String.prefix "@misc{" t = true ->
                                negb (String.eqb t "") = true).
  { intros [|c t] [Hp|Hp]; try discriminate Hp; reflexivity. }
  unfold count_entries in Hnb. destruct (decide (bib_entry = "book")) as [->|Hmode].
  - rewrite bool_decide_eq_true_2 in Hnb by reflexivity.
    apply bind_Some in Hnb as (checked & Hchecked & Hnb). apply mapM_Some in Hchecked.
    assert (Hfacts : length (List.filter (fun v : bool => v) checked)
                     = length (List.filter (fun t => negb (String.eqb t "")) entries)
                     /\ Forall (fun t => t = "" \/ String.prefix "@book{" t = true) entries).
    { clear Hnb. revert entries Hentries.
      induction Hchecked as [|e v data checked Hv _ IH]; intros entries Hentries;
        inversion Hentries as [|? t ? entries' Ht Hrest]; subst; [split; constructor|].
      destruct (IH _ Hrest) as [IHl IHf].
      apply create_bibtex_entry_start in Ht as (is_book & Hb & Ht).
      rewrite bool_decide_eq_true_2 in Hb by discriminate.
      assert (is_book = v) as -> by congruence.
      rewrite bool_decide_eq_false_2 in Ht by auto.
      cbn [List.filter]. destruct v.
      - rewrite (Hnonempty t) by auto. cbn [length]. split; [now rewrite IHl|].
        constructor; auto.
      - subst t. cbn. split; [exact IHl|]. constructor; auto. }
    destruct Hfacts as [Hlen Hall]. split.
    + injection Hnb as <-. rewrite <- Hlen.
      assert (length (List.filter (fun v : bool => v) checked) <= length data)%nat.
      { rewrite (Forall2_length _ _ _ Hchecked). apply List.filter_length_le. }
      destruct (Nat.ltb_spec (length (List.filter (fun v : bool => v) checked))
                  (length data)); lia.
    + rewrite bool_decide_eq_true_2 by reflexivity. exact Hall.
  - rewrite bool_decide_eq_false_2 in Hnb by exact Hmode. injection Hnb as <-.
    rewrite (bool_decide_eq_false_2 _ Hmode).
    assert (Hall : Forall (fun t => if bool_decide (bib_entry = "misc")
                                    then String.prefix "@misc{" t = true
                                    else String.prefix "@book{" t = true
                                         \/ String.prefix "@misc{" t = true) entries).
    { induction Hentries as [|e t data entries Ht _ IH]; constructor; [|exact IH].
      apply create_bibtex_entry_start in Ht as (is_book & Hb & Ht).
      rewrite (bool_decide_eq_true_2 (bib_entry <> "book")) in Ht by exact Hmode.
      destruct (decide (bib_entry = "misc")) as [->|Hmisc].
      - rewrite bool_decide_eq_false_2 in Hb by auto. injection Hb as <-.
        now rewrite bool_decide_eq_true_2 by reflexivity.
      - rewrite (bool_decide_eq_false_2 _ Hmisc). destruct is_book; auto. }
    split; [|exact Hall].
    rewrite (Forall2_length _ _ _ Hentries).
    clear Hentries. induction Hall as [|t entries Ht _ IH]; [reflexivity|].
    cbn [List.filter]. rewrite Hnonempty.
    + cbn [length]. now rewrite <- IH.
    + destruct (bool_decide (bib_entry = "misc")); auto.
Qed.

End BibtexFacts.

Lemma run_bibtex_count_witness :
  let run :=
    Bibtex.run_bibtex BibtexExample.sample_authors BibtexExample.sample_text
      (fun _ => Some 1) (fun _ => Some 2011) (fun _ => Some "Mar") (fun _ => Some "key")
      "Thursday, 31. March 2011 12:00" BibtexExample.sample_fields
      [BibtexExample.complete_book; BibtexExample.unpublished_book] in
  let create :=
    Bibtex.create_bibtex_entry BibtexExample.sample_authors BibtexExample.sample_text
      (fun _ => Some 1) (fun _ => Some 2011) (fun _ => Some "Mar") (fun _ => Some "key") in
  exists out,
    run "book" true = Some out
    /\ exists (entries : list string) (nb_entries : nat),
        Forall2 (fun e t => create e BibtexExample.sample_fields "book" true = Some t)
          [BibtexExample.complete_book; BibtexExample.unpublished_book] entries
        /\ out = Bibtex.header "Thursday, 31. March 2011 12:00" nb_entries
                 +:+ Csv.concat_lines entries
        /\ nb_entries = length (List.filter (fun t => negb (String.eqb t "")) entries)
        /\ Forall (fun t => if bool_decide ("book" = "book")
                            then t = "" \/ String.prefix "@book{" t = true
                            else if bool_decide ("book" = "misc")
                                 then String.prefix "@misc{" t = true
                                 else String.prefix "@book{" t = true
                                      \/ String.prefix "@misc{" t = true) entries.
Proof.
  intros run create. eexists. split; [vm_compute; reflexivity|].
  apply (run_bibtex_count BibtexExample.sample_authors BibtexExample.sample_text
           (fun _ => Some 1) (fun _ => Some 2011) (fun _ => Some "Mar")
           (fun _ => Some "key") "Thursday, 31. March 2011 12:00"
           BibtexExample.sample_fields
           [BibtexExample.complete_book; BibtexExample.unpublished_book] "book" true).
  vm_compute. reflexivity.
Defined.
